(** * Contract-agreement pipeline: page selection, reduction and date derivation

    A shallow embedding of [process_contracts.py] and
    [verify_end_date_calculation.py].

    Conventions.
    - A Python [str] is a [string]; the regular-expression and [strptime]
      machinery works on its code points, [list ascii], one [ascii] per code
      point.  Strings are therefore restricted to the code points
      U+0000..U+00FF, and the character classes below ([\d], [\s], case
      folding) are the ones Python uses on that range.
    - A call either returns or raises: [result A].
    - Console output ([print]) is not modelled. *)

From Stdlib Require Import ZArith List Ascii String Bool Lia Permutation.
From stdpp Require Import gmap strings list sorting.

Set Warnings "-register-all".

Local Open Scope string_scope.
Local Open Scope Z_scope.
Local Open Scope list_scope.

(** ** Outcomes of a Python call *)

Inductive exn := ValueError | OverflowError | TypeError | AttributeError | OSError.

Inductive result (A : Type) :=
| Ret (a : A)
| Raise (e : exn).
Arguments Ret {A} a.
Arguments Raise {A} e.

#[global] Instance result_ret : MRet result := fun A a => Ret a.
#[global] Instance result_bind : MBind result := fun A B k r =>
  match r with
  | Ret a => k a
  | Raise e => Raise e
  end.

(** ** Characters and strings *)

Module PyStr.

Definition chars (s : string) : list ascii := list_ascii_of_string s.
Definition str (l : list ascii) : string := string_of_list_ascii l.

Definition code (c : ascii) : Z := Z.of_nat (nat_of_ascii c).

(** [\d] of a regular expression on U+0000..U+00FF. *)
Definition is_digit (c : ascii) : bool := (48 <=? code c) && (code c <=? 57).

(** [\s] and [str.isspace] on U+0000..U+00FF. *)
Definition is_space (c : ascii) : bool :=
  ((9 <=? code c) && (code c <=? 13)) || ((28 <=? code c) && (code c <=? 32))
  || (code c =? 133) || (code c =? 160).

(** [str.lower] on one code point of U+0000..U+00FF. *)
Definition lower (c : ascii) : ascii :=
  if ((65 <=? code c) && (code c <=? 90))
     || ((192 <=? code c) && (code c <=? 222) && negb (code c =? 215))
  then ascii_of_nat (nat_of_ascii c + 32) else c.

(** Two characters match under [re.IGNORECASE]. *)
Definition ieq (c p : ascii) : bool := Ascii.eqb (lower c) (lower p).

Fixpoint lstrip (l : list ascii) : list ascii :=
  match l with
  | c :: r => if is_space c then lstrip r else l
  | [] => []
  end.

Fixpoint rstrip (l : list ascii) : list ascii :=
  match l with
  | c :: r =>
      match rstrip r with
      | [] => if is_space c then [] else [c]
      | r' => c :: r'
      end
  | [] => []
  end.

(** [str.strip()] *)
Definition strip (l : list ascii) : list ascii := rstrip (lstrip l).

Definition digit_val (c : ascii) : Z := code c - 48.

Definition int_of_digits (l : list ascii) : Z :=
  fold_left (fun acc c => 10 * acc + digit_val c) l 0.

(** The number a text made of decimal digits, with blanks around them if any,
    stands for. *)
Definition py_int (l : list ascii) : Z := int_of_digits (strip l).

(** [sys.get_int_max_str_digits()], as the interpreter starts. *)
Definition MAX_STR_DIGITS : nat := 4300.

(** [int(text)] for such a text, the only texts the code converts: a text of
    more digits than the limit, leading zeros counted, is refused with
    [ValueError]. *)
Definition int (l : list ascii) : result Z :=
  if (MAX_STR_DIGITS <? length (strip l))%nat then Raise ValueError
  else Ret (py_int l).

Fixpoint starts_with (p l : list ascii) : bool :=
  match p, l with
  | [], _ => true
  | a :: p', b :: l' => Ascii.eqb a b && starts_with p' l'
  | _ :: _, [] => false
  end.

(** [s.startswith(p)] and [s.endswith(p)] *)
Definition startswith (s p : string) : bool := starts_with (chars p) (chars s).
Definition endswith (s p : string) : bool :=
  starts_with (rev (chars p)) (rev (chars s)).

(** Decimal rendering of [n] on at least [width] digits, zero filled. *)
Fixpoint digits_of (fuel : nat) (n : Z) (acc : list ascii) : list ascii :=
  match fuel with
  | O => acc
  | S fuel' =>
      let acc' := ascii_of_nat (Z.to_nat (48 + n mod 10)) :: acc in
      if n / 10 =? 0 then acc' else digits_of fuel' (n / 10) acc'
  end.

Definition zero_pad (width : nat) (n : Z) : list ascii :=
  let ds := digits_of 20 n [] in
  repeat "0"%char (width - length ds) ++ ds.

End PyStr.

(** ** Backtracking matching, as Python's [re] does it

    A pattern run on a text yields the ways it can match a prefix of that text,
    in the order the backtracking engine tries them; each way is the captured
    value with the text left over. *)

Module Re.
Import PyStr.

Definition pattern (A : Type) : Type := list ascii -> list (A * list ascii).

Definition unit_pat {A} (a : A) : pattern A := fun s => [(a, s)].

Definition seq {A B} (p : pattern A) (q : A -> pattern B) : pattern B :=
  fun s => List.flat_map (fun ar => q (fst ar) (snd ar)) (p s).

Definition alt {A} (p q : pattern A) : pattern A := fun s => p s ++ q s.

Definition alts {A} (ps : list (pattern A)) : pattern A :=
  fun s => List.flat_map (fun p => p s) ps.

(** One character of a class. *)
Definition one (cls : ascii -> bool) : pattern ascii := fun s =>
  match s with
  | c :: r => if cls c then [(c, r)] else []
  | [] => []
  end.

(** [cls*], greedy: the longest run first. *)
Fixpoint star (cls : ascii -> bool) (s : list ascii) : list (list ascii * list ascii) :=
  match s with
  | c :: r =>
      if cls c
      then List.map (fun mr => (c :: fst mr, snd mr)) (star cls r) ++ [([], s)]
      else [([], s)]
  | [] => [([], [])]
  end.

(** [cls+], greedy. *)
Definition plus (cls : ascii -> bool) : pattern (list ascii) := fun s =>
  match s with
  | c :: r =>
      if cls c then List.map (fun mr => (c :: fst mr, snd mr)) (star cls r) else []
  | [] => []
  end.

(** A literal text under [re.IGNORECASE]; the capture is the text matched. *)
Fixpoint lit (w : list ascii) : pattern (list ascii) := fun s =>
  match w with
  | [] => [([], s)]
  | p :: w' =>
      match s with
      | c :: r =>
          if ieq c p
          then List.map (fun mr => (c :: fst mr, snd mr)) (lit w' r)
          else []
      | [] => []
      end
  end.

(** [p?], greedy. *)
Definition opt {A} (p : pattern A) : pattern (option A) := fun s =>
  List.map (fun ar => (Some (fst ar), snd ar)) (p s) ++ [(None, s)].

(** [re.match]: the first way to match at the start of the text. *)
Definition rmatch {A} (p : pattern A) (s : list ascii) : option (A * list ascii) :=
  head (p s).

(** [re.search]: the first way to match at the leftmost position that has one. *)
Fixpoint search {A} (p : pattern A) (s : list ascii) : option (A * list ascii) :=
  match rmatch p s with
  | Some m => Some m
  | None =>
      match s with
      | _ :: r => search p r
      | [] => None
      end
  end.

(** [re.sub(pat, repl, s)] where [p] captures the replacement of each match
    together with nothing else: matches are found left to right and do not
    overlap; a character no match starts at is copied.  [skip] counts the
    characters of the current match still to be dropped. *)
Fixpoint sub_from (p : pattern (list ascii)) (skip : nat) (s : list ascii) : list ascii :=
  match s with
  | [] => []
  | c :: r =>
      match skip with
      | S k => sub_from p k r
      | O =>
          match rmatch p s with
          | Some (repl, rest) =>
              repl ++ sub_from p (length s - length rest - 1) r
          | None => c :: sub_from p 0 r
          end
      end
  end.

Definition sub (p : pattern (list ascii)) (s : list ascii) : list ascii :=
  sub_from p 0 s.

End Re.

(** ** The [datetime] library: dates of the proleptic Gregorian calendar

    The definitions follow CPython's [_pydatetime.py] and [_strptime.py].
    Only dates at midnight occur (every format read has no time of day, and
    whole days are added), so a [datetime] is its year, month and day. *)

Module Datetime.
Import PyStr.

Record datetime := { year : Z; month : Z; day : Z }.

Definition MINYEAR : Z := 1.
Definition MAXYEAR : Z := 9999.
Definition MAXORDINAL : Z := 3652059.

Definition is_leap (y : Z) : bool :=
  (y mod 4 =? 0) && (negb (y mod 100 =? 0) || (y mod 400 =? 0)).

Definition DAYS_IN_MONTH (m : Z) : Z :=
  match m with
  | 1 => 31 | 2 => 28 | 3 => 31 | 4 => 30 | 5 => 31 | 6 => 30
  | 7 => 31 | 8 => 31 | 9 => 30 | 10 => 31 | 11 => 30 | 12 => 31
  | _ => -1
  end.

Definition DAYS_BEFORE_MONTH (m : Z) : Z :=
  match m with
  | 1 => 0 | 2 => 31 | 3 => 59 | 4 => 90 | 5 => 120 | 6 => 151
  | 7 => 181 | 8 => 212 | 9 => 243 | 10 => 273 | 11 => 304 | 12 => 334
  | _ => -1
  end.

Definition days_in_month (y m : Z) : Z :=
  if (m =? 2) && is_leap y then 29 else DAYS_IN_MONTH m.

Definition days_before_year (y : Z) : Z :=
  let y' := y - 1 in y' * 365 + y' / 4 - y' / 100 + y' / 400.

Definition days_before_month (y m : Z) : Z :=
  DAYS_BEFORE_MONTH m + (if (2 <? m) && is_leap y then 1 else 0).

Definition ymd2ord (y m d : Z) : Z :=
  days_before_year y + days_before_month y m + d.

Definition ord2ymd (ord : Z) : datetime :=
  let n := ord - 1 in
  let n400 := n / 146097 in let n := n mod 146097 in
  let y := n400 * 400 + 1 in
  let n100 := n / 36524 in let n := n mod 36524 in
  let n4 := n / 1461 in let n := n mod 1461 in
  let n1 := n / 365 in let n := n mod 365 in
  let y := y + n100 * 100 + n4 * 4 + n1 in
  if (n1 =? 4) || (n100 =? 4) then {| year := y - 1; month := 12; day := 31 |}
  else
    let leapyear := (n1 =? 3) && (negb (n4 =? 24) || (n100 =? 3)) in
    let m := Z.shiftr (n + 50) 5 in
    let preceding := DAYS_BEFORE_MONTH m + (if (2 <? m) && leapyear then 1 else 0) in
    if n <? preceding
    then
      let m := m - 1 in
      let preceding :=
        preceding - (DAYS_IN_MONTH m + (if (m =? 2) && leapyear then 1 else 0)) in
      {| year := y; month := m; day := n - preceding + 1 |}
    else {| year := y; month := m; day := n - preceding + 1 |}.

Definition valid (y m d : Z) : bool :=
  (MINYEAR <=? y) && (y <=? MAXYEAR) && (1 <=? m) && (m <=? 12)
  && (1 <=? d) && (d <=? days_in_month y m).

(** An argument of [datetime] is converted to a C [int] first. *)
Definition fits_int (n : Z) : bool := (-2147483648 <=? n) && (n <=? 2147483647).

(** [datetime(y, m, d)]: [OverflowError] for an argument that is no C [int],
    [ValueError] for one out of the range of its field. *)
Definition mk (y m d : Z) : result datetime :=
  if fits_int y && fits_int m && fits_int d
  then
    if valid y m d then Ret {| year := y; month := m; day := d |}
    else Raise ValueError
  else Raise OverflowError.

Definition toordinal (dt : datetime) : Z := ymd2ord (year dt) (month dt) (day dt).

(** [timedelta(days=n)], as the number of days it stands for *)
Definition timedelta (n : Z) : result Z :=
  if (-999999999 <=? n) && (n <=? 999999999) then Ret n else Raise OverflowError.

(** [dt + delta] and [dt - delta] for a [delta] of whole days *)
Definition add (dt : datetime) (delta : Z) : result datetime :=
  let o := toordinal dt + delta in
  if (1 <=? o) && (o <=? MAXORDINAL) then Ret (ord2ymd o) else Raise OverflowError.

Definition sub (dt : datetime) (delta : Z) : result datetime := add dt (- delta).

(** [dt.replace(day=d)] *)
Definition replace_day (dt : datetime) (d : Z) : result datetime :=
  mk (year dt) (month dt) d.

(** *** [strptime]

    [strptime] turns the format into one regular expression, matched without
    regard to case at the start of the text: a directive becomes a named group,
    a run of blanks becomes [\s+], any other character stands for itself; the
    text must be matched to its end. *)

Inductive directive :=
| Dir_d | Dir_m | Dir_Y | Dir_B
| Blanks
| Chr (c : ascii).

Fixpoint compile (in_blanks : bool) (fmt : list ascii) : option (list directive) :=
  match fmt with
  | [] => Some []
  | c :: r =>
      if Ascii.eqb c "%"
      then
        match r with
        | d :: r' =>
            match compile false r' with
            | Some ds =>
                if Ascii.eqb d "d" then Some (Dir_d :: ds)
                else if Ascii.eqb d "m" then Some (Dir_m :: ds)
                else if Ascii.eqb d "Y" then Some (Dir_Y :: ds)
                else if Ascii.eqb d "B" then Some (Dir_B :: ds)
                else None
            | None => None
            end
        | [] => None
        end
      else if is_space c
      then
        match compile true r with
        | Some ds => Some (if in_blanks then ds else Blanks :: ds)
        | None => None
        end
      else
        match compile false r with
        | Some ds => Some (Chr c :: ds)
        | None => None
        end
  end.

(** The groups found so far. *)
Record fields := { f_Y : option Z; f_m : option Z; f_d : option Z }.

Definition no_fields : fields := {| f_Y := None; f_m := None; f_d := None |}.

Definition digit_in (lo hi : Z) (c : ascii) : bool := (lo <=? code c) && (code c <=? hi).
Definition is_char (p c : ascii) : bool := Ascii.eqb c p.

Definition two (a b : ascii -> bool) : Re.pattern (list ascii) :=
  Re.seq (Re.one a) (fun x => Re.seq (Re.one b) (fun y => Re.unit_pat [x; y])).

Definition single (a : ascii -> bool) : Re.pattern (list ascii) :=
  Re.seq (Re.one a) (fun x => Re.unit_pat [x]).

(** [%d]: [3[0-1]|[1-2]\d|0[1-9]|[1-9]| [1-9]] *)
Definition re_d : Re.pattern (list ascii) :=
  Re.alts [ two (is_char "3") (digit_in 48 49);
            two (digit_in 49 50) is_digit;
            two (is_char "0") (digit_in 49 57);
            single (digit_in 49 57);
            two (is_char " ") (digit_in 49 57) ].

(** [%m]: [1[0-2]|0[1-9]|[1-9]] *)
Definition re_m : Re.pattern (list ascii) :=
  Re.alts [ two (is_char "1") (digit_in 48 50);
            two (is_char "0") (digit_in 49 57);
            single (digit_in 49 57) ].

(** [%Y]: [\d\d\d\d] *)
Definition re_Y : Re.pattern (list ascii) :=
  Re.seq (Re.one is_digit) (fun a => Re.seq (Re.one is_digit) (fun b =>
  Re.seq (Re.one is_digit) (fun c => Re.seq (Re.one is_digit) (fun d =>
  Re.unit_pat [a; b; c; d])))).

(** The full month names of the C locale, in lower case; [f_month[1:]]. *)
Definition f_month : list string :=
  [ "january"; "february"; "march"; "april"; "may"; "june"; "july"; "august";
    "september"; "october"; "november"; "december" ].

(** [sorted(names, key=len, reverse=True)]: longest first, names of one length
    in their given order. *)
Fixpoint insert_by_len (w : string) (l : list string) : list string :=
  match l with
  | [] => [w]
  | x :: r =>
      if (String.length x <? String.length w)%nat then w :: l
      else x :: insert_by_len w r
  end.

Definition sorted_by_len (l : list string) : list string :=
  fold_left (fun acc w => insert_by_len w acc) l [].

(** [f_month.index(name)], counted from 1 *)
Fixpoint index_from (i : Z) (name : string) (l : list string) : option Z :=
  match l with
  | [] => None
  | x :: r => if String.eqb x name then Some i else index_from (i + 1) name r
  end.

(** [%B]: the month names, longest first *)
Definition re_B : Re.pattern (list ascii) :=
  Re.alts (List.map (fun w => Re.lit (chars w)) (sorted_by_len f_month)).

Definition run_directive (d : directive) (f : fields) : Re.pattern fields :=
  match d with
  | Dir_d => Re.seq re_d (fun t => Re.unit_pat
               {| f_Y := f_Y f; f_m := f_m f; f_d := Some (py_int t) |})
  | Dir_m => Re.seq re_m (fun t => Re.unit_pat
               {| f_Y := f_Y f; f_m := Some (py_int t); f_d := f_d f |})
  | Dir_Y => Re.seq re_Y (fun t => Re.unit_pat
               {| f_Y := Some (py_int t); f_m := f_m f; f_d := f_d f |})
  | Dir_B => Re.seq re_B (fun t => Re.unit_pat
               {| f_Y := f_Y f;
                  f_m := index_from 1 (str (List.map lower t)) f_month;
                  f_d := f_d f |})
  | Blanks => Re.seq (Re.plus is_space) (fun _ => Re.unit_pat f)
  | Chr c => Re.seq (Re.lit [c]) (fun _ => Re.unit_pat f)
  end.

Fixpoint run (ds : list directive) (f : fields) : Re.pattern fields :=
  match ds with
  | [] => Re.unit_pat f
  | d :: ds' => Re.seq (run_directive d f) (run ds')
  end.

(** [datetime.strptime(s, fmt)] for formats made of [%d], [%m], [%Y], [%B],
    blanks and plain characters.  A year that is not given is 1900, a month or
    a day that is not given is 1.  The groups converted have four digits at
    most, so that the limit of [int] plays no part. *)
Definition strptime (s fmt : string) : result datetime :=
  match compile false (chars fmt) with
  | None => Raise ValueError
  | Some ds =>
      match Re.rmatch (run ds no_fields) (chars s) with
      | Some (f, []) =>
          mk (default 1900 (f_Y f)) (default 1 (f_m f)) (default 1 (f_d f))
      | _ => Raise ValueError
      end
  end.

(** [dt.strftime(fmt)] for formats made of [%d], [%m], [%Y] and plain
    characters.  The day and the month are written on two digits; the year is
    written as the C library writes it, glibc leaving a year before 1000
    without leading zeros. *)
Fixpoint render (dt : datetime) (fmt : list ascii) : list ascii :=
  match fmt with
  | [] => []
  | c :: r =>
      if Ascii.eqb c "%"
      then
        match r with
        | d :: r' =>
            (if Ascii.eqb d "d" then zero_pad 2 (day dt)
             else if Ascii.eqb d "m" then zero_pad 2 (month dt)
             else if Ascii.eqb d "Y" then digits_of 20 (year dt) []
             else [c; d]) ++ render dt r'
        | [] => [c]
        end
      else c :: render dt r
  end.

Definition strftime (dt : datetime) (fmt : string) : string :=
  str (render dt (chars fmt)).

End Datetime.

(** ** Date derivation

    Both files parse the duration with the same expression,
    [(\d+)\s*(day|month)s?] under [re.IGNORECASE]; the captures are the digits
    and the unit. *)

Module Duration.
Import PyStr.

Definition duration_pattern : Re.pattern (list ascii * list ascii) :=
  Re.seq (Re.plus is_digit) (fun v =>
  Re.seq (Re.star is_space) (fun _ =>
  Re.seq (Re.alt (Re.lit (chars "day")) (Re.lit (chars "month"))) (fun u =>
  Re.seq (Re.opt (Re.lit (chars "s"))) (fun _ =>
  Re.unit_pat (v, u))))).

(** What a derivation computes before it is written out: an end date, or one
    of the messages reported in its place. *)
Inductive derived :=
| EndDate (dt : Datetime.datetime)
| Sentinel (msg : string).

Definition written (fmt : string) (r : derived) : string :=
  match r with
  | EndDate dt => Datetime.strftime dt fmt
  | Sentinel msg => msg
  end.

End Duration.

(** *** [verify_end_date_calculation.py] *)

Module VerifyEndDate.
Import PyStr Datetime Duration.

(** [(\d+)(st|nd|rd|th)], replaced by its first group *)
Definition ordinal_suffix : Re.pattern (list ascii) :=
  Re.seq (Re.plus is_digit) (fun ds =>
  Re.seq (Re.alts [ Re.lit (chars "st"); Re.lit (chars "nd");
                    Re.lit (chars "rd"); Re.lit (chars "th") ]) (fun _ =>
  Re.unit_pat ds)).

(** [s.replace(',', '')] *)
Definition remove_commas (l : list ascii) : list ascii :=
  List.filter (fun c => negb (Ascii.eqb c ",")) l.

Definition cleaned_start_date_str (start_date_str : string) : string :=
  str (strip (Re.sub ordinal_suffix (remove_commas (chars start_date_str)))).

Definition date_formats : list string :=
  [ "%d-%m-%Y"; "%d %B %Y"; "%B %Y"; "%Y-%m-%d" ].

(** ["%d" in fmt] *)
Fixpoint has_day_directive (fmt : list ascii) : bool :=
  match fmt with
  | [] => false
  | c :: r => starts_with (chars "%d") fmt || has_day_directive r
  end.

(** The loop over [date_formats]: the first format that parses wins; a
    [ValueError] moves on to the next one. *)
Fixpoint try_formats (s : string) (fmts : list string) : result (option datetime) :=
  match fmts with
  | [] => Ret None
  | fmt :: rest =>
      match (dt ← strptime s fmt;
             if has_day_directive (chars fmt) then Ret dt else replace_day dt 1) with
      | Ret dt => Ret (Some dt)
      | Raise ValueError => try_formats s rest
      | Raise e => Raise e
      end
  end.

Definition parse_start_date (start_date_str : string) : result (option datetime) :=
  try_formats (cleaned_start_date_str start_date_str) date_formats.

(** The branch of the unit [month]. *)
Definition add_months (start_date : datetime) (value : Z) : result datetime :=
  let total_months := month start_date + value in
  let year := year start_date + (total_months - 1) / 12 in
  let month := (total_months - 1) mod 12 + 1 in
  let next_month := month + 1 in
  let next_year := year in
  let next := if 12 <? next_month then (1, next_year + 1)
              else (next_month, next_year) in
  first ← mk (snd next) (fst next) 1;
  delta ← timedelta 1;
  last ← sub first delta;
  let last_day_of_month := day last in
  let day := Z.min (day start_date) last_day_of_month in
  mk year month day.

(** The end date before it is written out. *)
Definition derive (start_date_str duration_str : string) : result derived :=
  start ← parse_start_date start_date_str;
  match start with
  | None => Ret (Sentinel "Invalid Start Date Format")
  | Some start_date =>
      match Re.search duration_pattern (chars duration_str) with
      | Some (g, _) =>
          value ← int (fst g);
          let unit := str (List.map lower (snd g)) in
          if String.eqb unit "day" then
            delta ← timedelta value;
            end_date ← add start_date delta;
            Ret (EndDate end_date)
          else if String.eqb unit "month" then
            end_date ← add_months start_date value;
            Ret (EndDate end_date)
          else Ret (Sentinel "Invalid Duration Unit")
      | None => Ret (Sentinel "Invalid Duration Format")
      end
  end.

(** [calculate_end_date(start_date_str, duration_str)] on two strings (another
    type is answered "Invalid Input Type"); the date is written [DD-MM-YYYY]. *)
Definition calculate_end_date (start_date_str duration_str : string) : result string :=
  r ← derive start_date_str duration_str;
  Ret (written "%d-%m-%Y" r).

End VerifyEndDate.

(** ** Values decoded from the model's answer *)

Module Json.

(** A decoded value.  A number is kept as an integer: the pipeline only asks
    of a number whether it is zero.  A dictionary keeps its keys in insertion
    order, each key once. *)
Inductive json :=
| JNull
| JBool (b : bool)
| JNum (n : Z)
| JStr (s : string)
| JList (l : list json)
| JDict (d : list (string * json)).

Definition dict : Type := list (string * json).

(** [bool(v)] *)
Definition truthy (v : json) : bool :=
  match v with
  | JNull => false
  | JBool b => b
  | JNum n => negb (n =? 0)
  | JStr s => negb (String.eqb s "")
  | JList l => match l with [] => false | _ => true end
  | JDict d => match d with [] => false | _ => true end
  end.

Fixpoint dict_lookup (d : dict) (k : string) : option json :=
  match d with
  | [] => None
  | (k', v) :: r => if String.eqb k' k then Some v else dict_lookup r k
  end.

(** [d.get(k, dflt)] *)
Definition dict_get (d : dict) (k : string) (dflt : json) : json :=
  default dflt (dict_lookup d k).

(** [d[k] = v] *)
Fixpoint dict_set (d : dict) (k : string) (v : json) : dict :=
  match d with
  | [] => [(k, v)]
  | (k', v') :: r =>
      if String.eqb k' k then (k, v) :: r else (k', v') :: dict_set r k v
  end.

End Json.

(** *** [process_contracts.py] *)

Module ProcessContracts.
Import PyStr Datetime Duration Json.

(** A page, as the reader and the recognition engine answer for it. *)
Inductive ocr :=
| OcrText (t : string)
| OcrNoImage
| OcrFails.

Record page := {
  extract_text : result string;
  image_to_string : ocr
}.

(** A file of the working directory: a document a reader can open, or other
    content of some size.  A document is never empty. *)
Inductive file :=
| PdfFile (pages : list page)
| OtherFile (size : nat).

Inductive event :=
| Scanned (pdf_path : string)
| Written (path : string) (pages : list page)
| Generated (pdf_path : string) (prompt : string)
| HeaderAppended (columns : list string)
| RowAppended (row : dict).

(** What the pipeline changes: the files, and the record of what it did. *)
Record state := {
  fs : gmap string file;
  log : list event
}.

Definition logged (e : event) (st : state) : state :=
  {| fs := fs st; log := log st ++ [e] |}.

(** The model's answer to a prompt and a document. *)
Inductive reply :=
| Text (t : string)
| Failure (msg : string).

(** What the pipeline reads and does not change. *)
Record env := {
  GOOGLE_API_KEY : option string;
  generate_content : string -> file -> reply;
  writable : string -> bool;
  listdir : list string
}.

(** [PdfReader(pdf_path).pages] *)
Definition PdfReader (st : state) (pdf_path : string) : result (list page) :=
  match fs st !! pdf_path with
  | Some (PdfFile pages) => Ret pages
  | _ => Raise OSError
  end.

(** [os.path.splitext(p)[0]] *)
Fixpoint rfind (c : ascii) (i : Z) (l : list ascii) : Z :=
  match l with
  | [] => -1
  | x :: r =>
      let j := rfind c (i + 1) r in
      if 0 <=? j then j else if Ascii.eqb x c then i else -1
  end.

Definition splitext_root (p : string) : string :=
  let l := chars p in
  let sepIndex := rfind "/" 0 l in
  let dotIndex := rfind "." 0 l in
  if sepIndex <? dotIndex
  then
    let name := List.firstn (Z.to_nat (dotIndex - (sepIndex + 1)))
                  (List.skipn (Z.to_nat (sepIndex + 1)) l) in
    if List.existsb (fun c => negb (Ascii.eqb c ".")) name
    then str (List.firstn (Z.to_nat dotIndex) l)
    else p
  else p.

Definition short_filename (pdf_path : string) : string :=
  (splitext_root pdf_path ++ "_short.pdf")%string.

Definition nl : string := String (ascii_of_nat 10) EmptyString.

(** The keys of [SEARCH_TERMS], in their order. *)
Definition SEARCH_TERMS : list string :=
  [ "(?:This\s+)?Agreement\s+is\s+entered\s+into";
    ("(?:" ++ nl ++ "|^)\s*SCHEDULE\s*[- ]*\s*J\s*(?:" ++ nl ++ "|$)")%string;
    ("(?:" ++ nl ++ "|^)\s*ARTICLE\s+19\s*(?:" ++ nl ++ "|$)")%string;
    ("(?:" ++ nl ++ "|^)\s*SCHEDULE\s*[- ]*\s*H\s*(?:" ++ nl ++ "|$)")%string ].

Section Pipeline.

(** [re.search(term, text, re.IGNORECASE)] finds a match. *)
Variable re_search : string -> string -> bool.

(** [json.loads(text)]; [None] stands for [JSONDecodeError]. *)
Variable json_loads : string -> option json.

(** The text of a page the terms are looked up in: the extracted text, or the
    recognised one when the extracted text is sparse. *)
Definition page_text (p : page) : result string :=
  text ← extract_text p;
  if String.eqb text "" || (length (strip (chars text)) <? 50)%nat
  then
    match image_to_string p with
    | OcrText t => Ret t
    | OcrNoImage => Ret text
    | OcrFails => Ret ""
    end
  else Ret text.

(** The loop over [SEARCH_TERMS] for one page. *)
Definition check_terms (num_pages page_num : nat) (text : string)
    (local_important_pages : gset nat) : gset nat :=
  fold_left
    (fun acc term =>
       if re_search term text
       then
         let acc := acc ∪ {[page_num]} in
         if (page_num + 1 <? num_pages)%nat then acc ∪ {[(page_num + 1)%nat]} else acc
       else acc)
    SEARCH_TERMS local_important_pages.

(** The loop over the pages of a chunk. *)
Fixpoint chunk_loop (pages : list page) (page_nums : list nat)
    (local_important_pages : gset nat) : result (gset nat) :=
  match page_nums with
  | [] => Ret local_important_pages
  | page_num :: rest =>
      if (length pages <=? page_num)%nat then Ret local_important_pages
      else
        match pages !! page_num with
        | Some page =>
            text ← page_text page;
            chunk_loop pages rest
              (check_terms (length pages) page_num text local_important_pages)
        | None => Ret local_important_pages
        end
  end.

Definition _process_page_chunk (st : state) (pdf_path : string)
    (start_page_idx end_page_idx : nat) : result (gset nat) :=
  pages ← PdfReader st pdf_path;
  chunk_loop pages (seq start_page_idx (end_page_idx - start_page_idx)) ∅.

(** [range(0, stop, step)] for a step that is not zero: the multiples of the
    step below [stop], none when the step is negative. *)
Definition range_by (stop : nat) (step : Z) : list nat :=
  if step <? 0 then []
  else
    let step := Z.to_nat step in
    List.map (fun k => (k * step)%nat) (seq 0 ((stop + step - 1) / step)).

(** [(i, min(i + chunk_size, num_pages)) for i in range(0, num_pages, chunk_size)] *)
Definition page_chunks (num_pages : nat) (chunk_size : Z) : list (nat * nat) :=
  List.map
    (fun i => (i, Z.to_nat (Z.min (Z.of_nat i + chunk_size) (Z.of_nat num_pages))))
    (range_by num_pages chunk_size).

(** The results of the chunks, merged as they complete; a chunk that raised is
    left out. *)
Definition merge_completed (st : state) (pdf_path : string)
    (completed : list (nat * nat)) (important_pages : gset nat) : gset nat :=
  fold_left
    (fun acc chunk =>
       match _process_page_chunk st pdf_path (fst chunk) (snd chunk) with
       | Ret chunk_important_pages => acc ∪ chunk_important_pages
       | Raise _ => acc
       end)
    completed important_pages.

(** [sorted(list(pages))] *)
Definition sorted (pages : gset nat) : list nat :=
  merge_sort (≤)%nat (elements pages).

(** [find_important_pages], the chunks completing in the order [completed];
    [range] refuses a step of zero with [ValueError]. *)
Definition find_important_pages_as (completed : list (nat * nat) -> list (nat * nat))
    (st : state) (pdf_path : string) (chunk_size : Z) : result (list nat) :=
  let important_pages : gset nat := {[0%nat; 1%nat]} in
  pages ← PdfReader st pdf_path;
  let num_pages := length pages in
  if chunk_size =? 0 then Raise ValueError
  else
    Ret (sorted (merge_completed st pdf_path
                   (completed (page_chunks num_pages chunk_size)) important_pages)).

(** [find_important_pages], the chunks completing in the order submitted. *)
Definition find_important_pages (st : state) (pdf_path : string)
    (chunk_size : Z) : result (list nat) :=
  find_important_pages_as id st pdf_path chunk_size.

(** The pages the writer is given. *)
Definition added_pages (pages : list page) (page_numbers : list nat) : list page :=
  fold_left
    (fun writer page_num =>
       if (page_num <? length pages)%nat
       then match pages !! page_num with
            | Some page => writer ++ [page]
            | None => writer
            end
       else writer)
    page_numbers [].

Definition create_short_pdf (E : env) (pdf_path : string) (page_numbers : list nat)
    (st : state) : option string * state :=
  let short_filename := short_filename pdf_path in
  match PdfReader st pdf_path with
  | Ret pages =>
      let writer := added_pages pages page_numbers in
      if writable E short_filename
      then (Some short_filename,
            {| fs := <[short_filename := PdfFile writer]> (fs st);
               log := log st ++ [Written short_filename writer] |})
      else (None, st)
  | Raise _ => (None, st)
  end.

Definition extract_data_with_llm (E : env) (pdf_path prompt : string)
    (st : state) : string * state :=
  match GOOGLE_API_KEY E with
  | Some (String _ _) =>
      match fs st !! pdf_path with
      | Some pdf_bytes =>
          match generate_content E prompt pdf_bytes with
          | Text t => (t, logged (Generated pdf_path prompt) st)
          | Failure msg =>
              (("LLM Error: " ++ msg)%string, logged (Generated pdf_path prompt) st)
          end
      | None =>
          (("LLM Error: [Errno 2] No such file or directory: '" ++ pdf_path ++ "'")%string,
           st)
      end
  | _ => ("LLM Error: API Key not set", st)
  end.

Definition parse_start_date (start_date_str : string) : result (option datetime) :=
  match strptime start_date_str "%B %d, %Y" with
  | Ret dt => Ret (Some dt)
  | Raise ValueError =>
      match strptime start_date_str "%Y-%m-%d" with
      | Ret dt => Ret (Some dt)
      | Raise ValueError => Ret None
      | Raise e => Raise e
      end
  | Raise e => Raise e
  end.

(** The branch of the unit [month]. *)
Definition add_months (start_date : datetime) (value : Z) : result datetime :=
  let year := year start_date + value / 12 in
  let month := month start_date + value mod 12 in
  let ym := if 12 <? month then (year + 1, month - 12) else (year, month) in
  let year := fst ym in
  let month := snd ym in
  last_day ← (if month <? 12
              then first ← mk year (month + 1) 1;
                   delta ← timedelta 1;
                   last ← sub first delta;
                   Ret (day last)
              else Ret 31);
  let day := Z.min (day start_date) last_day in
  mk year month day.

(** The end date before it is written out. *)
Definition derive (start_date_str duration_str : string) : result derived :=
  start ← parse_start_date start_date_str;
  match start with
  | None => Ret (Sentinel "Invalid Start Date Format")
  | Some start_date =>
      match Re.rmatch duration_pattern (chars duration_str) with
      | Some (g, _) =>
          value ← int (fst g);
          let unit := str (List.map lower (snd g)) in
          if String.eqb unit "day" then
            delta ← timedelta value;
            end_date ← add start_date delta;
            Ret (EndDate end_date)
          else if String.eqb unit "month" then
            end_date ← add_months start_date value;
            Ret (EndDate end_date)
          else Ret (Sentinel "Invalid Duration Unit")
      | None => Ret (Sentinel "Invalid Duration Format")
      end
  end.

(** [calculate_end_date(start_date_str, duration_str)] on two strings; the
    date is written [YYYY-MM-DD]. *)
Definition calculate_end_date (start_date_str duration_str : string) : result string :=
  r ← derive start_date_str duration_str;
  Ret (written "%Y-%m-%d" r).


(** [calculate_end_date] on the values the model gave: a value that is not a
    string makes [strptime] or [re.match] raise [TypeError]. *)
Definition calculate_end_date_of (start_date project_duration : json) : result string :=
  match start_date with
  | JStr start_date_str =>
      match project_duration with
      | JStr duration_str => calculate_end_date start_date_str duration_str
      | _ =>
          start ← parse_start_date start_date_str;
          match start with
          | None => Ret "Invalid Start Date Format"
          | Some _ => Raise TypeError
          end
      end
  | _ => Raise TypeError
  end.

Definition llm_prompt (llm_prompt_fields : list (string * string)) : string :=
  (fold_left
     (fun acc fd => acc ++ "- " ++ fst fd ++ " (" ++ snd fd ++ ")")
     llm_prompt_fields
     "From the provided contract PDF, extract the following information:"
   ++ nl ++ "Format the output as a JSON object with keys matching the field names exactly.")%string.

(** The model's answer without its code fences, when it has both. *)
Definition unfenced (llm_response : string) : string :=
  if startswith llm_response "```json" && endswith llm_response "```"
  then
    let l := chars llm_response in
    str (strip (List.firstn (length l - 7 - 3) (List.skipn 7 l)))
  else llm_response.

(** The answer decoded, or kept under [LLM_Raw_Response] when it does not
    decode. *)
Definition decoded (llm_response : string) : json :=
  let llm_response := unfenced llm_response in
  match json_loads llm_response with
  | Some v => v
  | None => JDict (dict_set [] "LLM_Raw_Response" (JStr llm_response))
  end.

(** The end date added to the extracted data. *)
Definition with_end_date (extracted_data : json) : result json :=
  match extracted_data with
  | JDict d =>
      let start_date := dict_get d "Start Date" JNull in
      let project_duration := dict_get d "Project Duration" JNull in
      if truthy start_date && truthy project_duration
      then
        calculated_end_date ← calculate_end_date_of start_date project_duration;
        Ret (JDict (dict_set d "End Date" (JStr calculated_end_date)))
      else Ret (JDict (dict_set d "End Date" (JStr "Not Found")))
  | _ => Raise AttributeError
  end.

(** Step 1 of [process_contract]: the reduced document, reused when one is
    there and not empty, scanned for and written otherwise. *)
Definition short_pdf_for (E : env) (contract_pdf_file : string) (st : state)
    : result (option string) * state :=
  let short_pdf_path := short_filename contract_pdf_file in
  let reusable :=
    match fs st !! short_pdf_path with
    | Some (PdfFile _) => true
    | Some (OtherFile size) => (0 <? size)%nat
    | None => false
    end in
  if reusable then (Ret (Some short_pdf_path), st)
  else
    let st := logged (Scanned contract_pdf_file) st in
    match find_important_pages st contract_pdf_file 50 with
    | Ret pages_to_keep =>
        let r := create_short_pdf E contract_pdf_file pages_to_keep st in
        (Ret (fst r), snd r)
    | Raise e => (Raise e, st)
    end.

(** [process_contract]: the extracted data it returns, and the state it
    leaves.  An exception raised inside is caught and the data gathered so far
    is returned. *)
Definition process_contract (E : env) (contract_pdf_file : string)
    (llm_prompt_fields : list (string * string)) (output_columns : list string)
    (st : state) : json * state :=
  let step1 := short_pdf_for E contract_pdf_file st in
  match fst step1 with
  | Ret (Some short_pdf_path) =>
      let r := extract_data_with_llm E short_pdf_path (llm_prompt llm_prompt_fields)
                 (snd step1) in
      let extracted_data := decoded (fst r) in
      match with_end_date extracted_data with
      | Ret extracted_data => (extracted_data, snd r)
      | Raise _ => (extracted_data, snd r)
      end
  | _ => (JDict [], snd step1)
  end.

(** The columns of the output, from the names of the fields read. *)
Fixpoint remove_first (x : string) (l : list string) : list string :=
  match l with
  | [] => []
  | y :: r => if String.eqb y x then r else y :: remove_first x r
  end.

Fixpoint insert_after (x new : string) (l : list string) : option (list string) :=
  match l with
  | [] => None
  | y :: r =>
      if String.eqb y x then Some (y :: new :: r)
      else match insert_after x new r with
           | Some r' => Some (y :: r')
           | None => None
           end
  end.

Definition mem (x : string) (l : list string) : bool :=
  List.existsb (String.eqb x) l.

Definition output_columns_of (field_names : list string) : result (list string) :=
  let output_columns := "File Name" :: field_names in
  let output_columns :=
    if mem "Location" output_columns
    then remove_first "Location" output_columns
         ++ [ "Location - State"; "Location - District"; "Location - Towns covered" ]
    else output_columns in
  if mem "End Date" output_columns then Ret output_columns
  else
    match insert_after "Project Duration" "End Date" output_columns with
    | Some output_columns => Ret output_columns
    | None => Raise ValueError
    end.

Definition row_value (extracted_data : dict) (col : string) : json :=
  if String.eqb col "Contract Value (₹ Cr)"
  then dict_get extracted_data "Contract Value" (JStr "")
  else if String.eqb col "Project Milestones List"
  then dict_get extracted_data col (JStr "")
  else if String.eqb col "Payment Schedule"
  then dict_get extracted_data col (JStr "")
  else
    match dict_get extracted_data col (JStr "") with
    | JNull => JStr ""
    | value => value
    end.

Definition row_data (extracted_data : dict) (output_columns : list string)
    (pdf_file : string) : dict :=
  let row_data :=
    fold_left (fun row col => dict_set row col (row_value extracted_data col))
      output_columns [] in
  let row_data :=
    match dict_lookup extracted_data "Location" with
    | Some (JDict location_data) =>
        dict_set
          (dict_set
             (dict_set row_data "Location - State"
                (dict_get location_data "State" (JStr "")))
             "Location - District" (dict_get location_data "District" (JStr "")))
          "Location - Towns covered" (dict_get location_data "Towns covered" (JStr ""))
    | Some (JStr location) =>
        dict_set
          (dict_set (dict_set row_data "Location - State" (JStr location))
             "Location - District" (JStr ""))
          "Location - Towns covered" (JStr "")
    | _ => row_data
    end in
  dict_set row_data "File Name" (JStr pdf_file).

(** One turn of the loop of [main] over the documents. *)
Definition process_file (E : env) (llm_prompt_fields : list (string * string))
    (output_columns : list string) (pdf_file : string) (st : state) : result unit * state :=
  let r := process_contract E pdf_file llm_prompt_fields output_columns st in
  if truthy (fst r)
  then
    match fst r with
    | JDict extracted_data =>
        (Ret tt, logged (RowAppended (row_data extracted_data output_columns pdf_file)) (snd r))
    | _ => (Raise AttributeError, snd r)
    end
  else (Ret tt, snd r).

Fixpoint process_files (E : env) (llm_prompt_fields : list (string * string))
    (output_columns : list string) (pdf_files : list string) (st : state)
    : result unit * state :=
  match pdf_files with
  | [] => (Ret tt, st)
  | pdf_file :: rest =>
      match process_file E llm_prompt_fields output_columns pdf_file st with
      | (Ret _, st') => process_files E llm_prompt_fields output_columns rest st'
      | (Raise e, st') => (Raise e, st')
      end
  end.

Definition fallback_fields : list (string * string) :=
  [ ("Name of the Authority", "Party 1");
    ("Name of the Contractor", "Party 2");
    ("Project Name", "");
    ("Start Date", "Agreement Date");
    ("Project Duration",
     "Duration of the project from Schedule J (e.g., '730 days', '24 months')");
    ("Contract Value", "from Article 19");
    ("Payment Schedule", "from Schedule H");
    ("Location", "State, District, Towns covered");
    ("Project Milestones List",
     "List all project milestones from Schedule J as a comma-separated list.") ].

Definition fallback_columns : list string :=
  [ "File Name"; "Name of the Authority"; "Name of the Contractor";
    "Project Name"; "Start Date"; "Project Duration"; "End Date";
    "Contract Value"; "Payment Schedule";
    "Location - State"; "Location - District"; "Location - Towns covered";
    "Project Milestones List" ].

Definition is_original_pdf (f : string) : bool :=
  let lowered := str (List.map lower (chars f)) in
  endswith lowered ".pdf" && negb (endswith lowered "_short.pdf").

(** [main]; [project_fields] is the content of [CCMS_Project_fields.csv], field
    names with their descriptions, when the file is there. *)
Definition main (E : env) (project_fields : option (list (string * string)))
    (st : state) : result unit * state :=
  match
    match project_fields with
    | Some fields =>
        output_columns ← output_columns_of (List.map fst fields);
        Ret (fields, output_columns)
    | None => Ret (fallback_fields, fallback_columns)
    end
  with
  | Raise e => (Raise e, st)
  | Ret (llm_prompt_fields, output_columns) =>
      let st := logged (HeaderAppended output_columns) st in
      let pdf_files := List.filter is_original_pdf (listdir E) in
      process_files E llm_prompt_fields output_columns pdf_files st
  end.

End Pipeline.

End ProcessContracts.

(** ** Stand-ins and data for the examples

    The engine of regular expressions and the decoder of the model's answers
    are given to the pipeline; the statements hold for any.  To run the
    pipeline on an example, these two stand in for them: a search that finds a
    term when the words it spells are in the text, and a decoder of the texts
    made of objects, arrays, strings without escapes, integers, [true],
    [false] and [null] (any other text is refused). *)

Module Samples.
Import PyStr Json ProcessContracts.

Fixpoint occurs (needle hay : list ascii) : bool :=
  match hay with
  | [] => match needle with [] => true | _ => false end
  | _ :: r => starts_with needle hay || occurs needle r
  end.

Definition words_of (term : string) : option string :=
  if String.eqb term (nth 0 SEARCH_TERMS "") then Some "agreement is entered into"
  else if String.eqb term (nth 1 SEARCH_TERMS "") then Some "schedule j"
  else if String.eqb term (nth 2 SEARCH_TERMS "") then Some "article 19"
  else if String.eqb term (nth 3 SEARCH_TERMS "") then Some "schedule h"
  else None.

Definition re_search (term text : string) : bool :=
  match words_of term with
  | Some w => occurs (chars w) (List.map lower (chars text))
  | None => false
  end.

Definition quote : ascii := ascii_of_nat 34.

Definition is_json_blank (c : ascii) : bool :=
  Ascii.eqb c " " || (code c =? 9) || (code c =? 10) || (code c =? 13).

Fixpoint skip_blanks (l : list ascii) : list ascii :=
  match l with
  | c :: r => if is_json_blank c then skip_blanks r else l
  | [] => []
  end.

(** The text of a string up to its closing quote. *)
Fixpoint string_body (l : list ascii) : option (list ascii * list ascii) :=
  match l with
  | [] => None
  | c :: r =>
      if Ascii.eqb c quote then Some ([], r)
      else if Ascii.eqb c "\" then None
      else match string_body r with
           | Some (t, rest) => Some (c :: t, rest)
           | None => None
           end
  end.

Fixpoint digits (l : list ascii) : list ascii * list ascii :=
  match l with
  | c :: r => if is_digit c then (c :: fst (digits r), snd (digits r)) else ([], l)
  | [] => ([], [])
  end.

Definition number (l : list ascii) : option (json * list ascii) :=
  let signed := match l with c :: r => if Ascii.eqb c "-" then (-1, r) else (1, l)
                           | [] => (1, l) end in
  match digits (snd signed) with
  | ([], _) => None
  | (ds, rest) =>
      match rest with
      | c :: _ =>
          if Ascii.eqb c "." || Ascii.eqb c "e" || Ascii.eqb c "E" then None
          else Some (JNum (fst signed * int_of_digits ds), rest)
      | [] => Some (JNum (fst signed * int_of_digits ds), rest)
      end
  end.

Fixpoint value (fuel : nat) (l : list ascii) : option (json * list ascii) :=
  match fuel with
  | O => None
  | S fuel' =>
      match skip_blanks l with
      | [] => None
      | c :: r =>
          if Ascii.eqb c "{" then
            match skip_blanks r with
            | c' :: r' =>
                if Ascii.eqb c' "}" then Some (JDict [], r') else members fuel' (c' :: r') []
            | [] => None
            end
          else if Ascii.eqb c "[" then
            match skip_blanks r with
            | c' :: r' =>
                if Ascii.eqb c' "]" then Some (JList [], r') else elements fuel' (c' :: r') []
            | [] => None
            end
          else if Ascii.eqb c quote then
            match string_body r with
            | Some (t, rest) => Some (JStr (str t), rest)
            | None => None
            end
          else if starts_with (chars "true") (c :: r) then Some (JBool true, List.skipn 3 r)
          else if starts_with (chars "false") (c :: r) then Some (JBool false, List.skipn 4 r)
          else if starts_with (chars "null") (c :: r) then Some (JNull, List.skipn 3 r)
          else number (c :: r)
      end
  end
with members (fuel : nat) (l : list ascii) (acc : dict) : option (json * list ascii) :=
  match fuel with
  | O => None
  | S fuel' =>
      match skip_blanks l with
      | c :: r =>
          if Ascii.eqb c quote then
            match string_body r with
            | Some (k, rest) =>
                match skip_blanks rest with
                | c1 :: r1 =>
                    if Ascii.eqb c1 ":" then
                      match value fuel' r1 with
                      | Some (v, rest') =>
                          let acc := dict_set acc (str k) v in
                          match skip_blanks rest' with
                          | c2 :: r2 =>
                              if Ascii.eqb c2 "," then members fuel' r2 acc
                              else if Ascii.eqb c2 "}" then Some (JDict acc, r2)
                              else None
                          | [] => None
                          end
                      | None => None
                      end
                    else None
                | [] => None
                end
            | None => None
            end
          else None
      | [] => None
      end
  end
with elements (fuel : nat) (l : list ascii) (acc : list json) : option (json * list ascii) :=
  match fuel with
  | O => None
  | S fuel' =>
      match value fuel' l with
      | Some (v, rest) =>
          match skip_blanks rest with
          | c :: r =>
              if Ascii.eqb c "," then elements fuel' r (acc ++ [v])
              else if Ascii.eqb c "]" then Some (JList (acc ++ [v]), r)
              else None
          | [] => None
          end
      | None => None
      end
  end.

Definition json_loads (text : string) : option json :=
  match value (S (String.length text)) (chars text) with
  | Some (v, rest) => match skip_blanks rest with [] => Some v | _ => None end
  | None => None
  end.

Definition q (s : string) : string :=
  (String quote EmptyString ++ s ++ String quote EmptyString)%string.

(** An answer of the model: an object in code fences. *)
Definition fenced_answer : string :=
  ("```json" ++ nl ++ "{" ++ q "Start Date" ++ ": " ++ q "2018-10-15" ++ ", "
   ++ q "Project Duration" ++ ": " ++ q "730 days" ++ ", "
   ++ q "Location" ++ ": {" ++ q "State" ++ ": " ++ q "Haryana" ++ "}}" ++ nl
   ++ "```")%string.

Definition page_of (text : string) : page :=
  {| extract_text := Ret text; image_to_string := OcrNoImage |}.

Definition cover : page :=
  page_of "Contract agreement for the four laning of the highway section, volume one".

Definition schedule_j : page :=
  page_of "SCHEDULE J: the project shall be completed within 730 days of the appointed date".

Definition annex : page :=
  page_of "Drawings and the list of the equipment to be brought to the site by the contractor".

Definition one_page : list page := [cover].
Definition contract : list page := [cover; annex; annex; schedule_j; annex; annex].

Definition disk (pdf_path : string) (pages : list page) : state :=
  {| fs := {[pdf_path := PdfFile pages]}; log := [] |}.

(** The same disk with a reduced document left by an earlier run. *)
Definition disk_with_short (pdf_path : string) (pages short : list page) : state :=
  {| fs := <[short_filename pdf_path := PdfFile short]> {[pdf_path := PdfFile pages]};
     log := [] |}.

Definition model (answer : string) (key : option string) : env :=
  {| GOOGLE_API_KEY := key;
     generate_content := fun _ _ => Text answer;
     writable := fun _ => true;
     listdir := ["contract.pdf"] |}.

Definition fields_with_end_date : list (string * string) :=
  [ ("Start Date", "Agreement Date");
    ("Project Duration", "from Schedule J");
    ("End Date", "Scheduled completion date") ].

End Samples.

(** ** The statements' vocabulary *)

Module Spec.
Import PyStr Datetime Duration.

(** A date is one the library can hold. *)
Definition well_formed (dt : datetime) : Prop :=
  1 <= year dt <= 9999 /\ 1 <= month dt <= 12
  /\ 1 <= day dt <= days_in_month (year dt) (month dt).

(** [n] months after [start]: [n] is added to the count of months, the years
    are carried, and the day is the start's day or the last day of the target
    month, whichever comes first. *)
Definition plus_months (start : datetime) (n : Z) : datetime :=
  let months := year start * 12 + (month start - 1) + n in
  let y := months / 12 in
  let m := months mod 12 + 1 in
  {| year := y; month := m; day := Z.min (day start) (days_in_month y m) |}.

(** A unit token: [day] or [month], in any case. *)
Definition is_unit (u : list ascii) : Prop :=
  List.map lower u = chars "day" \/ List.map lower u = chars "month".

(** The text starts with an integer magnitude, blanks if any, and a unit
    token; what follows the token (a plural [s] or anything else) is free. *)
Definition duration_at_start (d : list ascii) : Prop :=
  exists v ws u post,
    d = v ++ ws ++ u ++ post /\ v <> []
    /\ List.forallb is_digit v = true /\ List.forallb is_space ws = true
    /\ is_unit u.

(** The text contains a magnitude followed by a unit token. *)
Definition duration_within (d : list ascii) : Prop :=
  exists pre suf, d = pre ++ suf /\ duration_at_start suf.

(** What the duration expression found reads as [n] units. *)
Definition reads (m : option ((list ascii * list ascii) * list ascii))
    (unit : string) (n : Z) : Prop :=
  exists v u r, m = Some ((v, u), r) /\ str (List.map lower u) = unit /\ py_int v = n.

(** What the duration expression found counts [n] units: the unit is read and
    [int] converts the magnitude to [n]. *)
Definition counts (m : option ((list ascii * list ascii) * list ascii))
    (unit : string) (n : Z) : Prop :=
  exists v u r, m = Some ((v, u), r) /\ str (List.map lower u) = unit /\ int v = Ret n.

(** The messages reported in place of a date. *)
Definition is_sentinel (out : string) : Prop :=
  out = "Invalid Start Date Format" \/ out = "Invalid Duration Format"
  \/ out = "Invalid Duration Unit".

(** A file that is there and holds something. *)
Definition file_nonempty (f : ProcessContracts.file) : Prop :=
  match f with
  | ProcessContracts.PdfFile _ => True
  | ProcessContracts.OtherFile size => (0 < size)%nat
  end.

End Spec.

(** ** Notions the proofs are written with *)

Module Notions.
Import PyStr Re Datetime Duration Json.

(** [(datetime(Y, M, 1) - timedelta(days=1)).day] *)
Definition day_before_first (Y M : Z) : result Z :=
  first ← mk Y M 1;
  delta ← timedelta 1;
  last ← sub first delta;
  Ret (day last).

(** The day before the first of a month is the last day of the month before
    it; checked for a month, then for the twelve months of a year. *)
Definition last_day_ok (Y M : Z) : bool :=
  day (ord2ymd (ymd2ord Y M 1 - 1))
  =? (if M =? 1 then 31 else days_in_month Y (M - 1)).

Definition year_ok (Y : Z) : bool :=
  List.forallb (last_day_ok Y) [1; 2; 3; 4; 5; 6; 7; 8; 9; 10; 11; 12].

(** The [n] integers from [lo] on. *)
Fixpoint zrange (lo : Z) (n : nat) : list Z :=
  match n with
  | O => []
  | S n' => lo :: zrange (lo + 1) n'
  end.

(** Two texts are the same but for the case of their letters. *)
Fixpoint same_fold (m w : list ascii) : bool :=
  match m, w with
  | [], [] => true
  | c :: m', p :: w' => ieq c p && same_fold m' w'
  | _, _ => false
  end.

(** The 256 characters. *)
Definition all_ascii : list ascii := List.map ascii_of_nat (List.seq 0 256).

(** The number of decimal digits of a text. *)
Definition count_digits (l : list ascii) : nat := length (List.filter is_digit l).

(** What a directive can consume. *)
Definition piece (d : directive) (p : list ascii) : bool :=
  match d with
  | Dir_d =>
      match p with
      | [x] => is_digit x
      | [x; y] => (is_digit x || Ascii.eqb x " ") && is_digit y
      | _ => false
      end
  | Dir_m =>
      match p with
      | [x] => is_digit x
      | [x; y] => is_digit x && is_digit y
      | _ => false
      end
  | Dir_Y =>
      match p with
      | [a; b; c; d] => is_digit a && is_digit b && is_digit c && is_digit d
      | _ => false
      end
  | Dir_B => List.existsb (fun w => same_fold p (chars w)) f_month
  | Blanks => List.forallb is_space p && negb (Nat.eqb (length p) 0)
  | Chr c =>
      match p with
      | [x] => ieq x c
      | _ => false
      end
  end.

(** A text cut in the pieces the directives of a format consume. *)
Fixpoint shaped (ds : list directive) (l : list ascii) : Prop :=
  match ds with
  | [] => l = []
  | d :: ds' => exists p q, l = p ++ q /\ piece d p = true /\ shaped ds' q
  end.

(** The groups found stand for numbers of four digits at most. *)
Definition small (o : option Z) : Prop :=
  match o with
  | Some v => 0 <= v <= 9999
  | None => True
  end.

Definition small_fields (f : fields) : Prop :=
  small (f_Y f) /\ small (f_m f) /\ small (f_d f).

(** Characters that have no case and are not part of a word: digits, blanks,
    the comma and the dash. *)
Definition caseless (c : ascii) : bool :=
  is_digit c || is_space c || Ascii.eqb c "," || Ascii.eqb c "-".

(** A text with none of them. *)
Definition wordy (l : list ascii) : bool :=
  List.forallb (fun c => negb (caseless c)) l.

(** The formats of the two files, compiled. *)
Definition F_dmY : list directive := [Dir_d; Chr "-"; Dir_m; Chr "-"; Dir_Y].
Definition F_dBY : list directive := [Dir_d; Blanks; Dir_B; Blanks; Dir_Y].
Definition F_BY : list directive := [Dir_B; Blanks; Dir_Y].
Definition F_Ymd : list directive := [Dir_Y; Chr "-"; Dir_m; Chr "-"; Dir_d].
Definition F_BdY : list directive := [Dir_B; Blanks; Dir_d; Chr ","; Blanks; Dir_Y].

(** The character at an index is a decimal digit. *)
Definition digit_at (i : nat) (l : list ascii) : bool :=
  match nth_error l i with
  | Some c => is_digit c
  | None => false
  end.

(** A digit, a dash or a space. *)
Definition plain (c : ascii) : bool :=
  is_digit c || Ascii.eqb c "-" || Ascii.eqb c " ".

(** A text in the form [YYYY-MM-DD]. *)
Definition ymd_like (l : list ascii) : bool :=
  List.forallb plain l && digit_at 0 l && digit_at 1 l && digit_at 2 l
  && is_digit (List.last l " "%char).

(** The branch of the unit [day], the same in both files. *)
Definition add_days (start_date : datetime) (value : Z) : result derived :=
  delta ← timedelta value;
  end_date ← add start_date delta;
  Ret (EndDate end_date).

(** The date of the branch of the unit [month], once computed. *)
Definition dated (r : result datetime) : result derived :=
  end_date ← r; Ret (EndDate end_date).

(** What a derivation does once the start date is read, by the way the
    duration reads. *)
Definition branch (add_months : datetime -> Z -> result datetime)
    (start : datetime) (m : option ((list ascii * list ascii) * list ascii))
    : result derived :=
  match m with
  | Some (g, _) =>
      value ← int (fst g);
      if String.eqb (str (List.map lower (snd g))) "day"
      then add_days start value
      else dated (add_months start value)
  | None => Ret (Sentinel "Invalid Duration Format")
  end.

(** What [datetime] raises for a year past 9999. *)
Definition year_error (y : Z) : exn :=
  if y <=? 2147483647 then ValueError else OverflowError.

(** The year [verify_end_date_calculation.py] hands to [datetime] first for a
    target month: the year of the month after. *)
Definition next_year (t : datetime) : Z :=
  if month t =? 12 then year t + 1 else year t.

(** The text starts with an ordinal: digits and [st], [nd], [rd] or [th], in
    any case. *)
Definition ordinal_at (l : list ascii) : Prop :=
  exists ds suf rest w,
    l = ds ++ suf ++ rest /\ ds <> [] /\ List.forallb is_digit ds = true
    /\ In w ["st"; "nd"; "rd"; "th"] /\ same_fold suf (chars w) = true.

(** The data extracted from an answer that does not decode. *)
Definition undecoded (text : string) : dict :=
  [ ("LLM_Raw_Response", JStr text); ("End Date", JStr "Not Found") ].

End Notions.

(** *** [verify_dates] *)

Module VerifyDates.
Import PyStr Datetime Duration Json.

(** A cell of the table [read_csv] returns: a string, or a value of another
    type (a number, or the [NaN] of an empty cell). *)
Inductive cell :=
| CStr (s : string)
| CNotStr.

(** What reading the input file gives: there is no file; the file does not
    parse ([ParserError]); reading raises another exception; or a table, with
    the names of its columns and its rows, each a cell by column. *)
Inductive input :=
| Missing
| Unparsable
| ReadRaises (e : exn)
| Table (columns : list string) (rows : list (string -> cell)).

Record verified := {
  Original_Start_Date : cell;
  Original_Project_Duration : cell;
  Calculated_End_Date : string
}.

(** [calculate_end_date] on two cells: a cell that is no string is answered
    "Invalid Input Type". *)
Definition calculate_end_date (start_date duration : cell) : result string :=
  match start_date, duration with
  | CStr start_date_str, CStr duration_str =>
      VerifyEndDate.calculate_end_date start_date_str duration_str
  | _, _ => Ret "Invalid Input Type"
  end.

(** The loop over the rows. *)
Fixpoint results_of (rows : list (string -> cell)) (results : list verified)
    : result (list verified) :=
  match rows with
  | [] => Ret results
  | row :: rest =>
      let start_date := row "Start Date" in
      let duration := row "Project Duration" in
      calculated_end_date ← calculate_end_date start_date duration;
      results_of rest
        (results ++ [ {| Original_Start_Date := start_date;
                         Original_Project_Duration := duration;
                         Calculated_End_Date := calculated_end_date |} ])
  end.

(** [verify_dates]: the rows written to the output file, or [None] when the
    file is not written. *)
Definition verify_dates (input_csv : input) : result (option (list verified)) :=
  match input_csv with
  | Missing => Ret None
  | Unparsable => Ret None
  | ReadRaises e => Raise e
  | Table columns rows =>
      if negb (List.existsb (String.eqb "Start Date") columns)
         || negb (List.existsb (String.eqb "Project Duration") columns)
      then Ret None
      else
        results ← results_of rows [];
        Ret (Some results)
  end.

(** A row of the output is the row of the input with its end date. *)
Definition verified_of (row : string -> cell) (r : verified) : Prop :=
  Original_Start_Date r = row "Start Date"
  /\ Original_Project_Duration r = row "Project Duration"
  /\ calculate_end_date (row "Start Date") (row "Project Duration")
     = Ret (Calculated_End_Date r).

End VerifyDates.

(** ** Notions of the further properties *)

Module ScanNotions.
Import PyStr ProcessContracts.

(** The pages the scan finds: the two seeds, each page a term is found on,
    and the page after it when there is one. *)
Definition found (re_search : string -> string -> bool) (pages : list page)
    (i : nat) : Prop :=
  i = 0%nat \/ i = 1%nat
  \/ exists p pg text term,
       pages !! p = Some pg /\ page_text pg = Ret text
       /\ In term SEARCH_TERMS /\ re_search term text = true
       /\ (i = p \/ (i = p + 1 /\ p + 1 < length pages))%nat.

End ScanNotions.

Module RowNotions.
Import PyStr Json ProcessContracts.

(** The three columns a location is flattened into. *)
Definition location_column (col : string) : Prop :=
  col = "Location - State" \/ col = "Location - District"
  \/ col = "Location - Towns covered".

(** The keys of a dictionary, in their order. *)
Definition keys (d : dict) : list string := List.map fst d.

(** The file a row is of, when the event is a row. *)
Definition row_file (e : event) : list string :=
  match e with
  | RowAppended row =>
      match dict_lookup row "File Name" with
      | Some (JStr f) => [f]
      | _ => []
      end
  | _ => []
  end.

(** The files of the rows among some events, in their order. *)
Definition row_files (evs : list event) : list string := List.flat_map row_file evs.

Definition is_header (e : event) : bool :=
  match e with
  | HeaderAppended _ => true
  | _ => false
  end.

End RowNotions.

Module DateNotions.
Import PyStr Datetime.

(** The month and the day of the day [n] (counted from 0) of a year, as
    [_ord2ymd] finds them. *)
Definition month_day (n : Z) (leapyear : bool) : Z * Z :=
  let m := Z.shiftr (n + 50) 5 in
  let preceding := DAYS_BEFORE_MONTH m + (if (2 <? m) && leapyear then 1 else 0) in
  if n <? preceding
  then
    let m := m - 1 in
    let preceding :=
      preceding - (DAYS_IN_MONTH m + (if (m =? 2) && leapyear then 1 else 0)) in
    (m, n - preceding + 1)
  else (m, n - preceding + 1).

(** They are a month and a day of that month, [n] days after 1 January. *)
Definition month_day_ok (leapyear : bool) (n : Z) : bool :=
  let md := month_day n leapyear in
  (1 <=? fst md) && (fst md <=? 12) && (1 <=? snd md)
  && (snd md <=? DAYS_IN_MONTH (fst md)
                 + (if (fst md =? 2) && leapyear then 1 else 0))
  && (DAYS_BEFORE_MONTH (fst md) + (if (2 <? fst md) && leapyear then 1 else 0)
      + snd md =? n + 1).

(** A year from 1000 on is written on four digits that read as the year. *)
Definition year_text_ok (y : Z) : bool :=
  match digits_of 20 y [] with
  | [a; b; c; d] =>
      is_digit a && is_digit b && is_digit c && is_digit d
      && (int_of_digits [a; b; c; d] =? y)
  | _ => false
  end.

(** A year before 1000 is written on three digits at most. *)
Definition short_year_ok (y : Z) : bool :=
  (length (digits_of 20 y []) <=? 3)%nat.

(** A day or a month is written on two digits. *)
Definition two_digits_ok (x : Z) : bool :=
  match zero_pad 2 x with
  | [p; q] => is_digit p && is_digit q
  | _ => false
  end.

End DateNotions.

(** *** [process_contracts_regex.py] *)

Module ProcessContractsRegex.
Import PyStr Re Json.

(** **** More of [re]: [.] under [re.DOTALL] *)

(** Any text, the shortest first (a lazy [.] run). *)
Fixpoint lazy_any (s : list ascii) : list (list ascii * list ascii) :=
  ([], s) :: match s with
             | c :: r => List.map (fun mr => (c :: fst mr, snd mr)) (lazy_any r)
             | [] => []
             end.

Definition any_char (c : ascii) : bool := true.

(** A head, a group as short as can be, and one of some tails; the capture is
    the group. *)
Definition between {A} (head : pattern A) (tails : list string)
    : pattern (list ascii) :=
  seq head (fun _ =>
  seq lazy_any (fun g =>
  seq (alts (List.map (fun t => lit (chars t)) tails)) (fun _ =>
  unit_pat g))).

(** **** Strings *)

Definition newline : ascii := ascii_of_nat 10.

(** [s.replace('\n', ' ')] *)
Definition replace_newlines (l : list ascii) : list ascii :=
  List.map (fun c => if Ascii.eqb c newline then " "%char else c) l.

(** [s.split()]: the runs of characters that are not blanks. *)
Fixpoint split (l : list ascii) : list (list ascii) :=
  match l with
  | [] => []
  | c :: r =>
      if is_space c then split r
      else
        match r with
        | d :: _ =>
            if is_space d then [c] :: split r
            else match split r with
                 | w :: ws => (c :: w) :: ws
                 | [] => [[c]]
                 end
        | [] => [[c]]
        end
  end.

(** [sep.join(words)] *)
Fixpoint join (sep : list ascii) (words : list (list ascii)) : list ascii :=
  match words with
  | [] => []
  | [w] => w
  | w :: rest => w ++ sep ++ join sep rest
  end.

(** [' '.join(s.strip().replace('\n', ' ').split())] *)
Definition squeezed (s : list ascii) : string :=
  str (join [" "%char] (split (replace_newlines (strip s)))).

(** [str(n)] for a number that is not negative *)
Definition str_of_nat (n : nat) : string :=
  str (digits_of (S n) (Z.of_nat n) []).

(** **** [extract_text_from_pdf] *)

Definition PdfReader (fs : gmap string ProcessContracts.file) (pdf_path : string)
    : result (list ProcessContracts.page) :=
  match fs !! pdf_path with
  | Some (ProcessContracts.PdfFile pages) => Ret pages
  | _ => Raise OSError
  end.

(** The text of a page: the extracted text, or the recognised one when the
    extracted text is empty or blank. *)
Definition page_text (page : ProcessContracts.page) : result string :=
  page_text ← ProcessContracts.extract_text page;
  if String.eqb page_text ""
     || match strip (chars page_text) with [] => true | _ => false end
  then
    match ProcessContracts.image_to_string page with
    | ProcessContracts.OcrText t => Ret t
    | ProcessContracts.OcrNoImage => Ret page_text
    | ProcessContracts.OcrFails => Ret ""
    end
  else Ret page_text.

Definition page_entry (page_num : nat) (page_text : string) : string :=
  ("--- Page " ++ str_of_nat (page_num + 1) ++ " --- "
   ++ String newline EmptyString ++ page_text)%string.

(** The loop over the pages; an exception ends it, with what was gathered. *)
Fixpoint pages_loop (pages : list ProcessContracts.page) (page_nums : list nat)
    (text_content : list string) : list string :=
  match page_nums with
  | [] => text_content
  | page_num :: rest =>
      match pages !! page_num with
      | Some page =>
          match page_text page with
          | Ret t => pages_loop pages rest (text_content ++ [page_entry page_num t])
          | Raise _ => text_content
          end
      | None => text_content
      end
  end.

Definition extract_text_from_pdf (fs : gmap string ProcessContracts.file)
    (pdf_path : string) (page_limit : nat) : string :=
  let text_content :=
    match PdfReader fs pdf_path with
    | Ret pages =>
        let num_pages := length pages in
        let pages_to_process := Nat.min num_pages page_limit in
        pages_loop pages (List.seq 0 pages_to_process) []
    | Raise _ => []
    end in
  str (join [newline; newline] (List.map chars text_content)).

(** **** The clauses looked for *)

(** The expression of the agreement clause: [This Agreement is entered into],
    the shortest text up to [BETWEEN], group 1 up to [AND], group 2 up to
    [for the work of] or [on this], and group 3, the shortest text up to
    [day of], these words and the rest of the text. *)
Definition agreement_pattern
    : pattern ((list ascii * list ascii) * list ascii) :=
  seq (lit (chars "This Agreement is entered into")) (fun _ =>
  seq lazy_any (fun _ =>
  seq (lit (chars "BETWEEN")) (fun _ =>
  seq lazy_any (fun g1 =>
  seq (lit (chars "AND")) (fun _ =>
  seq lazy_any (fun g2 =>
  seq (alt (lit (chars "for the work of")) (lit (chars "on this"))) (fun _ =>
  seq lazy_any (fun a =>
  seq (lit (chars "day of")) (fun b =>
  seq (star any_char) (fun c =>
  unit_pat ((g1, g2), a ++ b ++ c))))))))))).

(** [for the work of], a group as short as can be, then [on EPC] or any one
    character. *)
Definition project_name_pattern : pattern (list ascii) :=
  seq (lit (chars "for the work of")) (fun _ =>
  seq lazy_any (fun g =>
  seq (alt (lit (chars "on EPC")) (seq (one any_char) (fun c => unit_pat [c])))
    (fun _ =>
  unit_pat g))).

Definition find_agreement_details (text : string)
    : ((string * string) * string) * string :=
  match search agreement_pattern (chars text) with
  | Some (g, _) =>
      let party1 := squeezed (fst (fst g)) in
      let party2 := squeezed (snd (fst g)) in
      let agreement_date := squeezed (snd g) in
      let project_name :=
        match search project_name_pattern (chars text) with
        | Some (g1, _) => squeezed g1
        | None => "Not Found"
        end in
      (((party1, party2), agreement_date), project_name)
  | None => ((("Not Found", "Not Found"), "Not Found"), "Not Found")
  end.

(** [SCHEDULE-J], the group, [SCHEDULE-K] or [Signature Page] *)
Definition schedule_j_pattern : pattern (list ascii) :=
  between (lit (chars "SCHEDULE-J")) ["SCHEDULE-K"; "Signature Page"].

(** [Scheduled Completion Date], the shortest text, and the group
    [\d+\s+days] *)
Definition completion_date_pattern : pattern (list ascii) :=
  seq (lit (chars "Scheduled Completion Date")) (fun _ =>
  seq lazy_any (fun _ =>
  seq (plus is_digit) (fun ds =>
  seq (plus is_space) (fun ws =>
  seq (lit (chars "days")) (fun w =>
  unit_pat (ds ++ ws ++ w)))))).

(** [Project Milestone], the group, [Payment upon achievement] *)
Definition milestones_pattern : pattern (list ascii) :=
  between (lit (chars "Project Milestone")) ["Payment upon achievement"].

Definition find_schedule_j_details (text : string) : string * string :=
  match search schedule_j_pattern (chars text) with
  | Some (schedule_j_text, _) =>
      let completion_date :=
        match search completion_date_pattern schedule_j_text with
        | Some (g, _) => str (strip g)
        | None => "Not Found"
        end in
      let milestones :=
        match search milestones_pattern schedule_j_text with
        | Some (g, _) => squeezed g
        | None => "Not Found"
        end in
      (completion_date, milestones)
  | None => ("Not Found", "Not Found")
  end.

(** [ARTICLE 19\s+CONTRACT PRICE], the group, [ARTICLE 20] or [Schedule H] *)
Definition article_19_pattern : pattern (list ascii) :=
  between
    (seq (lit (chars "ARTICLE 19")) (fun _ =>
     seq (plus is_space) (fun _ => lit (chars "CONTRACT PRICE"))))
    ["ARTICLE 20"; "Schedule H"].

Definition digit_or_comma (c : ascii) : bool := is_digit c || Ascii.eqb c ",".

(** [Rs\.\s*] and the group: digits and commas, a dot if any, digits if any *)
Definition price_pattern : pattern (list ascii) :=
  seq (lit (chars "Rs.")) (fun _ =>
  seq (star is_space) (fun _ =>
  seq (plus digit_or_comma) (fun a =>
  seq (opt (lit (chars "."))) (fun dot =>
  seq (star is_digit) (fun b =>
  unit_pat (a ++ default [] dot ++ b)))))).

Definition find_contract_price (text : string) : string :=
  match search article_19_pattern (chars text) with
  | Some (article_19_text, _) =>
      match search price_pattern article_19_text with
      | Some (g, _) => ("Rs. " ++ str (strip g))%string
      | None => "Not Found"
      end
  | None => "Not Found"
  end.

(** [SCHEDULE-H\s+PAYMENT SCHEDULE], the group, [SCHEDULE-I] or [Annex-I] *)
Definition schedule_h_pattern : pattern (list ascii) :=
  between
    (seq (lit (chars "SCHEDULE-H")) (fun _ =>
     seq (plus is_space) (fun _ => lit (chars "PAYMENT SCHEDULE"))))
    ["SCHEDULE-I"; "Annex-I"].

Definition find_payment_schedule (text : string) : string :=
  match search schedule_h_pattern (chars text) with
  | Some (g, _) => squeezed g
  | None => "Not Found"
  end.

(** **** [main] *)

Inductive output :=
| HeaderWritten (columns : list string)
| TextSaved (path : string) (text : string)
| RowAppended (row : dict).

Record state := {
  fs : gmap string ProcessContracts.file;
  out : list output
}.

(** What [main] reads and does not change: the column [Field Name] of the
    template when the file is there, the text files that can be opened for
    writing, and the names in the directory.  The table itself is taken to be
    writable. *)
Record env := {
  template : option (list string);
  writable : string -> bool;
  listdir : list string
}.

(** The extracted values of a document, by column. *)
Definition data_of (pdf_file full_text : string) : dict :=
  let details := find_agreement_details full_text in
  let party1 := fst (fst (fst details)) in
  let party2 := snd (fst (fst details)) in
  let agreement_date := snd (fst details) in
  let project_name := snd details in
  let schedule_j := find_schedule_j_details full_text in
  let end_date := fst schedule_j in
  let milestones := snd schedule_j in
  let contract_price := find_contract_price full_text in
  let payment_schedule := find_payment_schedule full_text in
  [ ("File Name", JStr pdf_file);
    ("Name of the Authority", JStr party1);
    ("Name of the Contractor", JStr party2);
    ("Start Date", JStr agreement_date);
    ("Project Name", JStr project_name);
    ("End Date", JStr end_date);
    ("Milestones Defined?", JStr milestones);
    ("Contract Value (₹ Cr)", JStr contract_price);
    ("Payment Schedule", JStr payment_schedule) ].

(** [{col: data.get(col, "") for col in output_columns}] *)
Definition row_data (data : dict) (output_columns : list string) : dict :=
  fold_left (fun row col => dict_set row col (dict_get data col (JStr "")))
    output_columns [].

Definition text_file_name (pdf_file : string) : string :=
  (ProcessContracts.splitext_root pdf_file ++ ".txt")%string.

(** One turn of the loop of [main] over the documents. *)
Definition process_file (E : env) (output_columns : list string) (pdf_file : string)
    (st : state) : result unit * state :=
  let full_text := extract_text_from_pdf (fs st) pdf_file 100 in
  let text_file_name := text_file_name pdf_file in
  if writable E text_file_name
  then
    let st := {| fs := <[text_file_name :=
                          ProcessContracts.OtherFile (String.length full_text)]> (fs st);
                 out := out st ++ [TextSaved text_file_name full_text] |} in
    (Ret tt,
     {| fs := fs st;
        out := out st ++ [RowAppended (row_data (data_of pdf_file full_text)
                                         output_columns)] |})
  else (Raise OSError, st).

Fixpoint process_files (E : env) (output_columns : list string)
    (pdf_files : list string) (st : state) : result unit * state :=
  match pdf_files with
  | [] => (Ret tt, st)
  | pdf_file :: rest =>
      match process_file E output_columns pdf_file st with
      | (Ret _, st') => process_files E output_columns rest st'
      | (Raise e, st') => (Raise e, st')
      end
  end.

Definition is_pdf (f : string) : bool :=
  endswith (str (List.map lower (chars f))) ".pdf".

Definition main (E : env) (st : state) : result unit * state :=
  let output_columns :=
    match template E with
    | Some field_names => field_names
    | None => ["File Name"; "Project Name"; "Contract Value"]
    end in
  let st := {| fs := fs st; out := out st ++ [HeaderWritten output_columns] |} in
  let pdf_files := List.filter is_pdf (listdir E) in
  process_files E output_columns pdf_files st.

End ProcessContractsRegex.

Module RegexNotions.
Import PyStr Re Json ProcessContractsRegex.

(** A word: some characters, none of them a blank. *)
Definition word (w : list ascii) : Prop :=
  w <> [] /\ List.forallb (fun c => negb (is_space c)) w = true.

(** The rows of some documents, read in a given state of the files. *)
Definition outputs_of (fs : gmap string ProcessContracts.file)
    (output_columns : list string) (pdf_files : list string) : list output :=
  List.flat_map
    (fun pdf_file =>
       let full_text := extract_text_from_pdf fs pdf_file 100 in
       [TextSaved (text_file_name pdf_file) full_text;
        RowAppended (row_data (data_of pdf_file full_text) output_columns)])
    pdf_files.

(** The files of a state differ from those of another by text files only. *)
Definition same_documents (fs1 fs2 : gmap string ProcessContracts.file) : Prop :=
  forall pdf_file, is_pdf pdf_file = true -> fs1 !! pdf_file = fs2 !! pdf_file.

End RegexNotions.

(** * Properties *)

(** ** The calendar *)

Module Calendar.
Import Notions.
Import PyStr Datetime.

Lemma days_in_month_bounds (Y M : Z) : 1 <= M <= 12 -> 28 <= days_in_month Y M <= 31.
Proof.
  intros HM. unfold days_in_month.
  assert (M = 1 \/ M = 2 \/ M = 3 \/ M = 4 \/ M = 5 \/ M = 6 \/ M = 7 \/ M = 8 \/
          M = 9 \/ M = 10 \/ M = 11 \/ M = 12) as Hc by lia.
  destruct (is_leap Y); intuition (subst; simpl; lia).
Qed.

(** The Gregorian calendar repeats every 400 years, 146097 days. *)
Lemma is_leap_period (y k : Z) : is_leap (y + 400 * k) = is_leap y.
Proof.
  unfold is_leap.
  replace (y + 400 * k) with (y + (100 * k) * 4) at 1 by lia.
  replace (y + 400 * k) with (y + (4 * k) * 100) at 1 by lia.
  replace (y + 400 * k) with (y + k * 400) by lia.
  now rewrite !Z.mod_add by lia.
Qed.

Lemma days_in_month_period (y m k : Z) :
  days_in_month (y + 400 * k) m = days_in_month y m.
Proof. unfold days_in_month. now rewrite is_leap_period. Qed.

Lemma ymd2ord_period (y m d k : Z) :
  ymd2ord (y + 400 * k) m d = ymd2ord y m d + 146097 * k.
Proof.
  unfold ymd2ord, days_before_month, days_before_year. rewrite is_leap_period.
  cbv zeta.
  replace (y + 400 * k - 1) with (y - 1 + (100 * k) * 4) at 2 by lia.
  replace (y + 400 * k - 1) with (y - 1 + (4 * k) * 100) at 2 by lia.
  replace (y + 400 * k - 1) with (y - 1 + k * 400) at 2 by lia.
  rewrite !Z.div_add by lia. lia.
Qed.

Lemma ord2ymd_period (o k : Z) :
  ord2ymd (o + 146097 * k) =
  {| year := year (ord2ymd o) + 400 * k;
     month := month (ord2ymd o);
     day := day (ord2ymd o) |}.
Proof.
  unfold ord2ymd. cbv zeta.
  replace (o + 146097 * k - 1) with (o - 1 + k * 146097) by lia.
  rewrite Z.div_add, Z.mod_add by lia.
  repeat match goal with
  | |- context [if ?c then _ else _] => destruct c
  end; simpl; f_equal; lia.
Qed.

Lemma day_ord2ymd_period (o k : Z) :
  day (ord2ymd (o + 146097 * k)) = day (ord2ymd o).
Proof. rewrite ord2ymd_period. reflexivity. Qed.

Lemma In_zrange (n : nat) (lo z : Z) :
  lo <= z < lo + Z.of_nat n -> In z (zrange lo n).
Proof.
  revert lo. induction n as [|n IH]; intros lo H; [lia|].
  simpl. destruct (Z.eq_dec lo z) as [->|Hne]; [now left|].
  right. apply IH. lia.
Qed.

Lemma one_period_ok : List.forallb year_ok (zrange 1 400) = true.
Proof. vm_compute. reflexivity. Qed.

Lemma last_day_ok_in_period (Y0 M : Z) :
  1 <= Y0 <= 400 -> 1 <= M <= 12 -> last_day_ok Y0 M = true.
Proof.
  intros HY0 HM.
  pose proof one_period_ok as H. rewrite List.forallb_forall in H.
  assert (Hin0 : In Y0 (zrange 1 400)) by (apply In_zrange; lia).
  apply H in Hin0. unfold year_ok in Hin0.
  rewrite List.forallb_forall in Hin0. apply Hin0.
  assert (M = 1 \/ M = 2 \/ M = 3 \/ M = 4 \/ M = 5 \/ M = 6 \/ M = 7 \/ M = 8 \/
          M = 9 \/ M = 10 \/ M = 11 \/ M = 12) as Hc by lia.
  simpl. intuition auto.
Qed.

Lemma last_day_shift (Y0 k M : Z) :
  last_day_ok Y0 M = true -> last_day_ok (Y0 + 400 * k) M = true.
Proof.
  unfold last_day_ok. intros H. apply Z.eqb_eq in H. apply Z.eqb_eq.
  rewrite ymd2ord_period.
  replace (ymd2ord Y0 M 1 + 146097 * k - 1) with (ymd2ord Y0 M 1 - 1 + 146097 * k) by lia.
  rewrite day_ord2ymd_period, H.
  destruct (M =? 1); [reflexivity|]. now rewrite days_in_month_period.
Qed.

(** The day before the first of a month is the last day of the month before. *)
Lemma last_day_before_first (Y M : Z) :
  1 <= M <= 12 ->
  day (ord2ymd (ymd2ord Y M 1 - 1))
  = (if M =? 1 then 31 else days_in_month Y (M - 1)).
Proof.
  intros HM.
  assert (HY : Y = ((Y - 1) mod 400 + 1) + 400 * ((Y - 1) / 400)).
  { pose proof (Z.div_mod (Y - 1) 400). lia. }
  assert (HY0 : 1 <= (Y - 1) mod 400 + 1 <= 400).
  { pose proof (Z.mod_pos_bound (Y - 1) 400). lia. }
  pose proof (last_day_shift _ ((Y - 1) / 400) M (last_day_ok_in_period _ M HY0 HM)) as H.
  rewrite <- HY in H. unfold last_day_ok in H. now apply Z.eqb_eq in H.
Qed.

Lemma ymd2ord_bounds (Y M : Z) :
  1 <= Y <= 9999 -> 1 <= M <= 12 -> Y <> 1 \/ M <> 1 ->
  2 <= ymd2ord Y M 1 <= 3652059.
Proof.
  intros HY HM Hor. unfold ymd2ord, days_before_year, days_before_month. cbv zeta.
  assert (0 <= DAYS_BEFORE_MONTH M <= 334
          /\ (M <> 1 -> 31 <= DAYS_BEFORE_MONTH M)) as [Hb Hb1].
  { assert (M = 1 \/ M = 2 \/ M = 3 \/ M = 4 \/ M = 5 \/ M = 6 \/ M = 7 \/ M = 8 \/
            M = 9 \/ M = 10 \/ M = 11 \/ M = 12) as Hc by lia.
    intuition (subst; simpl; lia). }
  destruct ((2 <? M) && is_leap Y); Z.to_euclidean_division_equations; lia.
Qed.

Lemma sub_one_day (dt : datetime) :
  2 <= toordinal dt <= 3652059 -> sub dt 1 = Ret (ord2ymd (toordinal dt - 1)).
Proof.
  intros H. unfold sub, add, MAXORDINAL.
  replace (toordinal dt + - (1)) with (toordinal dt - 1) by lia.
  replace (1 <=? toordinal dt - 1) with true by (symmetry; apply Z.leb_le; lia).
  replace (toordinal dt - 1 <=? 3652059) with true by (symmetry; apply Z.leb_le; lia).
  reflexivity.
Qed.

Lemma fits_int_small (n : Z) :
  -2147483648 <= n <= 2147483647 -> fits_int n = true.
Proof.
  intros H. unfold fits_int. apply andb_true_intro. split; apply Z.leb_le; lia.
Qed.

Lemma mk_valid (Y M D : Z) :
  1 <= Y <= 9999 -> 1 <= M <= 12 -> 1 <= D <= days_in_month Y M ->
  mk Y M D = Ret {| year := Y; month := M; day := D |}.
Proof.
  intros HY HM HD. pose proof (days_in_month_bounds Y M HM) as Hb.
  unfold mk. rewrite !fits_int_small by lia. cbn [andb].
  unfold valid, MINYEAR, MAXYEAR.
  repeat match goal with
  | |- context [?a <=? ?b] =>
      replace (a <=? b) with true by (symmetry; apply Z.leb_le; lia)
  end.
  reflexivity.
Qed.

Lemma day_before_first_spec (Y M : Z) :
  1 <= Y <= 9999 -> 1 <= M <= 12 -> Y <> 1 \/ M <> 1 ->
  day_before_first Y M = Ret (if M =? 1 then 31 else days_in_month Y (M - 1)).
Proof.
  intros HY HM Hne. unfold day_before_first.
  pose proof (ymd2ord_bounds Y M HY HM Hne) as Hb.
  pose proof (days_in_month_bounds Y M HM) as Hd.
  rewrite mk_valid by lia.
  change (timedelta 1) with (Ret 1 : result Z).
  change (sub {| year := Y; month := M; day := 1 |} 1
          ≫= (λ last, Ret (day last))
          = Ret (if M =? 1 then 31 else days_in_month Y (M - 1))).
  rewrite sub_one_day by exact Hb.
  change (Ret (day (ord2ymd (ymd2ord Y M 1 - 1)))
          = Ret (if M =? 1 then 31 else days_in_month Y (M - 1))).
  now rewrite last_day_before_first.
Qed.

(** A year past 9999 is refused, as no year of the library or as no C [int]. *)
Lemma mk_out_of_range (Y M D : Z) :
  9999 < Y -> -2147483648 <= M <= 2147483647 -> -2147483648 <= D <= 2147483647 ->
  mk Y M D = Raise (year_error Y).
Proof.
  intros H HM HD. unfold mk, year_error.
  rewrite (fits_int_small M HM), (fits_int_small D HD), !andb_true_r.
  unfold fits_int. destruct (Y <=? 2147483647) eqn:E.
  - replace (-2147483648 <=? Y) with true by (symmetry; apply Z.leb_le; lia).
    cbn [andb]. unfold valid, MAXYEAR.
    replace (Y <=? 9999) with false by (symmetry; apply Z.leb_gt; lia).
    now rewrite andb_false_r.
  - now rewrite andb_false_r.
Qed.

Lemma mk_raises (Y M D : Z) (e : exn) :
  mk Y M D = Raise e -> e = ValueError \/ e = OverflowError.
Proof.
  unfold mk. destruct (_ && _); [destruct (valid Y M D)|]; intros [= <-]; auto.
Qed.

Lemma mk_inv (Y M D : Z) (dt : datetime) :
  mk Y M D = Ret dt ->
  dt = {| year := Y; month := M; day := D |}
  /\ 1 <= Y <= 9999 /\ 1 <= M <= 12 /\ 1 <= D <= days_in_month Y M.
Proof.
  unfold mk. destruct (fits_int Y && fits_int M && fits_int D); [|discriminate].
  unfold valid, MINYEAR, MAXYEAR. intros H.
  destruct (_ && _) eqn:E in H; [|discriminate].
  repeat (apply andb_prop in E as [E ?]).
  repeat match goal with H : (_ <=? _) = true |- _ => apply Z.leb_le in H end.
  inversion H. repeat split; lia.
Qed.

End Calendar.

(** ** Adding months *)

Module Months.
Import Notions.
Import PyStr Datetime Duration Spec Calendar.

Lemma bind_day_before_first (Y M : Z) (k : Z -> result datetime) :
  (first ← mk Y M 1; delta ← timedelta 1; last ← sub first delta; k (day last))
  = (d ← day_before_first Y M; k d).
Proof.
  unfold day_before_first. destruct (mk Y M 1) as [first|e]; [|reflexivity].
  change (timedelta 1) with (Ret 1 : result Z).
  change ((sub first 1 ≫= λ last, k (day last))
          = ((sub first 1 ≫= λ last, Ret (day last)) ≫= λ d, k d)).
  destruct (sub first 1); reflexivity.
Qed.

Lemma day_before_first_out_of_range (Y M : Z) :
  9999 < Y -> 1 <= M <= 12 -> day_before_first Y M = Raise (year_error Y).
Proof.
  intros H HM. unfold day_before_first. now rewrite mk_out_of_range by lia.
Qed.

Lemma plus_months_year (start : datetime) (n : Z) :
  1 <= month start <= 12 -> 0 <= n ->
  year (plus_months start n) = year start + (month start + n - 1) / 12
  /\ month (plus_months start n) = (month start + n - 1) mod 12 + 1
  /\ 1 <= month (plus_months start n) <= 12
  /\ year start <= year (plus_months start n).
Proof.
  intros Hm Hn. unfold plus_months. cbn [year month day].
  Z.to_euclidean_division_equations. lia.
Qed.

Lemma min_day_valid (d Y M : Z) :
  1 <= d -> 1 <= M <= 12 -> 1 <= Z.min d (days_in_month Y M) <= days_in_month Y M.
Proof. intros Hd HM. pose proof (days_in_month_bounds Y M HM). lia. Qed.

(** The month branch of [verify_end_date_calculation.py]: the target, unless
    the year of the month after it is past 9999. *)
Lemma verify_add_months (start : datetime) (n : Z) :
  well_formed start -> 0 <= n ->
  VerifyEndDate.add_months start n =
  (let t := plus_months start n in
   if (year t <=? 9999) && negb ((year t =? 9999) && (month t =? 12))
   then Ret t else Raise (year_error (next_year t))).
Proof.
  intros (Hy & Hm & Hd) Hn.
  destruct (plus_months_year start n Hm Hn) as (Ey & Em & Hm' & Hy').
  unfold VerifyEndDate.add_months. cbv zeta.
  rewrite <- Ey, <- Em.
  set (t := plus_months start n) in *.
  rewrite (bind_day_before_first _ _
             (fun d => mk (year t) (month t) (Z.min (day start) d))).
  assert (Et : t = {| year := year t; month := month t;
                      day := Z.min (day start) (days_in_month (year t) (month t)) |}).
  { unfold t, plus_months. reflexivity. }
  unfold next_year.
  destruct (12 <? month t + 1) eqn:E12; cbn [fst snd].
  - apply Z.ltb_lt in E12. assert (month t = 12) as E by lia.
    replace (month t =? 12) with true by (symmetry; apply Z.eqb_eq; lia).
    destruct (Z_le_gt_dec (year t + 1) 9999) as [Hle|Hgt].
    + rewrite day_before_first_spec by lia.
      change ((1 =? 1)) with true. cbv iota.
      replace (year t <=? 9999) with true by (symmetry; apply Z.leb_le; lia).
      replace (year t =? 9999) with false by (symmetry; apply Z.eqb_neq; lia).
      cbn [andb negb mbind result_bind].
      rewrite Et at 3. rewrite E. change (days_in_month (year t) 12) with 31.
      apply mk_valid; [lia|lia|]. change (days_in_month (year t) 12) with 31. lia.
    + rewrite day_before_first_out_of_range by lia.
      cbn [mbind result_bind].
      destruct (Z.eq_dec (year t) 9999) as [E9|N9].
      * rewrite E9. reflexivity.
      * replace (year t <=? 9999) with false by (symmetry; apply Z.leb_gt; lia).
        reflexivity.
  - apply Z.ltb_ge in E12.
    replace (month t =? 12) with false by (symmetry; apply Z.eqb_neq; lia).
    rewrite andb_false_r. cbn [negb]. rewrite andb_true_r.
    destruct (Z_le_gt_dec (year t) 9999) as [Hle|Hgt].
    + rewrite day_before_first_spec by lia.
      replace (month t + 1 =? 1) with false by (symmetry; apply Z.eqb_neq; lia).
      replace (month t + 1 - 1) with (month t) by lia.
      replace (year t <=? 9999) with true by (symmetry; apply Z.leb_le; lia).
      cbn [mbind result_bind].
      rewrite Et at 3. apply mk_valid; [lia|lia|]. apply min_day_valid; lia.
    + rewrite day_before_first_out_of_range by lia.
      replace (year t <=? 9999) with false by (symmetry; apply Z.leb_gt; lia).
      reflexivity.
Qed.

(** The month branch of [process_contracts.py]: the target, unless its year is
    past 9999. *)
Lemma process_add_months (start : datetime) (n : Z) :
  well_formed start -> 0 <= n ->
  ProcessContracts.add_months start n =
  (let t := plus_months start n in
   if year t <=? 9999 then Ret t else Raise (year_error (year t))).
Proof.
  intros (Hy & Hm & Hd) Hn.
  destruct (plus_months_year start n Hm Hn) as (Ey & Em & Hm' & Hy').
  unfold ProcessContracts.add_months. cbv zeta.
  set (t := plus_months start n) in *.
  assert (Hym : (if 12 <? month start + n mod 12
                 then (year start + n / 12 + 1, month start + n mod 12 - 12)
                 else (year start + n / 12, month start + n mod 12))
                = (year t, month t)).
  { rewrite Ey, Em.
    destruct (12 <? month start + n mod 12) eqn:E;
      [apply Z.ltb_lt in E | apply Z.ltb_ge in E]; f_equal;
      Z.to_euclidean_division_equations; lia. }
  rewrite Hym. cbn [fst snd].
  assert (Et : t = {| year := year t; month := month t;
                      day := Z.min (day start) (days_in_month (year t) (month t)) |}).
  { unfold t, plus_months. reflexivity. }
  pose proof (days_in_month_bounds (year start) _ Hm) as Hb.
  destruct (month t <? 12) eqn:E12.
  - apply Z.ltb_lt in E12.
    change (first ← mk (year t) (month t + 1) 1;
            delta ← timedelta 1;
            last ← sub first delta;
            Ret (day last)) with (day_before_first (year t) (month t + 1)).
    destruct (Z_le_gt_dec (year t) 9999) as [Hle|Hgt].
    + rewrite day_before_first_spec by lia.
      replace (month t + 1 =? 1) with false by (symmetry; apply Z.eqb_neq; lia).
      replace (month t + 1 - 1) with (month t) by lia.
      replace (year t <=? 9999) with true by (symmetry; apply Z.leb_le; lia).
      cbn [mbind result_bind].
      rewrite Et at 3. apply mk_valid; [lia|lia|]. apply min_day_valid; lia.
    + rewrite day_before_first_out_of_range by lia.
      replace (year t <=? 9999) with false by (symmetry; apply Z.leb_gt; lia).
      reflexivity.
  - apply Z.ltb_ge in E12. assert (month t = 12) as E by lia.
    cbn [mbind result_bind].
    destruct (Z_le_gt_dec (year t) 9999) as [Hle|Hgt].
    + replace (year t <=? 9999) with true by (symmetry; apply Z.leb_le; lia).
      rewrite Et at 3. rewrite E. change (days_in_month (year t) 12) with 31.
      apply mk_valid; [lia|lia|]. change (days_in_month (year t) 12) with 31. lia.
    + replace (year t <=? 9999) with false by (symmetry; apply Z.leb_gt; lia).
      apply mk_out_of_range; lia.
Qed.

End Months.

(** ** Matching *)

Module ReFacts.
Import Notions.
Import PyStr Re.

Lemma in_unit_pat {A} (x a : A) (s r : list ascii) :
  In (a, r) (unit_pat x s) <-> a = x /\ r = s.
Proof.
  unfold unit_pat. simpl. split.
  - intros [H|[]]. inversion H. auto.
  - intros [-> ->]. now left.
Qed.

Lemma in_seq {A B} (p : pattern A) (q : A -> pattern B) (s r : list ascii) (b : B) :
  In (b, r) (seq p q s) <-> exists a r1, In (a, r1) (p s) /\ In (b, r) (q a r1).
Proof.
  unfold seq. rewrite List.in_flat_map. split.
  - intros [[a r1] [H1 H2]]. exists a, r1. auto.
  - intros (a & r1 & H1 & H2). exists (a, r1). auto.
Qed.

Lemma in_alt {A} (p q : pattern A) (s : list ascii) (x : A * list ascii) :
  In x (alt p q s) <-> In x (p s) \/ In x (q s).
Proof. unfold alt. apply List.in_app_iff. Qed.

Lemma in_alts {A} (ps : list (pattern A)) (s : list ascii) (x : A * list ascii) :
  In x (alts ps s) <-> exists p, In p ps /\ In x (p s).
Proof. unfold alts. apply List.in_flat_map. Qed.

Lemma in_one (cls : ascii -> bool) (s r : list ascii) (c : ascii) :
  In (c, r) (one cls s) <-> s = c :: r /\ cls c = true.
Proof.
  unfold one. destruct s as [|x s']; simpl; [split; [tauto|intros [? _]; discriminate]|].
  destruct (cls x) eqn:E; simpl.
  - split.
    + intros [H|[]]. inversion H. subst. auto.
    + intros [H _]. inversion H. now left.
  - split; [tauto|]. intros [H Hc]. inversion H. subst. congruence.
Qed.

Lemma in_map_cons (c : ascii) (l : list (list ascii * list ascii)) (m r : list ascii) :
  In (m, r) (List.map (fun mr => (c :: fst mr, snd mr)) l)
  <-> exists m', m = c :: m' /\ In (m', r) l.
Proof.
  rewrite List.in_map_iff. split.
  - intros [[m' r'] [H Hin]]. simpl in H. inversion H. subst. eauto.
  - intros (m' & -> & Hin). exists (m', r). auto.
Qed.

Lemma in_star (cls : ascii -> bool) (s m r : list ascii) :
  In (m, r) (star cls s) <-> s = m ++ r /\ List.forallb cls m = true.
Proof.
  revert m. induction s as [|c s IH]; intros m; simpl.
  - split.
    + intros [H|[]]. inversion H. auto.
    + intros [H _]. symmetry in H. apply List.app_eq_nil in H as [-> ->]. now left.
  - destruct (cls c) eqn:E.
    + rewrite List.in_app_iff, in_map_cons. split.
      * intros [(m' & -> & Hin)|[H|[]]].
        -- apply IH in Hin as [-> Hall]. simpl. rewrite E. auto.
        -- inversion H. auto.
      * intros [H Hall]. destruct m as [|x m'].
        -- right. left. simpl in H. now subst.
        -- left. simpl in H. inversion H. subst. simpl in Hall.
           apply andb_prop in Hall as [_ Hall].
           exists m'. split; [reflexivity|]. apply IH. auto.
    + split.
      * intros [H|[]]. inversion H. auto.
      * intros [H Hall]. destruct m as [|x m'].
        -- simpl in H. subst. now left.
        -- simpl in H. inversion H. subst. simpl in Hall. rewrite E in Hall. discriminate.
Qed.

Lemma in_plus (cls : ascii -> bool) (s m r : list ascii) :
  In (m, r) (plus cls s) <-> s = m ++ r /\ List.forallb cls m = true /\ m <> [].
Proof.
  unfold plus. destruct s as [|c s].
  - simpl. split; [tauto|]. intros (H & _ & Hne).
    destruct m; [congruence|discriminate H].
  - destruct (cls c) eqn:E.
    + rewrite in_map_cons. split.
      * intros (m' & -> & Hin). apply in_star in Hin as [-> Hall].
        simpl. rewrite E. repeat split; auto.
      * intros (H & Hall & Hne). destruct m as [|x m']; [congruence|].
        simpl in H. inversion H. subst. simpl in Hall.
        apply andb_prop in Hall as [_ Hall]. exists m'. split; [reflexivity|].
        apply in_star. auto.
    + simpl. split; [tauto|]. intros (H & Hall & Hne).
      destruct m as [|x m']; [congruence|]. simpl in H. inversion H. subst.
      simpl in Hall. rewrite E in Hall. discriminate.
Qed.

Lemma in_lit (w s m r : list ascii) :
  In (m, r) (lit w s) <-> s = m ++ r /\ same_fold m w = true.
Proof.
  revert s m. induction w as [|p w IH]; intros s m; simpl.
  - split.
    + intros [H|[]]. inversion H. auto.
    + intros [H Hs]. destruct m; [|discriminate]. simpl in H. subst. now left.
  - destruct s as [|c s].
    + simpl. split; [tauto|]. intros [H Hs]. destruct m; [discriminate|]. discriminate.
    + destruct (ieq c p) eqn:E.
      * rewrite in_map_cons. split.
        -- intros (m' & -> & Hin). apply IH in Hin as [-> Hs]. simpl. rewrite E. auto.
        -- intros [H Hs]. destruct m as [|x m']; [discriminate|].
           simpl in H. inversion H. subst. simpl in Hs.
           apply andb_prop in Hs as [_ Hs]. exists m'. split; [reflexivity|].
           apply IH. auto.
      * simpl. split; [tauto|]. intros [H Hs]. destruct m as [|x m']; [discriminate|].
        simpl in H. inversion H. subst. simpl in Hs. rewrite E in Hs. discriminate.
Qed.

Lemma in_opt {A} (p : pattern A) (s r : list ascii) (o : option A) :
  In (o, r) (opt p s)
  <-> (exists a, o = Some a /\ In (a, r) (p s)) \/ (o = None /\ r = s).
Proof.
  unfold opt. rewrite List.in_app_iff, List.in_map_iff. split.
  - intros [[[a r'] [H Hin]]|[H|[]]].
    + simpl in H. inversion H. subst. left. eauto.
    + inversion H. auto.
  - intros [(a & -> & Hin)|[-> ->]].
    + left. exists (a, r). auto.
    + right. now left.
Qed.

Lemma rmatch_in {A} (p : pattern A) (s : list ascii) (x : A * list ascii) :
  rmatch p s = Some x -> In x (p s).
Proof.
  unfold rmatch. destruct (p s) as [|y l]; simpl; [discriminate|].
  intros [= ->]. now left.
Qed.

Lemma rmatch_none {A} (p : pattern A) (s : list ascii) :
  rmatch p s = None <-> p s = [].
Proof.
  unfold rmatch. destruct (p s); simpl; split; congruence.
Qed.

Lemma rmatch_some_of_in {A} (p : pattern A) (s : list ascii) (x : A * list ascii) :
  In x (p s) -> exists y, rmatch p s = Some y.
Proof.
  unfold rmatch. destruct (p s) as [|y l]; simpl; [tauto|]. eauto.
Qed.

Lemma search_of_rmatch {A} (p : pattern A) (s : list ascii) (x : A * list ascii) :
  rmatch p s = Some x -> search p s = Some x.
Proof. intros H. destruct s; simpl; now rewrite H. Qed.

Lemma search_in {A} (p : pattern A) (s : list ascii) (x : A * list ascii) :
  search p s = Some x -> exists pre suf, s = pre ++ suf /\ In x (p suf).
Proof.
  induction s as [|c s IH]; simpl.
  - destruct (rmatch p []) eqn:E; [|discriminate].
    intros [= ->]. exists [], []. split; [reflexivity|]. now apply rmatch_in.
  - destruct (rmatch p (c :: s)) eqn:E.
    + intros [= ->]. exists [], (c :: s). split; [reflexivity|]. now apply rmatch_in.
    + intros H. destruct (IH H) as (pre & suf & -> & Hin).
      exists (c :: pre), suf. auto.
Qed.

Lemma search_none {A} (p : pattern A) (s : list ascii) :
  search p s = None <-> forall pre suf, s = pre ++ suf -> p suf = [].
Proof.
  induction s as [|c s IH]; simpl.
  - destruct (rmatch p []) eqn:E.
    + split; [discriminate|]. intros H. specialize (H [] [] eq_refl).
      apply rmatch_none in H. congruence.
    + split; [|reflexivity]. intros _ pre suf H.
      symmetry in H. apply List.app_eq_nil in H as [-> ->]. now apply rmatch_none.
  - destruct (rmatch p (c :: s)) eqn:E.
    + split; [discriminate|]. intros H. specialize (H [] (c :: s) eq_refl).
      apply rmatch_none in H. congruence.
    + rewrite IH. split.
      * intros H pre suf Hs. destruct pre as [|x pre].
        -- simpl in Hs. subst. now apply rmatch_none.
        -- simpl in Hs. inversion Hs. subst. eapply H. reflexivity.
      * intros H pre suf Hs. apply (H (c :: pre) suf). simpl. now rewrite Hs.
Qed.

End ReFacts.

(** ** Characters *)

Module CharFacts.
Import Notions.
Import PyStr Re ReFacts.

Lemma in_all_ascii (c : ascii) : In c all_ascii.
Proof.
  unfold all_ascii. apply List.in_map_iff. exists (nat_of_ascii c).
  split; [apply ascii_nat_embedding|].
  apply List.in_seq. pose proof (nat_ascii_bounded c). lia.
Qed.

Lemma ascii_forall (P : ascii -> bool) :
  List.forallb P all_ascii = true -> forall c, P c = true.
Proof.
  intros H c. rewrite List.forallb_forall in H. apply H, in_all_ascii.
Qed.

Lemma digit_lower (c : ascii) : is_digit c = true -> lower c = c.
Proof.
  intros H.
  pose proof (ascii_forall (fun c => implb (is_digit c) (Ascii.eqb (lower c) c))
                ltac:(vm_compute; reflexivity) c) as Hc.
  cbv beta in Hc. rewrite H in Hc. now apply Ascii.eqb_eq in Hc.
Qed.

Lemma space_lower (c : ascii) : is_space c = true -> lower c = c.
Proof.
  intros H.
  pose proof (ascii_forall (fun c => implb (is_space c) (Ascii.eqb (lower c) c))
                ltac:(vm_compute; reflexivity) c) as Hc.
  cbv beta in Hc. rewrite H in Hc. now apply Ascii.eqb_eq in Hc.
Qed.

Lemma digit_not_space (c : ascii) : is_digit c = true -> is_space c = false.
Proof.
  intros H.
  pose proof (ascii_forall (fun c => implb (is_digit c) (negb (is_space c)))
                ltac:(vm_compute; reflexivity) c) as Hc.
  cbv beta in Hc. rewrite H in Hc. now apply negb_true_iff in Hc.
Qed.

Lemma ieq_lower (c p : ascii) : ieq c p = true <-> lower c = lower p.
Proof. unfold ieq. apply Ascii.eqb_eq. Qed.

(** A digit or a blank is matched by itself only. *)
Lemma ieq_digit (c p : ascii) :
  ieq c p = true -> is_digit c = true -> c = lower p.
Proof. intros H Hd. apply ieq_lower in H. now rewrite digit_lower in H. Qed.

Lemma ieq_space (c p : ascii) :
  ieq c p = true -> is_space c = true -> c = lower p.
Proof. intros H Hd. apply ieq_lower in H. now rewrite space_lower in H. Qed.

Lemma ieq_dash (c : ascii) : ieq c "-" = true -> c = "-"%char.
Proof.
  intros H.
  pose proof (ascii_forall (fun c => implb (ieq c "-") (Ascii.eqb c "-"))
                ltac:(vm_compute; reflexivity) c) as Hc.
  cbv beta in Hc. rewrite H in Hc. now apply Ascii.eqb_eq in Hc.
Qed.

Lemma same_fold_lower (m w : list ascii) :
  same_fold m w = true <-> List.map lower m = List.map lower w.
Proof.
  revert w. induction m as [|c m IH]; intros [|p w]; simpl; try (split; congruence).
  rewrite andb_true_iff, ieq_lower, IH. split.
  - intros [-> ->]. reflexivity.
  - intros H. inversion H. auto.
Qed.

Lemma same_fold_length (m w : list ascii) :
  same_fold m w = true -> length m = length w.
Proof.
  intros H. apply same_fold_lower in H.
  apply (f_equal (@length ascii)) in H. now rewrite !length_map in H.
Qed.

Lemma count_digits_app (l1 l2 : list ascii) :
  count_digits (l1 ++ l2) = (count_digits l1 + count_digits l2)%nat.
Proof. unfold count_digits. now rewrite List.filter_app, length_app. Qed.

Lemma count_digits_all (l : list ascii) :
  List.forallb is_digit l = true -> count_digits l = length l.
Proof.
  unfold count_digits. induction l as [|c l IH]; simpl; [reflexivity|].
  intros H. apply andb_prop in H as [Hc Hl]. rewrite Hc. simpl. now rewrite IH.
Qed.

Lemma count_digits_none (l : list ascii) :
  List.forallb (fun c => negb (is_digit c)) l = true -> count_digits l = 0%nat.
Proof.
  unfold count_digits. induction l as [|c l IH]; simpl; [reflexivity|].
  intros H. apply andb_prop in H as [Hc Hl]. apply negb_true_iff in Hc.
  rewrite Hc. now apply IH.
Qed.

(** A text matched by a word without digits has no digit. *)
Lemma same_fold_no_digit (m w : list ascii) :
  same_fold m w = true ->
  List.forallb (fun p => negb (is_digit (lower p))) w = true ->
  List.forallb (fun c => negb (is_digit c)) m = true.
Proof.
  revert w. induction m as [|c m IH]; intros [|p w]; simpl; try congruence.
  intros H Hw. apply andb_prop in H as [Hc Hm]. apply andb_prop in Hw as [Hp Hw].
  rewrite (IH w Hm Hw), andb_true_r.
  destruct (is_digit c) eqn:E; [|reflexivity].
  rewrite <- (ieq_digit c p Hc E) in Hp. rewrite E in Hp. discriminate.
Qed.

Lemma spaces_no_digit (l : list ascii) :
  List.forallb is_space l = true ->
  List.forallb (fun c => negb (is_digit c)) l = true.
Proof.
  induction l as [|c l IH]; simpl; [reflexivity|].
  intros H. apply andb_prop in H as [Hc Hl]. rewrite (IH Hl), andb_true_r.
  destruct (is_digit c) eqn:E; [|reflexivity].
  apply digit_not_space in E. congruence.
Qed.

End CharFacts.

(** ** Durations *)

Module DurationFacts.
Import Notions.
Import PyStr Re ReFacts CharFacts Datetime Duration Spec.

Lemma lstrip_id (l : list ascii) :
  List.forallb (fun c => negb (is_space c)) l = true -> lstrip l = l.
Proof.
  destruct l as [|c l]; simpl; [reflexivity|].
  intros H. apply andb_prop in H as [Hc _]. apply negb_true_iff in Hc.
  now rewrite Hc.
Qed.

Lemma rstrip_id (l : list ascii) :
  List.forallb (fun c => negb (is_space c)) l = true -> rstrip l = l.
Proof.
  induction l as [|c l IH]; simpl; [reflexivity|].
  intros H. apply andb_prop in H as [Hc Hl]. apply negb_true_iff in Hc.
  rewrite (IH Hl), Hc. destruct l; reflexivity.
Qed.

Lemma strip_id (l : list ascii) :
  List.forallb (fun c => negb (is_space c)) l = true -> strip l = l.
Proof. intros H. unfold strip. now rewrite lstrip_id, rstrip_id. Qed.

Lemma digits_no_space (l : list ascii) :
  List.forallb is_digit l = true ->
  List.forallb (fun c => negb (is_space c)) l = true.
Proof.
  induction l as [|c l IH]; simpl; [reflexivity|].
  intros H. apply andb_prop in H as [Hc Hl].
  now rewrite (digit_not_space c Hc), (IH Hl).
Qed.

Lemma int_of_digits_nonneg (l : list ascii) :
  List.forallb is_digit l = true -> 0 <= int_of_digits l.
Proof.
  unfold int_of_digits.
  assert (forall acc, 0 <= acc -> List.forallb is_digit l = true ->
            0 <= fold_left (fun acc c => 10 * acc + digit_val c) l acc) as H.
  { induction l as [|c l IH]; simpl; intros acc Hacc Hl; [assumption|].
    apply andb_prop in Hl as [Hc Hl]. apply IH; [|assumption].
    unfold is_digit in Hc. apply andb_prop in Hc as [H1 H2].
    apply Z.leb_le in H1. unfold digit_val. lia. }
  apply H. lia.
Qed.

Lemma py_int_nonneg (v : list ascii) :
  List.forallb is_digit v = true -> 0 <= py_int v.
Proof.
  intros H. unfold py_int. rewrite strip_id by now apply digits_no_space.
  now apply int_of_digits_nonneg.
Qed.

(** What the duration expression matches at the start of a text. *)
Lemma in_duration_pattern (s v u r : list ascii) :
  In ((v, u), r) (duration_pattern s) <->
  exists ws post,
    s = v ++ ws ++ u ++ post /\ v <> []
    /\ List.forallb is_digit v = true /\ List.forallb is_space ws = true
    /\ (same_fold u (chars "day") = true \/ same_fold u (chars "month") = true)
    /\ (post = r \/ exists x, post = x :: r /\ ieq x "s" = true).
Proof.
  unfold duration_pattern. rewrite in_seq. split.
  - intros (v' & r1 & Hv & H). apply in_plus in Hv as (-> & Hd & Hne).
    apply in_seq in H as (ws & r2 & Hws & H). apply in_star in Hws as (-> & Hs).
    apply in_seq in H as (u' & r3 & Hu & H). apply in_alt in Hu.
    apply in_seq in H as (o & r4 & Ho & H). apply in_unit_pat in H as [H ->].
    inversion H. subst v' u'. clear H.
    exists ws, r3. apply in_opt in Ho.
    assert (r2 = u ++ r3 /\ (same_fold u (chars "day") = true
                             \/ same_fold u (chars "month") = true)) as [-> Hu'].
    { destruct Hu as [Hu|Hu]; apply in_lit in Hu as [-> Hu]; auto. }
    repeat split; auto.
    destruct Ho as [(a & -> & Ha)|[_ ->]]; [|now left].
    right. apply in_lit in Ha as [Ha Hs']. simpl in Hs'.
    destruct a as [|x a']; simpl in Hs'; [discriminate|].
    destruct a'; simpl in Hs'; [|rewrite andb_false_r in Hs'; discriminate].
    exists x. rewrite andb_true_r in Hs'. split; [exact Ha|exact Hs'].
  - intros (ws & post & -> & Hne & Hd & Hs & Hu & Hpost).
    exists v, (ws ++ u ++ post). split; [apply in_plus; auto|].
    apply in_seq. exists ws, (u ++ post). split; [apply in_star; auto|].
    apply in_seq. exists u, post. split.
    { apply in_alt. destruct Hu as [Hu|Hu]; [left|right]; apply in_lit; auto. }
    apply in_seq. destruct Hpost as [->|(x & -> & Hx)].
    + exists None, r. split; [apply in_opt; now right|]. now apply in_unit_pat.
    + exists (Some [x]), r. split; [|now apply in_unit_pat].
      apply in_opt. left. exists [x]. split; [reflexivity|].
      apply in_lit. split; [reflexivity|]. simpl. now rewrite Hx.
Qed.

Lemma unit_fold (u : list ascii) :
  (same_fold u (chars "day") = true \/ same_fold u (chars "month") = true)
  <-> is_unit u.
Proof. unfold is_unit. rewrite !same_fold_lower. reflexivity. Qed.

(** The expression matches at the start exactly when a duration stands there. *)
Lemma duration_pattern_empty (s : list ascii) :
  duration_pattern s = [] <-> ~ duration_at_start s.
Proof.
  split.
  - intros H (v & ws & u & post & Hs & Hne & Hd & Hw & Hu).
    assert (In ((v, u), post) (duration_pattern s)) as Hin.
    { apply in_duration_pattern. exists ws, post. rewrite unit_fold. auto 10. }
    rewrite H in Hin. destruct Hin.
  - intros H. destruct (duration_pattern s) as [|[[v u] r] l] eqn:E; [reflexivity|].
    exfalso. apply H.
    assert (In ((v, u), r) (duration_pattern s)) as Hin by (rewrite E; now left).
    apply in_duration_pattern in Hin as (ws & post & Hs & Hne & Hd & Hw & Hu & _).
    exists v, ws, u, post. rewrite <- unit_fold. auto 10.
Qed.

Lemma rmatch_duration_none (s : list ascii) :
  rmatch duration_pattern s = None <-> ~ duration_at_start s.
Proof. rewrite rmatch_none. apply duration_pattern_empty. Qed.

Lemma search_duration_none (s : list ascii) :
  search duration_pattern s = None <-> ~ duration_within s.
Proof.
  rewrite search_none. split.
  - intros H (pre & suf & Hs & Hd). apply (duration_pattern_empty suf); eauto.
  - intros H pre suf Hs. apply duration_pattern_empty. intros Hd.
    apply H. exists pre, suf. auto.
Qed.

(** The unit read is [day] or [month], and the magnitude is not negative. *)
Lemma duration_read (s v u r : list ascii) :
  In ((v, u), r) (duration_pattern s) ->
  (str (List.map lower u) = "day" \/ str (List.map lower u) = "month")
  /\ 0 <= py_int v.
Proof.
  intros H. apply in_duration_pattern in H as (ws & post & _ & _ & Hd & _ & Hu & _).
  split; [|now apply py_int_nonneg].
  apply unit_fold in Hu. destruct Hu as [Hu|Hu]; rewrite Hu; [left|right]; reflexivity.
Qed.

End DurationFacts.

(** ** Date formats *)

Module FormatFacts.
Import Notions.
Import PyStr Re ReFacts CharFacts Datetime Spec Calendar DurationFacts.

Lemma replace_day_first (dt : datetime) :
  well_formed dt ->
  replace_day dt 1 = Ret {| year := year dt; month := month dt; day := 1 |}.
Proof.
  intros (Hy & Hm & Hd). unfold replace_day. apply mk_valid; lia.
Qed.

(** *** The shape of a text a format matches *)

Lemma digit_in_digit (lo hi : Z) (c : ascii) :
  48 <= lo -> hi <= 57 -> digit_in lo hi c = true -> is_digit c = true.
Proof.
  unfold digit_in, is_digit. intros Hlo Hhi H. apply andb_prop in H as [H1 H2].
  apply Z.leb_le in H1, H2. apply andb_true_intro. split; apply Z.leb_le; lia.
Qed.

Lemma is_char_eq (p c : ascii) : is_char p c = true -> c = p.
Proof. unfold is_char. apply Ascii.eqb_eq. Qed.

Lemma in_two (a b : ascii -> bool) (s t r : list ascii) :
  In (t, r) (two a b s) ->
  exists x y, t = [x; y] /\ s = x :: y :: r /\ a x = true /\ b y = true.
Proof.
  unfold two. intros H. apply in_seq in H as (x & r1 & Hx & H).
  apply in_seq in H as (y & r2 & Hy & H). apply in_unit_pat in H as [-> ->].
  apply in_one in Hx as [-> Hx]. apply in_one in Hy as [-> Hy].
  exists x, y. auto.
Qed.

Lemma in_single (a : ascii -> bool) (s t r : list ascii) :
  In (t, r) (single a s) -> exists x, t = [x] /\ s = x :: r /\ a x = true.
Proof.
  unfold single. intros H. apply in_seq in H as (x & r1 & Hx & H).
  apply in_unit_pat in H as [-> ->]. apply in_one in Hx as [-> Hx]. eauto.
Qed.

Ltac digit_class :=
  match goal with
  | H : digit_in ?lo ?hi ?c = true |- is_digit ?c = true =>
      apply (digit_in_digit lo hi c); [lia|lia|exact H]
  | H : is_char _ ?c = true |- is_digit ?c = true =>
      apply is_char_eq in H; subst; reflexivity
  | H : is_digit ?c = true |- is_digit ?c = true => exact H
  end.

Lemma in_re_d (s t r : list ascii) :
  In (t, r) (re_d s) -> s = t ++ r /\ piece Dir_d t = true.
Proof.
  unfold re_d. intros H. apply in_alts in H as (p & Hp & H).
  simpl in Hp.
  destruct Hp as [<-|[<-|[<-|[<-|[<-|[]]]]]];
    first [ apply in_two in H as (x & y & -> & -> & Hx & Hy)
          | apply in_single in H as (x & -> & -> & Hx) ];
    (split; [reflexivity|]); cbn [piece].
  - apply andb_true_intro. split; [apply orb_true_intro; left|]; digit_class.
  - apply andb_true_intro. split; [apply orb_true_intro; left|]; digit_class.
  - apply andb_true_intro. split; [apply orb_true_intro; left|]; digit_class.
  - digit_class.
  - apply andb_true_intro. split; [|digit_class].
    apply orb_true_intro. right. apply is_char_eq in Hx. now subst.
Qed.

Lemma in_re_m (s t r : list ascii) :
  In (t, r) (re_m s) -> s = t ++ r /\ piece Dir_m t = true.
Proof.
  unfold re_m. intros H. apply in_alts in H as (p & Hp & H).
  simpl in Hp.
  destruct Hp as [<-|[<-|[<-|[]]]];
    first [ apply in_two in H as (x & y & -> & -> & Hx & Hy)
          | apply in_single in H as (x & -> & -> & Hx) ];
    (split; [reflexivity|]); cbn [piece].
  - apply andb_true_intro. split; digit_class.
  - apply andb_true_intro. split; digit_class.
  - digit_class.
Qed.

Lemma in_re_Y (s t r : list ascii) :
  In (t, r) (re_Y s) -> s = t ++ r /\ piece Dir_Y t = true.
Proof.
  unfold re_Y. intros H.
  apply in_seq in H as (a & r1 & Ha & H). apply in_seq in H as (b & r2 & Hb & H).
  apply in_seq in H as (c & r3 & Hc & H). apply in_seq in H as (d & r4 & Hd & H).
  apply in_unit_pat in H as [-> ->].
  apply in_one in Ha as [-> Ha]. apply in_one in Hb as [-> Hb].
  apply in_one in Hc as [-> Hc]. apply in_one in Hd as [-> Hd].
  split; [reflexivity|]. cbn [piece]. now rewrite Ha, Hb, Hc, Hd.
Qed.

Lemma in_re_B (s t r : list ascii) :
  In (t, r) (re_B s) -> s = t ++ r /\ piece Dir_B t = true.
Proof.
  unfold re_B. intros H. apply in_alts in H as (p & Hp & H).
  apply List.in_map_iff in Hp as (w & <- & Hw).
  apply in_lit in H as [-> Hs]. split; [reflexivity|].
  cbn [piece]. apply List.existsb_exists. exists w. split; [|exact Hs].
  revert Hw. vm_compute. tauto.
Qed.

Lemma run_directive_piece (d : directive) (f f1 : fields) (s r1 : list ascii) :
  In (f1, r1) (run_directive d f s) -> exists p, s = p ++ r1 /\ piece d p = true.
Proof.
  destruct d; unfold run_directive; intros H;
    apply in_seq in H as (t & r & Ht & H); apply in_unit_pat in H as [_ ->].
  - apply in_re_d in Ht as [-> Hp]. eauto.
  - apply in_re_m in Ht as [-> Hp]. eauto.
  - apply in_re_Y in Ht as [-> Hp]. eauto.
  - apply in_re_B in Ht as [-> Hp]. eauto.
  - apply in_plus in Ht as (-> & Hs & Hne). exists t. split; [reflexivity|].
    simpl. rewrite Hs. destruct t; [congruence|reflexivity].
  - apply in_lit in Ht as [-> Hs]. exists t. split; [reflexivity|].
    simpl. destruct t as [|x [|y t]]; simpl in Hs; try discriminate.
    + now rewrite andb_true_r in Hs.
    + rewrite andb_false_r in Hs. discriminate.
Qed.

Lemma run_shaped (ds : list directive) (f f' : fields) (s r : list ascii) :
  In (f', r) (run ds f s) -> exists pre, s = pre ++ r /\ shaped ds pre.
Proof.
  revert f s. induction ds as [|d ds IH]; intros f s H; simpl in H.
  - apply in_unit_pat in H as [_ ->]. exists []. split; reflexivity.
  - apply in_seq in H as (f1 & r1 & H1 & H2).
    apply run_directive_piece in H1 as (p & -> & Hp).
    apply IH in H2 as (q & -> & Hq).
    exists (p ++ q). split; [now rewrite <- List.app_assoc|].
    simpl. exists p, q. auto.
Qed.

(** A text [strptime] accepts has the shape of the format. *)
Lemma strptime_shaped (s fmt : string) (dt : datetime) :
  strptime s fmt = Ret dt ->
  exists ds, compile false (chars fmt) = Some ds /\ shaped ds (chars s).
Proof.
  unfold strptime. destruct (compile false (chars fmt)) as [ds|]; [|discriminate].
  destruct (rmatch (run ds no_fields) (chars s)) as [[f [|c r]]|] eqn:E;
    try discriminate.
  intros _. exists ds. split; [reflexivity|].
  apply rmatch_in, run_shaped in E as (pre & Hs & Hsh).
  rewrite List.app_nil_r in Hs. now rewrite Hs.
Qed.

(** *** The numbers a format reads *)

Lemma digit_val_bound (c : ascii) : is_digit c = true -> 0 <= digit_val c <= 9.
Proof.
  unfold is_digit, digit_val. intros H. apply andb_prop in H as [H1 H2].
  apply Z.leb_le in H1, H2. lia.
Qed.

Lemma py_int_digits (l : list ascii) :
  List.forallb is_digit l = true -> py_int l = int_of_digits l.
Proof. intros H. unfold py_int. now rewrite strip_id by now apply digits_no_space. Qed.

(** A day, a month or a year read is a number of four digits at most. *)
Lemma piece_small (d : directive) (p : list ascii) :
  piece d p = true -> d = Dir_d \/ d = Dir_m \/ d = Dir_Y -> 0 <= py_int p <= 9999.
Proof.
  intros Hp [-> | [-> | ->]]; cbn [piece] in Hp.
  - destruct p as [|x [|y [|? ?]]]; try discriminate.
    + pose proof (digit_val_bound x Hp) as Hx.
      rewrite py_int_digits by (cbn; now rewrite Hp).
      unfold int_of_digits. cbn [fold_left]. lia.
    + apply andb_prop in Hp as [Hx Hy].
      pose proof (digit_val_bound y Hy) as By.
      destruct (is_digit x) eqn:Ex.
      * pose proof (digit_val_bound x Ex) as Bx.
        rewrite py_int_digits by (cbn; now rewrite Ex, Hy).
        unfold int_of_digits. cbn [fold_left]. lia.
      * cbn [orb] in Hx. apply Ascii.eqb_eq in Hx. subst x.
        unfold py_int, strip. cbn [lstrip]. change (is_space " ") with true.
        cbv iota. rewrite (digit_not_space y Hy). cbn [rstrip].
        rewrite (digit_not_space y Hy). unfold int_of_digits. cbn [fold_left]. lia.
  - destruct p as [|x [|y [|? ?]]]; try discriminate.
    + pose proof (digit_val_bound x Hp) as Hx.
      rewrite py_int_digits by (cbn; now rewrite Hp).
      unfold int_of_digits. cbn [fold_left]. lia.
    + apply andb_prop in Hp as [Hx Hy].
      pose proof (digit_val_bound x Hx) as Bx.
      pose proof (digit_val_bound y Hy) as By.
      rewrite py_int_digits by (cbn; now rewrite Hx, Hy).
      unfold int_of_digits. cbn [fold_left]. lia.
  - destruct p as [|a [|b [|c [|e [|? ?]]]]]; try discriminate.
    apply andb_prop in Hp as [Hp He]. apply andb_prop in Hp as [Hp Hc].
    apply andb_prop in Hp as [Ha Hb].
    pose proof (digit_val_bound a Ha). pose proof (digit_val_bound b Hb).
    pose proof (digit_val_bound c Hc). pose proof (digit_val_bound e He).
    rewrite py_int_digits by (cbn; now rewrite Ha, Hb, Hc, He).
    unfold int_of_digits. cbn [fold_left]. lia.
Qed.

Lemma index_from_bound (i : Z) (name : string) (l : list string) (v : Z) :
  index_from i name l = Some v -> i <= v < i + Z.of_nat (length l).
Proof.
  revert i. induction l as [|x l IH]; intros i; cbn [index_from]; [discriminate|].
  destruct (String.eqb x name).
  - intros [= <-]. cbn [length]. lia.
  - intros H. apply IH in H. cbn [length]. lia.
Qed.

Lemma run_directive_small (d : directive) (f f1 : fields) (s r1 : list ascii) :
  In (f1, r1) (run_directive d f s) -> small_fields f -> small_fields f1.
Proof.
  intros H (HY & Hm & Hd).
  destruct d; unfold run_directive in H;
    apply in_seq in H as (t & r & Ht & H); apply in_unit_pat in H as [-> _];
    unfold small_fields; cbn [f_Y f_m f_d small]; try (repeat split; assumption).
  - apply in_re_d in Ht as [_ Hp]. repeat split; try assumption.
    all: apply (piece_small Dir_d t Hp); auto.
  - apply in_re_m in Ht as [_ Hp]. repeat split; try assumption.
    all: apply (piece_small Dir_m t Hp); auto.
  - apply in_re_Y in Ht as [_ Hp]. repeat split; try assumption.
    all: apply (piece_small Dir_Y t Hp); auto.
  - repeat split; try assumption.
    destruct (index_from 1 (str (List.map lower t)) f_month) as [v|] eqn:E;
      [|exact I].
    apply index_from_bound in E. cbn in E. cbn [small]. lia.
Qed.

Lemma run_small (ds : list directive) (f f' : fields) (s r : list ascii) :
  In (f', r) (run ds f s) -> small_fields f -> small_fields f'.
Proof.
  revert f s. induction ds as [|d ds IH]; intros f s H Hf; simpl in H.
  - now apply in_unit_pat in H as [-> _].
  - apply in_seq in H as (f1 & r1 & H1 & H2).
    eapply IH; [exact H2|]. eapply run_directive_small; eauto.
Qed.

(** [strptime] returns a date the library holds or raises [ValueError]. *)
Lemma strptime_cases (s fmt : string) :
  (exists dt, strptime s fmt = Ret dt /\ well_formed dt)
  \/ strptime s fmt = Raise ValueError.
Proof.
  unfold strptime. destruct (compile false (chars fmt)) as [ds|]; [|now right].
  destruct (rmatch (run ds no_fields) (chars s)) as [[f [|c r]]|] eqn:Em;
    try now right.
  apply rmatch_in in Em.
  assert (small_fields f) as (HY & Hm & Hd).
  { apply (run_small ds no_fields f _ _ Em). repeat split; exact I. }
  assert (forall o dflt, small o -> 0 <= dflt <= 9999 ->
            fits_int (default dflt o) = true) as Hfit.
  { intros [v|] dflt Ho Hdf; unfold small in Ho; simpl;
      apply fits_int_small; lia. }
  destruct (mk _ _ _) as [dt|e] eqn:E.
  - left. exists dt. split; [reflexivity|].
    apply mk_inv in E as (-> & Hy' & Hm' & Hd'). repeat split; simpl; lia.
  - right. unfold mk in E.
    rewrite (Hfit _ 1900 HY), (Hfit _ 1 Hm), (Hfit _ 1 Hd) in E by lia.
    cbn [andb] in E. destruct (valid _ _ _); [discriminate|]. now inversion E.
Qed.

Lemma strptime_raise (s fmt : string) (e : exn) :
  strptime s fmt = Raise e -> e = ValueError.
Proof.
  intros H. destruct (strptime_cases s fmt) as [(dt & H' & _)|H']; congruence.
Qed.

End FormatFacts.

(** ** Cleaning a start date *)

Module CleanFacts.
Import Notions.
Import PyStr Re ReFacts CharFacts Datetime Spec DurationFacts FormatFacts.
Import VerifyEndDate.

Lemma caseless_lower (c : ascii) : caseless c = true -> lower c = c.
Proof.
  intros H.
  pose proof (ascii_forall (fun c => implb (caseless c) (Ascii.eqb (lower c) c))
                ltac:(vm_compute; reflexivity) c) as Hc.
  cbv beta in Hc. rewrite H in Hc. now apply Ascii.eqb_eq in Hc.
Qed.

(** A text matched by a word of letters is made of letters. *)
Lemma same_fold_wordy (m w : list ascii) :
  same_fold m w = true ->
  List.forallb (fun p => negb (caseless (lower p))) w = true ->
  wordy m = true.
Proof.
  unfold wordy. revert w.
  induction m as [|c m IH]; intros [|p w]; simpl; try congruence.
  intros H Hw. apply andb_prop in H as [Hc Hm]. apply andb_prop in Hw as [Hp Hw].
  rewrite (IH w Hm Hw), andb_true_r.
  destruct (caseless c) eqn:E; [|reflexivity].
  apply ieq_lower in Hc. rewrite (caseless_lower c E) in Hc.
  rewrite <- Hc, E in Hp. discriminate.
Qed.

Lemma wordy_no_digit (l : list ascii) :
  wordy l = true -> count_digits l = 0%nat.
Proof.
  intros H. apply count_digits_none. unfold wordy in H.
  rewrite List.forallb_forall in *. intros c Hc. specialize (H c Hc).
  unfold caseless in H. destruct (is_digit c); [discriminate|reflexivity].
Qed.

Lemma month_piece (p : list ascii) :
  piece Dir_B p = true -> wordy p = true /\ p <> [].
Proof.
  cbn [piece]. intros H. apply List.existsb_exists in H as (w & Hw & Hs).
  split.
  - apply (same_fold_wordy p (chars w) Hs).
    revert Hw. clear. intros Hw.
    assert (List.forallb
              (fun w => List.forallb (fun p => negb (caseless (lower p))) (chars w))
              f_month = true) as Hall by (vm_compute; reflexivity).
    rewrite List.forallb_forall in Hall. now apply Hall.
  - intros ->. apply same_fold_length in Hs.
    assert (List.forallb (fun w => negb (Nat.eqb (length (chars w)) 0)) f_month = true)
      as Hall by (vm_compute; reflexivity).
    rewrite List.forallb_forall in Hall. specialize (Hall w Hw).
    rewrite <- Hs in Hall. discriminate.
Qed.

Lemma remove_commas_id (l : list ascii) :
  List.forallb (fun c => negb (Ascii.eqb c ",")) l = true -> remove_commas l = l.
Proof.
  unfold remove_commas. induction l as [|c l IH]; simpl; [reflexivity|].
  intros H. apply andb_prop in H as [Hc Hl]. rewrite Hc. now rewrite IH.
Qed.

Lemma count_remove_commas (l : list ascii) :
  count_digits (remove_commas l) = count_digits l.
Proof.
  unfold remove_commas, count_digits. induction l as [|c l IH]; simpl; [reflexivity|].
  destruct (Ascii.eqb c ",") eqn:E; simpl.
  - apply Ascii.eqb_eq in E. subst. exact IH.
  - destruct (is_digit c); simpl; now rewrite IH.
Qed.

Lemma count_lstrip (l : list ascii) : count_digits (lstrip l) = count_digits l.
Proof.
  induction l as [|c l IH]; simpl; [reflexivity|].
  destruct (is_space c) eqn:E; [|reflexivity].
  rewrite IH. unfold count_digits. simpl.
  destruct (is_digit c) eqn:Ed; [|reflexivity].
  apply digit_not_space in Ed. congruence.
Qed.

Lemma count_rstrip (l : list ascii) : count_digits (rstrip l) = count_digits l.
Proof.
  induction l as [|c l IH]; simpl; [reflexivity|].
  change (count_digits (c :: l)) with (count_digits ([c] ++ l)).
  rewrite count_digits_app, <- IH.
  destruct (rstrip l) as [|x r] eqn:E.
  - destruct (is_space c) eqn:Es.
    + unfold count_digits. simpl. destruct (is_digit c) eqn:Ed; [|reflexivity].
      apply digit_not_space in Ed. congruence.
    + now rewrite Nat.add_0_r.
  - change (c :: x :: r) with ([c] ++ x :: r). now rewrite count_digits_app.
Qed.

Lemma count_strip (l : list ascii) : count_digits (strip l) = count_digits l.
Proof. unfold strip. now rewrite count_rstrip, count_lstrip. Qed.

(** A substitution that finds nothing copies the text. *)
Lemma sub_id (p : pattern (list ascii)) (l : list ascii) :
  (forall pre suf, l = pre ++ suf -> p suf = []) -> Re.sub p l = l.
Proof.
  unfold Re.sub. induction l as [|c l IH]; intros H; simpl; [reflexivity|].
  assert (rmatch p (c :: l) = None) as E.
  { apply rmatch_none. apply (H []). reflexivity. }
  rewrite E. f_equal. apply IH. intros pre suf Hs.
  apply (H (c :: pre)). simpl. now rewrite Hs.
Qed.

(** What the ordinal-suffix expression matches. *)
Lemma in_ordinal_suffix (s ds r : list ascii) :
  In (ds, r) (ordinal_suffix s) ->
  exists a b, s = ds ++ [a; b] ++ r /\ ds <> []
    /\ List.forallb is_digit ds = true /\ wordy [a; b] = true.
Proof.
  unfold ordinal_suffix. intros H.
  apply in_seq in H as (ds' & r1 & Hd & H). apply in_plus in Hd as (-> & Hd & Hne).
  apply in_seq in H as (u & r2 & Hu & H). apply in_unit_pat in H as [E1 E2].
  subst ds' r2.
  apply in_alts in Hu as (q & Hq & Hu).
  assert (exists w, In w ["st"; "nd"; "rd"; "th"] /\ In (u, r) (lit (chars w) r1))
    as (w & Hw & Hl).
  { simpl in Hq. destruct Hq as [<-|[<-|[<-|[<-|[]]]]];
      [exists "st"|exists "nd"|exists "rd"|exists "th"]; simpl; auto 6. }
  apply in_lit in Hl as [-> Hs].
  assert (wordy u = true) as Hwu.
  { apply (same_fold_wordy u (chars w) Hs).
    simpl in Hw. destruct Hw as [<-|[<-|[<-|[<-|[]]]]]; vm_compute; reflexivity. }
  assert (length u = 2%nat) as Hlen.
  { rewrite (same_fold_length u (chars w) Hs).
    simpl in Hw. destruct Hw as [<-|[<-|[<-|[<-|[]]]]]; reflexivity. }
  destruct u as [|a [|b [|? ?]]]; try discriminate.
  exists a, b. auto.
Qed.

Lemma count_sub_from (s : list ascii) (skip : nat) :
  count_digits (sub_from ordinal_suffix skip s) = count_digits (List.skipn skip s).
Proof.
  revert skip. induction s as [|c s IH]; intros skip.
  - simpl. now destruct skip.
  - destruct skip as [|k]; [|simpl; apply IH].
    cbn [sub_from List.skipn].
    destruct (rmatch ordinal_suffix (c :: s)) as [[ds rest]|] eqn:E.
    + apply rmatch_in, in_ordinal_suffix in E as (a & b & Hs & Hne & Hd & Hw).
      rewrite count_digits_app, IH, Hs.
      destruct ds as [|d ds]; [congruence|]. simpl in Hs. inversion Hs. subst c s.
      rewrite !length_app. cbn [length].
      replace (S (length ds) + (2 + length rest) - length rest - 1)%nat
        with (length (ds ++ [a; b])) by (rewrite length_app; simpl; lia).
      replace (ds ++ a :: b :: rest) with ((ds ++ [a; b]) ++ rest)
        by (now rewrite <- List.app_assoc).
      rewrite List.skipn_app, List.skipn_all, Nat.sub_diag.
      change ([] ++ List.skipn 0 rest) with rest.
      change ((d :: ds) ++ [a; b] ++ rest) with ((d :: ds) ++ ([a; b] ++ rest)).
      rewrite !count_digits_app, (wordy_no_digit [a; b] Hw). lia.
    + change (count_digits (c :: sub_from ordinal_suffix 0 s))
        with (count_digits ([c] ++ sub_from ordinal_suffix 0 s)).
      change (count_digits (c :: s)) with (count_digits ([c] ++ s)).
      rewrite !count_digits_app, IH. reflexivity.
Qed.

(** Cleaning keeps the digits. *)
Lemma count_cleaned (s : string) :
  count_digits (chars (cleaned_start_date_str s)) = count_digits (chars s).
Proof.
  unfold cleaned_start_date_str, chars at 1, str.
  rewrite list_ascii_of_string_of_list_ascii, count_strip.
  unfold Re.sub. rewrite count_sub_from. cbn [List.skipn]. apply count_remove_commas.
Qed.

(** Cleaning keeps a first character that is part of a word. *)
Lemma head_cleaned (s : string) (c : ascii) (r : list ascii) :
  chars s = c :: r -> caseless c = false ->
  exists r', chars (cleaned_start_date_str s) = c :: r'.
Proof.
  intros Hs Hc. unfold cleaned_start_date_str, chars at 1, str.
  rewrite list_ascii_of_string_of_list_ascii, Hs.
  unfold caseless in Hc. apply orb_false_elim in Hc as [Hc Hdash].
  apply orb_false_elim in Hc as [Hc Hcomma]. apply orb_false_elim in Hc as [Hd Hsp].
  unfold remove_commas. cbn [List.filter]. rewrite Hcomma. cbn [negb].
  unfold Re.sub. cbn [sub_from].
  assert (rmatch ordinal_suffix
            (c :: List.filter (fun c0 => negb (Ascii.eqb c0 ",")) r) = None) as E.
  { apply rmatch_none. unfold ordinal_suffix, seq, plus. now rewrite Hd. }
  rewrite E. unfold strip. cbn [lstrip]. rewrite Hsp. cbn [rstrip].
  destruct (rstrip _); [rewrite Hsp|]; eauto.
Qed.

Lemma rstrip_last (l : list ascii) (z : ascii) :
  is_space z = false -> rstrip (l ++ [z]) = l ++ [z].
Proof.
  intros Hz. induction l as [|c l IH]; simpl; [now rewrite Hz|].
  rewrite IH. destruct (l ++ [z]) eqn:E; [|reflexivity].
  destruct l; discriminate.
Qed.

End CleanFacts.

(** ** The two readings of a start date *)

Module Agreement.
Import Notions.
Import PyStr Re ReFacts CharFacts Datetime Spec DurationFacts FormatFacts CleanFacts.

Lemma compile_formats :
  compile false (chars "%d-%m-%Y") = Some F_dmY
  /\ compile false (chars "%d %B %Y") = Some F_dBY
  /\ compile false (chars "%B %Y") = Some F_BY
  /\ compile false (chars "%Y-%m-%d") = Some F_Ymd
  /\ compile false (chars "%B %d, %Y") = Some F_BdY.
Proof. repeat split; reflexivity. Qed.

Lemma shaped_of (s fmt : string) (ds : list directive) (dt : datetime) :
  compile false (chars fmt) = Some ds -> strptime s fmt = Ret dt ->
  shaped ds (chars s).
Proof.
  intros Hc H. apply strptime_shaped in H as (ds' & Hc' & Hs). congruence.
Qed.

(** The first character of a text that starts with a day or a year has no
    case; the first character of a month name is a letter. *)
Lemma head_of_day (ds : list directive) (l : list ascii) :
  shaped (Dir_d :: ds) l -> exists c r, l = c :: r /\ caseless c = true.
Proof.
  cbn [shaped]. intros (p & q & -> & Hp & _). cbn [piece] in Hp.
  destruct p as [|x [|y [|z p]]]; try discriminate; cbn [app].
  - exists x, q. split; [reflexivity|]. unfold caseless. now rewrite Hp.
  - exists x, (y :: q). split; [reflexivity|]. apply andb_prop in Hp as [Hx _].
    unfold caseless. apply orb_prop in Hx as [Hx|Hx]; [now rewrite Hx|].
    apply Ascii.eqb_eq in Hx. now subst.
Qed.

Lemma head_of_year (ds : list directive) (l : list ascii) :
  shaped (Dir_Y :: ds) l -> exists c r, l = c :: r /\ caseless c = true.
Proof.
  cbn [shaped]. intros (p & q & -> & Hp & _). cbn [piece] in Hp.
  destruct p as [|a [|b [|c [|d [|e p]]]]]; try discriminate; cbn [app].
  exists a, (b :: c :: d :: q). split; [reflexivity|].
  do 3 (apply andb_prop in Hp as [Hp ?]). unfold caseless. now rewrite Hp.
Qed.

Lemma head_of_month (ds : list directive) (l : list ascii) :
  shaped (Dir_B :: ds) l -> exists c r, l = c :: r /\ caseless c = false.
Proof.
  cbn [shaped]. intros (p & q & -> & Hp & _). apply month_piece in Hp as [Hw Hne].
  destruct p as [|c p]; [congruence|]. exists c, (p ++ q). split; [reflexivity|].
  unfold wordy in Hw. simpl in Hw. apply andb_prop in Hw as [Hc _].
  now apply negb_true_iff in Hc.
Qed.

(** The digits a directive consumes. *)
Lemma count_piece (d : directive) (p : list ascii) :
  piece d p = true ->
  match d with
  | Dir_d | Dir_m => (1 <= count_digits p <= 2)%nat
  | Dir_Y => count_digits p = 4%nat
  | Dir_B | Blanks => count_digits p = 0%nat
  | Chr c => is_digit c = false -> count_digits p = 0%nat
  end.
Proof.
  destruct d; cbn [piece]; intros H.
  - destruct p as [|x [|y [|z p]]]; try discriminate; unfold count_digits; simpl.
    + rewrite H. simpl. lia.
    + apply andb_prop in H as [_ Hy]. rewrite Hy. destruct (is_digit x); simpl; lia.
  - destruct p as [|x [|y [|z p]]]; try discriminate; unfold count_digits; simpl.
    + rewrite H. simpl. lia.
    + apply andb_prop in H as [Hx Hy]. rewrite Hx, Hy. simpl. lia.
  - destruct p as [|a [|b [|c [|d [|e p]]]]]; try discriminate.
    do 3 (apply andb_prop in H as [H ?]). unfold count_digits. simpl.
    repeat match goal with E : is_digit _ = true |- _ => rewrite E; clear E end.
    reflexivity.
  - apply wordy_no_digit. now apply (month_piece p).
  - apply andb_prop in H as [H _]. apply count_digits_none. now apply spaces_no_digit.
  - intros Hc. destruct p as [|x [|y p]]; try discriminate.
    unfold count_digits. simpl. destruct (is_digit x) eqn:E; [|reflexivity].
    rewrite (ieq_digit x c H E) in E.
    assert (lower c = c) as Hl.
    { pose proof (ascii_forall
                    (fun c => implb (is_digit (lower c)) (Ascii.eqb (lower c) c))
                    ltac:(vm_compute; reflexivity) c) as Hc'.
      cbv beta in Hc'. rewrite E in Hc'. now apply Ascii.eqb_eq in Hc'. }
    congruence.
Qed.

Lemma count_BY (l : list ascii) : shaped F_BY l -> count_digits l = 4%nat.
Proof.
  unfold F_BY. cbn [shaped].
  intros (p1 & q1 & -> & H1 & p2 & q2 & -> & H2 & p3 & q3 & -> & H3 & ->).
  apply count_piece in H1, H2, H3. rewrite !count_digits_app, H1, H2, H3.
  reflexivity.
Qed.

Lemma count_BdY (l : list ascii) : shaped F_BdY l -> (5 <= count_digits l <= 6)%nat.
Proof.
  unfold F_BdY. cbn [shaped].
  intros (p1 & q1 & -> & H1 & p2 & q2 & -> & H2 & p3 & q3 & -> & H3
          & p4 & q4 & -> & H4 & p5 & q5 & -> & H5 & p6 & q6 & -> & H6 & ->).
  apply count_piece in H1, H2, H3, H4, H5, H6.
  specialize (H4 eq_refl).
  rewrite !count_digits_app, H1, H2, H4, H5, H6.
  change (count_digits []) with 0%nat. lia.
Qed.

Ltac use_digits :=
  repeat match goal with
  | E : is_digit ?x = true |- _ => rewrite E; clear E
  | E : ieq ?x "-" = true |- _ => apply ieq_dash in E; subst x
  | E : Ascii.eqb ?x " " = true |- _ => apply Ascii.eqb_eq in E; subst x
  end.

Lemma ymd_shape (l : list ascii) : shaped F_Ymd l -> ymd_like l = true.
Proof.
  unfold F_Ymd. cbn [shaped].
  intros (p1 & q1 & -> & H1 & p2 & q2 & -> & H2 & p3 & q3 & -> & H3
          & p4 & q4 & -> & H4 & p5 & q5 & -> & H5 & ->).
  cbn [piece] in *.
  destruct p1 as [|a [|b [|c [|d [|e p1]]]]]; try discriminate.
  do 3 (apply andb_prop in H1 as [H1 ?]).
  destruct p2 as [|x2 [|? ?]]; try discriminate.
  destruct p4 as [|x4 [|? ?]]; try discriminate.
  destruct p3 as [|m1 [|m2 [|? ?]]]; try discriminate;
    destruct p5 as [|d1 [|d2 [|? ?]]]; try discriminate;
    repeat match goal with
    | E : _ && _ = true |- _ => apply andb_prop in E as [? ?]
    end;
    try match goal with
    | E : _ || _ = true |- _ => apply orb_prop in E as [E|E]
    end;
    unfold ymd_like, digit_at, plain; cbn [app nth_error List.forallb List.last];
    use_digits; reflexivity.
Qed.

Lemma ymd_like_inv (l : list ascii) :
  ymd_like l = true ->
  List.forallb plain l = true
  /\ (exists a b c r, l = a :: b :: c :: r
        /\ is_digit a = true /\ is_digit b = true /\ is_digit c = true)
  /\ (exists front z, l = front ++ [z] /\ is_digit z = true).
Proof.
  unfold ymd_like. intros H. do 4 (apply andb_prop in H as [H ?]).
  split; [assumption|]. split.
  - destruct l as [|a [|b [|c r]]]; try discriminate. exists a, b, c, r. auto.
  - destruct l as [|a l]; [discriminate|].
    exists (List.removelast (a :: l)), (List.last (a :: l) " "%char).
    split; [|assumption]. apply List.app_removelast_last. discriminate.
Qed.

(** A text in the form [YYYY-MM-DD] is left as it is by the cleaning. *)
Lemma plain_not_ordinal (suf : list ascii) :
  List.forallb plain suf = true -> VerifyEndDate.ordinal_suffix suf = [].
Proof.
  intros H. destruct (VerifyEndDate.ordinal_suffix suf) as [|[ds r] t] eqn:E;
    [reflexivity|].
  exfalso.
  assert (In (ds, r) (VerifyEndDate.ordinal_suffix suf)) as Hin by (rewrite E; now left).
  apply in_ordinal_suffix in Hin as (a & b & -> & _ & _ & Hw).
  rewrite List.forallb_app in H. apply andb_prop in H as [_ H].
  simpl in H. apply andb_prop in H as [Ha _].
  unfold wordy in Hw. simpl in Hw. apply andb_prop in Hw as [Hw _].
  apply negb_true_iff in Hw. unfold plain in Ha. unfold caseless in Hw.
  destruct (is_digit a); [discriminate|]. simpl in *.
  destruct (Ascii.eqb a "-") eqn:E1.
  { rewrite orb_true_r in Hw. discriminate. }
  simpl in Ha. apply Ascii.eqb_eq in Ha. subst a. discriminate.
Qed.

Lemma cleaned_ymd (s : string) :
  ymd_like (chars s) = true -> VerifyEndDate.cleaned_start_date_str s = s.
Proof.
  intros H. apply ymd_like_inv in H as (Hp & (a & b & c & r & Hl & Ha & _) & (front & z & Hf & Hz)).
  unfold VerifyEndDate.cleaned_start_date_str.
  rewrite remove_commas_id.
  2:{ rewrite List.forallb_forall in *. intros x Hx. specialize (Hp x Hx).
      destruct (Ascii.eqb x ",") eqn:E; [|reflexivity].
      apply Ascii.eqb_eq in E. subst. discriminate. }
  rewrite sub_id.
  2:{ intros pre suf Hs. apply plain_not_ordinal. rewrite Hs in Hp.
      rewrite List.forallb_app in Hp. now apply andb_prop in Hp as [_ Hp]. }
  unfold strip. rewrite Hl. cbn [lstrip]. rewrite (digit_not_space a Ha).
  rewrite <- Hl, Hf, rstrip_last by now apply digit_not_space.
  rewrite <- Hf. unfold str, chars. apply string_of_list_ascii_of_string.
Qed.

(** Such a text is in none of the other forms. *)
Lemma ymd_not_dmY (l : list ascii) : ymd_like l = true -> ~ shaped F_dmY l.
Proof.
  intros H. apply ymd_like_inv in H as (_ & (a & b & c & r & -> & Ha & Hb & Hc) & _).
  unfold F_dmY. cbn [shaped].
  intros (p1 & q1 & E & H1 & p2 & q2 & -> & H2 & _).
  cbn [piece] in *.
  destruct p2 as [|x [|? ?]]; try discriminate. apply ieq_dash in H2. subst x.
  destruct p1 as [|x1 [|y1 [|? ?]]]; try discriminate; simpl in E; inversion E; subst;
    discriminate.
Qed.

Lemma ymd_not_dBY (l : list ascii) : ymd_like l = true -> ~ shaped F_dBY l.
Proof.
  intros H. apply ymd_like_inv in H as (_ & (a & b & c & r & -> & Ha & Hb & Hc) & _).
  unfold F_dBY. cbn [shaped].
  intros (p1 & q1 & E & H1 & p2 & q2 & -> & H2 & _).
  cbn [piece] in *. apply andb_prop in H2 as [H2 Hne].
  destruct p2 as [|w p2]; [discriminate|]. simpl in H2. apply andb_prop in H2 as [Hw _].
  destruct p1 as [|x1 [|y1 [|? ?]]]; try discriminate; simpl in E; inversion E; subst.
  - apply digit_not_space in Hb. congruence.
  - apply digit_not_space in Hc. congruence.
Qed.

Lemma ymd_not_month (ds : list directive) (l : list ascii) :
  ymd_like l = true -> ~ shaped (Dir_B :: ds) l.
Proof.
  intros H Hs. apply ymd_like_inv in H as (_ & (a & b & c & r & -> & Ha & _) & _).
  apply head_of_month in Hs as (x & r' & E & Hx). inversion E. subst.
  unfold caseless in Hx. rewrite Ha in Hx. discriminate.
Qed.

End Agreement.

(** ** Reading a start date *)

Module ParseFacts.
Import Notions.
Import PyStr Re ReFacts CharFacts Datetime Duration Spec DurationFacts FormatFacts
  CleanFacts Agreement.

Lemma try_formats_step (s fmt : string) (rest : list string) :
  VerifyEndDate.try_formats s (fmt :: rest) =
  match strptime s fmt with
  | Ret dt =>
      Ret (Some (if VerifyEndDate.has_day_directive (chars fmt) then dt
                 else {| year := year dt; month := month dt; day := 1 |}))
  | Raise _ => VerifyEndDate.try_formats s rest
  end.
Proof.
  cbn [VerifyEndDate.try_formats].
  destruct (strptime_cases s fmt) as [(dt & E & Hw)|E]; rewrite E.
  - change (Ret dt ≫= (fun dt => if VerifyEndDate.has_day_directive (chars fmt)
                                 then Ret dt else replace_day dt 1))
      with (if VerifyEndDate.has_day_directive (chars fmt)
            then Ret dt else replace_day dt 1).
    destruct (VerifyEndDate.has_day_directive (chars fmt)); [reflexivity|].
    now rewrite replace_day_first.
  - reflexivity.
Qed.

(** The formats of [verify_end_date_calculation.py], tried in their order on
    the cleaned text. *)
Lemma verify_parse_cascade (s : string) :
  VerifyEndDate.parse_start_date s =
  (let c := VerifyEndDate.cleaned_start_date_str s in
   match strptime c "%d-%m-%Y" with
   | Ret dt => Ret (Some dt)
   | Raise _ =>
       match strptime c "%d %B %Y" with
       | Ret dt => Ret (Some dt)
       | Raise _ =>
           match strptime c "%B %Y" with
           | Ret dt => Ret (Some {| year := year dt; month := month dt; day := 1 |})
           | Raise _ =>
               match strptime c "%Y-%m-%d" with
               | Ret dt => Ret (Some dt)
               | Raise _ => Ret None
               end
           end
       end
   end).
Proof.
  unfold VerifyEndDate.parse_start_date, VerifyEndDate.date_formats. cbv zeta.
  rewrite !try_formats_step. reflexivity.
Qed.

(** The formats of [process_contracts.py], tried in their order on the text as
    it is. *)
Lemma process_parse_cascade (s : string) :
  ProcessContracts.parse_start_date s =
  match strptime s "%B %d, %Y" with
  | Ret dt => Ret (Some dt)
  | Raise _ =>
      match strptime s "%Y-%m-%d" with
      | Ret dt => Ret (Some dt)
      | Raise _ => Ret None
      end
  end.
Proof.
  unfold ProcessContracts.parse_start_date.
  destruct (strptime_cases s "%B %d, %Y") as [(dt & E & _)|E]; rewrite E;
    [reflexivity|].
  destruct (strptime_cases s "%Y-%m-%d") as [(dt & E' & _)|E']; rewrite E';
    reflexivity.
Qed.

Lemma verify_parse_total (s : string) :
  exists o, VerifyEndDate.parse_start_date s = Ret o
            /\ forall dt, o = Some dt -> well_formed dt.
Proof.
  rewrite verify_parse_cascade. cbv zeta.
  set (c := VerifyEndDate.cleaned_start_date_str s).
  destruct (strptime_cases c "%d-%m-%Y") as [(dt & E & Hw)|E]; rewrite E.
  { eexists. split; [reflexivity|]. now intros ? [= <-]. }
  destruct (strptime_cases c "%d %B %Y") as [(dt & E2 & Hw)|E2]; rewrite E2.
  { eexists. split; [reflexivity|]. now intros ? [= <-]. }
  destruct (strptime_cases c "%B %Y") as [(dt & E3 & Hw)|E3]; rewrite E3.
  { eexists. split; [reflexivity|]. intros ? [= <-].
    destruct Hw as (Hy & Hm & Hd). repeat split; simpl; lia. }
  destruct (strptime_cases c "%Y-%m-%d") as [(dt & E4 & Hw)|E4]; rewrite E4.
  { eexists. split; [reflexivity|]. now intros ? [= <-]. }
  eexists. split; [reflexivity|]. discriminate.
Qed.

Lemma process_parse_total (s : string) :
  exists o, ProcessContracts.parse_start_date s = Ret o
            /\ forall dt, o = Some dt -> well_formed dt.
Proof.
  rewrite process_parse_cascade.
  destruct (strptime_cases s "%B %d, %Y") as [(dt & E & Hw)|E]; rewrite E.
  { eexists. split; [reflexivity|]. now intros ? [= <-]. }
  destruct (strptime_cases s "%Y-%m-%d") as [(dt & E2 & Hw)|E2]; rewrite E2.
  { eexists. split; [reflexivity|]. now intros ? [= <-]. }
  eexists. split; [reflexivity|]. discriminate.
Qed.

Lemma strptime_fails (s fmt : string) (ds : list directive) :
  compile false (chars fmt) = Some ds -> ~ shaped ds (chars s) ->
  strptime s fmt = Raise ValueError.
Proof.
  intros Hc Hn. destruct (strptime_cases s fmt) as [(dt & E & _)|E]; [|exact E].
  exfalso. apply Hn. eapply shaped_of; eauto.
Qed.

(** A start date both files read is read as the same date. *)
Lemma parse_agree (s : string) (a b : datetime) :
  ProcessContracts.parse_start_date s = Ret (Some a) ->
  VerifyEndDate.parse_start_date s = Ret (Some b) ->
  a = b.
Proof.
  destruct compile_formats as (C1 & C2 & C3 & C4 & C5).
  rewrite process_parse_cascade, verify_parse_cascade. cbv zeta.
  destruct (strptime s "%B %d, %Y") as [dt|e] eqn:E1.
  - (* read as [Month D, YYYY]: the other file reads nothing *)
    intros _. pose proof (shaped_of _ _ _ _ C5 E1) as Hs.
    destruct (head_of_month _ _ Hs) as (c & r & Hc & Hcase).
    destruct (head_cleaned s c r Hc Hcase) as (r' & Hc').
    pose proof (count_BdY _ Hs) as Hn. rewrite <- count_cleaned in Hn.
    set (t := VerifyEndDate.cleaned_start_date_str s) in *.
    rewrite (strptime_fails t _ _ C1).
    2:{ intros H. apply head_of_day in H as (x & ? & Hx & Hx'). congruence. }
    rewrite (strptime_fails t _ _ C2).
    2:{ intros H. apply head_of_day in H as (x & ? & Hx & Hx'). congruence. }
    rewrite (strptime_fails t _ _ C3).
    2:{ intros H. apply count_BY in H. lia. }
    rewrite (strptime_fails t _ _ C4).
    2:{ intros H. apply head_of_year in H as (x & ? & Hx & Hx'). congruence. }
    discriminate.
  - destruct (strptime s "%Y-%m-%d") as [dt|e'] eqn:E2; [|discriminate].
    intros [= <-]. pose proof (shaped_of _ _ _ _ C4 E2) as Hs.
    apply ymd_shape in Hs. rewrite (cleaned_ymd s Hs).
    rewrite (strptime_fails s _ _ C1) by now apply ymd_not_dmY.
    rewrite (strptime_fails s _ _ C2) by now apply ymd_not_dBY.
    rewrite (strptime_fails s _ _ C3) by now apply ymd_not_month.
    rewrite E2. now intros [= <-].
Qed.

End ParseFacts.

(** ** Deriving an end date *)

Module DeriveFacts.
Import Notions.
Import PyStr Re ReFacts CharFacts Datetime Duration Spec DurationFacts FormatFacts
  ParseFacts.

Lemma verify_derive (s d : string) (start : datetime) :
  VerifyEndDate.parse_start_date s = Ret (Some start) ->
  VerifyEndDate.derive s d =
  branch VerifyEndDate.add_months start (search duration_pattern (chars d)).
Proof.
  intros H. unfold VerifyEndDate.derive. rewrite H.
  cbn [mbind result_bind]. unfold branch.
  destruct (search duration_pattern (chars d)) as [[[v u] r]|] eqn:E; [|reflexivity].
  apply search_in in E as (pre & suf & _ & Hin).
  apply duration_read in Hin as [[Hu|Hu] _]; cbn [fst snd]; rewrite Hu; reflexivity.
Qed.

Lemma process_derive (s d : string) (start : datetime) :
  ProcessContracts.parse_start_date s = Ret (Some start) ->
  ProcessContracts.derive s d =
  branch ProcessContracts.add_months start (rmatch duration_pattern (chars d)).
Proof.
  intros H. unfold ProcessContracts.derive. rewrite H.
  cbn [mbind result_bind]. unfold branch.
  destruct (rmatch duration_pattern (chars d)) as [[[v u] r]|] eqn:E; [|reflexivity].
  apply rmatch_in in E.
  apply duration_read in E as [[Hu|Hu] _]; cbn [fst snd]; rewrite Hu; reflexivity.
Qed.

Lemma verify_derive_unread (s d : string) :
  VerifyEndDate.parse_start_date s = Ret None ->
  VerifyEndDate.derive s d = Ret (Sentinel "Invalid Start Date Format").
Proof. intros H. unfold VerifyEndDate.derive. now rewrite H. Qed.

Lemma process_derive_unread (s d : string) :
  ProcessContracts.parse_start_date s = Ret None ->
  ProcessContracts.derive s d = Ret (Sentinel "Invalid Start Date Format").
Proof. intros H. unfold ProcessContracts.derive. now rewrite H. Qed.

Lemma dated_inv (r : result datetime) (x : derived) :
  dated r = Ret x -> exists dt, r = Ret dt /\ x = EndDate dt.
Proof. destruct r as [dt|e]; [|discriminate]. intros [= <-]. eauto. Qed.

Lemma add_days_inv (start : datetime) (n : Z) (x : derived) :
  add_days start n = Ret x -> exists dt, x = EndDate dt.
Proof.
  unfold add_days. destruct (timedelta n) as [delta|e]; [|discriminate].
  cbn [mbind result_bind]. destruct (add start delta) as [dt|e]; [|discriminate].
  intros [= <-]. eauto.
Qed.

(** [int] returns the number the digits stand for, or refuses the text for
    its length. *)
Lemma int_inv (v : list ascii) (n : Z) :
  int v = Ret n -> n = py_int v /\ (length (strip v) <= 4300)%nat.
Proof.
  unfold int, MAX_STR_DIGITS. destruct (_ <? _)%nat eqn:E; [discriminate|].
  apply Nat.ltb_ge in E. intros [= <-]. auto.
Qed.

Lemma int_raise (v : list ascii) (e : exn) :
  int v = Raise e -> e = ValueError /\ (4300 < length (strip v))%nat.
Proof.
  unfold int, MAX_STR_DIGITS. destruct (_ <? _)%nat eqn:E; [|discriminate].
  apply Nat.ltb_lt in E. intros [= <-]. auto.
Qed.

Lemma int_long (v : list ascii) :
  List.forallb is_digit v = true -> (4300 < length v)%nat -> int v = Raise ValueError.
Proof.
  intros Hd Hl. unfold int, MAX_STR_DIGITS.
  rewrite strip_id by now apply digits_no_space.
  now replace (4300 <? length v)%nat with true by (symmetry; now apply Nat.ltb_lt).
Qed.

(** A branch, once the magnitude is converted. *)
Lemma branch_counts (add_months : datetime -> Z -> result datetime)
    (start : datetime) (v u r : list ascii) (n : Z) :
  int v = Ret n ->
  branch add_months start (Some ((v, u), r))
  = if String.eqb (str (List.map lower u)) "day"
    then add_days start n else dated (add_months start n).
Proof. intros H. unfold branch. cbn [fst snd]. now rewrite H. Qed.

(** A branch whose magnitude [int] refuses raises [ValueError]. *)
Lemma branch_long (add_months : datetime -> Z -> result datetime)
    (start : datetime) (v u r : list ascii) :
  List.forallb is_digit v = true -> (4300 < length v)%nat ->
  branch add_months start (Some ((v, u), r)) = Raise ValueError.
Proof. intros Hd Hl. unfold branch. cbn [fst snd]. now rewrite int_long. Qed.

(** A branch reports a message only when no duration is read. *)
Lemma branch_sentinel (add_months : datetime -> Z -> result datetime)
    (start : datetime) (m : option ((list ascii * list ascii) * list ascii))
    (msg : string) :
  branch add_months start m = Ret (Sentinel msg) ->
  m = None /\ msg = "Invalid Duration Format".
Proof.
  unfold branch. destruct m as [[g r]|]; [|now intros [= <-]].
  destruct (int (fst g)) as [value|e]; [|discriminate]. cbn [mbind result_bind].
  destruct (String.eqb _ _); intros H.
  - apply add_days_inv in H as (dt & H). discriminate.
  - apply dated_inv in H as (dt & _ & H). discriminate.
Qed.

(** *** Writing a date out *)

Lemma digits_of_head (fuel : nat) (n : Z) (acc : list ascii) :
  (fuel <> 0%nat \/ exists c r, acc = c :: r /\ is_digit c = true) ->
  exists c r, digits_of fuel n acc = c :: r /\ is_digit c = true.
Proof.
  revert n acc. induction fuel as [|fuel IH]; intros n acc H.
  - destruct H as [H|H]; [congruence|exact H].
  - cbn [digits_of].
    assert (is_digit (ascii_of_nat (Z.to_nat (48 + n mod 10))) = true) as Hd.
    { pose proof (Z.mod_pos_bound n 10 ltac:(lia)) as Hb.
      assert (n mod 10 = 0 \/ n mod 10 = 1 \/ n mod 10 = 2 \/ n mod 10 = 3
              \/ n mod 10 = 4 \/ n mod 10 = 5 \/ n mod 10 = 6 \/ n mod 10 = 7
              \/ n mod 10 = 8 \/ n mod 10 = 9) as Hc by lia.
      repeat destruct Hc as [Hc|Hc]; rewrite Hc; reflexivity. }
    destruct (n / 10 =? 0); [eauto|]. apply IH. right. eauto.
Qed.

Lemma zero_pad_head (width : nat) (n : Z) :
  exists c r, zero_pad width n = c :: r /\ is_digit c = true.
Proof.
  unfold zero_pad.
  destruct (digits_of_head 20 n [] ltac:(left; discriminate)) as (c & r & E & Hc).
  rewrite E. destruct (width - length (c :: r))%nat; simpl; eauto.
Qed.

Lemma strftime_head (dt : datetime) (fmt : string) :
  fmt = "%d-%m-%Y" \/ fmt = "%Y-%m-%d" ->
  exists c r, strftime dt fmt = String c r /\ is_digit c = true.
Proof.
  intros [-> | ->]; unfold strftime, chars;
    cbn [list_ascii_of_string render Ascii.eqb Bool.eqb].
  - destruct (zero_pad_head 2 (day dt)) as (c & r & E & Hc). rewrite E.
    unfold str. cbn [app string_of_list_ascii]. eauto.
  - destruct (digits_of_head 20 (year dt) [] ltac:(left; discriminate))
      as (c & r & E & Hc).
    rewrite E. unfold str. cbn [app string_of_list_ascii]. eauto.
Qed.

(** A date written out is none of the messages. *)
Lemma strftime_not_sentinel (dt : datetime) (fmt : string) :
  fmt = "%d-%m-%Y" \/ fmt = "%Y-%m-%d" -> ~ is_sentinel (strftime dt fmt).
Proof.
  intros Hf. destruct (strftime_head dt fmt Hf) as (c & r & E & Hc).
  rewrite E. intros [H|[H|H]]; inversion H; subst; discriminate.
Qed.

End DeriveFacts.

(** ** The claims on date derivation *)

Import PyStr Datetime Duration Spec.

(** C1, as amended.  For a start date that is read and a duration of [n]
    months whose magnitude [int] converts, the end date is
    [plus_months start n]: [n] added to the count of months, the years carried,
    the day set to the lesser of the start's day and the number of days of the
    target month.  This holds while the year of the target is 9999 at most (of
    a target in December 9999 nothing is said for
    [verify_end_date_calculation.py]); past it the call raises instead of
    returning, [ValueError] or, for a year that is no C [int],
    [OverflowError].  In particular 31 January 2020 plus one month is
    29 February 2020. *)
Theorem C1_month_end_clamped (s d : string) (start : datetime) (n : Z) :
  (VerifyEndDate.parse_start_date s = Ret (Some start) ->
   counts (Re.search duration_pattern (chars d)) "month" n ->
   let t := plus_months start n in
   (year t <= 9999 -> ~ (year t = 9999 /\ month t = 12) ->
    VerifyEndDate.calculate_end_date s d = Ret (strftime t "%d-%m-%Y"))
   /\ (9999 < year t ->
       VerifyEndDate.calculate_end_date s d
       = Raise (Notions.year_error (Notions.next_year t))))
  /\ (ProcessContracts.parse_start_date s = Ret (Some start) ->
      counts (Re.rmatch duration_pattern (chars d)) "month" n ->
      let t := plus_months start n in
      (year t <= 9999 ->
       ProcessContracts.calculate_end_date s d = Ret (strftime t "%Y-%m-%d"))
      /\ (9999 < year t ->
          ProcessContracts.calculate_end_date s d
          = Raise (Notions.year_error (year t))))
  /\ VerifyEndDate.calculate_end_date "31 January 2020" "1 month" = Ret "29-02-2020"
  /\ ProcessContracts.calculate_end_date "January 31, 2020" "1 month"
     = Ret "2020-02-29".
Proof.
  split; [|split; [|split; vm_compute; reflexivity]].
  - intros Hp (v & u & r & Hm & Hu & Hi). cbv zeta.
    destruct (ParseFacts.verify_parse_total s) as (o & Ho & Hw).
    assert (well_formed start) as Hwf by (apply Hw; congruence).
    assert (0 <= n) as Hn0.
    { apply DeriveFacts.int_inv in Hi as [-> _].
      apply ReFacts.search_in in Hm as (pre & suf & _ & Hin).
      now apply DurationFacts.duration_read in Hin as [_ H]. }
    unfold VerifyEndDate.calculate_end_date.
    rewrite (DeriveFacts.verify_derive s d start Hp), Hm,
      (DeriveFacts.branch_counts _ _ _ _ _ _ Hi), Hu.
    change (String.eqb "month" "day") with false. cbv iota.
    rewrite (Months.verify_add_months start n Hwf Hn0). cbv zeta.
    split.
    + intros Hy Hdec.
      replace (year (plus_months start n) <=? 9999) with true
        by (symmetry; now apply Z.leb_le).
      destruct (year (plus_months start n) =? 9999) eqn:E1;
        destruct (month (plus_months start n) =? 12) eqn:E2;
        try reflexivity.
      apply Z.eqb_eq in E1, E2. tauto.
    + intros Hy.
      replace (year (plus_months start n) <=? 9999) with false
        by (symmetry; now apply Z.leb_gt).
      reflexivity.
  - intros Hp (v & u & r & Hm & Hu & Hi). cbv zeta.
    destruct (ParseFacts.process_parse_total s) as (o & Ho & Hw).
    assert (well_formed start) as Hwf by (apply Hw; congruence).
    assert (0 <= n) as Hn0.
    { apply DeriveFacts.int_inv in Hi as [-> _].
      apply ReFacts.rmatch_in in Hm.
      now apply DurationFacts.duration_read in Hm as [_ H]. }
    unfold ProcessContracts.calculate_end_date.
    rewrite (DeriveFacts.process_derive s d start Hp), Hm,
      (DeriveFacts.branch_counts _ _ _ _ _ _ Hi), Hu.
    change (String.eqb "month" "day") with false. cbv iota.
    rewrite (Months.process_add_months start n Hwf Hn0). cbv zeta.
    split.
    + intros Hy.
      replace (year (plus_months start n) <=? 9999) with true
        by (symmetry; now apply Z.leb_le).
      reflexivity.
    + intros Hy.
      replace (year (plus_months start n) <=? 9999) with false
        by (symmetry; now apply Z.leb_gt).
      reflexivity.
Qed.

Lemma C1_month_end_clamped_witness :
  VerifyEndDate.calculate_end_date "2020-01-31" "13 Months" = Ret "28-02-2021"
  /\ ProcessContracts.calculate_end_date "2020-01-31" "13 Months" = Ret "2021-02-28".
Proof.
  destruct (C1_month_end_clamped "2020-01-31" "13 Months"
              {| year := 2020; month := 1; day := 31 |} 13) as (HV & HP & _).
  split.
  - destruct HV as [H _]; [vm_compute; reflexivity| |].
    + exists (chars "13"), (chars "Month"), []. vm_compute. repeat split; reflexivity.
    + rewrite H; [vm_compute; reflexivity|vm_compute; discriminate|].
      vm_compute. intros [H1 _]. discriminate H1.
  - destruct HP as [H _]; [vm_compute; reflexivity| |].
    + exists (chars "13"), (chars "Month"), []. vm_compute. repeat split; reflexivity.
    + rewrite H; [vm_compute; reflexivity|vm_compute; discriminate].
Defined.

(** C1 fails as stated: a start date that is read and a duration of N months
    need not yield a date (the call raises once the target leaves the years
    the library holds), and [process_contracts.py] does not read
    "31 January 2020". *)
Lemma C1_counterexample :
  VerifyEndDate.parse_start_date "2020-01-31"
    = Ret (Some {| year := 2020; month := 1; day := 31 |})
  /\ ProcessContracts.parse_start_date "2020-01-31"
     = Ret (Some {| year := 2020; month := 1; day := 31 |})
  /\ VerifyEndDate.calculate_end_date "2020-01-31" "120000 months" = Raise ValueError
  /\ ProcessContracts.calculate_end_date "2020-01-31" "120000 months"
     = Raise ValueError
  /\ ProcessContracts.calculate_end_date "31 January 2020" "1 month"
     = Ret "Invalid Start Date Format".
Proof. repeat split; vm_compute; reflexivity. Qed.

Lemma calculate_of_derive_verify (s d : string) :
  VerifyEndDate.calculate_end_date s d =
  match VerifyEndDate.derive s d with
  | Ret r => Ret (written "%d-%m-%Y" r)
  | Raise e => Raise e
  end.
Proof.
  unfold VerifyEndDate.calculate_end_date.
  destruct (VerifyEndDate.derive s d); reflexivity.
Qed.

Lemma calculate_of_derive_process (s d : string) :
  ProcessContracts.calculate_end_date s d =
  match ProcessContracts.derive s d with
  | Ret r => Ret (written "%Y-%m-%d" r)
  | Raise e => Raise e
  end.
Proof.
  unfold ProcessContracts.calculate_end_date.
  destruct (ProcessContracts.derive s d); reflexivity.
Qed.

(** What a call returns once the start date is read: the message for a
    duration that does not read, a date otherwise. *)
Lemma branch_written (add_months : datetime -> Z -> result datetime)
    (start : datetime) (m : option ((list ascii * list ascii) * list ascii))
    (fmt : string) :
  fmt = "%d-%m-%Y" \/ fmt = "%Y-%m-%d" ->
  let out := match Notions.branch add_months start m with
             | Ret r => Ret (written fmt r)
             | Raise e => Raise e
             end in
  (out = Ret "Invalid Duration Format" <-> m = None)
  /\ out <> Ret "Invalid Duration Unit"
  /\ (forall o, out = Ret o -> ~ is_sentinel o ->
        exists dt, Notions.branch add_months start m = Ret (EndDate dt)
                   /\ o = strftime dt fmt).
Proof.
  intros Hf. cbv zeta.
  destruct (Notions.branch add_months start m) as [[dt|msg]|e] eqn:E.
  - cbn [written]. pose proof (DeriveFacts.strftime_not_sentinel dt fmt Hf) as Hs.
    split; [split|split].
    + intros [= H]. exfalso. apply Hs. right. now left.
    + intros ->. discriminate.
    + intros [= H]. apply Hs. right. now right.
    + intros o [= <-] _. eauto.
  - apply DeriveFacts.branch_sentinel in E as [-> ->]. cbn [written].
    split; [tauto|]. split; [discriminate|].
    intros o [= <-] Hn. exfalso. apply Hn. right. now left.
  - split; [split; [discriminate|]|split; [discriminate|discriminate]].
    intros ->. discriminate.
Qed.

(** C2, what the code does.  For a start date that is read, the call returns
    "Invalid Duration Format" exactly when the duration has no integer
    magnitude followed by [day] or [month] (anywhere in the text for
    [verify_end_date_calculation.py], at its start for
    [process_contracts.py]), and it does so without raising.  It never returns
    "Invalid Duration Unit", the answer both files keep in an [else] branch
    for another unit: the expression of the duration only captures [day] or
    [month], so that branch is never taken, and a magnitude with another
    unit, as in "5 years", is answered "Invalid Duration Format". *)
Theorem C2_duration_errors (s d : string) (start : datetime) :
  (VerifyEndDate.parse_start_date s = Ret (Some start) ->
   (VerifyEndDate.calculate_end_date s d = Ret "Invalid Duration Format"
    <-> ~ duration_within (chars d))
   /\ VerifyEndDate.calculate_end_date s d <> Ret "Invalid Duration Unit")
  /\ (ProcessContracts.parse_start_date s = Ret (Some start) ->
      (ProcessContracts.calculate_end_date s d = Ret "Invalid Duration Format"
       <-> ~ duration_at_start (chars d))
      /\ ProcessContracts.calculate_end_date s d <> Ret "Invalid Duration Unit")
  /\ VerifyEndDate.calculate_end_date "2020-01-01" "5 years"
     = Ret "Invalid Duration Format"
  /\ ProcessContracts.calculate_end_date "2020-01-01" "5 years"
     = Ret "Invalid Duration Format".
Proof.
  split; [|split; [|split; vm_compute; reflexivity]].
  - intros Hp. rewrite calculate_of_derive_verify,
      (DeriveFacts.verify_derive s d start Hp).
    destruct (branch_written VerifyEndDate.add_months start
                (Re.search duration_pattern (chars d)) "%d-%m-%Y"
                ltac:(now left)) as (H1 & H2 & _).
    split; [|exact H2]. rewrite H1. apply DurationFacts.search_duration_none.
  - intros Hp. rewrite calculate_of_derive_process,
      (DeriveFacts.process_derive s d start Hp).
    destruct (branch_written ProcessContracts.add_months start
                (Re.rmatch duration_pattern (chars d)) "%Y-%m-%d"
                ltac:(now right)) as (H1 & H2 & _).
    split; [|exact H2]. rewrite H1. apply DurationFacts.rmatch_duration_none.
Qed.

Lemma C2_duration_errors_witness :
  VerifyEndDate.calculate_end_date "2020-01-01" "three months"
    = Ret "Invalid Duration Format"
  /\ ProcessContracts.calculate_end_date "2020-01-01" "about 3 months"
     = Ret "Invalid Duration Format".
Proof.
  split.
  - destruct (C2_duration_errors "2020-01-01" "three months"
                {| year := 2020; month := 1; day := 1 |}) as (HV & _).
    apply HV; [vm_compute; reflexivity|].
    apply DurationFacts.search_duration_none. vm_compute. reflexivity.
  - destruct (C2_duration_errors "2020-01-01" "about 3 months"
                {| year := 2020; month := 1; day := 1 |}) as (_ & HP & _).
    apply HP; [vm_compute; reflexivity|].
    apply DurationFacts.rmatch_duration_none. vm_compute. reflexivity.
Defined.

(** C10.  When both files return a date for the same two strings, both have
    derived the same date (the same year, month and day), written
    [DD-MM-YYYY] by one and [YYYY-MM-DD] by the other. *)
Theorem C10_same_end_date (s d out1 out2 : string) :
  VerifyEndDate.calculate_end_date s d = Ret out1 ->
  ProcessContracts.calculate_end_date s d = Ret out2 ->
  ~ is_sentinel out1 -> ~ is_sentinel out2 ->
  exists dt,
    VerifyEndDate.derive s d = Ret (EndDate dt)
    /\ ProcessContracts.derive s d = Ret (EndDate dt)
    /\ out1 = strftime dt "%d-%m-%Y" /\ out2 = strftime dt "%Y-%m-%d".
Proof.
  intros H1 H2 N1 N2.
  rewrite calculate_of_derive_verify in H1. rewrite calculate_of_derive_process in H2.
  destruct (ParseFacts.verify_parse_total s) as ([a|] & Ha & Hwa).
  2:{ rewrite (DeriveFacts.verify_derive_unread s d Ha) in H1. cbn [written] in H1.
      inversion H1. subst. exfalso. apply N1. now left. }
  destruct (ParseFacts.process_parse_total s) as ([b|] & Hb & Hwb).
  2:{ rewrite (DeriveFacts.process_derive_unread s d Hb) in H2. cbn [written] in H2.
      inversion H2. subst. exfalso. apply N2. now left. }
  assert (b = a) as -> by (eapply ParseFacts.parse_agree; eauto).
  rewrite (DeriveFacts.verify_derive s d a Ha) in H1.
  rewrite (DeriveFacts.process_derive s d a Hb) in H2.
  destruct (branch_written VerifyEndDate.add_months a
              (Re.search duration_pattern (chars d)) "%d-%m-%Y"
              ltac:(now left)) as (_ & _ & K1).
  destruct (branch_written ProcessContracts.add_months a
              (Re.rmatch duration_pattern (chars d)) "%Y-%m-%d"
              ltac:(now right)) as (_ & _ & K2).
  destruct (K1 out1 H1 N1) as (dt1 & E1 & ->).
  destruct (K2 out2 H2 N2) as (dt2 & E2 & ->).
  assert (dt2 = dt1) as ->.
  2:{ exists dt1.
      rewrite (DeriveFacts.verify_derive s d a Ha),
        (DeriveFacts.process_derive s d a Hb). auto. }
  destruct (Re.rmatch duration_pattern (chars d)) as [[[v u] r]|] eqn:Em;
    [|discriminate].
  rewrite (ReFacts.search_of_rmatch _ _ _ Em) in E1.
  pose proof (ReFacts.rmatch_in _ _ _ Em) as Hin.
  apply DurationFacts.duration_read in Hin as [_ Hn].
  unfold Notions.branch in E1, E2. cbn [fst snd] in E1, E2.
  destruct (int v) as [n|e] eqn:Ei; [|discriminate].
  apply DeriveFacts.int_inv in Ei as [-> _]. cbn [mbind result_bind] in E1, E2.
  destruct (String.eqb _ _).
  - congruence.
  - apply DeriveFacts.dated_inv in E1 as (x1 & E1 & [= <-]).
    apply DeriveFacts.dated_inv in E2 as (x2 & E2 & [= <-]).
    rewrite (Months.verify_add_months a _ (Hwa a eq_refl) Hn) in E1.
    rewrite (Months.process_add_months a _ (Hwa a eq_refl) Hn) in E2.
    cbv zeta in E1, E2.
    destruct (_ && _); [|discriminate]. destruct (_ <=? _); [|discriminate].
    congruence.
Qed.

Lemma C10_same_end_date_witness :
  exists dt,
    VerifyEndDate.derive "2018-10-15" "730 days" = Ret (EndDate dt)
    /\ ProcessContracts.derive "2018-10-15" "730 days" = Ret (EndDate dt)
    /\ "14-10-2020" = strftime dt "%d-%m-%Y"
    /\ "2020-10-14" = strftime dt "%Y-%m-%d".
Proof.
  apply (C10_same_end_date "2018-10-15" "730 days").
  - vm_compute. reflexivity.
  - vm_compute. reflexivity.
  - intros [H|[H|H]]; discriminate.
  - intros [H|[H|H]]; discriminate.
Defined.

(** ** The claim on start-date formats *)

Module CleanedText.
Import Notions.
Import PyStr Re ReFacts CharFacts CleanFacts VerifyEndDate.

Lemma lstrip_incl (l : list ascii) (c : ascii) : In c (lstrip l) -> In c l.
Proof.
  induction l as [|x l IH]; simpl; [tauto|].
  destruct (is_space x); [intros H; right; now apply IH|tauto].
Qed.

Lemma rstrip_incl (l : list ascii) (c : ascii) : In c (rstrip l) -> In c l.
Proof.
  induction l as [|x l IH]; simpl; [tauto|].
  destruct (rstrip l) as [|y r].
  - destruct (is_space x); simpl; tauto.
  - intros [H|H]; [now left|right; now apply IH].
Qed.

Lemma sub_from_incl (s : list ascii) (skip : nat) (c : ascii) :
  In c (sub_from ordinal_suffix skip s) -> In c s.
Proof.
  revert skip. induction s as [|x s IH]; intros skip; [simpl; tauto|].
  destruct skip as [|k]; cbn [sub_from].
  - destruct (rmatch ordinal_suffix (x :: s)) as [[ds rest]|] eqn:E.
    + apply rmatch_in, in_ordinal_suffix in E as (a & b & Hs & _).
      rewrite List.in_app_iff. intros [H|H].
      * rewrite Hs. apply List.in_or_app. now left.
      * right. eapply IH. exact H.
    + intros [H|H]; [now left|right; eapply IH; exact H].
  - intros H. right. eapply IH. exact H.
Qed.

(** The cleaned text has no comma. *)
Lemma cleaned_no_comma (s : string) :
  ~ In ","%char (chars (cleaned_start_date_str s)).
Proof.
  unfold cleaned_start_date_str, chars at 1, str.
  rewrite list_ascii_of_string_of_list_ascii. unfold strip, Re.sub. intros H.
  apply rstrip_incl, lstrip_incl, sub_from_incl in H.
  unfold remove_commas in H. apply List.filter_In in H as [_ H]. discriminate.
Qed.

Lemma digits_prefix_unique (d1 d2 x y : list ascii) (a1 a2 : ascii) :
  List.forallb is_digit d1 = true -> List.forallb is_digit d2 = true ->
  is_digit a1 = false -> is_digit a2 = false ->
  d1 ++ a1 :: x = d2 ++ a2 :: y -> d1 = d2 /\ x = y.
Proof.
  revert d2. induction d1 as [|c d1 IH]; intros [|c2 d2] H1 H2 N1 N2 E;
    simpl in *.
  - inversion E. auto.
  - inversion E. subst. apply andb_prop in H2 as [H2 _]. congruence.
  - inversion E. subst. apply andb_prop in H1 as [H1 _]. congruence.
  - inversion E. subst. apply andb_prop in H1 as [_ H1].
    apply andb_prop in H2 as [_ H2].
    destruct (IH d2 H1 H2 N1 N2 H3) as [-> ->]. auto.
Qed.

Lemma wordy_head (a b : ascii) : wordy [a; b] = true -> is_digit a = false.
Proof.
  unfold wordy. simpl. intros H. apply andb_prop in H as [H _].
  apply negb_true_iff in H. unfold caseless in H.
  destruct (is_digit a); [discriminate|reflexivity].
Qed.

Lemma sub_from_skip (p : pattern (list ascii)) (l1 l2 : list ascii) :
  sub_from p (length l1) (l1 ++ l2) = sub_from p 0 l2.
Proof. induction l1 as [|c l1 IH]; simpl; [reflexivity|exact IH]. Qed.

(** Digits followed by [st], [nd], [rd] or [th], in any case, lose the two
    letters. *)
Lemma ordinal_stripped (ds suf rest : list ascii) (w : string) :
  ds <> [] -> List.forallb is_digit ds = true ->
  In w ["st"; "nd"; "rd"; "th"] -> same_fold suf (chars w) = true ->
  Re.sub ordinal_suffix (ds ++ suf ++ rest) = ds ++ Re.sub ordinal_suffix rest.
Proof.
  intros Hne Hd Hw Hs.
  assert (In (ds, rest) (ordinal_suffix (ds ++ suf ++ rest))) as Hin.
  { unfold ordinal_suffix. apply in_seq. exists ds, (suf ++ rest).
    split; [apply in_plus; auto|]. apply in_seq. exists suf, rest.
    split; [|now apply in_unit_pat]. apply in_alts.
    exists (lit (chars w)). split; [|apply in_lit; auto].
    simpl in Hw. destruct Hw as [<-|[<-|[<-|[<-|[]]]]]; simpl; auto 6. }
  assert (rmatch ordinal_suffix (ds ++ suf ++ rest) = Some (ds, rest)) as Hm.
  { destruct (rmatch_some_of_in _ _ _ Hin) as ([ds' rest'] & E). rewrite E.
    apply rmatch_in in E.
    apply in_ordinal_suffix in E as (a' & b' & E' & _ & Hd' & Hw').
    apply in_ordinal_suffix in Hin as (a & b & E0 & _ & _ & Hw0).
    rewrite E0 in E'. cbn [app] in E'.
    destruct (digits_prefix_unique ds ds' _ _ a a' Hd Hd'
                (wordy_head a b Hw0) (wordy_head a' b' Hw') E') as [-> Hr].
    inversion Hr. reflexivity. }
  unfold Re.sub. destruct ds as [|c ds]; [congruence|].
  cbn [app sub_from] in *. rewrite Hm.
  assert (length suf = 2%nat) as Hlen.
  { rewrite (same_fold_length suf (chars w) Hs).
    simpl in Hw. destruct Hw as [<-|[<-|[<-|[<-|[]]]]]; reflexivity. }
  replace (length (c :: ds ++ suf ++ rest) - length rest - 1)%nat
    with (length (ds ++ suf)).
  2:{ cbn [length]. rewrite !length_app. lia. }
  rewrite List.app_assoc, sub_from_skip. reflexivity.
Qed.

(** Where the expression matches, the text starts with an ordinal. *)
Lemma ordinal_suffix_at (s ds r : list ascii) :
  In (ds, r) (ordinal_suffix s) -> ordinal_at s.
Proof.
  unfold ordinal_suffix. intros H.
  apply in_seq in H as (ds' & r1 & Hd & H). apply in_plus in Hd as (-> & Hd & Hne).
  apply in_seq in H as (u & r2 & Hu & H). apply in_unit_pat in H as [E1 E2].
  subst ds' r2.
  apply in_alts in Hu as (q & Hq & Hu).
  assert (exists w, In w ["st"; "nd"; "rd"; "th"] /\ In (u, r) (lit (chars w) r1))
    as (w & Hw & Hl).
  { simpl in Hq. destruct Hq as [<-|[<-|[<-|[<-|[]]]]];
      [exists "st"|exists "nd"|exists "rd"|exists "th"]; simpl; auto 6. }
  apply in_lit in Hl as [-> Hs].
  exists ds, u, r, w. repeat split; auto.
Qed.

(** A character no ordinal starts at is copied. *)
Lemma sub_copied (c : ascii) (l : list ascii) :
  ~ ordinal_at (c :: l) ->
  Re.sub ordinal_suffix (c :: l) = c :: Re.sub ordinal_suffix l.
Proof.
  intros H. unfold Re.sub. cbn [sub_from].
  destruct (rmatch ordinal_suffix (c :: l)) as [[ds rest]|] eqn:E; [|reflexivity].
  exfalso. apply H. apply rmatch_in in E. eapply ordinal_suffix_at. exact E.
Qed.

Lemma remove_commas_cons (c : ascii) (l : list ascii) :
  remove_commas (c :: l)
  = if Ascii.eqb c "," then remove_commas l else c :: remove_commas l.
Proof.
  unfold remove_commas. cbn [List.filter]. now destruct (Ascii.eqb c ",").
Qed.

(** What [strip] takes away is blanks, at the two ends. *)
Lemma lstrip_blanks (l : list ascii) :
  exists a, l = a ++ lstrip l /\ List.forallb is_space a = true.
Proof.
  induction l as [|c l (a & E & Ha)]; [now exists []|]. cbn [lstrip].
  destruct (is_space c) eqn:Hc.
  - exists (c :: a). cbn [app List.forallb]. rewrite Hc, Ha.
    split; [f_equal; exact E|reflexivity].
  - now exists [].
Qed.

Lemma rstrip_blanks (l : list ascii) :
  exists b, l = rstrip l ++ b /\ List.forallb is_space b = true.
Proof.
  induction l as [|c l (b & E & Hb)]; [now exists []|]. cbn [rstrip].
  destruct (rstrip l) as [|x r] eqn:Er.
  - cbn [app] in E. subst b. destruct (is_space c) eqn:Hc.
    + exists (c :: l). cbn [app List.forallb]. now rewrite Hc, Hb.
    + exists l. auto.
  - exists b. split; [|exact Hb]. cbn [app]. f_equal. exact E.
Qed.

Lemma strip_blanks (l : list ascii) :
  exists a b, l = a ++ strip l ++ b
    /\ List.forallb is_space a = true /\ List.forallb is_space b = true.
Proof.
  destruct (lstrip_blanks l) as (a & Ea & Ha).
  destruct (rstrip_blanks (lstrip l)) as (b & Eb & Hb).
  exists a, b. unfold strip. rewrite <- Eb. auto.
Qed.

Lemma lstrip_first (l : list ascii) (c : ascii) (r : list ascii) :
  lstrip l = c :: r -> is_space c = false.
Proof.
  induction l as [|x l IH]; [discriminate|]. cbn [lstrip].
  destruct (is_space x) eqn:Hx; [exact IH|]. intros [= -> _]. exact Hx.
Qed.

Lemma rstrip_keeps_head (l : list ascii) (c : ascii) (r : list ascii) :
  rstrip l = c :: r -> exists r0, l = c :: r0.
Proof.
  destruct l as [|x l]; [discriminate|]. cbn [rstrip].
  destruct (rstrip l); [destruct (is_space x); [discriminate|]|];
    intros [= -> _]; eauto.
Qed.

Lemma rstrip_final (l r : list ascii) (c : ascii) :
  rstrip l = r ++ [c] -> is_space c = false.
Proof.
  revert r. induction l as [|x l IH]; intros r; cbn [rstrip].
  - destruct r; discriminate.
  - destruct (rstrip l) as [|y t] eqn:E.
    + destruct (is_space x) eqn:Hx; [destruct r; discriminate|].
      destruct r as [|z r']; cbn [app]; intros H; inversion H; subst;
        [exact Hx|destruct r'; discriminate].
    + destruct r as [|z r']; cbn [app]; intros H; inversion H; subst.
      eapply IH. eassumption.
Qed.

Lemma strip_first (l : list ascii) (c : ascii) (r : list ascii) :
  strip l = c :: r -> is_space c = false.
Proof.
  unfold strip. intros H. destruct (rstrip_keeps_head _ _ _ H) as [r0 E].
  exact (lstrip_first l c r0 E).
Qed.

Lemma strip_final (l r : list ascii) (c : ascii) :
  strip l = r ++ [c] -> is_space c = false.
Proof. unfold strip. apply rstrip_final. Qed.

Lemma chars_cleaned (s : string) :
  chars (cleaned_start_date_str s)
  = strip (Re.sub ordinal_suffix (remove_commas (chars s))).
Proof.
  unfold cleaned_start_date_str, chars at 1, str.
  apply list_ascii_of_string_of_list_ascii.
Qed.

(** The cleaned text is the text without its commas and ordinal suffixes, less
    the blanks at its two ends. *)
Lemma cleaned_trimmed (s : string) :
  exists a b,
    Re.sub ordinal_suffix (remove_commas (chars s))
    = a ++ chars (cleaned_start_date_str s) ++ b
    /\ List.forallb is_space a = true /\ List.forallb is_space b = true.
Proof. rewrite chars_cleaned. apply strip_blanks. Qed.

End CleanedText.

(** C3, as amended.  [verify_end_date_calculation.py] removes the commas and
    the ordinal suffixes, strips the text, and tries [DD-MM-YYYY],
    [D Month YYYY], [Month YYYY] (the day set to 1) and [YYYY-MM-DD] in that
    order, the first that parses giving the start date.
    [process_contracts.py] cleans nothing and tries [Month D, YYYY], then
    [YYYY-MM-DD].  In both, a text no format parses is answered
    "Invalid Start Date Format" and nothing is raised.

    Of the cleaning: every comma is dropped and every other character kept;
    then, from left to right, digits followed by [st], [nd], [rd] or [th] in
    any case lose these two letters, and a character no such ordinal starts
    at is copied; the cleaned text is the result less the blanks at its two
    ends, and has a blank at neither. *)
Theorem C3_start_date_formats (s d : string) :
  VerifyEndDate.parse_start_date s =
  (let c := VerifyEndDate.cleaned_start_date_str s in
   match strptime c "%d-%m-%Y" with
   | Ret dt => Ret (Some dt)
   | Raise _ =>
       match strptime c "%d %B %Y" with
       | Ret dt => Ret (Some dt)
       | Raise _ =>
           match strptime c "%B %Y" with
           | Ret dt => Ret (Some {| year := year dt; month := month dt; day := 1 |})
           | Raise _ =>
               match strptime c "%Y-%m-%d" with
               | Ret dt => Ret (Some dt)
               | Raise _ => Ret None
               end
           end
       end
   end)
  /\ ~ In ","%char (chars (VerifyEndDate.cleaned_start_date_str s))
  /\ VerifyEndDate.cleaned_start_date_str "1st March, 2021" = "1 March 2021"
  /\ (VerifyEndDate.parse_start_date s = Ret None ->
      VerifyEndDate.calculate_end_date s d = Ret "Invalid Start Date Format")
  /\ ProcessContracts.parse_start_date s =
     match strptime s "%B %d, %Y" with
     | Ret dt => Ret (Some dt)
     | Raise _ =>
         match strptime s "%Y-%m-%d" with
         | Ret dt => Ret (Some dt)
         | Raise _ => Ret None
         end
     end
  /\ (ProcessContracts.parse_start_date s = Ret None ->
      ProcessContracts.calculate_end_date s d = Ret "Invalid Start Date Format")
  /\ (forall c l,
        VerifyEndDate.remove_commas (c :: l)
        = if Ascii.eqb c ","
          then VerifyEndDate.remove_commas l
          else c :: VerifyEndDate.remove_commas l)
  /\ (forall ds suf rest w,
        ds <> [] -> List.forallb is_digit ds = true ->
        In w ["st"; "nd"; "rd"; "th"] -> Notions.same_fold suf (chars w) = true ->
        Re.sub VerifyEndDate.ordinal_suffix (ds ++ suf ++ rest)
        = ds ++ Re.sub VerifyEndDate.ordinal_suffix rest)
  /\ (forall c l,
        ~ Notions.ordinal_at (c :: l) ->
        Re.sub VerifyEndDate.ordinal_suffix (c :: l)
        = c :: Re.sub VerifyEndDate.ordinal_suffix l)
  /\ (exists a b,
        Re.sub VerifyEndDate.ordinal_suffix
          (VerifyEndDate.remove_commas (chars s))
        = a ++ chars (VerifyEndDate.cleaned_start_date_str s) ++ b
        /\ List.forallb is_space a = true /\ List.forallb is_space b = true)
  /\ (forall c r,
        chars (VerifyEndDate.cleaned_start_date_str s) = c :: r ->
        is_space c = false)
  /\ (forall r c,
        chars (VerifyEndDate.cleaned_start_date_str s) = r ++ [c] ->
        is_space c = false).
Proof.
  split; [apply ParseFacts.verify_parse_cascade|].
  split; [apply CleanedText.cleaned_no_comma|].
  split; [vm_compute; reflexivity|].
  split; [|split; [apply ParseFacts.process_parse_cascade|split]].
  - intros H. rewrite calculate_of_derive_verify.
    now rewrite (DeriveFacts.verify_derive_unread s d H).
  - intros H. rewrite calculate_of_derive_process.
    now rewrite (DeriveFacts.process_derive_unread s d H).
  - split; [apply CleanedText.remove_commas_cons|].
    split; [apply CleanedText.ordinal_stripped|].
    split; [apply CleanedText.sub_copied|].
    split; [apply CleanedText.cleaned_trimmed|].
    rewrite CleanedText.chars_cleaned. split.
    + apply CleanedText.strip_first.
    + intros r c. apply CleanedText.strip_final.
Qed.

Lemma C3_start_date_formats_witness :
  VerifyEndDate.calculate_end_date "not a date" "3 months"
    = Ret "Invalid Start Date Format"
  /\ ProcessContracts.calculate_end_date "not a date" "3 months"
     = Ret "Invalid Start Date Format"
  /\ Re.sub VerifyEndDate.ordinal_suffix
       (chars "21" ++ chars "St" ++ chars " of May 2021")
     = chars "21" ++ Re.sub VerifyEndDate.ordinal_suffix (chars " of May 2021")
  /\ Re.sub VerifyEndDate.ordinal_suffix (chars "1 August")
     = "1"%char :: Re.sub VerifyEndDate.ordinal_suffix (chars " August").
Proof.
  destruct (C3_start_date_formats "not a date" "3 months")
    as (_ & _ & _ & HV & _ & HP & _ & Ho & Hc & _).
  split; [apply HV; vm_compute; reflexivity|].
  split; [apply HP; vm_compute; reflexivity|].
  split.
  - apply (Ho (chars "21") (chars "St") (chars " of May 2021") "st").
    + discriminate.
    + reflexivity.
    + now left.
    + reflexivity.
  - apply (Hc "1"%char (chars " August")).
    intros (ds & suf & rest & w & E & Hne & Hd & Hw & Hs).
    destruct ds as [|x ds]; [congruence|].
    cbn [app chars list_ascii_of_string] in E. inversion E as [[Ex El]]. subst x.
    assert (Notions.same_fold suf (chars w) = true -> length suf = 2%nat) as Hl.
    { intros K. rewrite (CharFacts.same_fold_length suf (chars w) K).
      simpl in Hw. destruct Hw as [<-|[<-|[<-|[<-|[]]]]]; reflexivity. }
    specialize (Hl Hs).
    destruct ds as [|y ds].
    + destruct suf as [|a [|b [|? ?]]]; try discriminate.
      cbn [app] in El. inversion El. subst a b.
      simpl in Hw. destruct Hw as [<-|[<-|[<-|[<-|[]]]]]; discriminate.
    + cbn [app] in El. inversion El. subst y.
      cbn [List.forallb] in Hd. discriminate.
Defined.

(** C3 fails as stated: [process_contracts.py] does not try [DD-MM-YYYY]
    (nor [D Month YYYY], nor [Month YYYY]), and reads [Month D, YYYY], which
    the list of the claim does not have. *)
Lemma C3_counterexample :
  strptime "15-10-2018" "%d-%m-%Y"
    = Ret {| year := 2018; month := 10; day := 15 |}
  /\ ProcessContracts.calculate_end_date "15-10-2018" "30 days"
     = Ret "Invalid Start Date Format"
  /\ VerifyEndDate.calculate_end_date "15-10-2018" "30 days" = Ret "14-11-2018"
  /\ ProcessContracts.calculate_end_date "October 15, 2018" "30 days"
     = Ret "2018-11-14"
  /\ VerifyEndDate.calculate_end_date "October 15, 2018" "30 days"
     = Ret "Invalid Start Date Format".
Proof. repeat split; vm_compute; reflexivity. Qed.

(** ** Scanning for important pages *)

Module ScanFacts.
Import Notions.
Import PyStr Json ProcessContracts.

Section Scan.
Variable re_search : string -> string -> bool.

Lemma PdfReader_open (st : state) (pdf_path : string) (pages : list page) :
  fs st !! pdf_path = Some (PdfFile pages) -> PdfReader st pdf_path = Ret pages.
Proof. intros H. unfold PdfReader. now rewrite H. Qed.

(** What the loop over the terms adds for one page. *)
Lemma check_terms_spec (num_pages page_num : nat) (text : string)
    (acc : gset nat) (i : nat) :
  i ∈ check_terms re_search num_pages page_num text acc <->
  i ∈ acc
  \/ ((exists term, In term SEARCH_TERMS /\ re_search term text = true)
      /\ (i = page_num \/ (i = page_num + 1 /\ page_num + 1 < num_pages))%nat).
Proof.
  unfold check_terms. revert acc.
  induction SEARCH_TERMS as [|t ts IH]; intros acc; cbn [fold_left].
  - split; [auto|]. intros [H|[(term & [] & _) _]]. exact H.
  - rewrite IH. clear IH. destruct (re_search t text) eqn:E.
    + destruct (page_num + 1 <? num_pages)%nat eqn:Eb.
      * apply Nat.ltb_lt in Eb. split.
        -- intros [H|[(term & Ht & Hm) Hi]].
           ++ apply elem_of_union in H as [H|H].
              ** apply elem_of_union in H as [H|H]; [now left|].
                 apply elem_of_singleton in H. right.
                 split; [exists t; split; [now left|assumption]|now left].
              ** apply elem_of_singleton in H. right.
                 split; [exists t; split; [now left|assumption]|right; auto].
           ++ right. split; [exists term; split; [now right|assumption]|exact Hi].
        -- intros [H|[_ [->|[-> _]]]]; left; set_solver.
      * apply Nat.ltb_ge in Eb. split.
        -- intros [H|[(term & Ht & Hm) Hi]].
           ++ apply elem_of_union in H as [H|H]; [now left|].
              apply elem_of_singleton in H. right.
              split; [exists t; split; [now left|assumption]|now left].
           ++ right. split; [exists term; split; [now right|assumption]|exact Hi].
        -- intros [H|[_ [->|[-> Hlt]]]]; [left; set_solver|left; set_solver|lia].
    + split.
      * intros [H|[(term & Ht & Hm) Hi]]; [now left|].
        right. split; [exists term; split; [now right|assumption]|exact Hi].
      * intros [H|[(term & [<-|Ht] & Hm) Hi]]; [now left|congruence|].
        right. split; [exists term; auto|exact Hi].
Qed.

(** The loop over a run of page numbers: what it returns holds what it had,
    and the pages found with their successors, all of them pages of the
    document. *)
Lemma chunk_loop_spec (pages : list page) (n a : nat) (acc S : gset nat) :
  chunk_loop re_search pages (seq a n) acc = Ret S ->
  forall i, i ∈ S <->
    i ∈ acc
    \/ exists p page text,
         (a <= p < a + n)%nat /\ pages !! p = Some page
         /\ page_text page = Ret text
         /\ (exists term, In term SEARCH_TERMS /\ re_search term text = true)
         /\ (i = p \/ (i = p + 1 /\ p + 1 < length pages))%nat.
Proof.
  revert a acc. induction n as [|n IH]; intros a acc H i; cbn [seq chunk_loop] in H.
  - inversion H. subst. split; [auto|]. intros [Hi|(p & _ & _ & Hp & _)]; [exact Hi|lia].
  - destruct (length pages <=? a)%nat eqn:El.
    + inversion H. subst. apply Nat.leb_le in El. split; [auto|].
      intros [Hi|(p & page & _ & Hp & Hl & _)]; [exact Hi|].
      apply lookup_lt_Some in Hl. lia.
    + apply Nat.leb_gt in El. destruct (pages !! a) as [page|] eqn:Ea.
      2:{ apply lookup_ge_None in Ea. lia. }
      destruct (page_text page) as [text|e] eqn:Et; [|discriminate].
      cbn [mbind result_bind] in H. rewrite (IH _ _ H i), check_terms_spec. split.
      * intros [[Hi|[Hm Hi]]|(p & pg & tx & Hp & Hl & Htx & Hm & Hi)].
        -- now left.
        -- right. exists a, page, text. repeat split; auto; lia.
        -- right. exists p, pg, tx. repeat split; auto; lia.
      * intros [Hi|(p & pg & tx & Hp & Hl & Htx & Hm & Hi)]; [left; now left|].
        destruct (Nat.eq_dec p a) as [->|Hne].
        -- left. right. rewrite Ea in Hl. inversion Hl. subst pg.
           rewrite Et in Htx. inversion Htx. subst tx. auto.
        -- right. exists p, pg, tx. repeat split; auto; lia.
Qed.

(** A chunk that returns holds pages of the document only. *)
Lemma chunk_bound (st : state) (pdf_path : string) (pages : list page)
    (a b : nat) (S : gset nat) :
  fs st !! pdf_path = Some (PdfFile pages) ->
  _process_page_chunk re_search st pdf_path a b = Ret S ->
  forall i, i ∈ S -> (i < length pages)%nat.
Proof.
  intros Hf H i Hi. unfold _process_page_chunk in H.
  rewrite (PdfReader_open _ _ _ Hf) in H. cbn [mbind result_bind] in H.
  apply (chunk_loop_spec _ _ _ _ _ H) in Hi
    as [Hi|(p & page & text & _ & Hl & _ & _ & [->|[-> Hlt]])].
  - set_solver.
  - now apply lookup_lt_Some in Hl.
  - exact Hlt.
Qed.

Lemma merge_completed_spec (st : state) (pdf_path : string)
    (completed : list (nat * nat)) (acc : gset nat) (i : nat) :
  i ∈ merge_completed re_search st pdf_path completed acc <->
  i ∈ acc
  \/ exists chunk S, In chunk completed
       /\ _process_page_chunk re_search st pdf_path (fst chunk) (snd chunk) = Ret S
       /\ i ∈ S.
Proof.
  unfold merge_completed. revert acc.
  induction completed as [|c cs IH]; intros acc; cbn [fold_left].
  - split; [auto|]. intros [H|(? & ? & [] & _)]. exact H.
  - rewrite IH. clear IH.
    destruct (_process_page_chunk re_search st pdf_path (fst c) (snd c)) as [S|e] eqn:E.
    + split.
      * intros [H|(chunk & S' & Hin & Hc & Hi)].
        -- apply elem_of_union in H as [H|H]; [now left|].
           right. exists c, S. split; [now left|auto].
        -- right. exists chunk, S'. split; [now right|auto].
      * intros [H|(chunk & S' & [<-|Hin] & Hc & Hi)].
        -- left. set_solver.
        -- left. rewrite E in Hc. inversion Hc. subst. set_solver.
        -- right. exists chunk, S'. auto.
    + split.
      * intros [H|(chunk & S' & Hin & Hc & Hi)]; [now left|].
        right. exists chunk, S'. split; [now right|auto].
      * intros [H|(chunk & S' & [<-|Hin] & Hc & Hi)]; [now left|congruence|].
        right. exists chunk, S'. auto.
Qed.

(** The order in which the chunks complete does not matter. *)
Lemma merge_completed_any_order (st : state) (pdf_path : string)
    (c1 c2 : list (nat * nat)) (acc : gset nat) :
  Permutation c1 c2 ->
  merge_completed re_search st pdf_path c1 acc
  = merge_completed re_search st pdf_path c2 acc.
Proof.
  intros Hp. apply set_eq. intros i. rewrite !merge_completed_spec.
  split; (intros [H|(chunk & S & Hin & Hc & Hi)]; [now left|]);
    right; exists chunk, S; (split; [|auto]).
  - eapply Permutation_in; eauto.
  - eapply Permutation_in; [symmetry|]; eauto.
Qed.

Lemma in_sorted (S : gset nat) (i : nat) : In i (sorted S) <-> i ∈ S.
Proof.
  unfold sorted. rewrite <- list_elem_of_In.
  rewrite (merge_sort_Permutation _ (elements S)). apply elem_of_elements.
Qed.

Lemma sorted_ascending (S : gset nat) : StronglySorted lt (sorted S).
Proof.
  unfold sorted.
  assert (StronglySorted le (merge_sort le (elements S))) as Hs
    by (apply StronglySorted_merge_sort; apply _).
  assert (NoDup (merge_sort le (elements S))) as Hn.
  { rewrite merge_sort_Permutation. apply NoDup_elements. }
  induction Hs as [|x l Hs IH Hx]; [constructor|].
  apply NoDup_cons in Hn as [Hx' Hn]. constructor; [now apply IH|].
  rewrite Forall_forall in *. intros y Hy. specialize (Hx y Hy).
  assert (x <> y) by (intros ->; contradiction). lia.
Qed.

End Scan.
End ScanFacts.

(** ** The claims on the scan and the reduced document *)

Import PyStr Json ProcessContracts.

(** C4, as amended.  The scan of a document that opens returns, whatever the
    order in which the chunks complete, a sequence that holds 0 and 1, is
    strictly ascending, and whose every index other than the two seeds is a
    page of the document; so every index is below the page count when the
    document has at least two pages. *)
Theorem C4_page_set (re_search : string -> string -> bool)
    (completed : list (nat * nat) -> list (nat * nat))
    (st : state) (pdf_path : string) (chunk_size : Z) (pages : list page) :
  fs st !! pdf_path = Some (PdfFile pages) -> chunk_size <> 0 ->
  exists l,
    find_important_pages_as re_search completed st pdf_path chunk_size = Ret l
    /\ In 0%nat l /\ In 1%nat l
    /\ StronglySorted lt l
    /\ (forall i, In i l -> (i < length pages)%nat \/ i = 0%nat \/ i = 1%nat)
    /\ ((2 <= length pages)%nat -> forall i, In i l -> (i < length pages)%nat).
Proof.
  intros Hf Hc. unfold find_important_pages_as.
  rewrite (ScanFacts.PdfReader_open _ _ _ Hf). cbn [mbind result_bind].
  destruct (chunk_size =? 0) eqn:E; [apply Z.eqb_eq in E; contradiction|].
  eexists. split; [reflexivity|].
  assert (forall i,
            In i (sorted (merge_completed re_search st pdf_path
                            (completed (page_chunks (length pages) chunk_size))
                            {[0%nat; 1%nat]}))
            -> (i < length pages)%nat \/ i = 0%nat \/ i = 1%nat) as Hb.
  { intros i Hi. apply ScanFacts.in_sorted, ScanFacts.merge_completed_spec in Hi.
    destruct Hi as [Hi|(chunk & S & _ & HS & Hi)].
    - right. set_solver.
    - left. eapply ScanFacts.chunk_bound; eauto. }
  repeat split.
  - apply ScanFacts.in_sorted, ScanFacts.merge_completed_spec. left. set_solver.
  - apply ScanFacts.in_sorted, ScanFacts.merge_completed_spec. left. set_solver.
  - apply ScanFacts.sorted_ascending.
  - exact Hb.
  - intros H2 i Hi. destruct (Hb i Hi) as [H|[->| ->]]; lia.
Qed.

Lemma C4_page_set_witness :
  exists l,
    find_important_pages_as Samples.re_search (@rev (nat * nat))
      (Samples.disk "contract.pdf" Samples.contract) "contract.pdf" 4 = Ret l
    /\ In 0%nat l /\ In 1%nat l
    /\ StronglySorted lt l
    /\ (forall i, In i l ->
          (i < length Samples.contract)%nat \/ i = 0%nat \/ i = 1%nat)
    /\ ((2 <= length Samples.contract)%nat ->
        forall i, In i l -> (i < length Samples.contract)%nat).
Proof.
  apply (C4_page_set Samples.re_search (@rev (nat * nat))
           (Samples.disk "contract.pdf" Samples.contract) "contract.pdf" 4
           Samples.contract).
  - vm_compute. reflexivity.
  - discriminate.
Defined.

(** C4 fails as stated: the scan of a document of one page returns the index
    1, which is no page of it. *)
Lemma C4_counterexample :
  find_important_pages Samples.re_search
    (Samples.disk "contract.pdf" Samples.one_page) "contract.pdf" 50
  = Ret [0%nat; 1%nat]
  /\ length Samples.one_page = 1%nat
  /\ ~ (1 < length Samples.one_page)%nat.
Proof.
  split; [vm_compute; reflexivity|]. split; [reflexivity|]. simpl. lia.
Qed.

(** C5.  In the set a chunk returns, a page of the chunk whose text matches a
    term is present, and the page after it is present exactly when it is a
    page of the document. *)
Theorem C5_match_adds_page_and_next (re_search : string -> string -> bool)
    (st : state) (pdf_path : string) (pages : list page)
    (start_page_idx end_page_idx : nat) (S : gset nat)
    (p : nat) (pg : page) (text term : string) :
  fs st !! pdf_path = Some (PdfFile pages) ->
  _process_page_chunk re_search st pdf_path start_page_idx end_page_idx = Ret S ->
  (start_page_idx <= p < end_page_idx)%nat ->
  pages !! p = Some pg -> page_text pg = Ret text ->
  In term SEARCH_TERMS -> re_search term text = true ->
  p ∈ S /\ ((p + 1)%nat ∈ S <-> (p + 1 < length pages)%nat).
Proof.
  intros Hf HS Hp Hl Ht Hterm Hm.
  pose proof (ScanFacts.chunk_bound re_search _ _ _ _ _ _ Hf HS) as Hb.
  unfold _process_page_chunk in HS.
  rewrite (ScanFacts.PdfReader_open _ _ _ Hf) in HS. cbn [mbind result_bind] in HS.
  pose proof (ScanFacts.chunk_loop_spec re_search _ _ _ _ _ HS) as Hspec.
  split; [|split].
  - apply Hspec. right. exists p, pg, text. repeat split; eauto; lia.
  - apply Hb.
  - intros Hlt. apply Hspec. right. exists p, pg, text.
    repeat split; eauto; lia.
Qed.

Lemma C5_match_adds_page_and_next_witness :
  exists S,
    _process_page_chunk Samples.re_search
      (Samples.disk "contract.pdf" Samples.contract) "contract.pdf" 0 6 = Ret S
    /\ 3%nat ∈ S /\ ((3 + 1)%nat ∈ S <-> (3 + 1 < length Samples.contract)%nat).
Proof.
  eexists. split; [vm_compute; reflexivity|].
  apply (C5_match_adds_page_and_next Samples.re_search
           (Samples.disk "contract.pdf" Samples.contract) "contract.pdf"
           Samples.contract 0 6 _ 3 Samples.schedule_j
           "SCHEDULE J: the project shall be completed within 730 days of the appointed date"
           (nth 1 SEARCH_TERMS "")).
  - vm_compute. reflexivity.
  - vm_compute. reflexivity.
  - lia.
  - reflexivity.
  - vm_compute. reflexivity.
  - right. left. reflexivity.
  - vm_compute. reflexivity.
Defined.

Lemma added_pages_from (pages : list page) (page_numbers : list nat)
    (writer : list page) :
  exists copied,
    fold_left
      (fun writer page_num =>
         if (page_num <? length pages)%nat
         then match pages !! page_num with
              | Some page => writer ++ [page]
              | None => writer
              end
         else writer)
      page_numbers writer = writer ++ copied
    /\ Forall2 (fun i pg => pages !! i = Some pg)
         (List.filter (fun i => (i <? length pages)%nat) page_numbers) copied.
Proof.
  revert writer. induction page_numbers as [|i l IH]; intros writer; cbn [fold_left].
  - exists []. split; [now rewrite List.app_nil_r|constructor].
  - cbn [List.filter]. destruct (i <? length pages)%nat eqn:E.
    + apply Nat.ltb_lt in E. destruct (lookup_lt_is_Some_2 pages i E) as [pg Hpg].
      rewrite Hpg. destruct (IH (writer ++ [pg])) as (copied & -> & Hc).
      exists (pg :: copied). split; [now rewrite <- List.app_assoc|].
      constructor; assumption.
    + apply IH.
Qed.

Lemma strongly_sorted_filter (f : nat -> bool) (l : list nat) :
  StronglySorted lt l -> StronglySorted lt (List.filter f l).
Proof.
  induction 1 as [|x l Hs IH Hx]; cbn [List.filter]; [constructor|].
  destruct (f x); [|exact IH]. constructor; [exact IH|].
  rewrite Forall_forall in *. intros y Hy.
  apply list_elem_of_In, List.filter_In in Hy as [Hy _].
  apply Hx. now apply list_elem_of_In.
Qed.

(** C6.  The reduced document written for a set of pages consists of the
    pages of the source whose indices are in the set and below the page count,
    in ascending order of index; the other indices are skipped and the call
    succeeds (the file being writable). *)
Theorem C6_reduced_document (E : env) (pdf_path : string) (S : gset nat)
    (st : state) (pages : list page) :
  fs st !! pdf_path = Some (PdfFile pages) ->
  writable E (short_filename pdf_path) = true ->
  exists kept reduced,
    create_short_pdf E pdf_path (sorted S) st
    = (Some (short_filename pdf_path),
       {| fs := <[short_filename pdf_path := PdfFile reduced]> (fs st);
          log := log st ++ [Written (short_filename pdf_path) reduced] |})
    /\ (forall i, In i kept <-> i ∈ S /\ (i < length pages)%nat)
    /\ StronglySorted lt kept
    /\ Forall2 (fun i pg => pages !! i = Some pg) kept reduced.
Proof.
  intros Hf Hw. unfold create_short_pdf.
  rewrite (ScanFacts.PdfReader_open _ _ _ Hf), Hw. unfold added_pages.
  destruct (added_pages_from pages (sorted S) []) as (copied & -> & Hc).
  exists (List.filter (fun i => (i <? length pages)%nat) (sorted S)), copied.
  split; [reflexivity|]. split; [|split; [|exact Hc]].
  - intros i. rewrite List.filter_In, ScanFacts.in_sorted, Nat.ltb_lt. reflexivity.
  - apply strongly_sorted_filter, ScanFacts.sorted_ascending.
Qed.

Lemma C6_reduced_document_witness :
  exists kept reduced,
    create_short_pdf (Samples.model "" None) "contract.pdf"
      (sorted {[0%nat; 1%nat; 3%nat; 9%nat]})
      (Samples.disk "contract.pdf" Samples.contract)
    = (Some (short_filename "contract.pdf"),
       {| fs := <[short_filename "contract.pdf" := PdfFile reduced]>
                  (fs (Samples.disk "contract.pdf" Samples.contract));
          log := log (Samples.disk "contract.pdf" Samples.contract)
                 ++ [Written (short_filename "contract.pdf") reduced] |})
    /\ (forall i, In i kept <->
          i ∈ ({[0%nat; 1%nat; 3%nat; 9%nat]} : gset nat)
          /\ (i < length Samples.contract)%nat)
    /\ StronglySorted lt kept
    /\ Forall2 (fun i pg => Samples.contract !! i = Some pg) kept reduced.
Proof.
  apply (C6_reduced_document (Samples.model "" None) "contract.pdf"
           {[0%nat; 1%nat; 3%nat; 9%nat]}
           (Samples.disk "contract.pdf" Samples.contract) Samples.contract).
  - vm_compute. reflexivity.
  - reflexivity.
Defined.

(** ** The claims on the cache and on the model's answer *)

Module RowFacts.
Import Notions.
Import PyStr Json ProcessContracts.

Lemma dict_lookup_set (d : dict) (k k' : string) (v : json) :
  dict_lookup (dict_set d k v) k'
  = if String.eqb k k' then Some v else dict_lookup d k'.
Proof.
  induction d as [|[k0 v0] d IH]; cbn [dict_set dict_lookup].
  - destruct (String.eqb k k'); reflexivity.
  - destruct (String.eqb k0 k) eqn:E0; cbn [dict_lookup].
    + apply String.eqb_eq in E0. subst k0.
      destruct (String.eqb k k'); reflexivity.
    + rewrite IH. destruct (String.eqb k0 k') eqn:E1; [|reflexivity].
      apply String.eqb_eq in E1. subst k0. now rewrite String.eqb_sym, E0.
Qed.

(** The columns filled by the loop of [main] over the output columns. *)
Lemma lookup_kept (extracted_data : dict) (output_columns : list string)
    (row : dict) (col : string) :
  dict_lookup row col = Some (row_value extracted_data col) ->
  dict_lookup
    (fold_left (fun row col => dict_set row col (row_value extracted_data col))
       output_columns row) col
  = Some (row_value extracted_data col).
Proof.
  revert row. induction output_columns as [|c cs IH]; intros row Hr; [exact Hr|].
  cbn [fold_left]. apply IH. rewrite dict_lookup_set.
  destruct (String.eqb c col) eqn:E; [|exact Hr].
  apply String.eqb_eq in E. now subst.
Qed.

Lemma lookup_filled (extracted_data : dict) (output_columns : list string)
    (row : dict) (col : string) :
  In col output_columns ->
  dict_lookup
    (fold_left (fun row col => dict_set row col (row_value extracted_data col))
       output_columns row) col
  = Some (row_value extracted_data col).
Proof.
  revert row. induction output_columns as [|c cs IH]; intros row; [intros []|].
  cbn [fold_left]. intros [->|Hin]; [|now apply IH].
  apply lookup_kept. now rewrite dict_lookup_set, String.eqb_refl.
Qed.

Lemma row_value_undecoded (text col : string) :
  col <> "End Date" -> col <> "LLM_Raw_Response" ->
  row_value (undecoded text) col = JStr "".
Proof.
  intros H1 H2.
  assert (dict_lookup (undecoded text) col = None) as Hl.
  { unfold undecoded. cbn [dict_lookup].
    apply not_eq_sym, String.eqb_neq in H1, H2. now rewrite H1, H2. }
  assert (dict_lookup (undecoded text) "Contract Value" = None) as Hcv by reflexivity.
  unfold row_value, dict_get. rewrite Hl, Hcv. cbn [default].
  repeat destruct (String.eqb col _); reflexivity.
Qed.

(** The row of a document whose answer did not decode. *)
Lemma row_undecoded (text pdf_file col : string) (output_columns : list string) :
  In col output_columns ->
  dict_lookup (row_data (undecoded text) output_columns pdf_file) col
  = if String.eqb col "File Name" then Some (JStr pdf_file)
    else Some (row_value (undecoded text) col).
Proof.
  intros Hin. unfold row_data.
  change (dict_lookup (undecoded text) "Location") with (@None json). cbv iota.
  rewrite dict_lookup_set, String.eqb_sym.
  destruct (String.eqb col "File Name"); [reflexivity|].
  now apply lookup_filled.
Qed.

(** *** Code fences *)

Lemma chars_app (a b : string) : chars (a ++ b)%string = chars a ++ chars b.
Proof.
  unfold chars. induction a as [|c a IH]; simpl; [reflexivity|].
  f_equal. exact IH.
Qed.

Lemma starts_with_app (p l : list ascii) : starts_with p (p ++ l) = true.
Proof.
  induction p as [|c p IH]; cbn; [reflexivity|].
  now rewrite Ascii.eqb_refl, IH.
Qed.

(** An answer between code fences is decoded without them. *)
Lemma unfenced_fenced (body : string) :
  unfenced ("```json" ++ body ++ "```")%string = str (strip (chars body)).
Proof.
  unfold unfenced, startswith, endswith.
  rewrite !chars_app, starts_with_app.
  rewrite !List.rev_app_distr, <- List.app_assoc, starts_with_app.
  cbn [andb]. rewrite !length_app.
  replace (length (chars "```json") + (length (chars body) + length (chars "```"))
           - 7 - 3)%nat with (length (chars body)) by (cbn [chars length]; simpl; lia).
  change (List.skipn 7 (chars "```json" ++ chars body ++ chars "```"))
    with (chars body ++ chars "```").
  now rewrite List.firstn_app, List.firstn_all, Nat.sub_diag, List.app_nil_r.
Qed.

(** What becomes of a document whose answer does not decode. *)
Lemma undecodable_row (re_search : string -> string -> bool)
    (json_loads : string -> option json) (E : env) (pdf_file : string)
    (llm_prompt_fields : list (string * string)) (output_columns : list string)
    (st st1 st2 : state) (short_pdf_path raw : string) :
  short_pdf_for re_search E pdf_file st = (Ret (Some short_pdf_path), st1) ->
  extract_data_with_llm E short_pdf_path (llm_prompt llm_prompt_fields) st1
    = (raw, st2) ->
  json_loads (unfenced raw) = None ->
  process_contract re_search json_loads E pdf_file llm_prompt_fields
    output_columns st
    = (JDict (undecoded (unfenced raw)), st2)
  /\ process_file re_search json_loads E llm_prompt_fields output_columns
       pdf_file st
     = (Ret tt,
        logged (RowAppended (row_data (undecoded (unfenced raw))
                               output_columns pdf_file)) st2).
Proof.
  intros Hs Hx Hj.
  assert (process_contract re_search json_loads E pdf_file llm_prompt_fields
            output_columns st = (JDict (undecoded (unfenced raw)), st2)) as Hp.
  { unfold process_contract. rewrite Hs. cbn [fst snd]. rewrite Hx. cbn [fst snd].
    unfold decoded. rewrite Hj. reflexivity. }
  split; [exact Hp|]. unfold process_file. rewrite Hp. reflexivity.
Qed.

End RowFacts.

Import Notions RowFacts.

(** C7.  When a reduced document is already there under the derived name and
    is not empty, processing the document leaves the files as they are, scans
    nothing and writes nothing: at most the model is called, on that reduced
    document. *)
Theorem C7_cache_short_circuit (re_search : string -> string -> bool)
    (json_loads : string -> option json) (E : env) (contract_pdf_file : string)
    (llm_prompt_fields : list (string * string)) (output_columns : list string)
    (st : state) (f : file) :
  fs st !! short_filename contract_pdf_file = Some f -> Spec.file_nonempty f ->
  let r := process_contract re_search json_loads E contract_pdf_file
             llm_prompt_fields output_columns st in
  short_pdf_for re_search E contract_pdf_file st
    = (Ret (Some (short_filename contract_pdf_file)), st)
  /\ fs (snd r) = fs st
  /\ (log (snd r) = log st
      \/ log (snd r) = log st ++ [Generated (short_filename contract_pdf_file)
                                    (llm_prompt llm_prompt_fields)]).
Proof.
  intros Hf Hne. cbv zeta.
  assert (short_pdf_for re_search E contract_pdf_file st
          = (Ret (Some (short_filename contract_pdf_file)), st)) as Hs.
  { unfold short_pdf_for. rewrite Hf. destruct f as [pages|size]; [reflexivity|].
    simpl in Hne. apply Nat.ltb_lt in Hne. now rewrite Hne. }
  split; [exact Hs|]. unfold process_contract. rewrite Hs. cbn [fst snd].
  set (x := extract_data_with_llm E _ _ st).
  assert (fs (snd x) = fs st
          /\ (log (snd x) = log st
              \/ log (snd x) = log st ++ [Generated (short_filename contract_pdf_file)
                                            (llm_prompt llm_prompt_fields)])) as Hx.
  { unfold x, extract_data_with_llm. rewrite Hf.
    destruct (GOOGLE_API_KEY E) as [[|c k]|]; cbn [snd]; auto.
    destruct (generate_content E _ f); cbn [snd logged fs log]; auto. }
  destruct (with_end_date (decoded json_loads (fst x))); exact Hx.
Qed.

Lemma C7_cache_short_circuit_witness :
  let st := Samples.disk_with_short "contract.pdf" Samples.contract [Samples.cover] in
  let r := process_contract Samples.re_search Samples.json_loads
             (Samples.model Samples.fenced_answer (Some "key")) "contract.pdf"
             fallback_fields fallback_columns st in
  short_pdf_for Samples.re_search (Samples.model Samples.fenced_answer (Some "key"))
    "contract.pdf" st
    = (Ret (Some (short_filename "contract.pdf")), st)
  /\ fs (snd r) = fs st
  /\ (log (snd r) = log st
      \/ log (snd r) = log st ++ [Generated (short_filename "contract.pdf")
                                    (llm_prompt fallback_fields)]).
Proof.
  apply (C7_cache_short_circuit Samples.re_search Samples.json_loads
           (Samples.model Samples.fenced_answer (Some "key")) "contract.pdf"
           fallback_fields fallback_columns
           (Samples.disk_with_short "contract.pdf" Samples.contract [Samples.cover])
           (PdfFile [Samples.cover])).
  - vm_compute. reflexivity.
  - exact I.
Defined.

(** C8, as amended.  An answer between a leading [```json] fence and a
    trailing fence is decoded without them.  When the answer (without its
    fences) does not decode, nothing is raised: the text is kept under
    [LLM_Raw_Response] in the extracted data, a row is appended, and in that
    row every column of the schema other than [File Name], [End Date] and
    [LLM_Raw_Response] holds the empty string; [End Date] holds "Not Found". *)
Theorem C8_undecodable_answer (re_search : string -> string -> bool)
    (json_loads : string -> option json) (E : env) (pdf_file : string)
    (llm_prompt_fields : list (string * string)) (output_columns : list string)
    (st st1 st2 : state) (short_pdf_path raw body : string) :
  unfenced ("```json" ++ body ++ "```")%string = str (strip (chars body))
  /\ (short_pdf_for re_search E pdf_file st = (Ret (Some short_pdf_path), st1) ->
      extract_data_with_llm E short_pdf_path (llm_prompt llm_prompt_fields) st1
        = (raw, st2) ->
      json_loads (unfenced raw) = None ->
      process_contract re_search json_loads E pdf_file llm_prompt_fields
        output_columns st
        = (JDict (undecoded (unfenced raw)), st2)
      /\ process_file re_search json_loads E llm_prompt_fields output_columns
           pdf_file st
         = (Ret tt,
            logged (RowAppended (row_data (undecoded (unfenced raw))
                                   output_columns pdf_file)) st2)
      /\ (forall col, In col output_columns ->
            col <> "File Name" -> col <> "End Date" -> col <> "LLM_Raw_Response" ->
            dict_lookup (row_data (undecoded (unfenced raw)) output_columns pdf_file)
              col = Some (JStr ""))
      /\ (In "End Date" output_columns ->
          dict_lookup (row_data (undecoded (unfenced raw)) output_columns pdf_file)
            "End Date" = Some (JStr "Not Found"))).
Proof.
  split; [apply unfenced_fenced|]. intros Hs Hx Hj.
  destruct (undecodable_row re_search json_loads E pdf_file llm_prompt_fields
              output_columns st st1 st2 short_pdf_path raw Hs Hx Hj) as [Hp Hr].
  split; [exact Hp|]. split; [exact Hr|]. split.
  - intros col Hin H1 H2 H3. rewrite (row_undecoded _ _ _ _ Hin).
    apply String.eqb_neq in H1. rewrite H1. f_equal.
    now apply row_value_undecoded.
  - intros Hin. now rewrite (row_undecoded _ _ _ _ Hin).
Qed.

Lemma C8_undecodable_answer_witness :
  let E := Samples.model "I could not read the document." (Some "key") in
  let st := Samples.disk_with_short "contract.pdf" Samples.contract [Samples.cover] in
  process_file Samples.re_search Samples.json_loads E fallback_fields
    fallback_columns "contract.pdf" st
  = (Ret tt,
     logged (RowAppended (row_data (undecoded "I could not read the document.")
                            fallback_columns "contract.pdf"))
       (logged (Generated (short_filename "contract.pdf") (llm_prompt fallback_fields))
          st)).
Proof.
  cbv zeta.
  destruct (C8_undecodable_answer Samples.re_search Samples.json_loads
              (Samples.model "I could not read the document." (Some "key"))
              "contract.pdf" fallback_fields fallback_columns
              (Samples.disk_with_short "contract.pdf" Samples.contract [Samples.cover])
              (Samples.disk_with_short "contract.pdf" Samples.contract [Samples.cover])
              (logged (Generated (short_filename "contract.pdf")
                         (llm_prompt fallback_fields))
                 (Samples.disk_with_short "contract.pdf" Samples.contract
                    [Samples.cover]))
              (short_filename "contract.pdf") "I could not read the document." "")
    as (_ & H).
  destruct H as (_ & H & _).
  - vm_compute. reflexivity.
  - vm_compute. reflexivity.
  - vm_compute. reflexivity.
  - exact H.
Defined.

(** C8 fails as stated: with a schema that has the field [End Date], the row
    of an answer that does not decode holds "Not Found", not the empty string,
    in that field; and the row has no column for the raw text. *)
Lemma C8_counterexample :
  output_columns_of (List.map fst Samples.fields_with_end_date)
    = Ret ["File Name"; "Start Date"; "Project Duration"; "End Date"]
  /\ Samples.json_loads "I could not read the document." = None
  /\ log (snd (process_file Samples.re_search Samples.json_loads
                 (Samples.model "I could not read the document." (Some "key"))
                 Samples.fields_with_end_date
                 ["File Name"; "Start Date"; "Project Duration"; "End Date"]
                 "contract.pdf"
                 (Samples.disk_with_short "contract.pdf" Samples.contract
                    [Samples.cover])))
     = [ Generated "contract_short.pdf" (llm_prompt Samples.fields_with_end_date);
         RowAppended [ ("File Name", JStr "contract.pdf"); ("Start Date", JStr "");
                       ("Project Duration", JStr "");
                       ("End Date", JStr "Not Found") ] ]
  /\ JStr "Not Found" <> JStr "".
Proof. repeat split; try (vm_compute; reflexivity). discriminate. Qed.




(** * Further properties *)

(** ** More on the scan *)

Module ScanMore.
Import Notions.
Import PyStr Json ProcessContracts ScanFacts ScanNotions.

Section Scan.
Variable re_search : string -> string -> bool.

(** For a positive size the chunks start at the multiples of the size. *)
Lemma page_chunks_pos (num_pages : nat) (chunk_size : Z) :
  0 < chunk_size ->
  page_chunks num_pages chunk_size
  = List.map (fun k => ((k * Z.to_nat chunk_size)%nat,
                        Nat.min (k * Z.to_nat chunk_size + Z.to_nat chunk_size)
                          num_pages))
      (seq 0 ((num_pages + Z.to_nat chunk_size - 1) / Z.to_nat chunk_size)).
Proof.
  intros H. unfold page_chunks, range_by.
  replace (chunk_size <? 0) with false by (symmetry; apply Z.ltb_ge; lia).
  cbv zeta. rewrite List.map_map. apply List.map_ext. intros k. f_equal. lia.
Qed.

(** For a negative size there is no chunk. *)
Lemma page_chunks_neg (num_pages : nat) (chunk_size : Z) :
  chunk_size < 0 -> page_chunks num_pages chunk_size = [].
Proof.
  intros H. unfold page_chunks, range_by.
  now replace (chunk_size <? 0) with true by (symmetry; apply Z.ltb_lt; lia).
Qed.

(** Every page lies in one of the chunks. *)
Lemma page_chunks_cover (num_pages : nat) (chunk_size : Z) (p : nat) :
  0 < chunk_size -> (p < num_pages)%nat ->
  exists chunk, In chunk (page_chunks num_pages chunk_size)
                /\ (fst chunk <= p < snd chunk)%nat.
Proof.
  intros Hpos Hp. rewrite (page_chunks_pos _ _ Hpos).
  set (c := Z.to_nat chunk_size). assert (c <> 0%nat) as Hc by lia.
  exists ((p / c * c)%nat, Nat.min (p / c * c + c) num_pages).
  split.
  - apply in_map_iff. exists (p / c)%nat. split; [reflexivity|].
    apply in_seq. split; [lia|]. cbn [plus].
    apply Nat.Div0.div_lt_upper_bound.
    pose proof (Nat.div_mod_eq (num_pages + c - 1) c) as H1.
    pose proof (Nat.mod_upper_bound (num_pages + c - 1) c Hc) as H2.
    nia.
  - cbn [fst snd].
    pose proof (Nat.div_mod_eq p c) as H1.
    pose proof (Nat.mod_upper_bound p c Hc) as H2.
    split; [nia|]. apply Nat.min_glb_lt; nia.
Qed.

(** A chunk ends within the document. *)
Lemma page_chunks_within (num_pages : nat) (chunk_size : Z) (chunk : nat * nat) :
  In chunk (page_chunks num_pages chunk_size) -> (snd chunk <= num_pages)%nat.
Proof.
  unfold page_chunks. intros H. apply in_map_iff in H as (k & <- & _).
  cbn [snd]. lia.
Qed.

(** A chunk whose pages all give their text returns. *)
Lemma chunk_loop_returns (pages : list page) (page_nums : list nat) (acc : gset nat) :
  (forall p pg, pages !! p = Some pg -> exists text, page_text pg = Ret text) ->
  exists S, chunk_loop re_search pages page_nums acc = Ret S.
Proof.
  intros Hall. revert acc. induction page_nums as [|p l IH]; intros acc.
  - eexists. reflexivity.
  - cbn [chunk_loop]. destruct (length pages <=? p)%nat; [eexists; reflexivity|].
    destruct (pages !! p) as [pg|] eqn:E; [|eexists; reflexivity].
    destruct (Hall p pg E) as [text ->]. cbn [mbind result_bind]. apply IH.
Qed.

(** A chunk with a page whose text cannot be had raises. *)
Lemma chunk_loop_raises (pages : list page) (page_nums : list nat) (acc : gset nat)
    (q : nat) (pg : page) (e : exn) :
  In q page_nums -> (forall p, In p page_nums -> (p < length pages)%nat) ->
  pages !! q = Some pg -> page_text pg = Raise e ->
  exists e', chunk_loop re_search pages page_nums acc = Raise e'.
Proof.
  intros Hin Hb Hq He. revert acc Hin Hb.
  induction page_nums as [|p l IH]; intros acc Hin Hb; [destruct Hin|].
  cbn [chunk_loop].
  assert (p < length pages)%nat as Hp by (apply Hb; now left).
  destruct (length pages <=? p)%nat eqn:E; [apply Nat.leb_le in E; lia|].
  destruct (lookup_lt_is_Some_2 pages p Hp) as [pg' Hpg']. rewrite Hpg'.
  destruct (page_text pg') as [text|e'] eqn:Et.
  - cbn [mbind result_bind]. destruct Hin as [->|Hin].
    + congruence.
    + apply IH; [exact Hin|]. intros x Hx. apply Hb. now right.
  - eexists. reflexivity.
Qed.

Lemma page_text_raises (pg : page) (e : exn) :
  extract_text pg = Raise e -> page_text pg = Raise e.
Proof. intros H. unfold page_text. now rewrite H. Qed.

(** A document that fits in one chunk is one chunk. *)
Lemma page_chunks_one (num_pages : nat) (chunk_size : Z) :
  (0 < num_pages)%nat -> Z.of_nat num_pages <= chunk_size ->
  page_chunks num_pages chunk_size = [(0%nat, num_pages)].
Proof.
  intros H0 H. rewrite page_chunks_pos by lia.
  set (c := Z.to_nat chunk_size). assert (num_pages <= c)%nat as Hc by lia.
  replace ((num_pages + c - 1) / c)%nat with 1%nat.
  - cbn [seq List.map]. rewrite Nat.mul_0_l, Nat.add_0_l.
    now rewrite Nat.min_r by lia.
  - apply Nat.div_unique with (r := (num_pages - 1)%nat); lia.
Qed.

Lemma merged_found (st : state) (pdf_path : string) (pages : list page)
    (chunk_size : Z) (i : nat) :
  fs st !! pdf_path = Some (PdfFile pages) -> 0 < chunk_size ->
  (forall p pg, pages !! p = Some pg -> exists text, page_text pg = Ret text) ->
  i ∈ merge_completed re_search st pdf_path
        (page_chunks (length pages) chunk_size) {[0%nat; 1%nat]}
  <-> found re_search pages i.
Proof.
  intros Hf Hc Hall. rewrite merge_completed_spec. unfold found. split.
  - intros [Hseed|(chunk & S & Hin & HS & Hi)].
    { apply elem_of_union in Hseed as [Hseed|Hseed];
        apply elem_of_singleton in Hseed; auto. }
    right. right. unfold _process_page_chunk in HS.
    rewrite (PdfReader_open _ _ _ Hf) in HS. cbn [mbind result_bind] in HS.
    apply (chunk_loop_spec re_search _ _ _ _ _ HS) in Hi as [Hi0|Hi1]; [set_solver|].
    destruct Hi1 as (p & pg & text & _ & Hp & Ht & (term & Hterm & Hm) & Hi).
    exists p, pg, text, term. auto.
  - intros [->|[->|(p & pg & text & term & Hp & Ht & Hterm & Hm & Hi)]].
    + left. set_solver.
    + left. set_solver.
    + right. assert (p < length pages)%nat as Hlt.
      { apply lookup_lt_is_Some_1. eauto. }
      destruct (page_chunks_cover _ _ _ Hc Hlt) as (chunk & Hin & Hr).
      destruct (chunk_loop_returns pages
                  (seq (fst chunk) (snd chunk - fst chunk)) ∅ Hall) as [S HS].
      exists chunk, S. split; [exact Hin|]. split.
      * unfold _process_page_chunk. rewrite (PdfReader_open _ _ _ Hf). exact HS.
      * apply (chunk_loop_spec re_search _ _ _ _ _ HS). right.
        exists p, pg, text. split; [lia|]. eauto 10.
Qed.

End Scan.
End ScanMore.

(** X1.  The order in which the chunks complete does not matter: whatever
    the order the executor hands the results over in, the scan returns what it
    returns when they come in the order submitted. *)
Theorem scan_order_irrelevant (re_search : string -> string -> bool)
    (completed : list (nat * nat) -> list (nat * nat))
    (st : state) (pdf_path : string) (chunk_size : Z) :
  (forall chunks, Permutation (completed chunks) chunks) ->
  find_important_pages_as re_search completed st pdf_path chunk_size
  = find_important_pages re_search st pdf_path chunk_size.
Proof.
  intros Hperm. unfold find_important_pages, find_important_pages_as.
  destruct (PdfReader st pdf_path) as [pages|e]; [|reflexivity].
  cbn [mbind result_bind]. destruct (chunk_size =? 0); [reflexivity|].
  f_equal. f_equal. apply ScanFacts.merge_completed_any_order, Hperm.
Qed.

Lemma scan_order_irrelevant_witness :
  find_important_pages_as Samples.re_search (@rev (nat * nat))
    (Samples.disk "contract.pdf" Samples.contract) "contract.pdf" 2
  = find_important_pages Samples.re_search
      (Samples.disk "contract.pdf" Samples.contract) "contract.pdf" 2.
Proof.
  apply (scan_order_irrelevant Samples.re_search (@rev (nat * nat))).
  intros chunks. symmetry. apply Permutation_rev.
Defined.

(** X2.  When the text of every page can be had, the scan of a document
    returns, in strictly ascending order, exactly the two seeds 0 and 1, the
    pages a term is found on, and for each of these the page after it when
    the document has one. *)
Theorem scan_exact (re_search : string -> string -> bool)
    (st : state) (pdf_path : string) (chunk_size : Z) (pages : list page) :
  fs st !! pdf_path = Some (PdfFile pages) -> 0 < chunk_size ->
  (forall p pg, pages !! p = Some pg -> exists text, page_text pg = Ret text) ->
  exists l,
    find_important_pages re_search st pdf_path chunk_size = Ret l
    /\ StronglySorted lt l
    /\ forall i, In i l <-> ScanNotions.found re_search pages i.
Proof.
  intros Hf Hc Hall. unfold find_important_pages, find_important_pages_as.
  rewrite (ScanFacts.PdfReader_open _ _ _ Hf). cbn [mbind result_bind].
  destruct (chunk_size =? 0) eqn:E; [apply Z.eqb_eq in E; lia|].
  eexists. split; [reflexivity|]. split; [apply ScanFacts.sorted_ascending|].
  intros i. rewrite ScanFacts.in_sorted. unfold id.
  now apply ScanMore.merged_found.
Qed.

Lemma scan_exact_witness :
  exists l,
    find_important_pages Samples.re_search
      (Samples.disk "contract.pdf" Samples.contract) "contract.pdf" 4 = Ret l
    /\ StronglySorted lt l
    /\ forall i, In i l <-> ScanNotions.found Samples.re_search Samples.contract i.
Proof.
  apply (scan_exact Samples.re_search
           (Samples.disk "contract.pdf" Samples.contract) "contract.pdf" 4
           Samples.contract).
  - vm_compute. reflexivity.
  - reflexivity.
  - intros p pg Hp.
    assert (In pg Samples.contract) as Hin.
    { apply list_elem_of_In. eapply list_elem_of_lookup_2. exact Hp. }
    cbn in Hin.
    destruct Hin as [<-|[<-|[<-|[<-|[<-|[<-|[]]]]]]]; eexists; vm_compute; reflexivity.
Defined.

(** X3.  The size of the chunks.  A positive size, whatever it is, has no
    effect on what the scan returns when the text of every page can be had.
    A negative size leaves [range] empty: no page is scanned and the scan
    returns the two seeds only, whatever the pages hold.  A size of zero is
    refused by [range] with [ValueError], once the document is opened. *)
Theorem scan_chunk_size (re_search : string -> string -> bool)
    (st : state) (pdf_path : string) (size1 size2 : Z) (pages : list page) :
  fs st !! pdf_path = Some (PdfFile pages) ->
  (0 < size1 -> 0 < size2 ->
   (forall p pg, pages !! p = Some pg -> exists text, page_text pg = Ret text) ->
   find_important_pages re_search st pdf_path size1
   = find_important_pages re_search st pdf_path size2)
  /\ (size1 < 0 ->
      find_important_pages re_search st pdf_path size1 = Ret [0%nat; 1%nat])
  /\ find_important_pages re_search st pdf_path 0 = Raise ValueError.
Proof.
  intros Hf. unfold find_important_pages, find_important_pages_as.
  rewrite (ScanFacts.PdfReader_open _ _ _ Hf). cbn [mbind result_bind].
  split; [|split; [|reflexivity]].
  - intros H1 H2 Hall.
    destruct (size1 =? 0) eqn:E1; [apply Z.eqb_eq in E1; lia|].
    destruct (size2 =? 0) eqn:E2; [apply Z.eqb_eq in E2; lia|].
    f_equal. f_equal. unfold id. apply set_eq. intros i.
    rewrite (ScanMore.merged_found re_search st pdf_path pages size1 i Hf H1 Hall).
    rewrite (ScanMore.merged_found re_search st pdf_path pages size2 i Hf H2 Hall).
    reflexivity.
  - intros H1.
    destruct (size1 =? 0) eqn:E1; [apply Z.eqb_eq in E1; lia|].
    unfold id. rewrite ScanMore.page_chunks_neg by exact H1.
    vm_compute. reflexivity.
Qed.

Lemma scan_chunk_size_witness :
  find_important_pages Samples.re_search
    (Samples.disk "contract.pdf" Samples.contract) "contract.pdf" 1
  = find_important_pages Samples.re_search
      (Samples.disk "contract.pdf" Samples.contract) "contract.pdf" 50
  /\ find_important_pages Samples.re_search
       (Samples.disk "contract.pdf" Samples.contract) "contract.pdf" (-5)
     = Ret [0%nat; 1%nat].
Proof.
  destruct (scan_chunk_size Samples.re_search
              (Samples.disk "contract.pdf" Samples.contract) "contract.pdf" 1 50
              Samples.contract) as (H1 & _); [vm_compute; reflexivity|].
  destruct (scan_chunk_size Samples.re_search
              (Samples.disk "contract.pdf" Samples.contract) "contract.pdf" (-5) 50
              Samples.contract) as (_ & H2 & _); [vm_compute; reflexivity|].
  split; [|apply H2; reflexivity].
  apply H1; [reflexivity|reflexivity|].
  intros p pg Hp.
  assert (In pg Samples.contract) as Hin.
  { apply list_elem_of_In. eapply list_elem_of_lookup_2. exact Hp. }
  cbn in Hin.
  destruct Hin as [<-|[<-|[<-|[<-|[<-|[<-|[]]]]]]]; eexists; vm_compute; reflexivity.
Defined.

(** X4.  A page whose text extraction raises silences the chunk it is in: in
    a document that fits in one chunk (up to 50 pages with the size
    [process_contract] scans with), one such page makes the scan return the
    two seeds only, whatever the other pages hold. *)
Theorem scan_failing_page (re_search : string -> string -> bool)
    (st : state) (pdf_path : string) (chunk_size : Z) (pages : list page)
    (q : nat) (pg : page) (e : exn) :
  fs st !! pdf_path = Some (PdfFile pages) ->
  Z.of_nat (length pages) <= chunk_size ->
  pages !! q = Some pg -> extract_text pg = Raise e ->
  find_important_pages re_search st pdf_path chunk_size = Ret [0%nat; 1%nat].
Proof.
  intros Hf Hn Hq He.
  assert (q < length pages)%nat as Hlt by (apply lookup_lt_is_Some_1; eauto).
  unfold find_important_pages, find_important_pages_as.
  rewrite (ScanFacts.PdfReader_open _ _ _ Hf). cbn [mbind result_bind].
  destruct (chunk_size =? 0) eqn:E; [apply Z.eqb_eq in E; lia|].
  unfold id. rewrite ScanMore.page_chunks_one by lia.
  unfold merge_completed. cbn [fold_left fst snd]. unfold _process_page_chunk.
  rewrite (ScanFacts.PdfReader_open _ _ _ Hf). cbn [mbind result_bind].
  destruct (ScanMore.chunk_loop_raises re_search pages
              (seq 0 (length pages - 0)) ∅ q pg e) as [e' ->].
  - apply in_seq. lia.
  - intros p Hp. apply in_seq in Hp. lia.
  - exact Hq.
  - now apply ScanMore.page_text_raises.
  - vm_compute. reflexivity.
Qed.

Lemma scan_failing_page_witness :
  find_important_pages Samples.re_search
    (Samples.disk "contract.pdf"
       [Samples.cover; Samples.schedule_j;
        {| extract_text := Raise OSError; image_to_string := OcrNoImage |};
        Samples.schedule_j; Samples.annex])
    "contract.pdf" 50
  = Ret [0%nat; 1%nat].
Proof.
  apply (scan_failing_page Samples.re_search _ "contract.pdf" 50
           [Samples.cover; Samples.schedule_j;
            {| extract_text := Raise OSError; image_to_string := OcrNoImage |};
            Samples.schedule_j; Samples.annex]
           2 {| extract_text := Raise OSError; image_to_string := OcrNoImage |}
           OSError).
  - vm_compute. reflexivity.
  - simpl. lia.
  - reflexivity.
  - reflexivity.
Defined.

(** ** More on the reduced document *)

Module ReducedMore.
Import Notions.
Import PyStr Json ProcessContracts ScanFacts RowFacts.

Lemma chars_str (l : list ascii) : chars (str l) = l.
Proof. apply list_ascii_of_string_of_list_ascii. Qed.

Lemma str_chars (s : string) : str (chars s) = s.
Proof. apply string_of_list_ascii_of_string. Qed.

Lemma length_chars (s : string) : length (chars s) = String.length s.
Proof. induction s as [|c s IH]; simpl; [reflexivity|]. now rewrite IH. Qed.

(** Where [rfind] finds the character, the character is. *)
Lemma rfind_spec (c : ascii) (l : list ascii) (i j : Z) :
  rfind c i l = j -> 0 <= i -> 0 <= j ->
  i <= j /\ nth_error l (Z.to_nat (j - i)) = Some c.
Proof.
  revert i j. induction l as [|x r IH]; intros i j H Hi Hj; simpl in H; [lia|].
  destruct (0 <=? rfind c (i + 1) r) eqn:E.
  - apply Z.leb_le in E. destruct (IH (i + 1) j H ltac:(lia) Hj) as [H1 H2].
    split; [lia|]. replace (Z.to_nat (j - i)) with (S (Z.to_nat (j - (i + 1)))) by lia.
    exact H2.
  - destruct (Ascii.eqb x c) eqn:Ex; [|lia]. apply Ascii.eqb_eq in Ex. subst.
    split; [lia|]. now rewrite Z.sub_diag.
Qed.

Lemma rfind_lower (c : ascii) (l : list ascii) (i : Z) :
  0 <= i -> -1 <= rfind c i l.
Proof.
  revert i. induction l as [|x r IH]; intros i Hi; simpl; [lia|].
  destruct (0 <=? rfind c (i + 1) r) eqn:E; [apply Z.leb_le in E; lia|].
  destruct (Ascii.eqb x c); lia.
Qed.

(** The root of a path is the path, or the path cut before a dot. *)
Lemma splitext_root_cases (p : string) :
  splitext_root p = p
  \/ exists k rest,
       splitext_root p = str (List.firstn k (chars p))
       /\ List.skipn k (chars p) = "."%char :: rest.
Proof.
  unfold splitext_root.
  destruct (rfind "/" 0 (chars p) <? rfind "." 0 (chars p)) eqn:E; [|now left].
  destruct (List.existsb _ _); [|now left]. right.
  apply Z.ltb_lt in E.
  pose proof (rfind_lower "/" (chars p) 0 ltac:(lia)) as Hs.
  destruct (rfind_spec "." (chars p) 0 _ eq_refl ltac:(lia) ltac:(lia)) as [_ Hn].
  rewrite Z.sub_0_r in Hn.
  exists (Z.to_nat (rfind "." 0 (chars p))).
  apply nth_error_split in Hn as (l1 & l2 & Hl & Hlen).
  exists l2. split; [reflexivity|].
  set (k := Z.to_nat (rfind "." 0 (chars p))) in *. clearbody k. subst k.
  rewrite Hl, List.skipn_app, List.skipn_all, Nat.sub_diag. reflexivity.
Qed.

Lemma short_filename_fresh (pdf_path : string) : short_filename pdf_path <> pdf_path.
Proof.
  unfold short_filename. intros H. apply (f_equal chars) in H.
  rewrite chars_app in H.
  destruct (splitext_root_cases pdf_path) as [Hr|(k & rest & Hr & Hk)];
    rewrite Hr in H.
  - apply (f_equal (@length ascii)) in H. rewrite length_app in H. simpl in H. lia.
  - rewrite chars_str in H.
    rewrite <- (List.firstn_skipn k (chars pdf_path)) in H at 2.
    apply app_inv_head in H. rewrite Hk in H. discriminate.
Qed.

(** A strictly ascending list that holds its least possible element starts
    with it. *)
Lemma sorted_head (a : nat) (l : list nat) :
  StronglySorted lt l -> In a l -> (forall i, In i l -> (a <= i)%nat) ->
  exists l', l = a :: l' /\ forall i, In i l' -> (a < i)%nat.
Proof.
  intros Hs Hin Hmin. destruct l as [|x l']; [destruct Hin|].
  apply StronglySorted_inv in Hs as [_ Hx]. rewrite Forall_forall in Hx.
  assert (x = a) as ->.
  { destruct Hin as [->|Hin]; [reflexivity|].
    assert (x < a)%nat by now apply Hx, list_elem_of_In.
    assert (a <= x)%nat by (apply Hmin; now left). lia. }
  exists l'. split; [reflexivity|]. intros i Hi. now apply Hx, list_elem_of_In.
Qed.

(** Pages taken at strictly ascending indices are a subsequence of the
    pages. *)
Lemma taken_sublist (pages : list page) :
  forall (kept : list nat) (reduced : list page),
  StronglySorted lt kept ->
  Forall2 (fun i pg => pages !! i = Some pg) kept reduced ->
  sublist reduced pages.
Proof.
  induction pages as [|p0 ps IH]; intros kept reduced Hs HF.
  - destruct HF as [|i pg k r Hi _]; [constructor|discriminate].
  - assert (forall k r, Forall2 (fun i pg => (p0 :: ps) !! i = Some pg) k r ->
                        StronglySorted lt k -> (forall i, In i k -> (0 < i)%nat) ->
                        sublist r ps) as Hpos.
    { intros k r HF' Hs' Hp. apply (IH (List.map pred k) r).
      - clear HF'. induction Hs' as [|x l Hl IHl Hx]; [constructor|].
        cbn [List.map]. constructor.
        + apply IHl. intros i Hi. apply Hp. now right.
        + rewrite Forall_forall in *. intros y Hy.
          apply list_elem_of_In, in_map_iff in Hy as (z & <- & Hz).
          assert (x < z)%nat by now apply Hx, list_elem_of_In.
          assert (0 < x)%nat by (apply Hp; now left). lia.
      - clear Hs'. induction HF' as [|i pg k' r' Hi _ IH']; [constructor|].
        cbn [List.map]. constructor.
        + assert (0 < i)%nat as Hi0 by (apply Hp; now left).
          destruct i as [|i]; [lia|]. exact Hi.
        + apply IH'. intros j Hj. apply Hp. now right. }
    destruct HF as [|i pg k r Hi HF']; [apply sublist_nil_l|].
    apply StronglySorted_inv in Hs as [Hs' Hx]. rewrite Forall_forall in Hx.
    destruct i as [|i].
    + cbn in Hi. injection Hi as <-. apply sublist_skip.
      apply (Hpos k r HF' Hs'). intros j Hj. now apply Hx, list_elem_of_In.
    + apply sublist_cons. apply (Hpos (S i :: k) (pg :: r)).
      * now constructor.
      * constructor; [exact Hs'|]. now apply Forall_forall.
      * intros j [<-|Hj]; [lia|].
        assert (S i < j)%nat by now apply Hx, list_elem_of_In. lia.
Qed.

Section Reduced.
Variable re_search : string -> string -> bool.

(** What the scan gives the writer: ascending, with the two seeds. *)
Lemma scanned_pages (st : state) (pdf_path : string) (pages : list page) :
  fs st !! pdf_path = Some (PdfFile pages) ->
  exists S : gset nat,
    find_important_pages re_search st pdf_path 50 = Ret (sorted S)
    /\ 0%nat ∈ S /\ 1%nat ∈ S.
Proof.
  intros Hf. unfold find_important_pages, find_important_pages_as.
  rewrite (PdfReader_open _ _ _ Hf). cbn [mbind result_bind Nat.eqb].
  eexists. split; [reflexivity|].
  split; apply merge_completed_spec; left; set_solver.
Qed.

End Reduced.
End ReducedMore.

(** X5.  The first processing of a document that opens, with no reduced
    document there yet and the derived name writable, scans it and writes a
    reduced document that is a subsequence of the source's pages and begins
    with the source's first two pages (or with all of them when there are
    fewer). *)
Theorem first_run_reduces (re_search : string -> string -> bool) (E : env)
    (contract_pdf_file : string) (st : state) (pages : list page) :
  fs st !! short_filename contract_pdf_file = None ->
  fs st !! contract_pdf_file = Some (PdfFile pages) ->
  writable E (short_filename contract_pdf_file) = true ->
  exists reduced,
    short_pdf_for re_search E contract_pdf_file st
    = (Ret (Some (short_filename contract_pdf_file)),
       {| fs := <[short_filename contract_pdf_file := PdfFile reduced]> (fs st);
          log := log st ++ [Scanned contract_pdf_file;
                            Written (short_filename contract_pdf_file) reduced] |})
    /\ sublist reduced pages
    /\ reduced !! 0%nat = pages !! 0%nat
    /\ reduced !! 1%nat = pages !! 1%nat.
Proof.
  intros Hnone Hf Hw. unfold short_pdf_for. rewrite Hnone.
  set (st' := logged (Scanned contract_pdf_file) st).
  assert (fs st' !! contract_pdf_file = Some (PdfFile pages)) as Hf' by exact Hf.
  destruct (ReducedMore.scanned_pages re_search st' _ _ Hf') as (S & -> & H0 & H1).
  unfold create_short_pdf. rewrite (ScanFacts.PdfReader_open _ _ _ Hf'), Hw.
  unfold added_pages.
  destruct (added_pages_from pages (sorted S) []) as (reduced & -> & HF).
  exists reduced. cbn [fst snd app]. split.
  { unfold st', logged. cbn [fs log]. now rewrite <- List.app_assoc. }
  set (kept := List.filter (fun i => (i <? length pages)%nat) (sorted S)) in *.
  assert (StronglySorted lt kept) as Hs
    by apply strongly_sorted_filter, ScanFacts.sorted_ascending.
  assert (forall i, In i kept <-> i ∈ S /\ (i < length pages)%nat) as Hk.
  { intros i. unfold kept.
    rewrite List.filter_In, ScanFacts.in_sorted, Nat.ltb_lt. reflexivity. }
  split; [now apply (ReducedMore.taken_sublist pages kept)|].
  destruct pages as [|p0 ps].
  { destruct HF as [|i pg k r Hi _]; [split; reflexivity|discriminate]. }
  destruct (ReducedMore.sorted_head 0 kept Hs) as (l1 & Hl1 & Hgt).
  { apply Hk. cbn [length]. split; [exact H0|lia]. }
  { intros; lia. }
  rewrite Hl1 in HF, Hs, Hk.
  inversion HF as [|i pg k r Hi HF' Ei Er]. subst i k reduced.
  cbn in Hi. injection Hi as <-. split; [reflexivity|].
  apply StronglySorted_inv in Hs as [Hs1 _].
  destruct ps as [|p1 ps].
  { destruct HF' as [|i pg k r' Hi _]; [reflexivity|].
    assert (0 < i)%nat by (apply Hgt; now left).
    destruct i; [lia|]. discriminate. }
  destruct (ReducedMore.sorted_head 1 l1 Hs1) as (l2 & -> & _).
  { assert (In 1%nat (0%nat :: l1)) as [H|H]; [|discriminate|exact H].
    apply Hk. cbn [length]. split; [exact H1|lia]. }
  { intros i Hi. apply Hgt in Hi. lia. }
  inversion HF' as [|i pg k r' Hi HF'' Ei Er]. subst.
  cbn in Hi. injection Hi as <-. reflexivity.
Qed.

Lemma first_run_reduces_witness :
  exists reduced,
    short_pdf_for Samples.re_search (Samples.model "" None) "contract.pdf"
      (Samples.disk "contract.pdf" Samples.contract)
    = (Ret (Some (short_filename "contract.pdf")),
       {| fs := <[short_filename "contract.pdf" := PdfFile reduced]>
                  (fs (Samples.disk "contract.pdf" Samples.contract));
          log := log (Samples.disk "contract.pdf" Samples.contract)
                 ++ [Scanned "contract.pdf";
                     Written (short_filename "contract.pdf") reduced] |})
    /\ sublist reduced Samples.contract
    /\ reduced !! 0%nat = Samples.contract !! 0%nat
    /\ reduced !! 1%nat = Samples.contract !! 1%nat.
Proof.
  apply (first_run_reduces Samples.re_search (Samples.model "" None)
           "contract.pdf" (Samples.disk "contract.pdf" Samples.contract)
           Samples.contract).
  - vm_compute. reflexivity.
  - vm_compute. reflexivity.
  - reflexivity.
Defined.

(** X6.  Once the reduced document of a source has been obtained, every
    later processing of the source reuses it: nothing is scanned and nothing
    is written, whatever the environment then is. *)
Theorem rerun_reuses (re_search re_search' : string -> string -> bool)
    (E E' : env) (contract_pdf_file short_pdf_path : string) (st st1 : state) :
  short_pdf_for re_search E contract_pdf_file st = (Ret (Some short_pdf_path), st1) ->
  short_pdf_path = short_filename contract_pdf_file
  /\ short_pdf_for re_search' E' contract_pdf_file st1
     = (Ret (Some short_pdf_path), st1).
Proof.
  unfold short_pdf_for.
  destruct (fs st !! short_filename contract_pdf_file) as [[pgs|size]|] eqn:Ef.
  - intros [= <- <-]. now rewrite Ef.
  - destruct (0 <? size)%nat eqn:Es.
    + intros [= <- <-]. now rewrite Ef, Es.
    + destruct (find_important_pages _ _ _ _) as [l|e]; [|discriminate].
      unfold create_short_pdf.
      destruct (PdfReader _ _) as [pages|e]; [|discriminate].
      destruct (writable _ _); [|discriminate].
      cbn [fst snd]. intros [= <- <-]. cbn [fs]. now rewrite lookup_insert_eq.
  - destruct (find_important_pages _ _ _ _) as [l|e]; [|discriminate].
    unfold create_short_pdf.
    destruct (PdfReader _ _) as [pages|e]; [|discriminate].
    destruct (writable _ _); [|discriminate].
    cbn [fst snd]. intros [= <- <-]. cbn [fs]. now rewrite lookup_insert_eq.
Qed.

Lemma rerun_reuses_witness :
  let st1 :=
    snd (short_pdf_for Samples.re_search (Samples.model "" None) "contract.pdf"
           (Samples.disk "contract.pdf" Samples.contract)) in
  short_filename "contract.pdf" = short_filename "contract.pdf"
  /\ short_pdf_for (fun _ _ => true)
       {| GOOGLE_API_KEY := None; generate_content := fun _ _ => Failure "";
          writable := fun _ => false; listdir := [] |}
       "contract.pdf" st1
     = (Ret (Some (short_filename "contract.pdf")), st1).
Proof.
  cbv zeta.
  apply (rerun_reuses Samples.re_search (fun _ _ => true) (Samples.model "" None) _
           "contract.pdf" (short_filename "contract.pdf")
           (Samples.disk "contract.pdf" Samples.contract)).
  vm_compute. reflexivity.
Defined.

(** X7.  Processing a document never touches the document itself nor any
    other file than the reduced document: the derived name differs from the
    source's, and every file under another name is left as it was. *)
Theorem process_contract_frame (re_search : string -> string -> bool)
    (json_loads : string -> option json) (E : env) (contract_pdf_file : string)
    (llm_prompt_fields : list (string * string)) (output_columns : list string)
    (st : state) (path : string) :
  short_filename contract_pdf_file <> contract_pdf_file
  /\ (path <> short_filename contract_pdf_file ->
      fs (snd (process_contract re_search json_loads E contract_pdf_file
                 llm_prompt_fields output_columns st)) !! path
      = fs st !! path).
Proof.
  split; [apply ReducedMore.short_filename_fresh|]. intros Hne.
  assert (fs (snd (short_pdf_for re_search E contract_pdf_file st)) !! path
          = fs st !! path) as Hs.
  { unfold short_pdf_for.
    destruct (match fs st !! short_filename contract_pdf_file with
              | Some (PdfFile _) => true
              | Some (OtherFile size) => (0 <? size)%nat
              | None => false
              end); [reflexivity|].
    destruct (find_important_pages _ _ _ _) as [l|e]; [|reflexivity].
    unfold create_short_pdf.
    destruct (PdfReader _ _) as [pages|e]; [|reflexivity].
    destruct (writable _ _); [|reflexivity].
    cbn [fst snd fs]. now rewrite lookup_insert_ne. }
  unfold process_contract.
  destruct (short_pdf_for re_search E contract_pdf_file st) as [[[p|]|e] st1];
    cbn [fst snd] in *; try exact Hs.
  assert (forall prompt,
            fs (snd (extract_data_with_llm E p prompt st1)) = fs st1) as Hx.
  { intros prompt. unfold extract_data_with_llm.
    destruct (GOOGLE_API_KEY E) as [[|c k]|]; [reflexivity| |reflexivity].
    destruct (fs st1 !! p); [|reflexivity].
    destruct (generate_content E prompt _); reflexivity. }
  destruct (with_end_date _); cbn [snd]; now rewrite Hx.
Qed.

Lemma process_contract_frame_witness :
  short_filename "contract.pdf" <> "contract.pdf"
  /\ fs (snd (process_contract Samples.re_search Samples.json_loads
                (Samples.model Samples.fenced_answer (Some "key")) "contract.pdf"
                fallback_fields fallback_columns
                (Samples.disk "contract.pdf" Samples.contract))) !! "contract.pdf"
     = fs (Samples.disk "contract.pdf" Samples.contract) !! "contract.pdf".
Proof.
  destruct (process_contract_frame Samples.re_search Samples.json_loads
              (Samples.model Samples.fenced_answer (Some "key")) "contract.pdf"
              fallback_fields fallback_columns
              (Samples.disk "contract.pdf" Samples.contract) "contract.pdf")
    as [H1 H2].
  split; [exact H1|]. apply H2. discriminate.
Defined.

(** X8.  A reduced document is never taken for an original: whatever the
    source's name, the name derived from it is left out of the files [main]
    processes. *)
Theorem short_pdf_not_original (pdf_path : string) :
  is_original_pdf (short_filename pdf_path) = false.
Proof.
  unfold is_original_pdf, short_filename, endswith.
  rewrite !ReducedMore.chars_str, RowFacts.chars_app, List.map_app, List.rev_app_distr.
  change (List.map lower (chars "_short.pdf")) with (chars "_short.pdf").
  rewrite RowFacts.starts_with_app. apply andb_false_r.
Qed.

(** ** More on the rows and on [main] *)

Module RowMore.
Import Notions.
Import PyStr Json ProcessContracts RowFacts RowNotions.

Lemma mem_In (x : string) (l : list string) : mem x l = true <-> In x l.
Proof.
  unfold mem. rewrite List.existsb_exists. split.
  - intros (y & Hy & E). apply String.eqb_eq in E. now subst.
  - intros H. exists x. split; [exact H|apply String.eqb_refl].
Qed.

Lemma mem_false (x : string) (l : list string) : mem x l = false <-> ~ In x l.
Proof.
  rewrite <- mem_In. destruct (mem x l); split; congruence.
Qed.

Lemma In_remove_first (x y : string) (l : list string) :
  (In y (remove_first x l) -> In y l)
  /\ (y <> x -> In y l -> In y (remove_first x l)).
Proof.
  induction l as [|z l [IH1 IH2]]; cbn [remove_first]; [tauto|].
  destruct (String.eqb z x) eqn:E.
  - apply String.eqb_eq in E. subst z. split; [now right|].
    intros Hne [->|H]; [contradiction|exact H].
  - split.
    + intros [->|H]; [now left|right; now apply IH1].
    + intros Hne [->|H]; [now left|right; now apply IH2].
Qed.

Lemma insert_after_none (x new : string) (l : list string) :
  insert_after x new l = None <-> ~ In x l.
Proof.
  induction l as [|y l IH]; cbn [insert_after]; [tauto|].
  destruct (String.eqb y x) eqn:E.
  - apply String.eqb_eq in E. subst. split; [discriminate|].
    intros H. exfalso. apply H. now left.
  - apply String.eqb_neq in E.
    destruct (insert_after x new l); split; try discriminate; try reflexivity.
    + intros H. exfalso. assert (~ In x l) as H' by (intros K; apply H; now right).
      apply IH in H'. discriminate.
    + intros _ [K|K]; [contradiction|]. now apply IH in K.
Qed.

Lemma insert_after_some (x new : string) (l l' : list string) :
  insert_after x new l = Some l' ->
  (forall y, In y l' <-> y = new \/ In y l)
  /\ exists front back, l = front ++ x :: back /\ ~ In x front
                        /\ l' = front ++ x :: new :: back.
Proof.
  revert l'. induction l as [|z l IH]; intros l'; cbn [insert_after]; [discriminate|].
  destruct (String.eqb z x) eqn:E.
  - apply String.eqb_eq in E. subst z. intros [= <-]. split.
    + intros y. cbn [In]. intuition.
    + exists [], l. auto.
  - apply String.eqb_neq in E.
    destruct (insert_after x new l) as [r|]; [|discriminate]. intros [= <-].
    destruct (IH r eq_refl) as (H1 & front & back & -> & Hn & ->). split.
    + intros y. cbn [In]. rewrite H1. intuition.
    + exists (z :: front), back. repeat split; try reflexivity.
      intros [K|K]; [contradiction|now apply Hn].
Qed.

(** A cell no column of the output writes is left as it was. *)
Lemma lookup_untouched (extracted_data : dict) (output_columns : list string)
    (row : dict) (col : string) :
  ~ In col output_columns ->
  dict_lookup
    (fold_left (fun row col => dict_set row col (row_value extracted_data col))
       output_columns row) col
  = dict_lookup row col.
Proof.
  revert row. induction output_columns as [|c l IH]; intros row Hn; [reflexivity|].
  cbn [fold_left]. rewrite IH by (intros K; apply Hn; now right).
  rewrite dict_lookup_set.
  destruct (String.eqb c col) eqn:E; [|reflexivity].
  apply String.eqb_eq in E. exfalso. apply Hn. now left.
Qed.

(** The cell of a column that is neither the file's name nor one of the
    three of the location. *)
Lemma row_cell (extracted_data : dict) (output_columns : list string)
    (pdf_file col : string) :
  In col output_columns -> col <> "File Name" -> ~ location_column col ->
  dict_lookup (row_data extracted_data output_columns pdf_file) col
  = Some (row_value extracted_data col).
Proof.
  intros Hin H1 H2. unfold row_data. rewrite dict_lookup_set.
  apply String.eqb_neq in H1. rewrite String.eqb_sym, H1.
  assert (col <> "Location - State" /\ col <> "Location - District"
          /\ col <> "Location - Towns covered") as (N1 & N2 & N3).
  { unfold location_column in H2. tauto. }
  apply String.eqb_neq in N1, N2, N3.
  rewrite String.eqb_sym in N1, N2, N3.
  destruct (dict_lookup extracted_data "Location") as [[| | | |l|loc]|];
    rewrite ?dict_lookup_set, ?N1, ?N2, ?N3; now apply lookup_filled.
Qed.

Lemma row_named (extracted_data : dict) (output_columns : list string)
    (pdf_file : string) :
  dict_lookup (row_data extracted_data output_columns pdf_file) "File Name"
  = Some (JStr pdf_file).
Proof. unfold row_data. now rewrite dict_lookup_set. Qed.

Lemma row_has_cell (extracted_data : dict) (output_columns : list string)
    (pdf_file col : string) :
  In col output_columns ->
  exists v, dict_lookup (row_data extracted_data output_columns pdf_file) col = Some v.
Proof.
  intros Hin. unfold row_data. rewrite dict_lookup_set.
  destruct (String.eqb "File Name" col); [eauto|].
  destruct (dict_lookup extracted_data "Location") as [[| | | |l|loc]|];
    rewrite ?dict_lookup_set;
    repeat match goal with
           | |- context [if ?b then _ else _] => destruct b; [eauto|]
           end;
    rewrite (lookup_filled _ _ _ _ Hin); eauto.
Qed.

End RowMore.

(** X9.  The columns of the output, from the names of the fields read.  When
    the fields name neither [End Date] nor [Project Duration], the columns
    cannot be built: [main] raises [ValueError] before anything is written.
    Otherwise the columns start with [File Name], hold [End Date] (put right
    after the first [Project Duration] when the fields do not name it), every
    field name other than [Location], and the three columns of the location
    when the fields name [Location]; they hold nothing else. *)
Theorem output_columns_rule (re_search : string -> string -> bool)
    (json_loads : string -> option json) (E : env)
    (fields : list (string * string)) (st : state) :
  (~ In "End Date" (List.map fst fields) ->
   ~ In "Project Duration" (List.map fst fields) ->
   output_columns_of (List.map fst fields) = Raise ValueError
   /\ main re_search json_loads E (Some fields) st = (Raise ValueError, st))
  /\ (In "End Date" (List.map fst fields)
      \/ In "Project Duration" (List.map fst fields) ->
      exists rest,
        output_columns_of (List.map fst fields) = Ret ("File Name" :: rest)
        /\ In "End Date" rest
        /\ (~ In "End Date" (List.map fst fields) ->
            exists front back,
              "File Name" :: rest
              = front ++ "Project Duration" :: "End Date" :: back
              /\ ~ In "Project Duration" front)
        /\ (forall name, In name (List.map fst fields) -> name <> "Location" ->
              In name rest)
        /\ (In "Location" (List.map fst fields) ->
            forall col, RowNotions.location_column col -> In col rest)
        /\ (forall col, In col rest ->
              In col (List.map fst fields) \/ col = "End Date"
              \/ RowNotions.location_column col)).
Proof.
  set (names := List.map fst fields).
  set (three := ["Location - State"; "Location - District";
                 "Location - Towns covered"]).
  set (rest0 := if mem "Location" names
                then remove_first "Location" names ++ three else names).
  assert (forall col, RowNotions.location_column col <-> In col three) as Hthree.
  { intros col. unfold RowNotions.location_column, three. cbn [In]. intuition. }
  assert (forall y, In y rest0 ->
            In y names \/ RowNotions.location_column y) as Hfrom.
  { intros y. unfold rest0. destruct (mem "Location" names); [|now left].
    rewrite in_app_iff, Hthree. intros [H|H]; [left|now right].
    now apply (RowMore.In_remove_first "Location" y names). }
  assert (forall y, In y names -> y <> "Location" -> In y rest0) as Hto.
  { intros y Hy Hne. unfold rest0. destruct (mem "Location" names); [|exact Hy].
    apply in_app_iff. left. now apply RowMore.In_remove_first. }
  assert (In "Location" names ->
          forall col, RowNotions.location_column col -> In col rest0) as Hloc.
  { intros HL col Hc. unfold rest0. apply RowMore.mem_In in HL. rewrite HL.
    apply in_app_iff. right. now apply Hthree. }
  assert (forall y, y = "End Date" \/ y = "Project Duration" ->
            (In y rest0 <-> In y names)) as Hsame.
  { intros y Hy. split.
    - intros H. destruct (Hfrom y H) as [K|K]; [exact K|].
      unfold RowNotions.location_column in K.
      destruct Hy as [-> | ->]; destruct K as [K|[K|K]]; discriminate.
    - intros H. apply Hto; [exact H|]. destruct Hy as [-> | ->]; discriminate. }
  assert (output_columns_of names
          = if mem "End Date" ("File Name" :: rest0) then Ret ("File Name" :: rest0)
            else match insert_after "Project Duration" "End Date"
                         ("File Name" :: rest0) with
                 | Some output_columns => Ret output_columns
                 | None => Raise ValueError
                 end) as Hout.
  { unfold output_columns_of, rest0.
    change (mem "Location" ("File Name" :: names)) with (mem "Location" names).
    destruct (mem "Location" names); reflexivity. }
  change (mem "End Date" ("File Name" :: rest0)) with (mem "End Date" rest0) in Hout.
  change (insert_after "Project Duration" "End Date" ("File Name" :: rest0))
    with (match insert_after "Project Duration" "End Date" rest0 with
          | Some r' => Some ("File Name" :: r')
          | None => None
          end) in Hout.
  split.
  - intros HE HP.
    assert (output_columns_of names = Raise ValueError) as Hr.
    { rewrite Hout.
      assert (mem "End Date" rest0 = false) as ->.
      { apply RowMore.mem_false. rewrite Hsame; auto. }
      assert (insert_after "Project Duration" "End Date" rest0 = None) as ->.
      { apply RowMore.insert_after_none. rewrite Hsame; auto. }
      reflexivity. }
    split; [exact Hr|]. unfold main. fold names. now rewrite Hr.
  - intros Hor. rewrite Hout.
    destruct (mem "End Date" rest0) eqn:EE.
    + apply RowMore.mem_In in EE. exists rest0. split; [reflexivity|].
      split; [exact EE|]. split.
      { intros Hn. exfalso. apply Hn. now apply Hsame; auto. }
      split; [exact Hto|]. split; [exact Hloc|].
      intros col Hc. destruct (Hfrom col Hc); auto.
    + apply RowMore.mem_false in EE.
      assert (In "Project Duration" names) as HP.
      { destruct Hor as [H|H]; [|exact H]. exfalso. apply EE. now apply Hsame; auto. }
      destruct (insert_after "Project Duration" "End Date" rest0) as [r'|] eqn:EI.
      2:{ apply RowMore.insert_after_none in EI. exfalso. apply EI.
          now apply Hsame; auto. }
      destruct (RowMore.insert_after_some _ _ _ _ EI)
        as (Hmem & front & back & Hr0 & Hfront & ->).
      exists (front ++ "Project Duration" :: "End Date" :: back).
      split; [reflexivity|]. split; [apply Hmem; now left|]. split.
      { intros _. exists ("File Name" :: front), back. split; [reflexivity|].
        intros [K|K]; [discriminate|contradiction]. }
      split; [intros name Hn Hne; apply Hmem; right; now apply Hto|].
      split; [intros HL col Hc; apply Hmem; right; now apply Hloc|].
      intros col Hc. apply Hmem in Hc as [->|Hc]; [auto|].
      destruct (Hfrom col Hc); auto.
Qed.

Lemma output_columns_rule_witness :
  main Samples.re_search Samples.json_loads (Samples.model "" None)
    (Some [("Project Name", ""); ("Location", "")])
    (Samples.disk "contract.pdf" Samples.contract)
  = (Raise ValueError, Samples.disk "contract.pdf" Samples.contract)
  /\ exists rest,
       output_columns_of (List.map fst fallback_fields) = Ret ("File Name" :: rest)
       /\ In "End Date" rest.
Proof.
  split.
  - destruct (output_columns_rule Samples.re_search Samples.json_loads
                (Samples.model "" None) [("Project Name", ""); ("Location", "")]
                (Samples.disk "contract.pdf" Samples.contract)) as [H _].
    apply H; cbn; intros [K|[K|[]]]; discriminate.
  - destruct (output_columns_rule Samples.re_search Samples.json_loads
                (Samples.model "" None) fallback_fields
                (Samples.disk "contract.pdf" Samples.contract)) as [_ H].
    destruct H as (rest & H1 & H2 & _).
    + right. cbn. tauto.
    + exists rest. split; [exact H1|exact H2].
Defined.

(** X10.  A row always names the file it is of, whatever the answer holds
    under [File Name], and has a cell for every column of the output.  In a
    column other than the file's name and the three of the location, a field
    the answer lacks gives the empty string, and a field the answer gives as
    [null] gives the empty string too, except in [Payment Schedule] and
    [Project Milestones List], where the [null] is passed on. *)
Theorem row_cells (extracted_data : dict) (output_columns : list string)
    (pdf_file col : string) :
  dict_lookup (row_data extracted_data output_columns pdf_file) "File Name"
  = Some (JStr pdf_file)
  /\ (In col output_columns ->
      (exists v, dict_lookup (row_data extracted_data output_columns pdf_file) col
                 = Some v)
      /\ (col <> "File Name" -> ~ RowNotions.location_column col ->
          col <> "Contract Value (₹ Cr)" ->
          (dict_lookup extracted_data col = None ->
           dict_lookup (row_data extracted_data output_columns pdf_file) col
           = Some (JStr ""))
          /\ (dict_lookup extracted_data col = Some JNull ->
              dict_lookup (row_data extracted_data output_columns pdf_file) col
              = Some (if String.eqb col "Payment Schedule"
                         || String.eqb col "Project Milestones List"
                      then JNull else JStr "")))).
Proof.
  split; [apply RowMore.row_named|]. intros Hin.
  split; [now apply RowMore.row_has_cell|]. intros H1 H2 H3.
  rewrite (RowMore.row_cell _ _ _ _ Hin H1 H2).
  apply String.eqb_neq in H3. unfold row_value, dict_get. rewrite H3.
  split; intros ->; cbn [default];
    destruct (String.eqb col "Project Milestones List"),
             (String.eqb col "Payment Schedule"); reflexivity.
Qed.

Lemma row_cells_witness :
  let d := [("File Name", JStr "other.pdf"); ("Project Name", JNull);
            ("Payment Schedule", JNull)] in
  dict_lookup (row_data d fallback_columns "contract.pdf") "File Name"
    = Some (JStr "contract.pdf")
  /\ dict_lookup (row_data d fallback_columns "contract.pdf") "Project Name"
     = Some (JStr "")
  /\ dict_lookup (row_data d fallback_columns "contract.pdf") "Payment Schedule"
     = Some JNull
  /\ dict_lookup (row_data d fallback_columns "contract.pdf") "Start Date"
     = Some (JStr "").
Proof.
  cbv zeta.
  set (d := [("File Name", JStr "other.pdf"); ("Project Name", JNull);
             ("Payment Schedule", JNull)]).
  split; [apply (row_cells d fallback_columns "contract.pdf" "File Name")|].
  split; [|split].
  - destruct (row_cells d fallback_columns "contract.pdf" "Project Name")
      as [_ H]. destruct H as [_ H]; [cbn; tauto|].
    destruct H as [_ H]; [discriminate| |discriminate|now apply H].
    intros [K|[K|K]]; discriminate.
  - destruct (row_cells d fallback_columns "contract.pdf" "Payment Schedule")
      as [_ H]. destruct H as [_ H]; [cbn; tauto|].
    destruct H as [_ H]; [discriminate| |discriminate|now apply H].
    intros [K|[K|K]]; discriminate.
  - destruct (row_cells d fallback_columns "contract.pdf" "Start Date")
      as [_ H]. destruct H as [_ H]; [cbn; tauto|].
    destruct H as [H _]; [discriminate| |discriminate|now apply H].
    intros [K|[K|K]]; discriminate.
Defined.

Module MainMore.
Import Notions.
Import PyStr Json ProcessContracts RowFacts RowMore RowNotions.

Lemma keys_set (d : dict) (k : string) (v : json) :
  keys (dict_set d k v) = if mem k (keys d) then keys d else keys d ++ [k].
Proof.
  induction d as [|[k' v'] d IH]; [reflexivity|]. cbn [dict_set keys List.map fst].
  unfold mem. cbn [List.existsb]. rewrite (String.eqb_sym k k').
  destruct (String.eqb k' k) eqn:E; cbn [orb].
  - apply String.eqb_eq in E. now subst.
  - cbn [List.map fst]. fold (keys (dict_set d k v)). rewrite IH. fold (keys d).
    unfold mem. destruct (List.existsb (String.eqb k) (keys d)); reflexivity.
Qed.

Lemma keys_set_in (d : dict) (k : string) (v : json) :
  In k (keys d) -> keys (dict_set d k v) = keys d.
Proof. intros H. rewrite keys_set. apply mem_In in H. now rewrite H. Qed.

Lemma keys_set_new (d : dict) (k : string) (v : json) :
  ~ In k (keys d) -> keys (dict_set d k v) = keys d ++ [k].
Proof. intros H. rewrite keys_set. apply mem_false in H. now rewrite H. Qed.

(** The cells of distinct columns are written in the columns' order. *)
Lemma keys_filled (extracted_data : dict) (output_columns : list string) (row : dict) :
  List.NoDup output_columns ->
  (forall c, In c output_columns -> ~ In c (keys row)) ->
  keys (fold_left (fun row col => dict_set row col (row_value extracted_data col))
          output_columns row)
  = keys row ++ output_columns.
Proof.
  revert row. induction output_columns as [|c l IH]; intros row Hnd Hfresh.
  - cbn [fold_left]. now rewrite List.app_nil_r.
  - cbn [fold_left]. apply NoDup_cons_iff in Hnd as [Hc Hnd].
    rewrite IH.
    + rewrite keys_set_new by (apply Hfresh; now left).
      now rewrite <- List.app_assoc.
    + exact Hnd.
    + intros x Hx. rewrite keys_set_new by (apply Hfresh; now left).
      rewrite in_app_iff. intros [K|[K|[]]].
      * apply (Hfresh x); [now right|exact K].
      * subst. contradiction.
Qed.

Section Main.
Variable re_search : string -> string -> bool.
Variable json_loads : string -> option json.

(** What a step of the pipeline adds to the record of what was done. *)
Lemma short_pdf_for_log (E : env) (contract_pdf_file : string) (st : state) :
  exists evs,
    log (snd (short_pdf_for re_search E contract_pdf_file st)) = log st ++ evs
    /\ row_files evs = [] /\ List.forallb (fun e => negb (is_header e)) evs = true.
Proof.
  unfold short_pdf_for.
  destruct (match fs st !! short_filename contract_pdf_file with
            | Some (PdfFile _) => true
            | Some (OtherFile size) => (0 <? size)%nat
            | None => false
            end).
  { exists []. cbn [snd]. now rewrite List.app_nil_r. }
  destruct (find_important_pages _ _ _ _) as [l|e].
  - unfold create_short_pdf. destruct (PdfReader _ _) as [pages|e].
    + destruct (writable _ _); cbn [fst snd log logged].
      * eexists [_; _]. rewrite <- List.app_assoc. split; [reflexivity|]. split; reflexivity.
      * eexists [_]. split; [reflexivity|]. split; reflexivity.
    + cbn [fst snd log logged]. eexists [_]. split; [reflexivity|]. split; reflexivity.
  - cbn [fst snd log logged]. eexists [_]. split; [reflexivity|]. split; reflexivity.
Qed.

Lemma extract_log (E : env) (pdf_path prompt : string) (st : state) :
  exists evs,
    log (snd (extract_data_with_llm E pdf_path prompt st)) = log st ++ evs
    /\ row_files evs = [] /\ List.forallb (fun e => negb (is_header e)) evs = true.
Proof.
  unfold extract_data_with_llm.
  destruct (GOOGLE_API_KEY E) as [[|c k]|];
    try (exists []; cbn [snd]; now rewrite List.app_nil_r).
  destruct (fs st !! pdf_path);
    try (exists []; cbn [snd]; now rewrite List.app_nil_r).
  destruct (generate_content E prompt _); cbn [snd log logged];
    (eexists [_]; split; [reflexivity|]; split; reflexivity).
Qed.

Lemma process_contract_log (E : env) (contract_pdf_file : string)
    (llm_prompt_fields : list (string * string)) (output_columns : list string)
    (st : state) :
  exists evs,
    log (snd (process_contract re_search json_loads E contract_pdf_file
                llm_prompt_fields output_columns st)) = log st ++ evs
    /\ row_files evs = [] /\ List.forallb (fun e => negb (is_header e)) evs = true.
Proof.
  unfold process_contract.
  destruct (short_pdf_for_log E contract_pdf_file st) as (e1 & H1 & R1 & F1).
  destruct (short_pdf_for re_search E contract_pdf_file st) as [[[p|]|e] st1];
    cbn [fst snd] in *; try solve [exists e1; auto].
  destruct (extract_log E p (llm_prompt llm_prompt_fields) st1) as (e2 & H2 & R2 & F2).
  exists (e1 ++ e2).
  assert (log (snd (extract_data_with_llm E p (llm_prompt llm_prompt_fields) st1))
          = log st ++ e1 ++ e2) as H.
  { rewrite H2, H1. now rewrite <- List.app_assoc. }
  split; [destruct (with_end_date _); exact H|]. split.
  - unfold row_files in *. now rewrite List.flat_map_app, R1, R2.
  - now rewrite List.forallb_app, F1, F2.
Qed.

Lemma process_file_log (E : env) (llm_prompt_fields : list (string * string))
    (output_columns : list string) (pdf_file : string) (st : state) :
  exists evs,
    log (snd (process_file re_search json_loads E llm_prompt_fields output_columns
                pdf_file st)) = log st ++ evs
    /\ sublist (row_files evs) [pdf_file]
    /\ List.forallb (fun e => negb (is_header e)) evs = true.
Proof.
  unfold process_file.
  destruct (process_contract_log E pdf_file llm_prompt_fields output_columns st)
    as (evs & H & R & F).
  destruct (process_contract _ _ _ _ _ _ _) as [v st1]. cbn [fst snd] in *.
  assert (sublist (row_files evs) [pdf_file]) as Hs by (rewrite R; apply sublist_nil_l).
  destruct (truthy v); [|exists evs; auto].
  destruct v as [| | | | |d]; try solve [exists evs; auto].
  exists (evs ++ [RowAppended (row_data d output_columns pdf_file)]).
  cbn [snd log logged]. split; [now rewrite H, <- List.app_assoc|]. split.
  - unfold row_files in *. rewrite List.flat_map_app, R. cbn [List.flat_map row_file app].
    rewrite row_named. reflexivity.
  - rewrite List.forallb_app, F. reflexivity.
Qed.

Lemma process_files_log (E : env) (llm_prompt_fields : list (string * string))
    (output_columns : list string) (pdf_files : list string) (st : state) :
  exists evs,
    log (snd (process_files re_search json_loads E llm_prompt_fields output_columns
                pdf_files st)) = log st ++ evs
    /\ sublist (row_files evs) pdf_files
    /\ List.forallb (fun e => negb (is_header e)) evs = true.
Proof.
  revert st. induction pdf_files as [|f l IH]; intros st.
  - exists []. cbn [process_files snd]. rewrite List.app_nil_r. repeat split.
    constructor.
  - cbn [process_files].
    destruct (process_file_log E llm_prompt_fields output_columns f st)
      as (e1 & H1 & S1 & F1).
    destruct (process_file _ _ _ _ _ _ _) as [[[]|e] st1]; cbn [snd] in *.
    + destruct (IH st1) as (e2 & H2 & S2 & F2). exists (e1 ++ e2).
      split; [now rewrite H2, H1, <- List.app_assoc|]. split.
      * unfold row_files in *. rewrite List.flat_map_app.
        change (f :: l) with ([f] ++ l). now apply sublist_app.
      * now rewrite List.forallb_app, F1, F2.
    + exists e1. split; [exact H1|]. split; [|exact F1].
      change (f :: l) with ([f] ++ l). apply sublist_inserts_r. exact S1.
Qed.

End Main.
End MainMore.

Import RowNotions.

(** X11.  The cells of a row line up with the header when the columns are
    distinct, hold [File Name], and hold the three columns of the location
    or the answer gives no location to flatten: the row's keys are then the
    columns, in their order.  When the answer gives a location (a string or
    an object) and the columns hold none of the three, the row has three
    cells more than the header. *)
Theorem row_alignment (extracted_data : dict) (output_columns : list string)
    (pdf_file : string) :
  List.NoDup output_columns -> In "File Name" output_columns ->
  ((forall col, RowNotions.location_column col -> In col output_columns)
   \/ (forall s, dict_lookup extracted_data "Location" <> Some (JStr s))
      /\ (forall loc, dict_lookup extracted_data "Location" <> Some (JDict loc)) ->
   List.map fst (row_data extracted_data output_columns pdf_file) = output_columns)
  /\ ((forall col, RowNotions.location_column col -> ~ In col output_columns) ->
      (exists s, dict_lookup extracted_data "Location" = Some (JStr s))
      \/ (exists loc, dict_lookup extracted_data "Location" = Some (JDict loc)) ->
      List.map fst (row_data extracted_data output_columns pdf_file)
      = output_columns ++ ["Location - State"; "Location - District";
                           "Location - Towns covered"]).
Proof.
  intros Hnd Hfile.
  pose proof (MainMore.keys_filled extracted_data output_columns [] Hnd
                ltac:(intros c _ [])) as Hk.
  change (keys [] ++ output_columns) with output_columns in Hk.
  unfold row_data.
  set (row := fold_left
                (fun row col => dict_set row col (row_value extracted_data col))
                output_columns []) in *.
  change (@List.map (string * json) string fst) with keys.
  assert (forall (r : dict) k v l,
            keys r = l -> In k l -> keys (dict_set r k v) = l)
    as Hkeep.
  { intros r k v l Hr Hin. rewrite MainMore.keys_set_in; [exact Hr|]. now rewrite Hr. }
  assert (forall (r : dict) k v l,
            keys r = l -> ~ In k l
            -> keys (dict_set r k v) = l ++ [k]) as Hadd.
  { intros r k v l Hr Hin. rewrite MainMore.keys_set_new; [now rewrite Hr|].
    now rewrite Hr. }
  split.
  - intros Hcase. apply Hkeep; [|exact Hfile].
    destruct (dict_lookup extracted_data "Location") as [[| | |s|l|loc]|] eqn:EL;
      try exact Hk.
    + destruct Hcase as [Hall|[Hs _]]; [|now destruct (Hs s)].
      repeat apply Hkeep; try exact Hk; apply Hall;
        unfold RowNotions.location_column; auto.
    + destruct Hcase as [Hall|[_ Hd]]; [|now destruct (Hd loc)].
      repeat apply Hkeep; try exact Hk; apply Hall;
        unfold RowNotions.location_column; auto.
  - intros Hnone Hloc.
    assert (~ In "Location - State" output_columns
            /\ ~ In "Location - District" output_columns
            /\ ~ In "Location - Towns covered" output_columns) as (N1 & N2 & N3).
    { repeat split; apply Hnone; unfold RowNotions.location_column; auto. }
    assert (forall v1 v2 v3,
              keys
                (dict_set
                   (dict_set (dict_set (dict_set row "Location - State" v1)
                                "Location - District" v2)
                      "Location - Towns covered" v3)
                   "File Name" (JStr pdf_file))
              = output_columns ++ ["Location - State"; "Location - District";
                                   "Location - Towns covered"]) as Hthree.
    { intros v1 v2 v3. apply Hkeep; [|apply in_app_iff; now left].
      change (output_columns ++ ["Location - State"; "Location - District";
                                 "Location - Towns covered"])
        with (output_columns ++ ["Location - State"] ++ ["Location - District"]
                ++ ["Location - Towns covered"]).
      rewrite !List.app_assoc.
      apply Hadd; [apply Hadd; [apply Hadd; [exact Hk|exact N1]|]|].
      - rewrite in_app_iff. intros [K|[K|[]]]; [contradiction|discriminate].
      - rewrite !in_app_iff. intros [[K|[K|[]]]|[K|[]]];
          [contradiction|discriminate|discriminate]. }
    destruct Hloc as [[s ->]|[loc ->]]; apply Hthree.
Qed.

Lemma row_alignment_witness :
  List.map fst (row_data [("Location", JStr "Haryana")] fallback_columns "contract.pdf")
    = fallback_columns
  /\ List.map fst (row_data [("Location", JStr "Haryana")]
                     ["File Name"; "Project Name"] "contract.pdf")
     = ["File Name"; "Project Name"; "Location - State"; "Location - District";
        "Location - Towns covered"].
Proof.
  split.
  - destruct (row_alignment [("Location", JStr "Haryana")] fallback_columns
                "contract.pdf") as [H _].
    + repeat constructor; cbn; intuition discriminate.
    + cbn. tauto.
    + apply H. left. intros col [-> |[-> | ->]]; cbn; tauto.
  - destruct (row_alignment [("Location", JStr "Haryana")]
                ["File Name"; "Project Name"] "contract.pdf") as [_ H].
    + repeat constructor; cbn; intuition discriminate.
    + cbn. tauto.
    + apply H.
      * intros col [-> |[-> | ->]] [K|[K|[]]]; discriminate.
      * left. eexists. reflexivity.
Defined.

(** X12.  An answer that decodes to something other than an object (a list,
    a string, a number, a boolean, [null]): when the value is empty, zero,
    false or [null], no row is written and nothing is raised; otherwise the
    turn of [main] for that document raises [AttributeError], which nothing
    catches. *)
Theorem non_object_answer (re_search : string -> string -> bool)
    (json_loads : string -> option json) (E : env) (pdf_file : string)
    (llm_prompt_fields : list (string * string)) (output_columns : list string)
    (st st1 st2 : state) (short_pdf_path raw : string) (v : json) :
  short_pdf_for re_search E pdf_file st = (Ret (Some short_pdf_path), st1) ->
  extract_data_with_llm E short_pdf_path (llm_prompt llm_prompt_fields) st1
    = (raw, st2) ->
  json_loads (unfenced raw) = Some v -> (forall d, v <> JDict d) ->
  process_file re_search json_loads E llm_prompt_fields output_columns pdf_file st
  = (if truthy v then Raise AttributeError else Ret tt, st2).
Proof.
  intros Hs Hx Hj Hv. unfold process_file, process_contract.
  rewrite Hs. cbn [fst snd]. rewrite Hx. cbn [fst snd].
  unfold decoded. rewrite Hj.
  destruct v as [| | | | |d]; try reflexivity;
    try (cbn [with_end_date fst snd]; destruct (truthy _); reflexivity).
  now destruct (Hv d).
Qed.

Lemma non_object_answer_witness :
  let st := Samples.disk_with_short "contract.pdf" Samples.contract [Samples.cover] in
  process_file Samples.re_search Samples.json_loads
    (Samples.model "[1, 2]" (Some "key")) fallback_fields fallback_columns
    "contract.pdf" st
  = (Raise AttributeError,
     logged (Generated (short_filename "contract.pdf") (llm_prompt fallback_fields)) st).
Proof.
  cbv zeta.
  apply (non_object_answer Samples.re_search Samples.json_loads
           (Samples.model "[1, 2]" (Some "key")) "contract.pdf" fallback_fields
           fallback_columns _
           (Samples.disk_with_short "contract.pdf" Samples.contract [Samples.cover])
           _ (short_filename "contract.pdf") "[1, 2]" (JList [JNum 1; JNum 2])).
  - vm_compute. reflexivity.
  - vm_compute. reflexivity.
  - vm_compute. reflexivity.
  - discriminate.
Defined.

(** X13.  An answer that decodes to an object always gives a row.  When the
    object lacks a start date or a duration, or holds an empty or [null] one,
    its end date is "Not Found", whatever end date the answer gave.  When both
    are strings that are not empty, the end date is what [calculate_end_date]
    returns for them, a message in place of a date included; when
    [calculate_end_date] raises, the object is left as the model gave it. *)
Theorem object_answer (re_search : string -> string -> bool)
    (json_loads : string -> option json) (E : env) (pdf_file : string)
    (llm_prompt_fields : list (string * string)) (output_columns : list string)
    (st st1 st2 : state) (short_pdf_path raw : string) (d : dict) :
  short_pdf_for re_search E pdf_file st = (Ret (Some short_pdf_path), st1) ->
  extract_data_with_llm E short_pdf_path (llm_prompt llm_prompt_fields) st1
    = (raw, st2) ->
  json_loads (unfenced raw) = Some (JDict d) ->
  exists d',
    process_file re_search json_loads E llm_prompt_fields output_columns pdf_file st
    = (Ret tt, logged (RowAppended (row_data d' output_columns pdf_file)) st2)
    /\ (truthy (dict_get d "Start Date" JNull)
        && truthy (dict_get d "Project Duration" JNull) = false ->
        d' = dict_set d "End Date" (JStr "Not Found"))
    /\ (forall start_date_str duration_str,
          dict_lookup d "Start Date" = Some (JStr start_date_str) ->
          dict_lookup d "Project Duration" = Some (JStr duration_str) ->
          start_date_str <> "" -> duration_str <> "" ->
          d' = match calculate_end_date start_date_str duration_str with
               | Ret calculated_end_date =>
                   dict_set d "End Date" (JStr calculated_end_date)
               | Raise _ => d
               end).
Proof.
  intros Hs Hx Hj. unfold process_file, process_contract.
  rewrite Hs. cbn [fst snd]. rewrite Hx. cbn [fst snd].
  unfold decoded. rewrite Hj. cbn [with_end_date].
  assert (forall k v, truthy (JDict (dict_set d k v)) = true) as Hset.
  { intros k v. destruct d as [|[k' v'] d']; cbn; [reflexivity|].
    destruct (String.eqb k' k); reflexivity. }
  destruct (truthy (dict_get d "Start Date" JNull)
            && truthy (dict_get d "Project Duration" JNull)) eqn:Et.
  - destruct (calculate_end_date_of _ _) as [out|e] eqn:Ec; cbn [mbind result_bind fst snd].
    + rewrite Hset. eexists. split; [reflexivity|]. split; [discriminate|].
      intros s dur H1 H2 _ _. unfold dict_get in Ec. rewrite H1, H2 in Ec.
      change (calculate_end_date s dur = Ret out) in Ec. now rewrite Ec.
    + assert (truthy (JDict d) = true) as ->.
      { destruct d; [|reflexivity]. discriminate. }
      eexists. split; [reflexivity|]. split; [discriminate|].
      intros s dur H1 H2 _ _. unfold dict_get in Ec. rewrite H1, H2 in Ec.
      change (calculate_end_date s dur = Raise e) in Ec. now rewrite Ec.
  - cbn [fst snd]. rewrite Hset. eexists. split; [reflexivity|].
    split; [reflexivity|].
    intros s dur H1 H2 N1 N2. exfalso. unfold dict_get in Et. rewrite H1, H2 in Et.
    change (negb (String.eqb s "") && negb (String.eqb dur "") = false) in Et.
    apply String.eqb_neq in N1, N2. rewrite N1, N2 in Et. discriminate.
Qed.

Lemma object_answer_witness :
  let st := Samples.disk_with_short "contract.pdf" Samples.contract [Samples.cover] in
  exists d',
    process_file Samples.re_search Samples.json_loads
      (Samples.model Samples.fenced_answer (Some "key")) fallback_fields
      fallback_columns "contract.pdf" st
    = (Ret tt,
       logged (RowAppended (row_data d' fallback_columns "contract.pdf"))
         (logged (Generated (short_filename "contract.pdf")
                    (llm_prompt fallback_fields)) st))
    /\ dict_lookup d' "End Date" = Some (JStr "2020-10-14").
Proof.
  cbv zeta.
  destruct (object_answer Samples.re_search Samples.json_loads
              (Samples.model Samples.fenced_answer (Some "key")) "contract.pdf"
              fallback_fields fallback_columns
              (Samples.disk_with_short "contract.pdf" Samples.contract [Samples.cover])
              (Samples.disk_with_short "contract.pdf" Samples.contract [Samples.cover])
              (logged (Generated (short_filename "contract.pdf")
                         (llm_prompt fallback_fields))
                 (Samples.disk_with_short "contract.pdf" Samples.contract
                    [Samples.cover]))
              (short_filename "contract.pdf") Samples.fenced_answer
              [("Start Date", JStr "2018-10-15"); ("Project Duration", JStr "730 days");
               ("Location", JDict [("State", JStr "Haryana")])])
    as (d' & H1 & _ & H3).
  - vm_compute. reflexivity.
  - vm_compute. reflexivity.
  - vm_compute. reflexivity.
  - exists d'. split; [exact H1|].
    rewrite (H3 "2018-10-15" "730 days"); [vm_compute; reflexivity|reflexivity
      |reflexivity|discriminate|discriminate].
Defined.

(** X14.  A document for which no reduced document can be had (no usable
    one is there, and the source does not open or the derived name cannot be
    written) gives no row and raises nothing: the scan is the only thing
    recorded for it. *)
Theorem no_reduced_no_row (re_search : string -> string -> bool)
    (json_loads : string -> option json) (E : env) (pdf_file : string)
    (llm_prompt_fields : list (string * string)) (output_columns : list string)
    (st : state) :
  fs st !! short_filename pdf_file = None
  \/ fs st !! short_filename pdf_file = Some (OtherFile 0) ->
  (forall pages, fs st !! pdf_file <> Some (PdfFile pages))
  \/ writable E (short_filename pdf_file) = false ->
  process_file re_search json_loads E llm_prompt_fields output_columns pdf_file st
  = (Ret tt, logged (Scanned pdf_file) st).
Proof.
  intros Hshort Hwhy. unfold process_file, process_contract, short_pdf_for.
  assert (match fs st !! short_filename pdf_file with
          | Some (PdfFile _) => true
          | Some (OtherFile size) => (0 <? size)%nat
          | None => false
          end = false) as -> by (destruct Hshort as [-> | ->]; reflexivity).
  unfold find_important_pages, find_important_pages_as, create_short_pdf, PdfReader.
  cbn [fs logged].
  destruct (fs st !! pdf_file) as [[pages|size]|] eqn:Ef; try reflexivity.
  destruct Hwhy as [H|H]; [now destruct (H pages)|].
  cbn [mbind result_bind Nat.eqb fst snd]. rewrite H. reflexivity.
Qed.

Lemma no_reduced_no_row_witness :
  process_file Samples.re_search Samples.json_loads
    (Samples.model Samples.fenced_answer (Some "key")) fallback_fields
    fallback_columns "missing.pdf" (Samples.disk "contract.pdf" Samples.contract)
  = (Ret tt, logged (Scanned "missing.pdf")
               (Samples.disk "contract.pdf" Samples.contract)).
Proof.
  apply (no_reduced_no_row Samples.re_search Samples.json_loads
           (Samples.model Samples.fenced_answer (Some "key")) "missing.pdf").
  - left. vm_compute. reflexivity.
  - left. intros pages. vm_compute. discriminate.
Defined.

(** X15.  What a run of [main] records, when the columns can be built: the
    header first and once, then no other header, and rows for files taken
    among the original PDF files of the directory, in the order of the
    listing and at most one for each.  The header is recorded even when there
    is no file to process. *)
Theorem main_log (re_search : string -> string -> bool)
    (json_loads : string -> option json) (E : env)
    (project_fields : option (list (string * string))) (st : state) :
  main re_search json_loads E project_fields st = (Raise ValueError, st)
  \/ exists output_columns evs,
       log (snd (main re_search json_loads E project_fields st))
       = log st ++ HeaderAppended output_columns :: evs
       /\ List.forallb (fun e => negb (is_header e)) evs = true
       /\ sublist (row_files evs) (List.filter is_original_pdf (listdir E))
       /\ (List.filter is_original_pdf (listdir E) = [] -> evs = []).
Proof.
  unfold main.
  destruct (match project_fields with
            | Some fields =>
                output_columns ← output_columns_of (List.map fst fields);
                Ret (fields, output_columns)
            | None => Ret (fallback_fields, fallback_columns)
            end) as [[fields cols]|e] eqn:Ec.
  - right.
    destruct (MainMore.process_files_log re_search json_loads E fields cols
                (List.filter is_original_pdf (listdir E))
                (logged (HeaderAppended cols) st)) as (evs & H & S & F).
    exists cols, evs.
    change (log (logged (HeaderAppended cols) st))
      with (log st ++ [HeaderAppended cols]) in H.
    rewrite <- List.app_assoc in H.
    split; [exact H|]. split; [exact F|]. split; [exact S|].
    intros Hnil. rewrite Hnil in H.
    change (log st ++ [HeaderAppended cols] = log st ++ [HeaderAppended cols] ++ evs)
      in H.
    apply app_inv_head in H. now injection H as <-.
  - left. destruct project_fields as [fields|]; [|discriminate].
    destruct (output_columns_of (List.map fst fields)) as [c|e'] eqn:Eo;
      [discriminate|].
    cbn [mbind result_bind] in Ec. injection Ec as <-.
    unfold output_columns_of in Eo.
    destruct (mem "End Date" _); [discriminate|].
    destruct (insert_after _ _ _); [discriminate|]. now injection Eo as <-.
Qed.

(** ** More on the dates *)

Module OrdinalFacts.
Import Notions DateNotions.
Import PyStr Datetime Spec Calendar.

Lemma days_of_year_ok :
  List.forallb (month_day_ok false) (zrange 0 365)
  && List.forallb (month_day_ok true) (zrange 0 365) = true.
Proof. vm_compute. reflexivity. Qed.

Lemma month_day_spec (leapyear : bool) (n : Z) :
  0 <= n < 365 ->
  let md := month_day n leapyear in
  1 <= fst md <= 12
  /\ 1 <= snd md <= DAYS_IN_MONTH (fst md)
                    + (if (fst md =? 2) && leapyear then 1 else 0)
  /\ DAYS_BEFORE_MONTH (fst md) + (if (2 <? fst md) && leapyear then 1 else 0)
     + snd md = n + 1.
Proof.
  intros Hn. pose proof days_of_year_ok as Hall.
  apply andb_prop in Hall as [H0 H1]. rewrite List.forallb_forall in H0, H1.
  assert (In n (zrange 0 365)) as Hin by (apply In_zrange; simpl; lia).
  assert (month_day_ok leapyear n = true) as Hok
    by (destruct leapyear; [now apply H1|now apply H0]).
  unfold month_day_ok in Hok. cbv zeta in *.
  apply andb_prop in Hok as [Hok E5]. apply andb_prop in Hok as [Hok E4].
  apply andb_prop in Hok as [Hok E3]. apply andb_prop in Hok as [E1 E2].
  apply Z.leb_le in E1, E2, E3, E4. apply Z.eqb_eq in E5. lia.
Qed.

(** [_ord2ymd], by the counts of 400, 100, 4 and 1 years it takes. *)
Lemma ord2ymd_parts (o : Z) :
  let n := o - 1 in
  let n400 := n / 146097 in
  let n100 := n mod 146097 / 36524 in
  let n4 := n mod 146097 mod 36524 / 1461 in
  let n1 := n mod 146097 mod 36524 mod 1461 / 365 in
  let r := n mod 146097 mod 36524 mod 1461 mod 365 in
  ord2ymd o =
  if (n1 =? 4) || (n100 =? 4)
  then {| year := n400 * 400 + 1 + n100 * 100 + n4 * 4 + n1 - 1;
          month := 12; day := 31 |}
  else
    let leapyear := (n1 =? 3) && (negb (n4 =? 24) || (n100 =? 3)) in
    {| year := n400 * 400 + 1 + n100 * 100 + n4 * 4 + n1;
       month := fst (month_day r leapyear);
       day := snd (month_day r leapyear) |}.
Proof.
  cbv zeta. unfold ord2ymd, month_day. cbv zeta.
  destruct (_ || _); [reflexivity|].
  destruct (_ <? _); reflexivity.
Qed.

Lemma days_before_year_parts (a b c e : Z) :
  0 <= b <= 3 -> 0 <= c <= 24 -> 0 <= e <= 3 ->
  days_before_year (a * 400 + 1 + b * 100 + c * 4 + e)
  = 146097 * a + 36524 * b + 1461 * c + 365 * e.
Proof.
  intros Hb Hc He. unfold days_before_year. cbv zeta.
  replace (a * 400 + 1 + b * 100 + c * 4 + e - 1)
    with (a * 400 + b * 100 + c * 4 + e) by lia.
  assert ((a * 400 + b * 100 + c * 4 + e) / 4 = a * 100 + b * 25 + c) as ->.
  { symmetry. apply Z.div_unique with (r := e); lia. }
  assert ((a * 400 + b * 100 + c * 4 + e) / 100 = a * 4 + b) as ->.
  { symmetry. apply Z.div_unique with (r := c * 4 + e); lia. }
  assert ((a * 400 + b * 100 + c * 4 + e) / 400 = a) as ->.
  { symmetry. apply Z.div_unique with (r := b * 100 + c * 4 + e); lia. }
  lia.
Qed.

Lemma is_leap_parts (a b c e : Z) :
  0 <= b <= 3 -> 0 <= c <= 24 -> 0 <= e <= 3 ->
  is_leap (a * 400 + 1 + b * 100 + c * 4 + e)
  = (e =? 3) && (negb (c =? 24) || (b =? 3)).
Proof.
  intros Hb Hc He. unfold is_leap.
  assert ((a * 400 + 1 + b * 100 + c * 4 + e) mod 4 = (e + 1) mod 4) as ->.
  { replace (a * 400 + 1 + b * 100 + c * 4 + e)
      with (e + 1 + (a * 100 + b * 25 + c) * 4) by lia.
    apply Z.mod_add. lia. }
  assert ((a * 400 + 1 + b * 100 + c * 4 + e) mod 100 = (c * 4 + e + 1) mod 100) as ->.
  { replace (a * 400 + 1 + b * 100 + c * 4 + e)
      with (c * 4 + e + 1 + (a * 4 + b) * 100) by lia.
    apply Z.mod_add. lia. }
  assert ((a * 400 + 1 + b * 100 + c * 4 + e) mod 400
          = (b * 100 + c * 4 + e + 1) mod 400) as ->.
  { replace (a * 400 + 1 + b * 100 + c * 4 + e)
      with (b * 100 + c * 4 + e + 1 + a * 400) by lia.
    apply Z.mod_add. lia. }
  destruct (e =? 3) eqn:Ee.
  - apply Z.eqb_eq in Ee. subst e. change ((3 + 1) mod 4 =? 0) with true.
    cbn [andb]. destruct (c =? 24) eqn:Ec.
    + apply Z.eqb_eq in Ec. subst c. change ((24 * 4 + 3 + 1) mod 100 =? 0) with true.
      cbn [negb orb]. destruct (b =? 3) eqn:Eb.
      * apply Z.eqb_eq in Eb. subst b. reflexivity.
      * apply Z.eqb_neq in Eb. apply Z.eqb_neq.
        rewrite Z.mod_small by lia. lia.
    + apply Z.eqb_neq in Ec. cbn [negb orb].
      assert (((c * 4 + 3 + 1) mod 100 =? 0) = false) as ->; [|reflexivity].
      apply Z.eqb_neq. rewrite Z.mod_small by lia. lia.
  - apply Z.eqb_neq in Ee. cbn [andb].
    assert (((e + 1) mod 4 =? 0) = false) as ->; [|reflexivity].
    apply Z.eqb_neq. rewrite Z.mod_small by lia. lia.
Qed.

(** Every ordinal from 1 on is the ordinal of one date, with a month and a
    day of that month. *)
Lemma ord2ymd_round_trip_any (o : Z) :
  1 <= o ->
  let dt := ord2ymd o in
  toordinal dt = o /\ 1 <= year dt /\ 1 <= month dt <= 12
  /\ 1 <= day dt <= days_in_month (year dt) (month dt).
Proof.
  intros Ho. cbv zeta. rewrite ord2ymd_parts. cbv zeta.
  set (n := o - 1).
  pose proof (Z.div_mod n 146097 ltac:(lia)) as D400.
  pose proof (Z.mod_pos_bound n 146097 ltac:(lia)) as B400.
  set (a := n / 146097) in *. set (r400 := n mod 146097) in *.
  pose proof (Z.div_mod r400 36524 ltac:(lia)) as D100.
  pose proof (Z.mod_pos_bound r400 36524 ltac:(lia)) as B100.
  set (b := r400 / 36524) in *. set (r100 := r400 mod 36524) in *.
  pose proof (Z.div_mod r100 1461 ltac:(lia)) as D4.
  pose proof (Z.mod_pos_bound r100 1461 ltac:(lia)) as B4.
  set (c := r100 / 1461) in *. set (r4 := r100 mod 1461) in *.
  pose proof (Z.div_mod r4 365 ltac:(lia)) as D1.
  pose proof (Z.mod_pos_bound r4 365 ltac:(lia)) as B1.
  set (e := r4 / 365) in *. set (r := r4 mod 365) in *.
  assert (0 <= a) as Ha by (apply Z.div_pos; lia).
  assert (0 <= b <= 4) as Hb by (split; [apply Z.div_pos; lia|nia]).
  assert (0 <= c <= 24) as Hc by (split; [apply Z.div_pos; lia|nia]).
  assert (0 <= e <= 4) as He by (split; [apply Z.div_pos; lia|nia]).
  clearbody a r400 b r100 c r4 e r.
  destruct (e =? 4) eqn:E4.
  { apply Z.eqb_eq in E4. subst e. cbn [orb].
    assert (c <= 23) as Hc' by lia.
    assert (b <= 3) as Hb' by lia.
    unfold toordinal, ymd2ord, days_before_month, days_in_month.
    cbn [year month day].
    replace (a * 400 + 1 + b * 100 + c * 4 + 4 - 1)
      with (a * 400 + 1 + b * 100 + c * 4 + 3) by lia.
    rewrite days_before_year_parts, is_leap_parts by lia.
    change (3 =? 3) with true. change (12 =? 2) with false. change (2 <? 12) with true.
    assert ((c =? 24) = false) as -> by (apply Z.eqb_neq; lia).
    cbn [andb negb orb DAYS_BEFORE_MONTH DAYS_IN_MONTH]. lia. }
  apply Z.eqb_neq in E4. cbn [orb].
  destruct (b =? 4) eqn:B4'.
  { apply Z.eqb_eq in B4'. subst b.
    assert (c = 0 /\ e = 0 /\ r = 0) as (-> & -> & ->) by lia.
    unfold toordinal, ymd2ord, days_before_month, days_in_month.
    cbn [year month day].
    replace (a * 400 + 1 + 4 * 100 + 0 * 4 + 0 - 1)
      with (a * 400 + 1 + 3 * 100 + 24 * 4 + 3) by lia.
    rewrite days_before_year_parts, is_leap_parts by lia.
    cbn. lia. }
  apply Z.eqb_neq in B4'.
  set (leapyear := (e =? 3) && (negb (c =? 24) || (b =? 3))).
  destruct (month_day_spec leapyear r ltac:(lia)) as (Hm & Hd & Hsum).
  cbv zeta in Hm, Hd, Hsum.
  unfold toordinal, ymd2ord, days_before_month, days_in_month.
  cbn [year month day].
  rewrite days_before_year_parts, is_leap_parts by lia. fold leapyear.
  split; [lia|]. split; [lia|]. split; [exact Hm|].
  destruct (_ =? 2) eqn:E2.
  - apply Z.eqb_eq in E2. rewrite E2 in *. destruct leapyear; cbn in *; lia.
  - cbn [andb] in *. lia.
Qed.

Lemma year_within (dt : datetime) (o : Z) :
  toordinal dt = o -> o <= 3652059 -> 1 <= month dt <= 12 -> 1 <= day dt ->
  year dt <= 9999.
Proof.
  intros Ht Ho Hm Hd.
  destruct (Z_le_gt_dec (year dt) 9999) as [H|H]; [exact H|exfalso].
  unfold toordinal, ymd2ord, days_before_year, days_before_month in Ht.
  cbv zeta in Ht.
  assert (0 <= DAYS_BEFORE_MONTH (month dt)).
  { destruct (month dt) as [|p|p]; try lia.
    do 4 (destruct p as [p|p|]; cbn; try lia). }
  destruct (_ && _); Z.to_euclidean_division_equations; lia.
Qed.

(** Every ordinal of the library is the ordinal of one well-formed date. *)
Lemma ord2ymd_round_trip (o : Z) :
  1 <= o <= 3652059 -> well_formed (ord2ymd o) /\ toordinal (ord2ymd o) = o.
Proof.
  intros Ho. destruct (ord2ymd_round_trip_any o ltac:(lia)) as (Ht & Hy & Hm & Hd).
  split; [|exact Ht]. unfold well_formed. split; [|split; assumption].
  split; [exact Hy|]. apply (year_within _ o Ht); lia.
Qed.

End OrdinalFacts.

Module DateMore.
Import Notions DateNotions.
Import PyStr Re ReFacts CharFacts Datetime Duration Spec Calendar Months
  DurationFacts FormatFacts CleanFacts Agreement ParseFacts DeriveFacts OrdinalFacts.

Lemma toordinal_pos (dt : datetime) : well_formed dt -> 1 <= toordinal dt.
Proof.
  intros (Hy & Hm & Hd). unfold toordinal, ymd2ord, days_before_year, days_before_month.
  assert (0 <= DAYS_BEFORE_MONTH (month dt)).
  { destruct (month dt) as [|p|p]; try lia.
    do 4 (destruct p as [p|p|]; cbn; try lia). }
  destruct (_ && _); Z.to_euclidean_division_equations; lia.
Qed.

(** The branch of the unit [day]: the date at the ordinal [n] further, while
    there is one. *)
Lemma add_days_exact (start : datetime) (n : Z) :
  well_formed start -> 0 <= n ->
  add_days start n =
  if toordinal start + n <=? 3652059
  then Ret (EndDate (ord2ymd (toordinal start + n)))
  else Raise OverflowError.
Proof.
  intros Hw Hn. pose proof (toordinal_pos start Hw) as Hp.
  unfold add_days, timedelta, add, MAXORDINAL.
  destruct (toordinal start + n <=? 3652059) eqn:E.
  - apply Z.leb_le in E.
    assert ((-999999999 <=? n) && (n <=? 999999999) = true) as ->.
    { apply andb_true_intro. split; apply Z.leb_le; lia. }
    cbn [mbind result_bind].
    assert ((1 <=? toordinal start + n) && (toordinal start + n <=? 3652059) = true)
      as ->.
    { apply andb_true_intro. split; apply Z.leb_le; lia. }
    reflexivity.
  - apply Z.leb_gt in E.
    destruct ((-999999999 <=? n) && (n <=? 999999999)); [|reflexivity].
    cbn [mbind result_bind].
    assert ((1 <=? toordinal start + n) && (toordinal start + n <=? 3652059) = false)
      as ->.
    { apply andb_false_intro2. apply Z.leb_gt. lia. }
    reflexivity.
Qed.

Lemma plus_months_well_formed (start : datetime) (n : Z) :
  well_formed start -> 0 <= n -> year (plus_months start n) <= 9999 ->
  well_formed (plus_months start n).
Proof.
  intros (Hy & Hm & Hd) Hn H9.
  destruct (plus_months_year start n Hm Hn) as (Ey & Em & Hm' & Hy').
  unfold well_formed. split; [lia|]. split; [exact Hm'|].
  unfold plus_months in *. cbn [year month day] in *.
  apply min_day_valid; lia.
Qed.

(** What either file derives is a date the library holds. *)
Lemma derived_well_formed (add_months : datetime -> Z -> result datetime)
    (start : datetime) (m : option ((list ascii * list ascii) * list ascii))
    (s : list ascii) (dt : datetime) :
  well_formed start ->
  (forall x, m = Some x -> exists pre suf, s = pre ++ suf /\ In x (duration_pattern suf)) ->
  (forall n t, 0 <= n -> add_months start n = Ret t -> well_formed t) ->
  branch add_months start m = Ret (EndDate dt) -> well_formed dt.
Proof.
  intros Hw Hm Hadd. unfold branch. destruct m as [[[v u] r]|]; [|discriminate].
  destruct (Hm _ eq_refl) as (pre & suf & _ & Hin).
  apply duration_read in Hin as [_ Hn]. cbn [fst snd].
  destruct (int v) as [n|e] eqn:Ei; [|discriminate].
  apply int_inv in Ei as [-> _]. cbn [mbind result_bind].
  destruct (String.eqb _ _).
  - rewrite (add_days_exact start _ Hw Hn).
    destruct (_ <=? 3652059) eqn:E; [|discriminate]. apply Z.leb_le in E.
    intros [= <-]. apply ord2ymd_round_trip.
    pose proof (toordinal_pos start Hw). lia.
  - intros H. apply dated_inv in H as (t & Ht & [= <-]). eapply Hadd; eauto.
Qed.

Lemma verify_months_well_formed (start : datetime) (n : Z) (t : datetime) :
  well_formed start -> 0 <= n -> VerifyEndDate.add_months start n = Ret t ->
  well_formed t.
Proof.
  intros Hw Hn. rewrite (verify_add_months start n Hw Hn). cbv zeta.
  destruct (_ && _) eqn:E; [|discriminate]. intros [= <-].
  apply andb_prop in E as [E _]. apply Z.leb_le in E.
  now apply plus_months_well_formed.
Qed.

Lemma process_months_well_formed (start : datetime) (n : Z) (t : datetime) :
  well_formed start -> 0 <= n -> ProcessContracts.add_months start n = Ret t ->
  well_formed t.
Proof.
  intros Hw Hn. rewrite (process_add_months start n Hw Hn). cbv zeta.
  destruct (_ <=? _) eqn:E; [|discriminate]. intros [= <-].
  apply Z.leb_le in E. now apply plus_months_well_formed.
Qed.

Lemma verify_derived_well_formed (s d : string) (dt : datetime) :
  VerifyEndDate.derive s d = Ret (EndDate dt) -> well_formed dt.
Proof.
  destruct (verify_parse_total s) as ([start|] & Hp & Hw).
  - rewrite (verify_derive s d start Hp).
    apply (derived_well_formed _ _ _ (chars d)); [now apply Hw| |].
    + intros x Hx. apply search_in in Hx as (pre & suf & E & Hin). eauto.
    + intros n t. apply verify_months_well_formed. now apply Hw.
  - now rewrite (verify_derive_unread s d Hp).
Qed.

Lemma process_derived_well_formed (s d : string) (dt : datetime) :
  ProcessContracts.derive s d = Ret (EndDate dt) -> well_formed dt.
Proof.
  destruct (process_parse_total s) as ([start|] & Hp & Hw).
  - rewrite (process_derive s d start Hp).
    apply (derived_well_formed _ _ _ (chars d)); [now apply Hw| |].
    + intros x Hx. apply rmatch_in in Hx. exists [], (chars d). auto.
    + intros n t. apply process_months_well_formed. now apply Hw.
  - now rewrite (process_derive_unread s d Hp).
Qed.

(** *** Writing a date and reading it back *)

Lemma years_text_ok :
  List.forallb year_text_ok (zrange 1000 (Z.to_nat 9000)) = true.
Proof. vm_compute. reflexivity. Qed.

Lemma year_text (y : Z) :
  1000 <= y <= 9999 ->
  exists a b c d,
    digits_of 20 y [] = [a; b; c; d]
    /\ is_digit a = true /\ is_digit b = true /\ is_digit c = true
    /\ is_digit d = true /\ py_int [a; b; c; d] = y.
Proof.
  intros H. pose proof years_text_ok as Hall.
  rewrite List.forallb_forall in Hall.
  assert (year_text_ok y = true) as Hy.
  { apply Hall. apply In_zrange. rewrite Z2Nat.id; lia. }
  unfold year_text_ok in Hy.
  destruct (digits_of 20 y []) as [|a [|b [|c [|d [|? ?]]]]]; try discriminate.
  apply andb_prop in Hy as [Hy He]. apply andb_prop in Hy as [Hy Hd].
  apply andb_prop in Hy as [Hy Hc]. apply andb_prop in Hy as [Ha Hb].
  exists a, b, c, d. repeat split; try assumption.
  unfold py_int. rewrite strip_id; [now apply Z.eqb_eq|].
  apply digits_no_space. cbn [List.forallb]. now rewrite Ha, Hb, Hc, Hd.
Qed.

Lemma run_year (ds : list directive) (f : fields) (a b c d : ascii)
    (tl : list ascii) :
  is_digit a = true -> is_digit b = true -> is_digit c = true -> is_digit d = true ->
  run (Dir_Y :: ds) f (a :: b :: c :: d :: tl)
  = run ds {| f_Y := Some (py_int [a; b; c; d]); f_m := f_m f; f_d := f_d f |} tl.
Proof.
  intros Ha Hb Hc Hd. cbn [run]. unfold Re.seq at 1. unfold run_directive.
  unfold Re.seq at 1. unfold re_Y. unfold Re.seq, Re.one, unit_pat.
  rewrite Ha. cbn [List.flat_map fst snd app]. rewrite Hb.
  cbn [List.flat_map fst snd app]. rewrite Hc. cbn [List.flat_map fst snd app].
  rewrite Hd. cbn [List.flat_map fst snd app]. now rewrite List.app_nil_r.
Qed.

Lemma run_app (ds1 ds2 : list directive) (f : fields) (s : list ascii) :
  run (ds1 ++ ds2) f s
  = List.flat_map (fun x => run ds2 (fst x) (snd x)) (run ds1 f s).
Proof.
  revert f s. induction ds1 as [|d ds1 IH]; intros f s.
  - cbn. now rewrite List.app_nil_r.
  - cbn [app run]. unfold Re.seq.
    induction (run_directive d f s) as [|[f1 r1] l IHl]; [reflexivity|].
    cbn [List.flat_map fst snd]. rewrite List.flat_map_app, IH, IHl. reflexivity.
Qed.

Ltac each_month_and_day Hm Hd :=
  vm_compute in Hm; vm_compute in Hd;
  repeat (destruct Hm as [<-|Hm];
          [repeat (destruct Hd as [<-|Hd]; [vm_compute; reflexivity|]);
           destruct Hd|]);
  destruct Hm.

(** The end of a text in the form [YYYY-MM-DD]. *)
Lemma month_day_tail (f : fields) (m d : Z) :
  1 <= m <= 12 -> 1 <= d <= 31 ->
  rmatch (run [Chr "-"; Dir_m; Chr "-"; Dir_d] f)
    ("-"%char :: zero_pad 2 m ++ "-"%char :: zero_pad 2 d)
  = Some ({| f_Y := f_Y f; f_m := Some m; f_d := Some d |}, []).
Proof.
  intros Hm Hd.
  assert (In m (zrange 1 12)) as Im by (apply In_zrange; simpl; lia).
  assert (In d (zrange 1 31)) as Id by (apply In_zrange; simpl; lia).
  clear Hm Hd. each_month_and_day Im Id.
Qed.

(** The start of a text in the form [DD-MM-YYYY]. *)
Lemma day_month_head (f : fields) (m d : Z) (tl : list ascii) :
  1 <= m <= 12 -> 1 <= d <= 31 ->
  run [Dir_d; Chr "-"; Dir_m; Chr "-"] f
    (zero_pad 2 d ++ "-"%char :: zero_pad 2 m ++ "-"%char :: tl)
  = [({| f_Y := f_Y f; f_m := Some m; f_d := Some d |}, tl)].
Proof.
  intros Hm Hd.
  assert (In m (zrange 1 12)) as Im by (apply In_zrange; simpl; lia).
  assert (In d (zrange 1 31)) as Id by (apply In_zrange; simpl; lia).
  clear Hm Hd. each_month_and_day Im Id.
Qed.

End DateMore.

Module ReadBack.
Import Notions DateNotions.
Import PyStr Re ReFacts CharFacts Datetime Duration Spec Calendar Months
  DurationFacts FormatFacts CleanFacts Agreement ParseFacts DeriveFacts OrdinalFacts
  DateMore.

Lemma day_in_month (dt : datetime) : well_formed dt -> 1 <= day dt <= 31.
Proof.
  intros (_ & Hm & Hd). pose proof (days_in_month_bounds (year dt) _ Hm). lia.
Qed.

(** A date from the year 1000 on written [YYYY-MM-DD] reads back as itself. *)
Lemma read_back_Ymd (dt : datetime) :
  well_formed dt -> 1000 <= year dt ->
  strptime (strftime dt "%Y-%m-%d") "%Y-%m-%d" = Ret dt.
Proof.
  intros Hw H1000. pose proof (day_in_month dt Hw) as Hd.
  destruct Hw as (Hy & Hm & Hdm).
  destruct dt as [y m d]. cbn [year month day] in *.
  destruct (year_text y ltac:(lia)) as (a & b & c & e & Hz & Ha & Hb & Hc & He & Hi).
  destruct compile_formats as (_ & _ & _ & C4 & _).
  unfold strptime. rewrite C4. unfold strftime. rewrite ReducedMore.chars_str.
  change (render {| year := y; month := m; day := d |} (chars "%Y-%m-%d"))
    with (digits_of 20 y [] ++ "-"%char :: zero_pad 2 m ++ "-"%char
          :: zero_pad 2 d ++ []).
  rewrite Hz, List.app_nil_r. cbn [app]. unfold F_Ymd.
  unfold rmatch. rewrite (run_year _ _ a b c e _ Ha Hb Hc He).
  pose proof (month_day_tail
                {| f_Y := Some (py_int [a; b; c; e]); f_m := f_m no_fields;
                   f_d := f_d no_fields |} m d Hm Hd) as Ht.
  unfold rmatch in Ht. rewrite Ht.
  cbn [f_Y f_m f_d default]. rewrite Hi. now apply mk_valid.
Qed.

(** A date from the year 1000 on written [DD-MM-YYYY] reads back as itself. *)
Lemma read_back_dmY (dt : datetime) :
  well_formed dt -> 1000 <= year dt ->
  strptime (strftime dt "%d-%m-%Y") "%d-%m-%Y" = Ret dt.
Proof.
  intros Hw H1000. pose proof (day_in_month dt Hw) as Hd.
  destruct Hw as (Hy & Hm & Hdm).
  destruct dt as [y m d]. cbn [year month day] in *.
  destruct (year_text y ltac:(lia)) as (a & b & c & e & Hz & Ha & Hb & Hc & He & Hi).
  destruct compile_formats as (C1 & _).
  unfold strptime. rewrite C1. unfold strftime. rewrite ReducedMore.chars_str.
  change (render {| year := y; month := m; day := d |} (chars "%d-%m-%Y"))
    with (zero_pad 2 d ++ "-"%char :: zero_pad 2 m ++ "-"%char
          :: digits_of 20 y [] ++ []).
  rewrite Hz.
  change F_dmY with ([Dir_d; Chr "-"; Dir_m; Chr "-"] ++ [Dir_Y]).
  unfold rmatch. rewrite run_app, (day_month_head _ m d _ Hm Hd).
  cbn [List.flat_map fst snd app].
  rewrite List.app_nil_r, (run_year _ _ a b c e _ Ha Hb Hc He).
  cbn [run unit_pat head f_Y f_m f_d default]. rewrite Hi. now apply mk_valid.
Qed.

(** A text in the form [YYYY-MM-DD] is read by both files, as the same
    date. *)
Lemma ymd_read_by_both (s : string) (dt : datetime) :
  strptime s "%Y-%m-%d" = Ret dt ->
  ProcessContracts.parse_start_date s = Ret (Some dt)
  /\ VerifyEndDate.parse_start_date s = Ret (Some dt).
Proof.
  intros E. destruct compile_formats as (C1 & C2 & C3 & C4 & C5).
  pose proof (shaped_of _ _ _ _ C4 E) as Hs. apply ymd_shape in Hs.
  rewrite process_parse_cascade, verify_parse_cascade. cbv zeta.
  rewrite (cleaned_ymd s Hs).
  rewrite (strptime_fails s _ _ C5) by now apply ymd_not_month.
  rewrite (strptime_fails s _ _ C1) by now apply ymd_not_dmY.
  rewrite (strptime_fails s _ _ C2) by now apply ymd_not_dBY.
  rewrite (strptime_fails s _ _ C3) by now apply ymd_not_month.
  rewrite E. auto.
Qed.

(** A text in the form [Month D, YYYY] is read by [process_contracts.py]
    only. *)
Lemma bdy_read_by_process_only (s : string) (dt : datetime) :
  strptime s "%B %d, %Y" = Ret dt ->
  ProcessContracts.parse_start_date s = Ret (Some dt)
  /\ VerifyEndDate.parse_start_date s = Ret None.
Proof.
  intros E1. destruct compile_formats as (C1 & C2 & C3 & C4 & C5).
  rewrite process_parse_cascade, verify_parse_cascade. cbv zeta. rewrite E1.
  split; [reflexivity|].
  pose proof (shaped_of _ _ _ _ C5 E1) as Hs.
  destruct (head_of_month _ _ Hs) as (c & r & Hc & Hcase).
  destruct (head_cleaned s c r Hc Hcase) as (r' & Hc').
  pose proof (count_BdY _ Hs) as Hn. rewrite <- count_cleaned in Hn.
  set (t := VerifyEndDate.cleaned_start_date_str s) in *.
  rewrite (strptime_fails t _ _ C1).
  2:{ intros H. apply head_of_day in H as (x & ? & Hx & Hx'). congruence. }
  rewrite (strptime_fails t _ _ C2).
  2:{ intros H. apply head_of_day in H as (x & ? & Hx & Hx'). congruence. }
  rewrite (strptime_fails t _ _ C3).
  2:{ intros H. apply count_BY in H. lia. }
  rewrite (strptime_fails t _ _ C4).
  2:{ intros H. apply head_of_year in H as (x & ? & Hx & Hx'). congruence. }
  reflexivity.
Qed.

(** A text in the form [DD-MM-YYYY] is not read by [process_contracts.py]. *)
Lemma dmy_unread_by_process (s : string) (dt : datetime) :
  strptime s "%d-%m-%Y" = Ret dt ->
  ProcessContracts.parse_start_date s = Ret None.
Proof.
  intros E. destruct compile_formats as (C1 & C2 & C3 & C4 & C5).
  pose proof (shaped_of _ _ _ _ C1 E) as Hs.
  rewrite process_parse_cascade.
  rewrite (strptime_fails s _ _ C5).
  2:{ intros H. apply head_of_month in H as (x & ? & Hx & Hx').
      apply head_of_day in Hs as (x' & ? & Hy & Hy'). congruence. }
  rewrite (strptime_fails s _ _ C4); [reflexivity|].
  intros H. apply ymd_shape in H. now apply ymd_not_dmY in H.
Qed.

Lemma days_text_ok : List.forallb two_digits_ok (zrange 1 31) = true.
Proof. vm_compute. reflexivity. Qed.

Lemma two_digits (x : Z) :
  1 <= x <= 31 ->
  exists p q, zero_pad 2 x = [p; q] /\ is_digit p = true /\ is_digit q = true.
Proof.
  intros H. pose proof days_text_ok as Hall.
  rewrite List.forallb_forall in Hall.
  assert (two_digits_ok x = true) as Hx.
  { apply Hall. apply In_zrange. simpl. lia. }
  unfold two_digits_ok in Hx.
  destruct (zero_pad 2 x) as [|p [|q [|? ?]]]; try discriminate.
  apply andb_prop in Hx as [Hp Hq]. eauto.
Qed.

(** A date written [DD-MM-YYYY] is left as it is by the cleaning. *)
Lemma cleaned_dmY (dt : datetime) :
  well_formed dt -> 1000 <= year dt ->
  VerifyEndDate.cleaned_start_date_str (strftime dt "%d-%m-%Y")
  = strftime dt "%d-%m-%Y".
Proof.
  intros Hw H1000. pose proof (day_in_month dt Hw) as Hd.
  destruct Hw as (Hy & Hm & Hdm).
  destruct dt as [y m d]. cbn [year month day] in *.
  destruct (year_text y ltac:(lia)) as (a & b & c & e & Hz & Ha & Hb & Hc & He & Hi).
  destruct (two_digits d Hd) as (d1 & d2 & Zd & Hd1 & Hd2).
  destruct (two_digits m ltac:(lia)) as (m1 & m2 & Zm & Hm1 & Hm2).
  unfold strftime.
  change (render {| year := y; month := m; day := d |} (chars "%d-%m-%Y"))
    with (zero_pad 2 d ++ "-"%char :: zero_pad 2 m ++ "-"%char
          :: digits_of 20 y [] ++ []).
  rewrite Hz, Zd, Zm. cbn [app].
  set (l := [d1; d2; "-"%char; m1; m2; "-"%char; a; b; c; e]).
  assert (List.forallb plain l = true) as Hp.
  { unfold l, plain. cbn [List.forallb].
    rewrite Hd1, Hd2, Hm1, Hm2, Ha, Hb, Hc, He. reflexivity. }
  unfold VerifyEndDate.cleaned_start_date_str. rewrite ReducedMore.chars_str.
  rewrite remove_commas_id.
  2:{ rewrite List.forallb_forall in *. intros x Hx. specialize (Hp x Hx).
      destruct (Ascii.eqb x ",") eqn:E; [|reflexivity].
      apply Ascii.eqb_eq in E. subst. discriminate. }
  rewrite sub_id.
  2:{ intros pre suf Hs. apply plain_not_ordinal. rewrite Hs in Hp.
      rewrite List.forallb_app in Hp. now apply andb_prop in Hp as [_ Hp]. }
  unfold strip, l. cbn [lstrip]. rewrite (digit_not_space d1 Hd1).
  change [d1; d2; "-"%char; m1; m2; "-"%char; a; b; c; e]
    with ([d1; d2; "-"%char; m1; m2; "-"%char; a; b; c] ++ [e]).
  now rewrite rstrip_last by now apply digit_not_space.
Qed.

(** *** Dates written before the year 1000 *)

Lemma digit_char (n : Z) :
  is_digit (ascii_of_nat (Z.to_nat (48 + n mod 10))) = true.
Proof.
  pose proof (Z.mod_pos_bound n 10 ltac:(lia)) as Hb.
  assert (n mod 10 = 0 \/ n mod 10 = 1 \/ n mod 10 = 2 \/ n mod 10 = 3
          \/ n mod 10 = 4 \/ n mod 10 = 5 \/ n mod 10 = 6 \/ n mod 10 = 7
          \/ n mod 10 = 8 \/ n mod 10 = 9) as Hc by lia.
  repeat destruct Hc as [Hc|Hc]; rewrite Hc; reflexivity.
Qed.

Lemma digits_of_all (fuel : nat) (n : Z) (acc : list ascii) :
  List.forallb is_digit acc = true ->
  List.forallb is_digit (digits_of fuel n acc) = true.
Proof.
  revert n acc. induction fuel as [|fuel IH]; intros n acc H; [exact H|].
  cbn [digits_of]. pose proof (digit_char n) as Hd.
  destruct (n / 10 =? 0).
  - cbn [List.forallb]. now rewrite Hd, H.
  - apply IH. cbn [List.forallb]. now rewrite Hd, H.
Qed.

(** A year is written in digits, one at least. *)
Lemma year_digits (y : Z) :
  exists c ys, digits_of 20 y [] = c :: ys
               /\ List.forallb is_digit (c :: ys) = true.
Proof.
  destruct (digits_of_head 20 y [] ltac:(left; discriminate)) as (c & r & E & _).
  exists c, r. split; [exact E|]. rewrite <- E. now apply digits_of_all.
Qed.

Lemma short_years_ok : List.forallb short_year_ok (zrange 1 999) = true.
Proof. vm_compute. reflexivity. Qed.

Lemma short_year (y : Z) :
  1 <= y <= 999 -> (length (digits_of 20 y []) <= 3)%nat.
Proof.
  intros H. pose proof short_years_ok as Hall.
  rewrite List.forallb_forall in Hall.
  assert (short_year_ok y = true) as Hy.
  { apply Hall. apply In_zrange. simpl. lia. }
  unfold short_year_ok in Hy. now apply Nat.leb_le in Hy.
Qed.

(** The two ways a date is written. *)
Lemma written_Ymd (dt : datetime) :
  well_formed dt ->
  exists m1 m2 p q,
    strftime dt "%Y-%m-%d"
    = str (digits_of 20 (year dt) [] ++ "-"%char :: m1 :: m2 :: "-"%char :: [p; q])
    /\ is_digit m1 = true /\ is_digit m2 = true
    /\ is_digit p = true /\ is_digit q = true.
Proof.
  intros Hw. pose proof (day_in_month dt Hw) as Hd. destruct Hw as (Hy & Hm & Hdm).
  destruct dt as [y m d]. cbn [year month day] in *.
  destruct (two_digits d Hd) as (d1 & d2 & Zd & Hd1 & Hd2).
  destruct (two_digits m ltac:(lia)) as (m1 & m2 & Zm & Hm1 & Hm2).
  exists m1, m2, d1, d2. unfold strftime.
  change (render {| year := y; month := m; day := d |} (chars "%Y-%m-%d"))
    with (digits_of 20 y [] ++ "-"%char :: zero_pad 2 m ++ "-"%char
          :: zero_pad 2 d ++ []).
  rewrite Zd, Zm. auto.
Qed.

Lemma written_dmY (dt : datetime) :
  well_formed dt ->
  exists p q m1 m2,
    strftime dt "%d-%m-%Y"
    = str (p :: q :: "-"%char :: m1 :: m2 :: "-"%char :: digits_of 20 (year dt) [])
    /\ is_digit p = true /\ is_digit q = true
    /\ is_digit m1 = true /\ is_digit m2 = true.
Proof.
  intros Hw. pose proof (day_in_month dt Hw) as Hd. destruct Hw as (Hy & Hm & Hdm).
  destruct dt as [y m d]. cbn [year month day] in *.
  destruct (two_digits d Hd) as (d1 & d2 & Zd & Hd1 & Hd2).
  destruct (two_digits m ltac:(lia)) as (m1 & m2 & Zm & Hm1 & Hm2).
  exists d1, d2, m1, m2. unfold strftime.
  change (render {| year := y; month := m; day := d |} (chars "%d-%m-%Y"))
    with (zero_pad 2 d ++ "-"%char :: zero_pad 2 m ++ "-"%char
          :: digits_of 20 y [] ++ []).
  rewrite Zd, Zm, List.app_nil_r. auto.
Qed.

(** A text of digits, dashes and spaces that has no blank at its ends is left
    as it is by the cleaning. *)
Lemma cleaned_plain (l front r : list ascii) (c z : ascii) :
  List.forallb plain l = true ->
  l = c :: r -> is_space c = false -> l = front ++ [z] -> is_space z = false ->
  VerifyEndDate.cleaned_start_date_str (str l) = str l.
Proof.
  intros Hp Hc Hsc Hz Hsz.
  unfold VerifyEndDate.cleaned_start_date_str. rewrite ReducedMore.chars_str.
  rewrite remove_commas_id.
  2:{ rewrite List.forallb_forall in *. intros x Hx. specialize (Hp x Hx).
      destruct (Ascii.eqb x ",") eqn:E; [|reflexivity].
      apply Ascii.eqb_eq in E. subst. discriminate. }
  rewrite sub_id.
  2:{ intros pre suf Hs. apply plain_not_ordinal. rewrite Hs in Hp.
      rewrite List.forallb_app in Hp. now apply andb_prop in Hp as [_ Hp]. }
  unfold strip. rewrite Hc. cbn [lstrip]. rewrite Hsc. rewrite <- Hc, Hz.
  now rewrite rstrip_last.
Qed.

Lemma digits_plain (l : list ascii) :
  List.forallb is_digit l = true -> List.forallb plain l = true.
Proof.
  rewrite !List.forallb_forall. intros H x Hx. unfold plain. now rewrite (H x Hx).
Qed.

Lemma digits_no_blank (l : list ascii) :
  List.forallb is_digit l = true -> List.existsb is_space l = false.
Proof.
  induction l as [|c l IH]; [reflexivity|]. cbn [List.forallb List.existsb].
  intros H. apply andb_prop in H as [Hc Hl].
  now rewrite (digit_not_space c Hc), (IH Hl).
Qed.

(** A text a format with blanks matches has a blank. *)
Lemma shaped_blank (ds : list directive) (l : list ascii) :
  shaped ds l -> In Blanks ds -> List.existsb is_space l = true.
Proof.
  revert l. induction ds as [|d ds IH]; intros l Hs Hin; [destruct Hin|].
  cbn [shaped] in Hs. destruct Hs as (p & q & -> & Hp & Hq).
  rewrite List.existsb_app. destruct Hin as [->|Hin].
  - cbn [piece] in Hp. apply andb_prop in Hp as [Hp Hne].
    destruct p as [|c p]; [discriminate|]. cbn [List.forallb] in Hp.
    apply andb_prop in Hp as [Hc _]. cbn [List.existsb]. now rewrite Hc.
  - rewrite (IH q Hq Hin). apply orb_true_r.
Qed.

(** A text in the form [DD-MM-YYYY] ends with four digits. *)
Lemma dmY_tail (l : list ascii) :
  shaped F_dmY l ->
  exists front a b c d,
    l = front ++ [a; b; c; d]
    /\ is_digit a = true /\ is_digit b = true /\ is_digit c = true
    /\ is_digit d = true.
Proof.
  unfold F_dmY. cbn [shaped].
  intros (p1 & q1 & -> & H1 & p2 & q2 & -> & H2 & p3 & q3 & -> & H3
          & p4 & q4 & -> & H4 & p5 & q5 & -> & H5 & ->).
  cbn [piece] in H5.
  destruct p5 as [|a [|b [|c [|d [|? ?]]]]]; try discriminate.
  apply andb_prop in H5 as [H5 Hd]. apply andb_prop in H5 as [H5 Hc].
  apply andb_prop in H5 as [Ha Hb].
  exists (p1 ++ p2 ++ p3 ++ p4), a, b, c, d.
  rewrite List.app_nil_r, <- !List.app_assoc. auto.
Qed.

(** A text in the form [YYYY-MM-DD] starts with four digits. *)
Lemma Ymd_head (l : list ascii) :
  shaped F_Ymd l ->
  exists a b c d r,
    l = a :: b :: c :: d :: r
    /\ is_digit a = true /\ is_digit b = true /\ is_digit c = true
    /\ is_digit d = true.
Proof.
  unfold F_Ymd. cbn [shaped]. intros (p1 & q1 & -> & H1 & _).
  cbn [piece] in H1.
  destruct p1 as [|a [|b [|c [|d [|? ?]]]]]; try discriminate.
  apply andb_prop in H1 as [H1 Hd]. apply andb_prop in H1 as [H1 Hc].
  apply andb_prop in H1 as [Ha Hb].
  exists a, b, c, d, q1. auto.
Qed.

(** Three digits at most and a dash are no year. *)
Lemma short_not_Ymd (ys tl : list ascii) :
  ys <> [] -> (length ys <= 3)%nat -> ~ shaped F_Ymd (ys ++ "-"%char :: tl).
Proof.
  intros Hne Hl Hs.
  apply Ymd_head in Hs as (a & b & c & d & r & E & Ha & Hb & Hc & Hd).
  destruct ys as [|y1 [|y2 [|y3 [|? ?]]]]; [congruence| | | |cbn in Hl; lia];
    cbn [app] in E; inversion E; subst; discriminate.
Qed.

(** No text with a dash among its last four characters ends with a year. *)
Lemma short_not_dmY (front ys : list ascii) :
  (length ys <= 3)%nat -> ~ shaped F_dmY (front ++ "-"%char :: ys).
Proof.
  intros Hl Hs.
  apply dmY_tail in Hs as (front' & a & b & c & d & E & Ha & Hb & Hc & Hd).
  apply (f_equal (@rev ascii)) in E. rewrite !List.rev_app_distr in E.
  destruct ys as [|y1 [|y2 [|y3 [|? ?]]]]; [| | | |cbn in Hl; lia];
    cbn in E; inversion E; subst; discriminate.
Qed.

Lemma digit_head_not_month (ds : list directive) (c : ascii) (r : list ascii) :
  is_digit c = true -> ~ shaped (Dir_B :: ds) (c :: r).
Proof.
  intros Hc Hs. apply head_of_month in Hs as (x & r' & E & Hx).
  inversion E. subst. unfold caseless in Hx. rewrite Hc in Hx. discriminate.
Qed.

(** A text that starts with two digits and a dash is not read by
    [process_contracts.py]. *)
Lemma dmy_text_unread_by_process (p q : ascii) (rest : list ascii) :
  is_digit p = true ->
  ProcessContracts.parse_start_date (str (p :: q :: "-"%char :: rest)) = Ret None.
Proof.
  intros Hp. destruct compile_formats as (C1 & C2 & C3 & C4 & C5).
  rewrite process_parse_cascade.
  rewrite (strptime_fails _ _ _ C5)
    by (rewrite ReducedMore.chars_str; now apply digit_head_not_month).
  rewrite (strptime_fails _ _ _ C4); [reflexivity|].
  rewrite ReducedMore.chars_str. intros Hs.
  apply Ymd_head in Hs as (a & b & c & d & r & E & Ha & Hb & Hc & Hd).
  inversion E. subst. discriminate.
Qed.

(** A date before the year 1000 written [YYYY-MM-DD] is read by neither
    file. *)
Lemma short_Ymd_unread (dt : datetime) :
  well_formed dt -> year dt < 1000 ->
  ProcessContracts.parse_start_date (strftime dt "%Y-%m-%d") = Ret None
  /\ VerifyEndDate.parse_start_date (strftime dt "%Y-%m-%d") = Ret None.
Proof.
  intros Hw Hlt. destruct compile_formats as (C1 & C2 & C3 & C4 & C5).
  destruct (written_Ymd dt Hw) as (m1 & m2 & p & q & -> & Hm1 & Hm2 & Hp & Hq).
  destruct Hw as (Hy & _).
  pose proof (short_year (year dt) ltac:(lia)) as Hshort.
  destruct (year_digits (year dt)) as (c & ys & E & Hds).
  rewrite E in *. clear E.
  set (tl := m1 :: m2 :: "-"%char :: [p; q]).
  assert (~ shaped F_Ymd ((c :: ys) ++ "-"%char :: tl)) as NYmd
    by (apply short_not_Ymd; [discriminate|exact Hshort]).
  pose proof Hds as Hds'. cbn [List.forallb] in Hds'.
  apply andb_prop in Hds' as [Hc Hys].
  assert (forall ds, ~ shaped (Dir_B :: ds) ((c :: ys) ++ "-"%char :: tl)) as NB
    by (intros ds; now apply digit_head_not_month).
  split.
  - rewrite process_parse_cascade.
    rewrite (strptime_fails _ _ _ C5) by (rewrite ReducedMore.chars_str; apply NB).
    now rewrite (strptime_fails _ _ _ C4) by (now rewrite ReducedMore.chars_str).
  - rewrite verify_parse_cascade. cbv zeta.
    rewrite (cleaned_plain ((c :: ys) ++ "-"%char :: tl)
               ((c :: ys) ++ "-"%char :: [m1; m2; "-"%char; p]) (ys ++ "-"%char :: tl)
               c q).
    2:{ rewrite List.forallb_app, (digits_plain _ Hds). unfold tl, plain.
        cbn [List.forallb]. now rewrite Hm1, Hm2, Hp, Hq. }
    2:{ reflexivity. }
    2:{ now apply digit_not_space. }
    2:{ unfold tl. now rewrite <- List.app_assoc. }
    2:{ now apply digit_not_space. }
    rewrite (strptime_fails _ _ _ C1).
    2:{ rewrite ReducedMore.chars_str. unfold tl.
        change ((c :: ys) ++ "-"%char :: [m1; m2; "-"%char; p; q])
          with ((c :: ys) ++ ("-"%char :: [m1; m2]) ++ "-"%char :: [p; q]).
        rewrite List.app_assoc. apply short_not_dmY. cbn. lia. }
    rewrite (strptime_fails _ _ _ C2).
    2:{ rewrite ReducedMore.chars_str. intros Hs.
        apply shaped_blank in Hs; [|unfold F_dBY; cbn; tauto].
        rewrite List.existsb_app, (digits_no_blank _ Hds) in Hs. unfold tl in Hs.
        cbn [List.existsb orb] in Hs.
        rewrite (digit_not_space _ Hm1), (digit_not_space _ Hm2),
          (digit_not_space _ Hp), (digit_not_space _ Hq) in Hs.
        discriminate. }
    rewrite (strptime_fails _ _ _ C3) by (rewrite ReducedMore.chars_str; apply NB).
    now rewrite (strptime_fails _ _ _ C4) by (now rewrite ReducedMore.chars_str).
Qed.

(** A date written [DD-MM-YYYY] is not read by [process_contracts.py], and
    before the year 1000 it is not read by [verify_end_date_calculation.py]
    either. *)
Lemma written_dmY_unread (dt : datetime) :
  well_formed dt ->
  ProcessContracts.parse_start_date (strftime dt "%d-%m-%Y") = Ret None
  /\ (year dt < 1000 ->
      VerifyEndDate.parse_start_date (strftime dt "%d-%m-%Y") = Ret None).
Proof.
  intros Hw. destruct compile_formats as (C1 & C2 & C3 & C4 & C5).
  destruct (written_dmY dt Hw) as (p & q & m1 & m2 & -> & Hp & Hq & Hm1 & Hm2).
  split; [now apply dmy_text_unread_by_process|].
  intros Hlt. destruct Hw as (Hy & _).
  pose proof (short_year (year dt) ltac:(lia)) as Hshort.
  destruct (year_digits (year dt)) as (c & ys & E & Hds).
  rewrite E in *. clear E.
  set (l := p :: q :: "-"%char :: m1 :: m2 :: "-"%char :: c :: ys).
  destruct (exists_last (l := c :: ys) ltac:(discriminate)) as (ys' & z & Ez).
  assert (is_digit z = true) as Hz.
  { rewrite Ez, List.forallb_app in Hds. apply andb_prop in Hds as [_ Hds].
    cbn [List.forallb] in Hds. now apply andb_prop in Hds as [Hds _]. }
  rewrite verify_parse_cascade. cbv zeta.
  rewrite (cleaned_plain l
             (p :: q :: "-"%char :: m1 :: m2 :: "-"%char :: ys')
             (q :: "-"%char :: m1 :: m2 :: "-"%char :: c :: ys) p z).
  2:{ unfold l, plain. cbn [List.forallb].
      rewrite Hp, Hq, Hm1, Hm2. cbn [orb andb Ascii.eqb Bool.eqb].
      pose proof (digits_plain _ Hds) as Hpl. cbn [List.forallb] in Hpl.
      exact Hpl. }
  2:{ reflexivity. }
  2:{ now apply digit_not_space. }
  2:{ unfold l. rewrite Ez. reflexivity. }
  2:{ now apply digit_not_space. }
  rewrite (strptime_fails _ _ _ C1).
  2:{ rewrite ReducedMore.chars_str. unfold l.
      change (p :: q :: "-"%char :: m1 :: m2 :: "-"%char :: c :: ys)
        with ([p; q; "-"%char; m1; m2] ++ "-"%char :: c :: ys).
      now apply short_not_dmY. }
  rewrite (strptime_fails _ _ _ C2).
  2:{ rewrite ReducedMore.chars_str. intros Hs.
      apply shaped_blank in Hs; [|unfold F_dBY; cbn; tauto].
      unfold l in Hs. cbn [List.existsb] in Hs.
      rewrite (digit_not_space _ Hm1), (digit_not_space _ Hm2),
        (digit_not_space _ Hp), (digit_not_space _ Hq) in Hs.
      cbn [orb] in Hs.
      pose proof (digits_no_blank _ Hds) as Hnb. cbn [List.existsb] in Hnb.
      change (is_space "-") with false in Hs. cbn [orb] in Hs.
      rewrite Hnb in Hs. discriminate. }
  rewrite (strptime_fails _ _ _ C3)
    by (rewrite ReducedMore.chars_str; now apply digit_head_not_month).
  rewrite (strptime_fails _ _ _ C4); [reflexivity|].
  rewrite ReducedMore.chars_str. intros Hs.
  apply Ymd_head in Hs as (a & b & c' & d & r & E & Ha & Hb & Hc & Hd).
  unfold l in E. inversion E. subst. discriminate.
Qed.

End ReadBack.

(** X16.  In the unit [day], for a magnitude [int] converts, the end date is
    the date exactly [n] days after the start date (its ordinal is the start's
    plus [n]), a date the library holds; when that date would be past
    31 December 9999 the call raises [OverflowError].  A magnitude of more
    than 4300 digits is refused by [int]: the call raises [ValueError],
    whatever the unit.  The same in both files. *)
Theorem day_unit_exact (s d : string) (start : datetime) (n : Z) :
  (VerifyEndDate.parse_start_date s = Ret (Some start) ->
   (counts (Re.search duration_pattern (chars d)) "day" n ->
    if toordinal start + n <=? 3652059
    then exists end_date,
           VerifyEndDate.calculate_end_date s d = Ret (strftime end_date "%d-%m-%Y")
           /\ well_formed end_date /\ toordinal end_date = toordinal start + n
    else VerifyEndDate.calculate_end_date s d = Raise OverflowError)
   /\ (forall v u r,
         Re.search duration_pattern (chars d) = Some ((v, u), r) ->
         (4300 < length v)%nat ->
         VerifyEndDate.calculate_end_date s d = Raise ValueError))
  /\ (ProcessContracts.parse_start_date s = Ret (Some start) ->
      (counts (Re.rmatch duration_pattern (chars d)) "day" n ->
       if toordinal start + n <=? 3652059
       then exists end_date,
              ProcessContracts.calculate_end_date s d
              = Ret (strftime end_date "%Y-%m-%d")
              /\ well_formed end_date /\ toordinal end_date = toordinal start + n
       else ProcessContracts.calculate_end_date s d = Raise OverflowError)
      /\ (forall v u r,
            Re.rmatch duration_pattern (chars d) = Some ((v, u), r) ->
            (4300 < length v)%nat ->
            ProcessContracts.calculate_end_date s d = Raise ValueError)).
Proof.
  split.
  - intros Hp. destruct (ParseFacts.verify_parse_total s) as (o & Ho & Hw).
    assert (well_formed start) as Hwf by (apply Hw; congruence).
    rewrite calculate_of_derive_verify, (DeriveFacts.verify_derive s d start Hp).
    split.
    + intros (v & u & r & Hm & Hu & Hi).
      assert (0 <= n) as Hn0.
      { apply DeriveFacts.int_inv in Hi as [-> _].
        apply ReFacts.search_in in Hm as (pre & suf & _ & Hin).
        now apply DurationFacts.duration_read in Hin as [_ H]. }
      rewrite Hm, (DeriveFacts.branch_counts _ _ _ _ _ _ Hi), Hu.
      change (String.eqb "day" "day") with true. cbv iota.
      rewrite (DateMore.add_days_exact start n Hwf Hn0).
      pose proof (DateMore.toordinal_pos start Hwf) as Hpos.
      destruct (_ <=? 3652059) eqn:E; [|reflexivity]. apply Z.leb_le in E.
      destruct (OrdinalFacts.ord2ymd_round_trip (toordinal start + n) ltac:(lia))
        as [H1 H2].
      eexists. split; [reflexivity|]. split; assumption.
    + intros v u r Hm Hl. rewrite Hm.
      apply ReFacts.search_in in Hm as (pre & suf & _ & Hin).
      apply DurationFacts.in_duration_pattern in Hin
        as (ws & post & _ & _ & Hd & _).
      now rewrite (DeriveFacts.branch_long _ _ _ _ _ Hd Hl).
  - intros Hp. destruct (ParseFacts.process_parse_total s) as (o & Ho & Hw).
    assert (well_formed start) as Hwf by (apply Hw; congruence).
    rewrite calculate_of_derive_process, (DeriveFacts.process_derive s d start Hp).
    split.
    + intros (v & u & r & Hm & Hu & Hi).
      assert (0 <= n) as Hn0.
      { apply DeriveFacts.int_inv in Hi as [-> _].
        apply ReFacts.rmatch_in in Hm.
        now apply DurationFacts.duration_read in Hm as [_ H]. }
      rewrite Hm, (DeriveFacts.branch_counts _ _ _ _ _ _ Hi), Hu.
      change (String.eqb "day" "day") with true. cbv iota.
      rewrite (DateMore.add_days_exact start n Hwf Hn0).
      pose proof (DateMore.toordinal_pos start Hwf) as Hpos.
      destruct (_ <=? 3652059) eqn:E; [|reflexivity]. apply Z.leb_le in E.
      destruct (OrdinalFacts.ord2ymd_round_trip (toordinal start + n) ltac:(lia))
        as [H1 H2].
      eexists. split; [reflexivity|]. split; assumption.
    + intros v u r Hm Hl. rewrite Hm.
      apply ReFacts.rmatch_in in Hm.
      apply DurationFacts.in_duration_pattern in Hm
        as (ws & post & _ & _ & Hd & _).
      now rewrite (DeriveFacts.branch_long _ _ _ _ _ Hd Hl).
Qed.

Lemma day_unit_exact_witness :
  (exists end_date,
     VerifyEndDate.calculate_end_date "2018-10-15" "730 Days"
     = Ret (strftime end_date "%d-%m-%Y")
     /\ well_formed end_date
     /\ toordinal end_date
        = toordinal {| year := 2018; month := 10; day := 15 |} + 730)
  /\ ProcessContracts.calculate_end_date "9999-12-01" "31 days" = Raise OverflowError.
Proof.
  split.
  - destruct (day_unit_exact "2018-10-15" "730 Days"
                {| year := 2018; month := 10; day := 15 |} 730) as [H _].
    destruct H as [H _]; [vm_compute; reflexivity|].
    apply H.
    exists (chars "730"), (chars "Day"), []. vm_compute. repeat split; reflexivity.
  - destruct (day_unit_exact "9999-12-01" "31 days"
                {| year := 9999; month := 12; day := 1 |} 31) as [_ H].
    destruct H as [H _]; [vm_compute; reflexivity|].
    apply H.
    exists (chars "31"), (chars "day"), []. vm_compute. repeat split; reflexivity.
Defined.

(** X17.  For a start date both files read and a duration read at the start
    of its text, the two files derive the same thing, an exception included,
    but for two cases of a duration in months that ends in a December, for
    which [verify_end_date_calculation.py] asks for the first day of the year
    after.  In December 9999 it raises [ValueError] and [process_contracts.py]
    returns the date; in December of the last year a C [int] holds it raises
    [OverflowError] and [process_contracts.py] raises [ValueError]. *)
Theorem derivations_agree (s d : string) (start : datetime)
    (m : (list ascii * list ascii) * list ascii) :
  ProcessContracts.parse_start_date s = Ret (Some start) ->
  VerifyEndDate.parse_start_date s = Ret (Some start) ->
  Re.rmatch duration_pattern (chars d) = Some m ->
  VerifyEndDate.derive s d = ProcessContracts.derive s d
  \/ (exists n,
        counts (Some m) "month" n /\ month (plus_months start n) = 12
        /\ ((year (plus_months start n) = 9999
             /\ VerifyEndDate.derive s d = Raise ValueError
             /\ ProcessContracts.derive s d = Ret (EndDate (plus_months start n)))
            \/ (year (plus_months start n) = 2147483647
                /\ VerifyEndDate.derive s d = Raise OverflowError
                /\ ProcessContracts.derive s d = Raise ValueError))).
Proof.
  intros HP HV Hm.
  destruct (ParseFacts.process_parse_total s) as (o & Ho & Hw).
  assert (well_formed start) as Hwf by (apply Hw; congruence).
  rewrite (DeriveFacts.verify_derive s d start HV),
    (DeriveFacts.process_derive s d start HP),
    (ReFacts.search_of_rmatch _ _ _ Hm), Hm.
  destruct m as [[v u] r].
  pose proof (ReFacts.rmatch_in _ _ _ Hm) as Hin.
  apply DurationFacts.duration_read in Hin as [Hu Hn].
  unfold Notions.branch. cbn [fst snd].
  destruct (int v) as [n|e] eqn:Ei; [|left; reflexivity].
  pose proof (DeriveFacts.int_inv v n Ei) as [En _]. subst n.
  cbn [mbind result_bind].
  destruct Hu as [Hu|Hu]; rewrite Hu.
  - left. reflexivity.
  - change (String.eqb "month" "day") with false. cbv iota.
    rewrite (Months.verify_add_months start _ Hwf Hn),
      (Months.process_add_months start _ Hwf Hn). cbv zeta.
    set (t := plus_months start (py_int v)).
    assert (counts (Some (v, u, r)) "month" (py_int v)) as Hc
      by (exists v, u, r; auto).
    unfold Notions.next_year, Notions.year_error.
    destruct (month t =? 12) eqn:E12.
    2:{ rewrite andb_false_r. cbn [negb]. rewrite andb_true_r. left. reflexivity. }
    apply Z.eqb_eq in E12. rewrite andb_true_r.
    destruct (year t <=? 9999) eqn:E1.
    + apply Z.leb_le in E1. cbn [andb].
      destruct (year t =? 9999) eqn:E2; [|left; reflexivity].
      apply Z.eqb_eq in E2. right. exists (py_int v).
      split; [exact Hc|]. split; [exact E12|]. left. fold t.
      rewrite E2. auto.
    + apply Z.leb_gt in E1. cbn [andb].
      destruct (year t <=? 2147483647) eqn:Ea;
        destruct (year t + 1 <=? 2147483647) eqn:Eb; try (left; reflexivity).
      * apply Z.leb_le in Ea. apply Z.leb_gt in Eb.
        right. exists (py_int v).
        split; [exact Hc|]. split; [exact E12|]. right. fold t.
        split; [lia|]. auto.
      * apply Z.leb_gt in Ea. apply Z.leb_le in Eb. lia.
Qed.

Lemma derivations_agree_witness :
  (VerifyEndDate.derive "2020-01-31" "1 month"
   = ProcessContracts.derive "2020-01-31" "1 month"
   \/ exists n,
        counts (Some (chars "1", chars "month", [])) "month" n
        /\ month (plus_months {| year := 2020; month := 1; day := 31 |} n) = 12
        /\ ((year (plus_months {| year := 2020; month := 1; day := 31 |} n) = 9999
             /\ VerifyEndDate.derive "2020-01-31" "1 month" = Raise ValueError
             /\ ProcessContracts.derive "2020-01-31" "1 month"
                = Ret (EndDate
                         (plus_months {| year := 2020; month := 1; day := 31 |} n)))
            \/ (year (plus_months {| year := 2020; month := 1; day := 31 |} n)
                = 2147483647
                /\ VerifyEndDate.derive "2020-01-31" "1 month" = Raise OverflowError
                /\ ProcessContracts.derive "2020-01-31" "1 month"
                   = Raise ValueError)))
  /\ VerifyEndDate.derive "9999-11-15" "1 month" = Raise ValueError
  /\ ProcessContracts.derive "9999-11-15" "1 month"
     = Ret (EndDate {| year := 9999; month := 12; day := 15 |})
  /\ VerifyEndDate.derive "2020-12-15" "25769779524 months" = Raise OverflowError
  /\ ProcessContracts.derive "2020-12-15" "25769779524 months" = Raise ValueError.
Proof.
  split.
  - apply (derivations_agree "2020-01-31" "1 month"
             {| year := 2020; month := 1; day := 31 |}
             (chars "1", chars "month", [])); vm_compute; reflexivity.
  - repeat split; vm_compute; reflexivity.
Defined.

(** X18.  The start dates the two files read.  A text in the form
    [Month D, YYYY] is read by [process_contracts.py] and not by
    [verify_end_date_calculation.py], which answers
    "Invalid Start Date Format"; a text in the form [YYYY-MM-DD] is read by
    both, as the same date; a text in the form [DD-MM-YYYY] is not read by
    [process_contracts.py]. *)
Theorem start_dates_read (s d : string) (dt : datetime) :
  (strptime s "%B %d, %Y" = Ret dt ->
   ProcessContracts.parse_start_date s = Ret (Some dt)
   /\ VerifyEndDate.parse_start_date s = Ret None
   /\ VerifyEndDate.calculate_end_date s d = Ret "Invalid Start Date Format")
  /\ (strptime s "%Y-%m-%d" = Ret dt ->
      ProcessContracts.parse_start_date s = Ret (Some dt)
      /\ VerifyEndDate.parse_start_date s = Ret (Some dt))
  /\ (strptime s "%d-%m-%Y" = Ret dt ->
      ProcessContracts.parse_start_date s = Ret None
      /\ ProcessContracts.calculate_end_date s d = Ret "Invalid Start Date Format").
Proof.
  split; [|split].
  - intros H. destruct (ReadBack.bdy_read_by_process_only s dt H) as [H1 H2].
    split; [exact H1|]. split; [exact H2|].
    rewrite calculate_of_derive_verify.
    now rewrite (DeriveFacts.verify_derive_unread s d H2).
  - apply ReadBack.ymd_read_by_both.
  - intros H. pose proof (ReadBack.dmy_unread_by_process s dt H) as H1.
    split; [exact H1|]. rewrite calculate_of_derive_process.
    now rewrite (DeriveFacts.process_derive_unread s d H1).
Qed.

Lemma start_dates_read_witness :
  VerifyEndDate.calculate_end_date "October 15, 2018" "730 days"
    = Ret "Invalid Start Date Format"
  /\ VerifyEndDate.parse_start_date "2018-10-15"
     = Ret (Some {| year := 2018; month := 10; day := 15 |})
  /\ ProcessContracts.calculate_end_date "15-10-2018" "730 days"
     = Ret "Invalid Start Date Format".
Proof.
  split; [|split].
  - destruct (start_dates_read "October 15, 2018" "730 days"
                {| year := 2018; month := 10; day := 15 |}) as (H & _).
    apply H. vm_compute. reflexivity.
  - destruct (start_dates_read "2018-10-15" "730 days"
                {| year := 2018; month := 10; day := 15 |}) as (_ & H & _).
    apply H. vm_compute. reflexivity.
  - destruct (start_dates_read "15-10-2018" "730 days"
                {| year := 2018; month := 10; day := 15 |}) as (_ & _ & H).
    apply H. vm_compute. reflexivity.
Defined.

(** X19.  An end date can be given back as a start date, up to a point.  From
    the year 1000 on, the end date [process_contracts.py] writes
    ([YYYY-MM-DD]) is read by both files as the date derived, and the end date
    [verify_end_date_calculation.py] writes ([DD-MM-YYYY]) is read by that
    file as the date derived.  Before the year 1000 the year is written
    without leading zeros and neither file reads the text back.  Whatever the
    year, [process_contracts.py] does not read what
    [verify_end_date_calculation.py] writes. *)
Theorem end_date_reads_back (s d : string) (dt : datetime) :
  (ProcessContracts.derive s d = Ret (EndDate dt) ->
   ProcessContracts.calculate_end_date s d = Ret (strftime dt "%Y-%m-%d")
   /\ (1000 <= year dt ->
       ProcessContracts.parse_start_date (strftime dt "%Y-%m-%d") = Ret (Some dt)
       /\ VerifyEndDate.parse_start_date (strftime dt "%Y-%m-%d") = Ret (Some dt))
   /\ (year dt < 1000 ->
       ProcessContracts.parse_start_date (strftime dt "%Y-%m-%d") = Ret None
       /\ VerifyEndDate.parse_start_date (strftime dt "%Y-%m-%d") = Ret None))
  /\ (VerifyEndDate.derive s d = Ret (EndDate dt) ->
      VerifyEndDate.calculate_end_date s d = Ret (strftime dt "%d-%m-%Y")
      /\ (1000 <= year dt ->
          VerifyEndDate.parse_start_date (strftime dt "%d-%m-%Y") = Ret (Some dt))
      /\ (year dt < 1000 ->
          VerifyEndDate.parse_start_date (strftime dt "%d-%m-%Y") = Ret None)
      /\ ProcessContracts.parse_start_date (strftime dt "%d-%m-%Y") = Ret None).
Proof.
  split.
  - intros H. pose proof (DateMore.process_derived_well_formed s d dt H) as Hw.
    split; [rewrite calculate_of_derive_process; now rewrite H|]. split.
    + intros Hy. apply ReadBack.ymd_read_by_both. now apply ReadBack.read_back_Ymd.
    + intros Hy. now apply ReadBack.short_Ymd_unread.
  - intros H. pose proof (DateMore.verify_derived_well_formed s d dt H) as Hw.
    split; [rewrite calculate_of_derive_verify; now rewrite H|].
    destruct (ReadBack.written_dmY_unread dt Hw) as [HP HV].
    split; [|split; [exact HV|exact HP]].
    intros Hy. pose proof (ReadBack.read_back_dmY dt Hw Hy) as Hr.
    rewrite ParseFacts.verify_parse_cascade. cbv zeta.
    rewrite (ReadBack.cleaned_dmY dt Hw Hy). now rewrite Hr.
Qed.

Lemma end_date_reads_back_witness :
  ProcessContracts.calculate_end_date "2018-10-15" "730 days" = Ret "2020-10-14"
  /\ VerifyEndDate.parse_start_date "2020-10-14"
     = Ret (Some {| year := 2020; month := 10; day := 14 |})
  /\ VerifyEndDate.calculate_end_date "2018-10-15" "730 days" = Ret "14-10-2020"
  /\ ProcessContracts.parse_start_date "14-10-2020" = Ret None
  /\ ProcessContracts.calculate_end_date "0999-01-01" "1 day" = Ret "999-01-02"
  /\ ProcessContracts.parse_start_date "999-01-02" = Ret None.
Proof.
  destruct (end_date_reads_back "2018-10-15" "730 days"
              {| year := 2020; month := 10; day := 14 |}) as [HP HV].
  destruct HP as (H1 & H2 & _); [vm_compute; reflexivity|].
  destruct HV as (H4 & _ & _ & H6); [vm_compute; reflexivity|].
  destruct H2 as [_ H3]; [vm_compute; discriminate|].
  destruct (end_date_reads_back "0999-01-01" "1 day"
              {| year := 999; month := 1; day := 2 |}) as [HQ _].
  destruct HQ as (H7 & _ & H8); [vm_compute; reflexivity|].
  destruct H8 as [H9 _]; [reflexivity|].
  repeat split; assumption.
Defined.

Module LaterFacts.
Import Notions DateNotions.
Import PyStr Datetime Duration Spec Calendar Months DateMore.

Lemma days_before_year_step (y : Z) :
  days_before_year (y + 1) = days_before_year y + 365 + (if is_leap y then 1 else 0).
Proof.
  unfold days_before_year, is_leap. cbv zeta.
  replace (y + 1 - 1) with y by lia.
  destruct (y mod 4 =? 0) eqn:E4; destruct (y mod 100 =? 0) eqn:E100;
    destruct (y mod 400 =? 0) eqn:E400; cbn [andb orb negb];
    rewrite ?Z.eqb_eq, ?Z.eqb_neq in *;
    Z.to_euclidean_division_equations; lia.
Qed.

Lemma days_before_year_mono (y y' : Z) :
  y <= y' -> days_before_year y <= days_before_year y'.
Proof.
  intros H. unfold days_before_year. cbv zeta.
  Z.to_euclidean_division_equations. lia.
Qed.

(** The days of a year before a month, with the month's, are within the
    year and before every later month. *)
Lemma days_before_month_next (y m m' : Z) :
  1 <= m -> m < m' -> m' <= 12 ->
  days_before_month y m + days_in_month y m <= days_before_month y m'.
Proof.
  intros H1 H2 H3. unfold days_before_month, days_in_month.
  assert (m = 1 \/ m = 2 \/ m = 3 \/ m = 4 \/ m = 5 \/ m = 6 \/ m = 7 \/ m = 8
          \/ m = 9 \/ m = 10 \/ m = 11) as Hm by lia.
  assert (m' = 2 \/ m' = 3 \/ m' = 4 \/ m' = 5 \/ m' = 6 \/ m' = 7 \/ m' = 8
          \/ m' = 9 \/ m' = 10 \/ m' = 11 \/ m' = 12) as Hm' by lia.
  destruct (is_leap y);
    repeat (destruct Hm as [->|Hm]); subst;
    repeat (destruct Hm' as [->|Hm']); subst; cbn; lia.
Qed.

Lemma days_of_year (y m : Z) :
  1 <= m <= 12 ->
  0 <= days_before_month y m
  /\ days_before_month y m + days_in_month y m
     <= 365 + (if is_leap y then 1 else 0).
Proof.
  intros H. unfold days_before_month, days_in_month.
  assert (m = 1 \/ m = 2 \/ m = 3 \/ m = 4 \/ m = 5 \/ m = 6 \/ m = 7 \/ m = 8
          \/ m = 9 \/ m = 10 \/ m = 11 \/ m = 12) as Hm by lia.
  destruct (is_leap y); repeat (destruct Hm as [->|Hm]); subst; cbn; lia.
Qed.

(** The first day of a later month comes after the last day of a month. *)
Lemma later_month (y m y' m' : Z) :
  1 <= m <= 12 -> 1 <= m' <= 12 -> y < y' \/ (y = y' /\ m < m') ->
  ymd2ord y m (days_in_month y m) < ymd2ord y' m' 1.
Proof.
  intros Hm Hm' Hlt. unfold ymd2ord.
  destruct (days_of_year y m Hm) as [_ H1].
  destruct (days_of_year y' m' Hm') as [H2 _].
  destruct Hlt as [Hy|[<- Hmm]].
  - pose proof (days_before_year_step y) as Hs.
    pose proof (days_before_year_mono (y + 1) y' ltac:(lia)). lia.
  - pose proof (days_before_month_next y m m' ltac:(lia) Hmm ltac:(lia)). lia.
Qed.

(** Adding months never goes back. *)
Lemma plus_months_later (start : datetime) (n : Z) :
  well_formed start -> 0 <= n ->
  toordinal start <= toordinal (plus_months start n).
Proof.
  intros (Hy & Hm & Hd) Hn.
  destruct (plus_months_year start n Hm Hn) as (Ey & Em & Hm' & Hy').
  pose proof (days_in_month_bounds (year (plus_months start n)) _ Hm') as Hb.
  assert (1 <= day (plus_months start n)) as Hd'.
  { unfold plus_months in *. cbn [year month day] in *. lia. }
  unfold toordinal.
  destruct (Z.eq_dec n 0) as [->|Hn0].
  - assert (year (plus_months start 0) = year start
            /\ month (plus_months start 0) = month start) as [E1 E2].
    { rewrite Ey, Em. rewrite Z.add_0_r.
      rewrite (Z.div_small (month start - 1) 12) by lia.
      rewrite (Z.mod_small (month start - 1) 12) by lia. lia. }
    assert (day (plus_months start 0) = day start) as E3.
    { unfold plus_months in *. cbn [year month day] in *. rewrite E1, E2. lia. }
    rewrite E1, E2, E3. lia.
  - assert (ymd2ord (year start) (month start)
              (days_in_month (year start) (month start))
            < ymd2ord (year (plus_months start n)) (month (plus_months start n)) 1)
      as Hlater.
    { apply later_month; [exact Hm|exact Hm'|]. rewrite Ey, Em.
      Z.to_euclidean_division_equations. lia. }
    unfold ymd2ord in *. lia.
Qed.

(** Neither branch goes back. *)
Lemma branch_later (add_months : datetime -> Z -> result datetime)
    (start : datetime) (m : option ((list ascii * list ascii) * list ascii))
    (s : list ascii) (dt : datetime) :
  well_formed start ->
  (forall x, m = Some x ->
     exists pre suf, s = pre ++ suf /\ In x (duration_pattern suf)) ->
  (forall n t, 0 <= n -> add_months start n = Ret t ->
     toordinal start <= toordinal t) ->
  branch add_months start m = Ret (EndDate dt) -> toordinal start <= toordinal dt.
Proof.
  intros Hw Hm Hadd. unfold branch. destruct m as [[[v u] r]|]; [|discriminate].
  destruct (Hm _ eq_refl) as (pre & suf & _ & Hin).
  apply DurationFacts.duration_read in Hin as [_ Hn]. cbn [fst snd].
  destruct (int v) as [n|e] eqn:Ei; [|discriminate].
  apply DeriveFacts.int_inv in Ei as [-> _]. cbn [mbind result_bind].
  destruct (String.eqb _ _).
  - rewrite (add_days_exact start _ Hw Hn).
    destruct (_ <=? 3652059) eqn:E; [|discriminate]. apply Z.leb_le in E.
    intros [= <-]. pose proof (toordinal_pos start Hw).
    destruct (OrdinalFacts.ord2ymd_round_trip (toordinal start + py_int v)
                ltac:(lia)) as [_ ->]. lia.
  - intros H. apply DeriveFacts.dated_inv in H as (t & Ht & [= <-]).
    eapply Hadd; eauto.
Qed.

End LaterFacts.

(** X20.  An end date is never before the start date it is derived from, in
    either unit and in either file. *)
Theorem end_not_before_start (s d : string) (start end_date : datetime) :
  (VerifyEndDate.parse_start_date s = Ret (Some start) ->
   VerifyEndDate.derive s d = Ret (EndDate end_date) ->
   toordinal start <= toordinal end_date)
  /\ (ProcessContracts.parse_start_date s = Ret (Some start) ->
      ProcessContracts.derive s d = Ret (EndDate end_date) ->
      toordinal start <= toordinal end_date).
Proof.
  split.
  - intros Hp. destruct (ParseFacts.verify_parse_total s) as (o & Ho & Hw).
    assert (well_formed start) as Hwf by (apply Hw; congruence).
    rewrite (DeriveFacts.verify_derive s d start Hp).
    apply (LaterFacts.branch_later _ _ _ (chars d)); [exact Hwf| |].
    + intros x Hx. apply ReFacts.search_in in Hx as (pre & suf & E & Hin). eauto.
    + intros n t Hn. rewrite (Months.verify_add_months start n Hwf Hn). cbv zeta.
      destruct (_ && _); [|discriminate]. intros [= <-].
      now apply LaterFacts.plus_months_later.
  - intros Hp. destruct (ParseFacts.process_parse_total s) as (o & Ho & Hw).
    assert (well_formed start) as Hwf by (apply Hw; congruence).
    rewrite (DeriveFacts.process_derive s d start Hp).
    apply (LaterFacts.branch_later _ _ _ (chars d)); [exact Hwf| |].
    + intros x Hx. apply ReFacts.rmatch_in in Hx. exists [], (chars d). auto.
    + intros n t Hn. rewrite (Months.process_add_months start n Hwf Hn). cbv zeta.
      destruct (_ <=? _); [|discriminate]. intros [= <-].
      now apply LaterFacts.plus_months_later.
Qed.

Lemma end_not_before_start_witness :
  toordinal {| year := 2020; month := 1; day := 31 |}
  <= toordinal {| year := 2020; month := 2; day := 29 |}.
Proof.
  destruct (end_not_before_start "2020-01-31" "1 month"
              {| year := 2020; month := 1; day := 31 |}
              {| year := 2020; month := 2; day := 29 |}) as [H _].
  apply H; vm_compute; reflexivity.
Defined.

(** ** More on the verification run *)

Module VerifyDatesFacts.
Import PyStr Datetime Duration VerifyDates.

Lemma results_of_returns (rows : list (string -> cell)) (results : list verified) :
  (forall row, In row rows ->
     exists out, calculate_end_date (row "Start Date") (row "Project Duration")
                 = Ret out) ->
  exists added,
    results_of rows results = Ret (results ++ added)
    /\ Forall2 verified_of rows added.
Proof.
  revert results. induction rows as [|row rest IH]; intros results Hall.
  - exists []. cbn [results_of]. rewrite List.app_nil_r. split; [reflexivity|constructor].
  - cbn [results_of]. destruct (Hall row ltac:(now left)) as [out Hout].
    rewrite Hout. cbn [mbind result_bind].
    destruct (IH (results ++ [{| Original_Start_Date := row "Start Date";
                                 Original_Project_Duration := row "Project Duration";
                                 Calculated_End_Date := out |}]))
      as (added & -> & HF).
    { intros r Hr. apply Hall. now right. }
    eexists (_ :: added). rewrite <- List.app_assoc. split; [reflexivity|].
    constructor; [|exact HF]. repeat split. exact Hout.
Qed.

Lemma results_of_raises (rows : list (string -> cell)) (results : list verified)
    (row : string -> cell) (e : exn) :
  In row rows ->
  calculate_end_date (row "Start Date") (row "Project Duration") = Raise e ->
  exists e', results_of rows results = Raise e'.
Proof.
  revert results. induction rows as [|r rest IH]; intros results Hin He;
    [destruct Hin|].
  cbn [results_of].
  destruct (calculate_end_date (r "Start Date") (r "Project Duration"))
    as [out|e'] eqn:E; [|eexists; reflexivity].
  cbn [mbind result_bind]. destruct Hin as [->|Hin]; [congruence|].
  now apply IH.
Qed.

End VerifyDatesFacts.

(** X21.  The verification run is all or nothing.  With both columns in the
    table: when every row's end date can be calculated (a cell that is no
    string counts, it is answered "Invalid Input Type"), the output has one
    row for each row of the input, in order, with the two cells as read and
    the end date calculated; when [calculate_end_date] raises on one row, the
    run raises and no output is written, whatever the other rows.  Without
    one of the columns nothing is written and nothing is raised. *)
Theorem verify_dates_all_or_nothing (columns : list string)
    (rows : list (string -> VerifyDates.cell)) :
  (In "Start Date" columns -> In "Project Duration" columns ->
   (forall row, In row rows ->
      exists out,
        VerifyDates.calculate_end_date (row "Start Date") (row "Project Duration")
        = Ret out) ->
   exists results,
     VerifyDates.verify_dates (VerifyDates.Table columns rows) = Ret (Some results)
     /\ Forall2 VerifyDates.verified_of rows results)
  /\ (In "Start Date" columns -> In "Project Duration" columns ->
      forall row e, In row rows ->
        VerifyDates.calculate_end_date (row "Start Date") (row "Project Duration")
        = Raise e ->
        exists e', VerifyDates.verify_dates (VerifyDates.Table columns rows)
                   = Raise e')
  /\ (~ In "Start Date" columns \/ ~ In "Project Duration" columns ->
      VerifyDates.verify_dates (VerifyDates.Table columns rows) = Ret None).
Proof.
  assert (forall x, List.existsb (String.eqb x) columns = true <-> In x columns)
    as Hmem by (intros x; apply RowMore.mem_In).
  split; [|split].
  - intros H1 H2 Hall. unfold VerifyDates.verify_dates.
    apply Hmem in H1, H2. rewrite H1, H2. cbn [negb orb].
    destruct (VerifyDatesFacts.results_of_returns rows [] Hall) as (added & -> & HF).
    exists added. split; [reflexivity|exact HF].
  - intros H1 H2 row e Hin He. unfold VerifyDates.verify_dates.
    apply Hmem in H1, H2. rewrite H1, H2. cbn [negb orb].
    destruct (VerifyDatesFacts.results_of_raises rows [] row e Hin He) as [e' ->].
    eexists. reflexivity.
  - intros Hn. unfold VerifyDates.verify_dates.
    destruct (List.existsb (String.eqb "Start Date") columns) eqn:E1;
      [|reflexivity].
    destruct (List.existsb (String.eqb "Project Duration") columns) eqn:E2;
      [|reflexivity].
    apply Hmem in E1, E2. tauto.
Qed.

Lemma verify_dates_all_or_nothing_witness :
  let good := fun col : string =>
                if String.eqb col "Start Date" then VerifyDates.CStr "2018-10-15"
                else if String.eqb col "Project Duration"
                     then VerifyDates.CStr "730 days"
                     else VerifyDates.CNotStr in
  let empty := fun _ : string => VerifyDates.CNotStr in
  let bad := fun col : string =>
               if String.eqb col "Start Date" then VerifyDates.CStr "2018-10-15"
               else VerifyDates.CStr "120000 months" in
  VerifyDates.verify_dates
    (VerifyDates.Table ["Start Date"; "Project Duration"] [good; empty])
  = Ret (Some [ {| VerifyDates.Original_Start_Date := VerifyDates.CStr "2018-10-15";
                   VerifyDates.Original_Project_Duration := VerifyDates.CStr "730 days";
                   VerifyDates.Calculated_End_Date := "14-10-2020" |};
                {| VerifyDates.Original_Start_Date := VerifyDates.CNotStr;
                   VerifyDates.Original_Project_Duration := VerifyDates.CNotStr;
                   VerifyDates.Calculated_End_Date := "Invalid Input Type" |} ])
  /\ (exists e',
        VerifyDates.verify_dates
          (VerifyDates.Table ["Start Date"; "Project Duration"] [good; bad; empty])
        = Raise e')
  /\ VerifyDates.verify_dates (VerifyDates.Table ["Start Date"] [good]) = Ret None.
Proof.
  cbv zeta. split; [vm_compute; reflexivity|]. split.
  - destruct (verify_dates_all_or_nothing ["Start Date"; "Project Duration"]
                [ (fun col : string =>
                     if String.eqb col "Start Date" then VerifyDates.CStr "2018-10-15"
                     else if String.eqb col "Project Duration"
                          then VerifyDates.CStr "730 days"
                          else VerifyDates.CNotStr);
                  (fun col : string =>
                     if String.eqb col "Start Date" then VerifyDates.CStr "2018-10-15"
                     else VerifyDates.CStr "120000 months");
                  (fun _ : string => VerifyDates.CNotStr) ]) as (_ & H & _).
    apply (H ltac:(cbn; tauto) ltac:(cbn; tauto)
             (fun col : string =>
                if String.eqb col "Start Date" then VerifyDates.CStr "2018-10-15"
                else VerifyDates.CStr "120000 months") ValueError).
    + right. left. reflexivity.
    + vm_compute. reflexivity.
  - destruct (verify_dates_all_or_nothing ["Start Date"]
                [ (fun col : string =>
                     if String.eqb col "Start Date" then VerifyDates.CStr "2018-10-15"
                     else if String.eqb col "Project Duration"
                          then VerifyDates.CStr "730 days"
                          else VerifyDates.CNotStr) ]) as (_ & _ & H).
    apply H. right. cbn. intros [K|[]]. discriminate.
Defined.

(** ** The extraction by regular expressions *)

Module SqueezeFacts.
Import Notions.
Import PyStr Re ReFacts CharFacts DurationFacts CleanFacts ProcessContractsRegex
  RegexNotions.

Lemma split_eq (c : ascii) (r : list ascii) :
  split (c :: r) =
  if is_space c then split r
  else match r with
       | d :: _ =>
           if is_space d then [c] :: split r
           else match split r with
                | w :: ws => (c :: w) :: ws
                | [] => [[c]]
                end
       | [] => [[c]]
       end.
Proof. reflexivity. Qed.

Lemma split_blanks (l : list ascii) :
  List.forallb is_space l = true -> split l = [].
Proof.
  induction l as [|c r IH]; [reflexivity|]. cbn [List.forallb].
  intros H. apply andb_prop in H as [Hc Hr]. rewrite split_eq, Hc. now apply IH.
Qed.

Lemma split_cons_blank (c : ascii) (r : list ascii) :
  is_space c = true -> split (c :: r) = split r.
Proof. intros H. rewrite split_eq. now rewrite H. Qed.

(** The words of a text that starts with a character that is no blank. *)
Lemma split_cons_letter (c : ascii) (r : list ascii) :
  is_space c = false ->
  exists w ws, split (c :: r) = (c :: w) :: ws
    /\ (match r with
        | d :: _ => if is_space d then w = [] /\ ws = split r
                    else split r = w :: ws
        | [] => w = [] /\ ws = []
        end).
Proof.
  revert c. induction r as [|d r IH]; intros c Hc.
  - exists [], []. rewrite split_eq, Hc. auto.
  - rewrite split_eq, Hc. destruct (is_space d) eqn:Hd.
    + exists [], (split (d :: r)). auto.
    + destruct (IH d Hd) as (w & ws & E & _). rewrite E.
      exists (d :: w), ws. auto.
Qed.

Lemma split_words (l : list ascii) : Forall word (split l).
Proof.
  induction l as [|c r IH]; [constructor|].
  destruct (is_space c) eqn:Hc.
  - now rewrite split_cons_blank.
  - destruct (split_cons_letter c r Hc) as (w & ws & -> & Hr).
    destruct r as [|d r'].
    + destruct Hr as [-> ->]. constructor; [|constructor].
      split; [discriminate|]. cbn. now rewrite Hc.
    + destruct (is_space d) eqn:Hd.
      * destruct Hr as [-> ->]. constructor; [|exact IH].
        split; [discriminate|]. cbn. now rewrite Hc.
      * rewrite Hr in IH. apply Forall_cons in IH as [[_ Hw] Hws].
        constructor; [|exact Hws]. split; [discriminate|].
        cbn [List.forallb]. now rewrite Hc, Hw.
Qed.

(** The words depend on the blanks only through where they are. *)
Lemma split_map (f : ascii -> ascii) (l : list ascii) :
  (forall c, is_space (f c) = is_space c) ->
  (forall c, is_space c = false -> f c = c) ->
  split (List.map f l) = split l.
Proof.
  intros Hs Hid. induction l as [|c r IH]; [reflexivity|].
  cbn [List.map]. destruct (is_space c) eqn:Hc.
  - rewrite !split_cons_blank; [exact IH|exact Hc|now rewrite Hs].
  - rewrite (Hid c Hc), !(split_eq c), Hc.
    destruct r as [|d r']; [reflexivity|]. cbn [List.map] in *.
    rewrite Hs. destruct (is_space d) eqn:Hd; now rewrite IH.
Qed.

Lemma split_replace_newlines (l : list ascii) :
  split (replace_newlines l) = split l.
Proof.
  unfold replace_newlines. apply split_map.
  - intros c. destruct (Ascii.eqb c newline) eqn:E; [|reflexivity].
    apply Ascii.eqb_eq in E. now subst.
  - intros c Hc. destruct (Ascii.eqb c newline) eqn:E; [|reflexivity].
    apply Ascii.eqb_eq in E. subst. discriminate.
Qed.

Lemma split_lstrip (l : list ascii) : split (lstrip l) = split l.
Proof.
  induction l as [|c r IH]; [reflexivity|]. cbn [lstrip].
  destruct (is_space c) eqn:Hc; [|reflexivity].
  now rewrite split_cons_blank.
Qed.

Lemma rstrip_nil (l : list ascii) :
  rstrip l = [] -> List.forallb is_space l = true.
Proof.
  induction l as [|c r IH]; [reflexivity|]. cbn [rstrip List.forallb].
  destruct (rstrip r) as [|x r'] eqn:E; [|discriminate].
  destruct (is_space c); [intros _; now apply IH|discriminate].
Qed.

Lemma rstrip_head (l : list ascii) (x : ascii) (r' : list ascii) :
  rstrip l = x :: r' -> exists r, l = x :: r.
Proof.
  destruct l as [|c r]; [discriminate|]. cbn [rstrip].
  destruct (rstrip r); [destruct (is_space c); [discriminate|]|];
    intros [= <- _]; eauto.
Qed.

Lemma split_rstrip (l : list ascii) : split (rstrip l) = split l.
Proof.
  induction l as [|c r IH]; [reflexivity|]. cbn [rstrip].
  destruct (rstrip r) as [|x r'] eqn:E.
  - pose proof (rstrip_nil r E) as Hr. destruct (is_space c) eqn:Hc.
    + rewrite split_cons_blank by exact Hc. now rewrite (split_blanks r Hr).
    + rewrite (split_eq c r), (split_eq c []), Hc.
      destruct r as [|d r0]; [reflexivity|].
      rewrite (split_blanks (d :: r0) Hr).
      cbn [List.forallb] in Hr. apply andb_prop in Hr as [Hd _].
      now rewrite Hd.
  - destruct (rstrip_head r x r' E) as [r0 ->].
    destruct (is_space c) eqn:Hc.
    + rewrite (split_cons_blank c (x :: r') Hc), (split_cons_blank c (x :: r0) Hc).
      exact IH.
    + rewrite (split_eq c (x :: r')), (split_eq c (x :: r0)), Hc.
      destruct (is_space x); now rewrite IH.
Qed.

Lemma split_strip (l : list ascii) : split (strip l) = split l.
Proof. unfold strip. now rewrite split_rstrip, split_lstrip. Qed.

(** A word followed by a blank is the first of the words. *)
Lemma split_word_blank (w tl : list ascii) (b : ascii) :
  word w -> is_space b = true -> split (w ++ b :: tl) = w :: split tl.
Proof.
  intros [Hne Hw] Hb. induction w as [|c w IH]; [contradiction|].
  cbn [List.forallb] in Hw. apply andb_prop in Hw as [Hc Hw].
  apply negb_true_iff in Hc. cbn [app]. rewrite split_eq, Hc.
  destruct w as [|d w'].
  - cbn [app]. rewrite Hb. now rewrite split_cons_blank.
  - cbn [app]. cbn [List.forallb] in Hw. pose proof Hw as Hw'.
    apply andb_prop in Hw' as [Hd _]. apply negb_true_iff in Hd. rewrite Hd.
    cbn [app] in IH. rewrite IH; [reflexivity|discriminate|exact Hw].
Qed.

Lemma split_word (w : list ascii) : word w -> split w = [w].
Proof.
  intros [Hne Hw]. induction w as [|c w IH]; [contradiction|].
  cbn [List.forallb] in Hw. apply andb_prop in Hw as [Hc Hw].
  apply negb_true_iff in Hc. rewrite split_eq, Hc.
  destruct w as [|d w']; [reflexivity|].
  cbn [List.forallb] in Hw. pose proof Hw as Hw'.
  apply andb_prop in Hw' as [Hd _]. apply negb_true_iff in Hd. rewrite Hd.
  rewrite IH; [reflexivity|discriminate|exact Hw].
Qed.

(** Words joined by one space are split into themselves. *)
Lemma split_join (words : list (list ascii)) :
  Forall word words -> split (join [" "%char] words) = words.
Proof.
  induction 1 as [|w ws Hw Hws IH]; [reflexivity|].
  destruct ws as [|w' ws'].
  - cbn [join]. now apply split_word.
  - change (join [" "%char] (w :: w' :: ws'))
      with (w ++ " "%char :: join [" "%char] (w' :: ws')).
    rewrite split_word_blank; [now rewrite IH|exact Hw|reflexivity].
Qed.

(** The words hold the characters that are no blanks, in their order. *)
Lemma split_concat (l : list ascii) :
  List.concat (split l) = List.filter (fun c => negb (is_space c)) l.
Proof.
  induction l as [|c r IH]; [reflexivity|]. cbn [List.filter].
  destruct (is_space c) eqn:Hc; cbn [negb].
  - now rewrite split_cons_blank.
  - destruct (split_cons_letter c r Hc) as (w & ws & -> & Hr).
    cbn [List.concat app]. f_equal. rewrite <- IH.
    destruct r as [|d r']; [now destruct Hr as [-> ->]|].
    destruct (is_space d); [now destruct Hr as [-> ->]|now rewrite Hr].
Qed.

Lemma squeezed_words (s : list ascii) :
  squeezed s = str (join [" "%char] (split s)).
Proof.
  unfold squeezed. now rewrite split_replace_newlines, split_strip.
Qed.

End SqueezeFacts.

Module RegexFacts.
Import Notions.
Import PyStr Re ReFacts CharFacts Duration Spec DurationFacts CleanFacts Json
  ProcessContractsRegex RegexNotions SqueezeFacts.

(** What [re.search] finds matches at the start of some rest of the text. *)
Lemma search_rmatch {A} (p : pattern A) (s : list ascii) (x : A * list ascii) :
  search p s = Some x -> exists pre suf, s = pre ++ suf /\ rmatch p suf = Some x.
Proof.
  induction s as [|c s IH]; cbn [search].
  - destruct (rmatch p []) eqn:E; [|discriminate].
    intros [= ->]. now exists [], [].
  - destruct (rmatch p (c :: s)) eqn:E.
    + intros [= ->]. now exists [], (c :: s).
    + intros H. destruct (IH H) as (pre & suf & -> & Hm).
      now exists (c :: pre), suf.
Qed.

(** A literal text matches in one way at most. *)
Lemma lit_cases (w s : list ascii) :
  lit w s = [] \/ exists m r, lit w s = [(m, r)].
Proof.
  revert s. induction w as [|p w IH]; intros s; cbn [lit].
  - right. now exists [], s.
  - destruct s as [|c r]; [now left|]. destruct (ieq c p); [|now left].
    destruct (IH r) as [->|(m & r' & ->)]; [now left|].
    right. now exists (c :: m), r'.
Qed.

Lemma head_app {A} (l l' : list A) : l <> [] -> head (l ++ l') = head l.
Proof. destruct l; [contradiction|reflexivity]. Qed.

(** The group of the project name is empty whenever the expression matches:
    the group is as short as can be and any character may follow it. *)
Lemma project_name_group (s g r : list ascii) :
  rmatch project_name_pattern s = Some (g, r) -> g = [].
Proof.
  unfold rmatch, project_name_pattern. unfold seq at 1.
  destruct (lit_cases (chars "for the work of") s) as [->|(m & r0 & ->)];
    [discriminate|].
  cbn [List.flat_map fst snd]. rewrite List.app_nil_r.
  set (K := fun g : list ascii =>
              seq (alt (lit (chars "on EPC"))
                     (seq (one any_char) (fun c => unit_pat [c])))
                (fun _ => unit_pat g)).
  change (head (seq lazy_any K r0) = Some (g, r) -> g = []).
  unfold seq at 1. destruct r0 as [|c r1].
  - cbn. discriminate.
  - cbn [lazy_any List.flat_map fst snd].
    assert (In ([], r1) (K [] (c :: r1))) as Hin.
    { unfold K. apply in_seq. exists [c], r1. split; [|now apply in_unit_pat].
      apply in_alt. right. apply in_seq. exists c, r1.
      split; [now apply in_one|now apply in_unit_pat]. }
    rewrite head_app by (intros E; rewrite E in Hin; destruct Hin).
    intros H. assert (In (g, r) (K [] (c :: r1))) as Hg.
    { destruct (K [] (c :: r1)); [discriminate|]. injection H as ->. now left. }
    unfold K in Hg. apply in_seq in Hg as (a & r2 & _ & Hu).
    now apply in_unit_pat in Hu as [-> _].
Qed.

(** The project name is empty or [Not Found]. *)
Lemma project_name_values (text : string) :
  snd (find_agreement_details text) = ""
  \/ snd (find_agreement_details text) = "Not Found".
Proof.
  unfold find_agreement_details.
  destruct (search agreement_pattern (chars text)) as [[g r]|]; [|now right].
  cbn [snd].
  destruct (search project_name_pattern (chars text)) as [[g1 r1]|] eqn:E;
    [|now right].
  apply search_rmatch in E as (pre & suf & _ & E).
  apply project_name_group in E. subst g1. now left.
Qed.

Lemma ieq_dot (c : ascii) : ieq c "." = true -> c = "."%char.
Proof.
  intros H.
  pose proof (ascii_forall (fun c => implb (ieq c ".") (Ascii.eqb c "."))
                ltac:(vm_compute; reflexivity) c) as Hc.
  cbv beta in Hc. rewrite H in Hc. now apply Ascii.eqb_eq in Hc.
Qed.

Lemma digit_or_comma_not_space (c : ascii) :
  digit_or_comma c = true -> negb (is_space c) = true.
Proof.
  intros H.
  pose proof (ascii_forall (fun c => implb (digit_or_comma c) (negb (is_space c)))
                ltac:(vm_compute; reflexivity) c) as Hc.
  cbv beta in Hc. now rewrite H in Hc.
Qed.

Lemma forallb_impl {A} (P Q : A -> bool) (l : list A) :
  (forall x, P x = true -> Q x = true) ->
  List.forallb P l = true -> List.forallb Q l = true.
Proof.
  intros H. rewrite !List.forallb_forall. auto.
Qed.

(** What the expression of the price captures. *)
Lemma price_group (s g r : list ascii) :
  In (g, r) (price_pattern s) ->
  exists a dot b,
    g = a ++ dot ++ b /\ a <> [] /\ List.forallb digit_or_comma a = true
    /\ (dot = [] \/ dot = ["."%char]) /\ List.forallb is_digit b = true.
Proof.
  unfold price_pattern. intros H.
  apply in_seq in H as (m0 & r0 & _ & H).
  apply in_seq in H as (m1 & r1 & _ & H).
  apply in_seq in H as (a & r2 & Ha & H).
  apply in_seq in H as (dot & r3 & Hdot & H).
  apply in_seq in H as (b & r4 & Hb & H).
  apply in_unit_pat in H as [-> ->].
  apply in_plus in Ha as (_ & Ha & Hne).
  apply in_star in Hb as (_ & Hb).
  exists a, (default [] dot), b. repeat split; auto.
  apply in_opt in Hdot as [(m & -> & Hm)|[-> _]]; [|now left].
  right. apply in_lit in Hm as [_ Hm]. cbn [default].
  destruct m as [|c [|c' m]]; cbn in Hm; try discriminate.
  - rewrite andb_true_r in Hm. now rewrite (ieq_dot c Hm).
  - destruct (ieq c "."); discriminate.
Qed.

Lemma price_group_strip (a dot b : list ascii) :
  List.forallb digit_or_comma a = true -> (dot = [] \/ dot = ["."%char]) ->
  List.forallb is_digit b = true -> strip (a ++ dot ++ b) = a ++ dot ++ b.
Proof.
  intros Ha Hdot Hb. apply strip_id. rewrite !List.forallb_app.
  rewrite (forallb_impl _ _ a digit_or_comma_not_space Ha).
  rewrite (digits_no_space b Hb). destruct Hdot as [->| ->]; reflexivity.
Qed.

(** Two ways to cut a text after a run of a class, each followed by a
    character out of the class or by nothing, are the same. *)
Lemma run_unique (P : ascii -> bool) (a b x y : list ascii) :
  a ++ x = b ++ y ->
  List.forallb P a = true -> List.forallb P b = true ->
  match x with c :: _ => P c = false | [] => True end ->
  match y with c :: _ => P c = false | [] => True end ->
  a = b /\ x = y.
Proof.
  revert b. induction a as [|c a IH]; intros [|d b] E Ha Hb Hx Hy; cbn in *.
  - auto.
  - subst x. apply andb_prop in Hb as [Hd _]. congruence.
  - subst y. apply andb_prop in Ha as [Hc _]. congruence.
  - injection E as -> E. apply andb_prop in Ha as [_ Ha].
    apply andb_prop in Hb as [_ Hb].
    destruct (IH b E Ha Hb Hx Hy) as [-> ->]. auto.
Qed.

Lemma unit_head (u : list ascii) :
  is_unit u ->
  exists c u', u = c :: u' /\ is_digit c = false /\ is_space c = false.
Proof.
  intros [H|H]; destruct u as [|c u']; try discriminate H;
    injection H as Hc _; exists c, u'; (split; [reflexivity|]);
    [ pose proof (ascii_forall
        (fun c => implb (Ascii.eqb (lower c) "d")
                    (negb (is_digit c) && negb (is_space c)))
        ltac:(vm_compute; reflexivity) c) as Hf
    | pose proof (ascii_forall
        (fun c => implb (Ascii.eqb (lower c) "m")
                    (negb (is_digit c) && negb (is_space c)))
        ltac:(vm_compute; reflexivity) c) as Hf ];
    cbv beta in Hf; rewrite Hc in Hf; cbn in Hf;
    apply andb_prop in Hf as [H1 H2];
    apply negb_true_iff in H1, H2; auto.
Qed.

(** What the expression of the completion date captures. *)
Lemma completion_group (s g r : list ascii) :
  In (g, r) (completion_date_pattern s) ->
  exists ds ws w,
    g = ds ++ ws ++ w /\ ds <> [] /\ List.forallb is_digit ds = true
    /\ ws <> [] /\ List.forallb is_space ws = true
    /\ List.map lower w = chars "days".
Proof.
  unfold completion_date_pattern. intros H.
  apply in_seq in H as (m0 & r0 & _ & H).
  apply in_seq in H as (m1 & r1 & _ & H).
  apply in_seq in H as (ds & r2 & Hds & H).
  apply in_seq in H as (ws & r3 & Hws & H).
  apply in_seq in H as (w & r4 & Hw & H).
  apply in_unit_pat in H as [-> ->].
  apply in_plus in Hds as (_ & Hds & Hne).
  apply in_plus in Hws as (_ & Hws & Hne').
  apply in_lit in Hw as [_ Hw]. apply same_fold_lower in Hw.
  exists ds, ws, w. repeat split; auto.
Qed.

(** Such a text loses nothing when its ends are stripped, and reads as that
    many days. *)
Lemma days_text (ds ws w : list ascii) :
  ds <> [] -> List.forallb is_digit ds = true ->
  ws <> [] -> List.forallb is_space ws = true ->
  List.map lower w = chars "days" ->
  strip (ds ++ ws ++ w) = ds ++ ws ++ w
  /\ reads (rmatch duration_pattern (ds ++ ws ++ w)) "day" (py_int ds).
Proof.
  intros Hne Hds Hne' Hws Hw.
  destruct w as [|a [|b [|c [|e [|? ?]]]]]; try discriminate Hw.
  injection Hw as Ha Hb Hc He.
  assert (is_space e = false) as Hse.
  { pose proof (ascii_forall
      (fun c => implb (Ascii.eqb (lower c) "s") (negb (is_space c)))
      ltac:(vm_compute; reflexivity) e) as Hf.
    cbv beta in Hf. rewrite He in Hf. now apply negb_true_iff in Hf. }
  split.
  - unfold strip. destruct ds as [|d ds']; [contradiction|].
    cbn [List.forallb] in Hds. apply andb_prop in Hds as [Hd _].
    cbn [app lstrip]. rewrite (digit_not_space d Hd).
    change (d :: ds' ++ ws ++ [a; b; c; e])
      with ((d :: ds') ++ ws ++ [a; b; c] ++ [e]).
    rewrite !List.app_assoc. now apply rstrip_last.
  - assert (is_unit [a; b; c]) as Hu by (left; cbn; congruence).
    assert (duration_at_start (ds ++ ws ++ [a; b; c; e])) as Hd.
    { exists ds, ws, [a; b; c], [e]. auto. }
    destruct (rmatch duration_pattern (ds ++ ws ++ [a; b; c; e]))
      as [[[v u] r]|] eqn:E;
      [|now apply rmatch_duration_none in E].
    exists v, u, r. split; [reflexivity|].
    apply rmatch_in in E.
    apply in_duration_pattern in E
      as (ws' & post & Hs & Hv & Hdv & Hws' & Hfold & _).
    apply unit_fold in Hfold.
    destruct (unit_head u Hfold) as (x & u' & -> & Hxd & Hxs).
    destruct ws as [|z ws0]; [contradiction|].
    pose proof Hws as Hz. cbn [List.forallb] in Hz. apply andb_prop in Hz as [Hz _].
    assert (is_digit z = false) as Hzd.
    { destruct (is_digit z) eqn:D; [|reflexivity].
      apply digit_not_space in D. congruence. }
    assert (ds = v /\ (z :: ws0) ++ [a; b; c; e] = ws' ++ (x :: u') ++ post)
      as [-> Hrest].
    { apply (run_unique is_digit); auto.
      destruct ws' as [|z' ws1]; cbn [app]; [exact Hxd|].
      cbn [List.forallb] in Hws'. apply andb_prop in Hws' as [Hz' _].
      destruct (is_digit z') eqn:D; [|reflexivity].
      apply digit_not_space in D. congruence. }
    split; [|reflexivity].
    assert (is_space a = false) as Hsa.
    { pose proof (ascii_forall
        (fun c => implb (Ascii.eqb (lower c) "d") (negb (is_space c)))
        ltac:(vm_compute; reflexivity) a) as Hf.
      cbv beta in Hf. rewrite Ha in Hf. now apply negb_true_iff in Hf. }
    assert (z :: ws0 = ws' /\ [a; b; c; e] = (x :: u') ++ post) as [_ Hu'].
    { apply (run_unique is_space); auto. }
    destruct Hfold as [Hf|Hf].
    + destruct u' as [|x1 [|x2 [|? ?]]]; try discriminate Hf.
      injection Hu' as -> -> -> _. cbn. now rewrite Ha, Hb, Hc.
    + destruct u' as [|x1 [|x2 [|x3 [|x4 [|? ?]]]]]; try discriminate Hf.
      discriminate Hu'.
Qed.

(** The text of a page that is not there is not asked for: the loop is over
    the pages of the document. *)
Lemma pages_loop_spec (pages : list ProcessContracts.page) (n k : nat)
    (texts0 : list string) :
  length texts0 = k -> (k + n <= length pages)%nat ->
  (forall i t, texts0 !! i = Some t ->
     exists page, pages !! i = Some page /\ page_text page = Ret t) ->
  exists texts,
    pages_loop pages (List.seq k n) (imap page_entry texts0)
    = imap page_entry texts
    /\ (length texts <= k + n)%nat
    /\ (forall i t, texts !! i = Some t ->
          exists page, pages !! i = Some page /\ page_text page = Ret t)
    /\ ((length texts < k + n)%nat ->
        exists page e,
          pages !! length texts = Some page /\ page_text page = Raise e).
Proof.
  revert k texts0. induction n as [|n IH]; intros k texts0 Hk Hle H0.
  - exists texts0. cbn [List.seq pages_loop]. repeat split; auto; lia.
  - cbn [List.seq pages_loop].
    destruct (lookup_lt_is_Some_2 pages k ltac:(lia)) as [page Hp].
    rewrite Hp. destruct (page_text page) as [t|e] eqn:Et.
    + destruct (IH (S k) (texts0 ++ [t])) as (texts & E & Hl & Ht & Hr).
      * rewrite length_app. cbn. lia.
      * lia.
      * intros i t' Hi. apply lookup_app_Some in Hi as [Hi|[Hge Hi]]; [eauto|].
        rewrite Hk in *. destruct (i - k)%nat eqn:D; [|discriminate Hi].
        cbn in Hi. injection Hi as <-. assert (i = k) as -> by lia. eauto.
      * exists texts. rewrite imap_app in E. cbn [imap] in E.
        rewrite Hk, Nat.add_0_r in E.
        split; [exact E|]. split; [lia|]. split; [exact Ht|].
        intros Hlt. apply Hr. lia.
    + exists texts0. split; [reflexivity|]. split; [lia|]. split; [exact H0|].
      intros _. rewrite Hk. eauto.
Qed.

(** The name of a text file is not the name of a document. *)
Lemma text_file_not_pdf (f pdf_file : string) :
  is_pdf pdf_file = true -> text_file_name f <> pdf_file.
Proof.
  intros Hp E. subst pdf_file. revert Hp.
  unfold is_pdf, text_file_name, endswith.
  rewrite ReducedMore.chars_str, RowFacts.chars_app, List.map_app, List.rev_app_distr.
  cbn. discriminate.
Qed.

(** Writing a text file leaves what is read from a document as it was. *)
Lemma extract_text_frame (fs : gmap string ProcessContracts.file)
    (f pdf_file : string) (x : ProcessContracts.file) (page_limit : nat) :
  is_pdf pdf_file = true ->
  extract_text_from_pdf (<[text_file_name f := x]> fs) pdf_file page_limit
  = extract_text_from_pdf fs pdf_file page_limit.
Proof.
  intros Hp. unfold extract_text_from_pdf, PdfReader.
  rewrite lookup_insert_ne by now apply text_file_not_pdf.
  reflexivity.
Qed.

Lemma extract_text_same (fs1 fs2 : gmap string ProcessContracts.file)
    (pdf_file : string) (page_limit : nat) :
  same_documents fs1 fs2 -> is_pdf pdf_file = true ->
  extract_text_from_pdf fs1 pdf_file page_limit
  = extract_text_from_pdf fs2 pdf_file page_limit.
Proof.
  intros H Hp. unfold extract_text_from_pdf, PdfReader. now rewrite (H _ Hp).
Qed.

Lemma process_files_spec (E : env) (cols : list string) (pdf_files : list string)
    (fs0 : gmap string ProcessContracts.file) (st : state) :
  Forall (fun f => is_pdf f = true) pdf_files ->
  same_documents (fs st) fs0 ->
  exists done rest,
    pdf_files = done ++ rest
    /\ Forall (fun f => writable E (text_file_name f) = true) done
    /\ out (snd (process_files E cols pdf_files st))
       = out st ++ outputs_of fs0 cols done
    /\ same_documents (fs (snd (process_files E cols pdf_files st))) fs0
    /\ match rest with
       | [] => fst (process_files E cols pdf_files st) = Ret tt
       | f :: _ =>
           writable E (text_file_name f) = false
           /\ fst (process_files E cols pdf_files st) = Raise OSError
       end.
Proof.
  intros Hpdf. revert st.
  induction Hpdf as [|f l Hf Hl IH]; intros st Hsame.
  - exists [], []. cbn. rewrite List.app_nil_r. repeat split; auto.
  - cbn [process_files]. unfold process_file.
    destruct (writable E (text_file_name f)) eqn:W.
    + match goal with
      | |- context [process_files E cols l ?s] => set (st1 := s)
      end.
      assert (same_documents (fs st1) fs0) as Hsame1.
      { intros p Hp. cbn [st1 fs]. rewrite lookup_insert_ne
          by now apply text_file_not_pdf. now apply Hsame. }
      destruct (IH st1 Hsame1) as (done & rest & -> & Hd & Ho & Hs & Hr).
      exists (f :: done), rest. split; [reflexivity|].
      split; [now constructor|]. split; [|split; [exact Hs|exact Hr]].
      rewrite Ho. cbn [st1 out outputs_of List.flat_map].
      rewrite (extract_text_same (fs st) fs0 f 100 Hsame Hf).
      rewrite <- !List.app_assoc. reflexivity.
    + exists [], (f :: l). cbn. rewrite List.app_nil_r. repeat split; auto.
Qed.

Lemma row_data_lookup (data : dict) (cols : list string) (col : string) :
  In col cols ->
  dict_lookup (row_data data cols) col = Some (dict_get data col (JStr "")).
Proof.
  unfold row_data. intros Hin. rewrite <- List.fold_left_rev_right.
  apply List.in_rev in Hin. induction (rev cols) as [|c l IH]; [destruct Hin|].
  cbn [List.fold_right]. rewrite RowFacts.dict_lookup_set.
  destruct (String.eqb c col) eqn:E; [apply String.eqb_eq in E; now subst|].
  destruct Hin as [->|Hin]; [now rewrite String.eqb_refl in E|auto].
Qed.

End RegexFacts.

(** X22.  The one-line form the found texts are put in, the words of the text
    joined by single spaces: the words are the runs of characters that are no
    blanks, so that nothing but blanks is lost and no blank stands at an end
    or next to another; putting a text in this form twice changes nothing
    more. *)
Theorem squeezed_normal (s : list ascii) :
  let words := ProcessContractsRegex.split s in
  ProcessContractsRegex.squeezed s
  = PyStr.str (ProcessContractsRegex.join [" "%char] words)
  /\ Forall RegexNotions.word words
  /\ List.concat words = List.filter (fun c => negb (PyStr.is_space c)) s
  /\ ProcessContractsRegex.squeezed (PyStr.chars (ProcessContractsRegex.squeezed s))
     = ProcessContractsRegex.squeezed s.
Proof.
  cbv zeta. split; [apply SqueezeFacts.squeezed_words|].
  split; [apply SqueezeFacts.split_words|]. split.
  - apply SqueezeFacts.split_concat.
  - rewrite !SqueezeFacts.squeezed_words, ReducedMore.chars_str.
    rewrite SqueezeFacts.split_join by apply SqueezeFacts.split_words.
    reflexivity.
Qed.

(** X23.  [find_agreement_details] never gives a project name: its fourth
    result is the empty text when both expressions match and [Not Found]
    otherwise, whatever the text says after [for the work of]. *)
Theorem project_name_not_read (text : string) :
  snd (ProcessContractsRegex.find_agreement_details text) = ""
  \/ snd (ProcessContractsRegex.find_agreement_details text) = "Not Found".
Proof.
  apply RegexFacts.project_name_values.
Qed.

(** X24.  The contract price is [Not Found] or [Rs. ] and an amount: digits
    and commas, at least one, then a dot if any, then digits if any. *)
Theorem contract_price_shape (text : string) :
  ProcessContractsRegex.find_contract_price text = "Not Found"
  \/ exists a dot b,
       ProcessContractsRegex.find_contract_price text
       = ("Rs. " ++ PyStr.str (a ++ dot ++ b))%string
       /\ a <> [] /\ List.forallb ProcessContractsRegex.digit_or_comma a = true
       /\ (dot = [] \/ dot = ["."%char])
       /\ List.forallb PyStr.is_digit b = true.
Proof.
  unfold ProcessContractsRegex.find_contract_price.
  destruct (Re.search ProcessContractsRegex.article_19_pattern (PyStr.chars text))
    as [[article_19_text r]|]; [|now left].
  destruct (Re.search ProcessContractsRegex.price_pattern article_19_text)
    as [[g r1]|] eqn:E; [|now left].
  right. apply ReFacts.search_in in E as (pre & suf & _ & Hin).
  apply RegexFacts.price_group in Hin as (a & dot & b & -> & Hne & Ha & Hdot & Hb).
  exists a, dot, b. rewrite (RegexFacts.price_group_strip a dot b Ha Hdot Hb).
  auto.
Qed.

(** X25.  The completion date of Schedule J, written in the column
    [End Date], is no date: it is [Not Found] or a number, blanks and the word
    [days] in any case, a duration that [calculate_end_date] of both other
    files reads as that number of days. *)
Theorem completion_date_days (text : string) :
  let completion := fst (ProcessContractsRegex.find_schedule_j_details text) in
  completion = "Not Found"
  \/ exists ds ws w,
       completion = PyStr.str (ds ++ ws ++ w)
       /\ ds <> [] /\ List.forallb PyStr.is_digit ds = true
       /\ ws <> [] /\ List.forallb PyStr.is_space ws = true
       /\ List.map PyStr.lower w = PyStr.chars "days"
       /\ Spec.reads (Re.rmatch Duration.duration_pattern (PyStr.chars completion))
            "day" (PyStr.py_int ds)
       /\ Spec.reads (Re.search Duration.duration_pattern (PyStr.chars completion))
            "day" (PyStr.py_int ds).
Proof.
  cbv zeta. unfold ProcessContractsRegex.find_schedule_j_details.
  destruct (Re.search ProcessContractsRegex.schedule_j_pattern (PyStr.chars text))
    as [[schedule_j_text r]|]; [|now left]. cbn [fst].
  destruct (Re.search ProcessContractsRegex.completion_date_pattern schedule_j_text)
    as [[g r1]|] eqn:E; [|now left].
  right. apply ReFacts.search_in in E as (pre & suf & _ & Hin).
  apply RegexFacts.completion_group in Hin
    as (ds & ws & w & -> & Hne & Hds & Hne' & Hws & Hw).
  destruct (RegexFacts.days_text ds ws w Hne Hds Hne' Hws Hw) as [Hs Hr].
  exists ds, ws, w. rewrite Hs, ReducedMore.chars_str.
  repeat split; auto.
  destruct Hr as (v & u & r2 & Hm & Hu & Hn). exists v, u, r2.
  split; [now apply ReFacts.search_of_rmatch|auto].
Qed.

(** X26.  [extract_text_from_pdf] never raises.  A document that cannot be
    opened gives the empty text; otherwise the text is made of the entries of
    the first pages, each under its number from 1 on, up to the page limit or
    up to the first page whose text cannot be taken, whose entry and the later
    ones are left out while the earlier ones are kept. *)
Theorem extracted_text_pages (fs : gmap string ProcessContracts.file)
    (pdf_path : string) (page_limit : nat) :
  match ProcessContractsRegex.PdfReader fs pdf_path with
  | Raise _ => ProcessContractsRegex.extract_text_from_pdf fs pdf_path page_limit = ""
  | Ret pages =>
      exists texts,
        ProcessContractsRegex.extract_text_from_pdf fs pdf_path page_limit
        = PyStr.str
            (ProcessContractsRegex.join
               [ProcessContractsRegex.newline; ProcessContractsRegex.newline]
               (List.map PyStr.chars (imap ProcessContractsRegex.page_entry texts)))
        /\ (length texts <= Nat.min (length pages) page_limit)%nat
        /\ (forall i t, texts !! i = Some t ->
              exists page,
                pages !! i = Some page
                /\ ProcessContractsRegex.page_text page = Ret t)
        /\ ((length texts < Nat.min (length pages) page_limit)%nat ->
            exists page e,
              pages !! length texts = Some page
              /\ ProcessContractsRegex.page_text page = Raise e)
  end.
Proof.
  unfold ProcessContractsRegex.extract_text_from_pdf.
  destruct (ProcessContractsRegex.PdfReader fs pdf_path) as [pages|e];
    [|reflexivity].
  destruct (RegexFacts.pages_loop_spec pages
              (Nat.min (length pages) page_limit) 0 [])
    as (texts & E & Hl & Ht & Hr); [reflexivity|lia|discriminate|].
  exists texts. cbn [imap] in E. cbv zeta. rewrite E. auto.
Qed.

(** X27.  [main] of the extraction by regular expressions writes the header,
    then for each listed name ending in [.pdf] in any case, in the order of
    the listing, the text file and the row of the document; the text of a
    document is the one read before the run, the text files written on the
    way changing nothing of it.  A text file that cannot be written ends the
    run with [OSError] after the rows of the documents before it.  The reduced
    copies written by [process_contracts.py] are among the documents. *)
Theorem regex_main_rows (E : ProcessContractsRegex.env)
    (st : ProcessContractsRegex.state) :
  let output_columns :=
    match ProcessContractsRegex.template E with
    | Some field_names => field_names
    | None => ["File Name"; "Project Name"; "Contract Value"]
    end in
  let pdf_files :=
    List.filter ProcessContractsRegex.is_pdf (ProcessContractsRegex.listdir E) in
  (exists done rest,
     pdf_files = done ++ rest
     /\ Forall (fun f => ProcessContractsRegex.writable E
                           (ProcessContractsRegex.text_file_name f) = true) done
     /\ ProcessContractsRegex.out (snd (ProcessContractsRegex.main E st))
        = ProcessContractsRegex.out st
          ++ ProcessContractsRegex.HeaderWritten output_columns
             :: RegexNotions.outputs_of (ProcessContractsRegex.fs st)
                  output_columns done
     /\ match rest with
        | [] => fst (ProcessContractsRegex.main E st) = Ret tt
        | f :: _ =>
            ProcessContractsRegex.writable E
              (ProcessContractsRegex.text_file_name f) = false
            /\ fst (ProcessContractsRegex.main E st) = Raise OSError
        end)
  /\ (forall pdf_path,
        ProcessContractsRegex.is_pdf (ProcessContracts.short_filename pdf_path)
        = true).
Proof.
  cbv zeta. split.
  - unfold ProcessContractsRegex.main.
    set (cols := match ProcessContractsRegex.template E with
                 | Some field_names => field_names
                 | None => ["File Name"; "Project Name"; "Contract Value"]
                 end).
    set (st0 := {| ProcessContractsRegex.fs := ProcessContractsRegex.fs st;
                   ProcessContractsRegex.out :=
                     ProcessContractsRegex.out st
                     ++ [ProcessContractsRegex.HeaderWritten cols] |}).
    destruct (RegexFacts.process_files_spec E cols
                (List.filter ProcessContractsRegex.is_pdf
                   (ProcessContractsRegex.listdir E))
                (ProcessContractsRegex.fs st) st0)
      as (done & rest & Hd & Hw & Ho & _ & Hr).
    + apply List.Forall_forall. intros f Hf.
      now apply List.filter_In in Hf as [_ Hf].
    + intros f _. reflexivity.
    + exists done, rest. split; [exact Hd|]. split; [exact Hw|].
      split; [|exact Hr]. rewrite Ho. cbn [st0 ProcessContractsRegex.out].
      now rewrite <- List.app_assoc.
  - intros pdf_path.
    unfold ProcessContractsRegex.is_pdf, ProcessContracts.short_filename,
      PyStr.endswith.
    rewrite !ReducedMore.chars_str, RowFacts.chars_app, List.map_app,
      List.rev_app_distr.
    reflexivity.
Qed.

(** X28.  A row holds, under each column, the value found under exactly that
    name, and the empty text under any other column.  With the columns used
    when the template is missing, a row is the file name, a project name that
    is empty or [Not Found], and an empty contract value, the price found
    being kept under another name. *)
Theorem fallback_row (pdf_file full_text : string) :
  (forall output_columns col,
     In col output_columns ->
     Json.dict_lookup
       (ProcessContractsRegex.row_data
          (ProcessContractsRegex.data_of pdf_file full_text) output_columns) col
     = Some (Json.dict_get (ProcessContractsRegex.data_of pdf_file full_text) col
               (Json.JStr "")))
  /\ exists project_name,
       ProcessContractsRegex.row_data
         (ProcessContractsRegex.data_of pdf_file full_text)
         ["File Name"; "Project Name"; "Contract Value"]
       = [ ("File Name", Json.JStr pdf_file);
           ("Project Name", Json.JStr project_name);
           ("Contract Value", Json.JStr "") ]
       /\ (project_name = "" \/ project_name = "Not Found").
Proof.
  split; [intros cols col; apply RegexFacts.row_data_lookup|].
  exists (snd (ProcessContractsRegex.find_agreement_details full_text)).
  split; [|apply RegexFacts.project_name_values].
  unfold ProcessContractsRegex.data_of.
  generalize (ProcessContractsRegex.find_agreement_details full_text).
  generalize (ProcessContractsRegex.find_schedule_j_details full_text).
  generalize (ProcessContractsRegex.find_contract_price full_text).
  generalize (ProcessContractsRegex.find_payment_schedule full_text).
  intros payment price schedule_j details. reflexivity.
Qed.
